(** * Disaster-response training game: phase driver, scoring and badges

    A shallow embedding of the session logic of the three disaster
    modules (earthquake, landslide, flood), of the parent controller
    [DisasterSimGame] and of [BadgeSystem], followed by the properties
    of the specification that were checked against it.

    Conventions of the embedding.
    - A JavaScript number that only ever holds an integer (score, accuracy,
      counters) is a [Z] or a [nat]; clock readings, water levels and
      positions are rationals [Q], and [Math.floor] is [Qfloor]. Where the
      result of an operation on doubles is not exact and a result of the
      session depends on it (the time bonus, the abscissa of the debris of
      the escape game) the operation is rounded with [JS.double]. The water
      level of the flood is kept as the exact sum of its steps.
    - [performance.now()] is an input: every entry point takes the reading
      [now] (milliseconds) of the moment it runs at.
    - [setTimeout(f, d)] appends the closure [f], as a constructor of the
      module's [Callback] type, to the session's list of pending timers with
      its due time [now + d]; firing a timer is an event of its own.
    - Objects shared between the session's arrays and its closures (students,
      residents, supplies, warning signs) live in a store that only grows;
      the arrays hold references into it.
    - Calls into the host ([game.showInstructions], [game.completeSimulation],
      ...) and the session's own on-screen messages are appended to the
      session's [log]; the rendering engine (meshes, colours, animation of
      positions, sound) is opaque and left out.
    - What the engine returns matters where the session reads a property
      the returned object does not have: [createPerson] returns a
      [THREE.Group], which has no [material], and a read through
      [resident.material] raises a [TypeError] that nothing catches. A method
      that can raise returns an [Outcome], the session as the call left it
      together with how the call ended, and its callers stop at a raise. *)

From Stdlib Require Import ZArith QArith Qround Qpower Ascii String DecimalString DecimalNat Lia Lqa.
From stdpp Require Import base option list strings gmap.

Local Open Scope Z_scope.

(** ** The fragment of JavaScript the sources rely on *)
Module JS.

Definition isWhiteSpace (c : ascii) : bool :=
  let n := N_of_ascii c in
  (N.eqb n 32 || (N.leb 9 n && N.leb n 13))%bool.

Fixpoint trimStart (s : string) : string :=
  match s with
  | String c r => if isWhiteSpace c then trimStart r else s
  | EmptyString => s
  end.

(** Value of a character as a digit (radix up to 36). *)
Definition digitValue (c : ascii) : option Z :=
  let n := Z.of_N (N_of_ascii c) in
  if (48 <=? n) && (n <=? 57) then Some (n - 48)
  else if (97 <=? n) && (n <=? 122) then Some (n - 87)
  else if (65 <=? n) && (n <=? 90) then Some (n - 55)
  else None.

Fixpoint digits (radix : Z) (s : string) (acc : option Z) : option Z :=
  match s with
  | EmptyString => acc
  | String c r =>
      match digitValue c with
      | Some d =>
          if d <? radix then digits radix r (Some (radix * default 0 acc + d))
          else acc
      | None => acc
      end
  end.

(** [parseInt(x)]: [None] stands for [NaN]; the argument [None] is
    [undefined], whose string form has no leading digit. The result is the
    integer the digits denote. The code gets that integer when it is at
    most [2^53], which covers the array indices the ids of the panels are
    made from; beyond, the code gets the double nearest to it. *)
Definition parseInt (x : option string) : option Z :=
  match x with
  | None => None
  | Some s =>
      let s := trimStart s in
      let '(sign, s) :=
        match s with
        | String "-" r => (-1, r)
        | String "+" r => (1, r)
        | _ => (1, s)
        end in
      let '(radix, s) :=
        match s with
        | String "0" (String "x" r) => (16, r)
        | String "0" (String "X" r) => (16, r)
        | _ => (10, s)
        end in
      Z.mul sign <$> digits radix s None
  end.

(** [s.split(sep)] for a one-character separator. *)
Fixpoint split (sep : ascii) (s : string) : list string :=
  match s with
  | EmptyString => [EmptyString]
  | String c r =>
      if Ascii.eqb c sep then EmptyString :: split sep r
      else match split sep r with
           | h :: t => String c h :: t
           | [] => [String c EmptyString]
           end
  end.

(** [arr[v]] for a number [v]: [undefined] when [v] is [NaN], negative or
    past the end. *)
Definition index {A} (arr : list A) (v : option Z) : option A :=
  match v with
  | Some z => if z <? 0 then None else arr !! Z.to_nat z
  | None => None
  end.

(** Template-literal rendering of a non-negative integer. *)
Definition decimal (n : nat) : string := NilZero.string_of_uint (Nat.to_uint n).

(** [arr.includes(x)] on strings. *)
Definition includes (arr : list string) (x : string) : bool :=
  existsb (String.eqb x) arr.

(** The property names every object literal inherits from
    [Object.prototype]: [obj[key]] is defined for them whatever the own
    keys of [obj]. *)
Definition objectPrototypeKeys : list string :=
  [ "constructor"; "__defineGetter__"; "__defineSetter__"; "hasOwnProperty";
    "__lookupGetter__"; "__lookupSetter__"; "isPrototypeOf"; "propertyIsEnumerable";
    "toString"; "valueOf"; "__proto__"; "toLocaleString" ].

Definition inheritedKey (key : string) : bool := includes objectPrototypeKeys key.

(** [Math.floor] and [Math.max] on the embedding's numbers. *)
Definition floor (q : Q) : Z := Qfloor q.
Definition max (a b : Z) : Z := Z.max a b.

(** Comparisons of exact rationals. *)
Definition ge (a b : Q) : bool := Qle_bool b a.
Definition lt (a b : Q) : bool := negb (Qle_bool b a).
Definition gt (a b : Q) : bool := lt b a.

(** The exponent [e] of a positive rational: [2^e <= q < 2^(e+1)]. *)
Definition floorLog2 (q : Q) : Z :=
  let c := Z.log2 (Qnum q) - Z.log2 (Zpos (Qden q)) in
  if Qle_bool (2 ^ c) q then c else c - 1.

(** The nearest integer, the even one of two that are as near. *)
Definition roundHalfEven (q : Q) : Z :=
  let f := Qfloor q in
  match (q - inject_Z f ?= 1 # 2)%Q with
  | Lt => f
  | Gt => f + 1
  | Eq => if Z.even f then f else f + 1
  end.

Definition roundPositive (q : Q) : Q :=
  let e := Z.max (floorLog2 q) (-1022) in
  let ulp := (2 ^ (e - 52))%Q in
  (inject_Z (roundHalfEven (q / ulp)) * ulp)%Q.

(** The double an arithmetic operation returns for the exact result [q]:
    the nearest number with 53 significant bits (or a multiple of
    [2^-1074] below [2^-1022]), ties to even. Overflow to [Infinity] is not
    modelled: the values it is applied to stay far below [2^1024]. *)
Definition double (q : Q) : Q :=
  match Qnum q with
  | 0 => 0%Q
  | Zpos _ => roundPositive q
  | Zneg _ => (- roundPositive (- q))%Q
  end.

End JS.

(** ** What a session asks of its host and of the screen *)
Module Host.

(** Draggable item and drop zone of the matching panel. *)
Record Item := { item_id : string; item_text : string; item_type : string }.
Record Zone := { zone_id : string; zone_text : string; accepts : list string }.

(** The record handed to [game.completeSimulation]. *)
Record Result := { disaster : string; score : Z; timeBonus : Z; accuracy : Z }.

Inductive MessageKind := Hint | Achievement | Error.

(** One call out of a session; [A] is the module's type of button closures. *)
Inductive Effect (A : Type) :=
| updateProgress (percentage : Q)
| showInstructions (title : string) (actions : list A)
| hideInstructions
| showDragDropPanel (items : list Item) (zones : list Zone)
| hideDragDropPanel
| completeSimulation (results : Result)
| showFeedback (title : string)
| returnToMenu
| showMessage (kind : MessageKind).

Arguments updateProgress {A}.
Arguments showInstructions {A}.
Arguments hideInstructions {A}.
Arguments showDragDropPanel {A}.
Arguments hideDragDropPanel {A}.
Arguments completeSimulation {A}.
Arguments showFeedback {A}.
Arguments returnToMenu {A}.
Arguments showMessage {A}.

End Host.

(** A pending [setTimeout]: the closure and the time it is due at. *)
Record Timer (C : Type) := { due : Q; callback : C }.
Arguments due {C}.
Arguments callback {C}.

(** A position of the scene. *)
Module Vec3.
Record t := { x : Q; y : Q; z : Q }.

(** Square of [a.distanceTo(b)]; distances are only ever compared. *)
Definition distanceToSquared (a b : t) : Q :=
  ((x a - x b) * (x a - x b) + (y a - y b) * (y a - y b) + (z a - z b) * (z a - z b))%Q.
End Vec3.

(** A phase of a session: name and duration in milliseconds. *)
Record Phase := { name : string; duration : Z }.

(** Number of references of an array whose object satisfies [p]. *)
Definition countRefs {A} (store : list A) (p : A -> bool) (arr : list nat) : nat :=
  length (List.filter (fun r => match store !! r with Some o => p o | None => false end) arr).

(** ** Earthquake module ([EarthquakeSimulation]) *)
Module Earthquake.

(** [userData] flags of a student and of a desk. *)
Record Student := { safe : bool; evacuated : bool }.
Record Desk := { desk_safe : bool }.

Record Objectives := {
  dropCoverHold : bool;
  stayCalm : bool;
  checkInjuries : bool;
  evacuateSafely : bool;
  assembleAtSafePoint : bool }.

(** [Object.values(this.objectives)], in insertion order. *)
Definition values (o : Objectives) : list bool :=
  [dropCoverHold o; stayCalm o; checkInjuries o; evacuateSafely o; assembleAtSafePoint o].

(** The record built by [calculateFinalScore]. *)
Record FinalScore := {
  baseScore : Z;
  timeBonus : Z;
  accuracyBonus : Z;
  objectiveBonus : Z;
  total : Z;
  timeElapsed : Z;
  resultAccuracy : Z;
  resultObjectives : Objectives }.

(** Closures handed to [setTimeout]. *)
Inductive Callback :=
| autoAdvance (phaseIndex : nat)
| staggeredEvacuation (student : nat)
| studentExited (student : nat)
| completeEarly.

(** Closures attached to the buttons of the instruction panel. *)
Inductive Action :=
| dismiss
| takeAction
| beginEvacuation
| viewResults (results : FinalScore).

Record Session := {
  currentPhase : nat;
  score : Z;
  startTime : Q;
  accuracy : Z;
  mistakes : nat;
  studentStore : list Student;
  students : list nat;
  desks : list Desk;
  phaseStartTime : Q;
  isEarthquakeActive : bool;
  evacuatedStudents : nat;
  objectives : Objectives;
  timers : list (Timer Callback);
  log : list (Host.Effect Action) }.

Definition maxMistakes : nat := 3.
Definition totalStudents : nat := 8.

Definition phases : list Phase :=
  [ {| name := "preparation"; duration := 30000 |};
    {| name := "earthquake"; duration := 45000 |};
    {| name := "aftermath"; duration := 60000 |};
    {| name := "evacuation"; duration := 90000 |} ].

(** The session as the constructor leaves it. *)
Definition new : Session :=
  {| currentPhase := 0; score := 0; startTime := 0; accuracy := 100; mistakes := 0;
     studentStore := []; students := []; desks := [];
     phaseStartTime := 0; isEarthquakeActive := false; evacuatedStudents := 0;
     objectives := {| dropCoverHold := false; stayCalm := false; checkInjuries := false;
                      evacuateSafely := false; assembleAtSafePoint := false |};
     timers := []; log := [] |}.

(** Field assignments. *)
Definition set_currentPhase (v : nat) (s : Session) : Session :=
  Build_Session v (score s) (startTime s) (accuracy s) (mistakes s) (studentStore s)
    (students s) (desks s) (phaseStartTime s) (isEarthquakeActive s)
    (evacuatedStudents s) (objectives s) (timers s) (log s).
Definition set_score (v : Z) (s : Session) : Session :=
  Build_Session (currentPhase s) v (startTime s) (accuracy s) (mistakes s) (studentStore s)
    (students s) (desks s) (phaseStartTime s) (isEarthquakeActive s)
    (evacuatedStudents s) (objectives s) (timers s) (log s).
Definition set_startTime (v : Q) (s : Session) : Session :=
  Build_Session (currentPhase s) (score s) v (accuracy s) (mistakes s) (studentStore s)
    (students s) (desks s) (phaseStartTime s) (isEarthquakeActive s)
    (evacuatedStudents s) (objectives s) (timers s) (log s).
Definition set_accuracy (v : Z) (s : Session) : Session :=
  Build_Session (currentPhase s) (score s) (startTime s) v (mistakes s) (studentStore s)
    (students s) (desks s) (phaseStartTime s) (isEarthquakeActive s)
    (evacuatedStudents s) (objectives s) (timers s) (log s).
Definition set_mistakes (v : nat) (s : Session) : Session :=
  Build_Session (currentPhase s) (score s) (startTime s) (accuracy s) v (studentStore s)
    (students s) (desks s) (phaseStartTime s) (isEarthquakeActive s)
    (evacuatedStudents s) (objectives s) (timers s) (log s).
Definition set_studentStore (v : list Student) (s : Session) : Session :=
  Build_Session (currentPhase s) (score s) (startTime s) (accuracy s) (mistakes s) v
    (students s) (desks s) (phaseStartTime s) (isEarthquakeActive s)
    (evacuatedStudents s) (objectives s) (timers s) (log s).
Definition set_students (v : list nat) (s : Session) : Session :=
  Build_Session (currentPhase s) (score s) (startTime s) (accuracy s) (mistakes s)
    (studentStore s) v (desks s) (phaseStartTime s) (isEarthquakeActive s)
    (evacuatedStudents s) (objectives s) (timers s) (log s).
Definition set_desks (v : list Desk) (s : Session) : Session :=
  Build_Session (currentPhase s) (score s) (startTime s) (accuracy s) (mistakes s)
    (studentStore s) (students s) v (phaseStartTime s) (isEarthquakeActive s)
    (evacuatedStudents s) (objectives s) (timers s) (log s).
Definition set_phaseStartTime (v : Q) (s : Session) : Session :=
  Build_Session (currentPhase s) (score s) (startTime s) (accuracy s) (mistakes s)
    (studentStore s) (students s) (desks s) v (isEarthquakeActive s)
    (evacuatedStudents s) (objectives s) (timers s) (log s).
Definition set_isEarthquakeActive (v : bool) (s : Session) : Session :=
  Build_Session (currentPhase s) (score s) (startTime s) (accuracy s) (mistakes s)
    (studentStore s) (students s) (desks s) (phaseStartTime s) v
    (evacuatedStudents s) (objectives s) (timers s) (log s).
Definition set_evacuatedStudents (v : nat) (s : Session) : Session :=
  Build_Session (currentPhase s) (score s) (startTime s) (accuracy s) (mistakes s)
    (studentStore s) (students s) (desks s) (phaseStartTime s) (isEarthquakeActive s)
    v (objectives s) (timers s) (log s).
Definition set_objectives (v : Objectives) (s : Session) : Session :=
  Build_Session (currentPhase s) (score s) (startTime s) (accuracy s) (mistakes s)
    (studentStore s) (students s) (desks s) (phaseStartTime s) (isEarthquakeActive s)
    (evacuatedStudents s) v (timers s) (log s).
Definition set_timers (v : list (Timer Callback)) (s : Session) : Session :=
  Build_Session (currentPhase s) (score s) (startTime s) (accuracy s) (mistakes s)
    (studentStore s) (students s) (desks s) (phaseStartTime s) (isEarthquakeActive s)
    (evacuatedStudents s) (objectives s) v (log s).
Definition set_log (v : list (Host.Effect Action)) (s : Session) : Session :=
  Build_Session (currentPhase s) (score s) (startTime s) (accuracy s) (mistakes s)
    (studentStore s) (students s) (desks s) (phaseStartTime s) (isEarthquakeActive s)
    (evacuatedStudents s) (objectives s) (timers s) v.

Definition set_dropCoverHold (v : bool) (o : Objectives) : Objectives :=
  Build_Objectives v (stayCalm o) (checkInjuries o) (evacuateSafely o) (assembleAtSafePoint o).
Definition set_checkInjuries (v : bool) (o : Objectives) : Objectives :=
  Build_Objectives (dropCoverHold o) (stayCalm o) v (evacuateSafely o) (assembleAtSafePoint o).
Definition set_evacuateSafely (v : bool) (o : Objectives) : Objectives :=
  Build_Objectives (dropCoverHold o) (stayCalm o) (checkInjuries o) v (assembleAtSafePoint o).
Definition set_assembleAtSafePoint (v : bool) (o : Objectives) : Objectives :=
  Build_Objectives (dropCoverHold o) (stayCalm o) (checkInjuries o) (evacuateSafely o) v.

Definition set_safe (v : bool) (st : Student) : Student := Build_Student v (evacuated st).
Definition set_evacuated (v : bool) (st : Student) : Student := Build_Student (safe st) v.

(** A call into the host or a message on screen. *)
Definition emit (e : Host.Effect Action) (s : Session) : Session :=
  set_log (log s ++ [e]) s.

Definition setTimeout (now : Q) (cb : Callback) (delay : Z) (s : Session) : Session :=
  set_timers (timers s ++ [{| due := (now + inject_Z delay)%Q; callback := cb |}]) s.

(** [showEducationalInfo]: a panel with one dismissing button. *)
Definition showEducationalInfo (title : string) (s : Session) : Session :=
  emit (Host.showInstructions title [dismiss]) s.

(** [createDesks]: four rows of two desks. *)
Definition createDesks (s : Session) : Session :=
  set_desks (desks s ++ replicate 8 {| desk_safe := true |}) s.

(** [createStudents]: one new student object per index below
    [totalStudents], pushed on the array. *)
Definition createStudents (s : Session) : Session :=
  let base := length (studentStore s) in
  let s := set_studentStore
             (studentStore s ++ replicate totalStudents {| safe := false; evacuated := false |}) s in
  set_students (students s ++ seq base totalStudents) s.

Definition createClassroomScene (s : Session) : Session :=
  createStudents (createDesks s).

Definition showWelcomeInstructions (s : Session) : Session :=
  emit (Host.showInstructions "Welcome to Earthquake Response Training" [dismiss]) s.

(** [calculateFinalScore], at the clock reading [now]; each operation on
    the clock readings is rounded as the doubles of the code are. *)
Definition calculateFinalScore (now : Q) (s : Session) : FinalScore :=
  let timeElapsed := JS.double (JS.double (now - startTime s) / 1000) in
  let baseScore := score s in
  let maxTime := 300%Q in
  let timeBonus :=
    JS.max 0 (JS.floor (JS.double (JS.double (JS.double (maxTime - timeElapsed) / maxTime)
                                   * 200))) in
  let accuracyBonus := JS.floor (inject_Z (accuracy s) * 2)%Q in
  let objectiveCount := Z.of_nat (length (List.filter (fun b : bool => b) (values (objectives s)))) in
  let objectiveBonus := objectiveCount * 100 in
  {| baseScore := baseScore;
     timeBonus := timeBonus;
     accuracyBonus := accuracyBonus;
     objectiveBonus := objectiveBonus;
     total := baseScore + timeBonus + accuracyBonus + objectiveBonus;
     timeElapsed := JS.floor timeElapsed;
     resultAccuracy := accuracy s;
     resultObjectives := objectives s |}.

Definition completeSimulation (now : Q) (s : Session) : Session :=
  let results := calculateFinalScore now s in
  let s := emit (Host.updateProgress 100) s in
  emit (Host.showInstructions "Earthquake Simulation Complete!" [viewResults results]) s.

Definition startPreparationPhase (s : Session) : Session :=
  emit (Host.showInstructions "Phase 1: Preparation" [dismiss]) s.

Definition showEarthquakeInstructions (s : Session) : Session :=
  emit (Host.showInstructions "EARTHQUAKE HAPPENING NOW!" [takeAction]) s.

Definition startAftermathPhase (s : Session) : Session :=
  let s := set_isEarthquakeActive false s in
  let s := emit Host.hideDragDropPanel s in
  emit (Host.showInstructions "Phase 3: Immediate Aftermath" [dismiss]) s.

Definition showEvacuationInstructions (s : Session) : Session :=
  emit (Host.showInstructions "Phase 4: Safe Evacuation" [beginEvacuation]) s.

Definition startPhase (now : Q) (phaseIndex : nat) (s : Session) : Session :=
  if (length phases <=? phaseIndex)%nat then completeSimulation now s else
  match phases !! phaseIndex with
  | None => s
  | Some phase =>
      let s := set_currentPhase phaseIndex s in
      let s := set_phaseStartTime now s in
      let s := emit (Host.updateProgress
                       (inject_Z (Z.of_nat phaseIndex) / inject_Z (Z.of_nat (length phases)) * 100)%Q) s in
      let s :=
        if String.eqb (name phase) "preparation" then startPreparationPhase s
        else if String.eqb (name phase) "earthquake" then showEarthquakeInstructions s
        else if String.eqb (name phase) "aftermath" then startAftermathPhase s
        else if String.eqb (name phase) "evacuation" then showEvacuationInstructions s
        else s in
      setTimeout now (autoAdvance phaseIndex) (duration phase) s
  end.

Definition start (now : Q) (s : Session) : Session :=
  let s := set_startTime now s in
  let s := createClassroomScene s in
  let s := startPhase now 0 s in
  showWelcomeInstructions s.

Definition showDropCoverHoldInterface (s : Session) : Session :=
  let items := imap (fun index _ =>
                 {| Host.item_id := "student_" +:+ JS.decimal index;
                    Host.item_text := "Student " +:+ JS.decimal (index + 1);
                    Host.item_type := "person" |}) (students s) in
  let safeSpots := imap (fun index _ =>
                 {| Host.zone_id := "desk_" +:+ JS.decimal index;
                    Host.zone_text := "Under Desk " +:+ JS.decimal (index + 1);
                    Host.accepts := ["person"] |}) (desks s) in
  emit (Host.showDragDropPanel items safeSpots) s.

Definition startEarthquakePhase (s : Session) : Session :=
  let s := emit Host.hideInstructions s in
  let s := set_isEarthquakeActive true s in
  showDropCoverHoldInterface s.

Definition showAchievementMessage (s : Session) : Session :=
  emit (Host.showMessage Host.Achievement) s.

Definition onCorrectDrop (studentId deskId : string) (s : Session) : Session :=
  let studentIndex := JS.parseInt (JS.split "_" studentId !! 1%nat) in
  let deskIndex := JS.parseInt (JS.split "_" deskId !! 1%nat) in
  match JS.index (students s) studentIndex, JS.index (desks s) deskIndex with
  | Some student, Some desk =>
      let s := set_studentStore (alter (set_safe true) student (studentStore s)) s in
      let s := set_score (score s + 100) s in
      if JS.ge (inject_Z (Z.of_nat (countRefs (studentStore s) safe (students s))))
               (inject_Z (Z.of_nat totalStudents) * (3 # 4))
      then showAchievementMessage (set_objectives (set_dropCoverHold true (objectives s)) s)
      else s
  | _, _ => s
  end.

Definition onIncorrectDrop (studentId deskId : string) (s : Session) : Session :=
  let s := set_mistakes (mistakes s + 1) s in
  let s := set_accuracy (JS.max 0 (accuracy s - 10)) s in
  if (maxMistakes <=? mistakes s)%nat
  then emit (Host.showMessage Host.Error) s
  else s.

Definition initiateEvacuation (now : Q) (s : Session) : Session :=
  foldl (fun acc '(index, student) =>
           setTimeout now (staggeredEvacuation student) (Z.of_nat index * 2000) acc)
        s (imap (fun index student => (index, student)) (students s)).

Definition startEvacuationPhase (now : Q) (s : Session) : Session :=
  let s := emit Host.hideInstructions s in
  initiateEvacuation now s.

Definition evacuateStudent (now : Q) (student : nat) (s : Session) : Session :=
  setTimeout now (studentExited student) 3000 s.

Definition flag (p : Student -> bool) (student : nat) (s : Session) : bool :=
  match studentStore s !! student with Some o => p o | None => false end.

(** The body of each closure handed to [setTimeout]. *)
Definition runCallback (now : Q) (cb : Callback) (s : Session) : Session :=
  match cb with
  | autoAdvance phaseIndex =>
      if (currentPhase s =? phaseIndex)%nat then startPhase now (phaseIndex + 1) s else s
  | staggeredEvacuation student =>
      if negb (flag evacuated student s) then evacuateStudent now student s else s
  | studentExited student =>
      let s := set_studentStore (alter (set_evacuated true) student (studentStore s)) s in
      let s := set_evacuatedStudents (evacuatedStudents s + 1) s in
      let s := set_score (score s + 50) s in
      if (totalStudents <=? evacuatedStudents s)%nat then
        let s := set_objectives
                   (set_assembleAtSafePoint true (set_evacuateSafely true (objectives s))) s in
        let s := showAchievementMessage s in
        setTimeout now completeEarly 2000 s
      else s
  | completeEarly => completeSimulation now s
  end.

Definition onDeskClick (s : Session) : Session :=
  let s := if (currentPhase s =? 0)%nat then showEducationalInfo "Desk Safety" s else s in
  set_score (score s + 10) s.

Definition onStudentClick (now : Q) (student : nat) (s : Session) : Session :=
  if isEarthquakeActive s && negb (flag safe student s) then
    emit (Host.showMessage Host.Hint) s
  else if (currentPhase s =? 3)%nat && negb (flag evacuated student s) then
    evacuateStudent now student s
  else s.

Definition onExitClick (s : Session) : Session :=
  let s := if (currentPhase s =? 0)%nat then showEducationalInfo "Emergency Exit" s
           else if (currentPhase s =? 3)%nat then emit (Host.showMessage Host.Hint) s
           else s in
  set_score (score s + 10) s.

Definition onBuildingInteract (s : Session) : Session :=
  showEducationalInfo "Building Safety" s.

Inductive Person := aStudent (student : nat) | theTeacher.

Definition onPersonInteract (now : Q) (person : Person) (s : Session) : Session :=
  match person with
  | aStudent student => onStudentClick now student s
  | theTeacher => showEducationalInfo "Teacher Role" s
  end.

Definition onEmergencyKitInteract (s : Session) : Session :=
  let s := showEducationalInfo "Emergency Kit" s in
  let s := set_objectives (set_checkInjuries true (objectives s)) s in
  set_score (score s + 50) s.

(** The body of each button closure. *)
Definition runAction (now : Q) (a : Action) (s : Session) : Session :=
  match a with
  | dismiss => emit Host.hideInstructions s
  | takeAction => startEarthquakePhase s
  | beginEvacuation => startEvacuationPhase now s
  | viewResults results =>
      let s := emit Host.hideInstructions s in
      emit (Host.completeSimulation
              {| Host.disaster := "earthquake";
                 Host.score := total results;
                 Host.timeBonus := timeBonus results;
                 Host.accuracy := resultAccuracy results |}) s
  end.

Definition reset (now : Q) (s : Session) : Session :=
  let s := set_currentPhase 0 s in
  let s := set_score 0 s in
  let s := set_accuracy 100 s in
  let s := set_mistakes 0 s in
  let s := set_evacuatedStudents 0 s in
  let s := set_isEarthquakeActive false s in
  let s := set_objectives
             {| dropCoverHold := false; stayCalm := false; checkInjuries := false;
                evacuateSafely := false; assembleAtSafePoint := false |} s in
  let s := set_studentStore
             (foldl (fun store student =>
                       alter (fun _ => {| safe := false; evacuated := false |}) student store)
                    (studentStore s) (students s)) s in
  let s := set_startTime now s in
  startPhase now 0 s.

(** [cleanup]: [this.phaseTimer] is never assigned, so no timer is
    cleared; the arrays are emptied. *)
Definition cleanup (s : Session) : Session :=
  set_desks [] (set_students [] s).

(** Everything that can run a piece of the session: calls of the host,
    clicks relayed by the engine, buttons, and timers coming due. *)
Inductive Event :=
| Start
| Reset
| Cleanup
| CorrectDrop (studentId deskId : string)
| IncorrectDrop (studentId deskId : string)
| DeskClick
| StudentClick (student : nat)
| ExitClick
| BuildingInteract
| PersonInteract (person : Person)
| EmergencyKitInteract
| Press (a : Action)
| Fire (k : nat).

Definition step (now : Q) (e : Event) (s : Session) : Session :=
  match e with
  | Start => start now s
  | Reset => reset now s
  | Cleanup => cleanup s
  | CorrectDrop studentId deskId => onCorrectDrop studentId deskId s
  | IncorrectDrop studentId deskId => onIncorrectDrop studentId deskId s
  | DeskClick => onDeskClick s
  | StudentClick student => onStudentClick now student s
  | ExitClick => onExitClick s
  | BuildingInteract => onBuildingInteract s
  | PersonInteract person => onPersonInteract now person s
  | EmergencyKitInteract => onEmergencyKitInteract s
  | Press a => runAction now a s
  | Fire k =>
      match timers s !! k with
      | Some t => runCallback now (callback t) (set_timers (delete k (timers s)) s)
      | None => s
      end
  end.

End Earthquake.

(** ** Flood module ([FloodSimulation]) *)
Module Flood.

Module House.
Record t := { position : Vec3.t; floodRisk : string; elevation : Q; atRisk : bool }.
Definition set_atRisk (v : bool) (h : t) : t :=
  Build_t (position h) (floodRisk h) (elevation h) v.
End House.

Module Resident.
Record t := {
  position : Vec3.t;
  id : nat;
  house : nat;
  rescued : bool;
  inShelter : bool;
  canSwim : bool;
  limitedMobility : bool;
  needsRescue : bool;
  stranded : bool }.
Definition set_position (v : Vec3.t) (r : t) : t :=
  Build_t v (id r) (house r) (rescued r) (inShelter r) (canSwim r) (limitedMobility r)
    (needsRescue r) (stranded r).
Definition set_rescued (v : bool) (r : t) : t :=
  Build_t (position r) (id r) (house r) v (inShelter r) (canSwim r) (limitedMobility r)
    (needsRescue r) (stranded r).
Definition set_inShelter (v : bool) (r : t) : t :=
  Build_t (position r) (id r) (house r) (rescued r) v (canSwim r) (limitedMobility r)
    (needsRescue r) (stranded r).
Definition set_needsRescue (v : bool) (r : t) : t :=
  Build_t (position r) (id r) (house r) (rescued r) (inShelter r) (canSwim r)
    (limitedMobility r) v (stranded r).
Definition set_stranded (v : bool) (r : t) : t :=
  Build_t (position r) (id r) (house r) (rescued r) (inShelter r) (canSwim r)
    (limitedMobility r) (needsRescue r) v.
End Resident.

Module Supply.
Record t := { position : Vec3.t; supplyType : string; points : Z; collected : bool }.
Definition set_position (v : Vec3.t) (k : t) : t :=
  Build_t v (supplyType k) (points k) (collected k).
Definition set_collected (v : bool) (k : t) : t :=
  Build_t (position k) (supplyType k) (points k) v.
End Supply.

Module Center.
Record t := { position : Vec3.t; capacity : nat; occupants : nat; supplies : nat }.
Definition set_occupants (v : nat) (c : t) : t :=
  Build_t (position c) (capacity c) v (supplies c).
Definition set_supplies (v : nat) (c : t) : t :=
  Build_t (position c) (capacity c) (occupants c) v.
End Center.

Module Boat.
Record t := { position : Vec3.t; capacity : nat; passengers : nat; available : bool }.
Definition set_position (v : Vec3.t) (b : t) : t :=
  Build_t v (capacity b) (passengers b) (available b).
Definition set_passengers (v : nat) (b : t) : t :=
  Build_t (position b) (capacity b) v (available b).
Definition set_available (v : bool) (b : t) : t :=
  Build_t (position b) (capacity b) (passengers b) v.
End Boat.

Record Objectives := {
  prepareSupplies : bool;
  buildBarriers : bool;
  evacuateResidents : bool;
  rescueStranded : bool;
  establishShelter : bool }.

(** [Object.values(this.objectives)], in insertion order. *)
Definition values (o : Objectives) : list bool :=
  [prepareSupplies o; buildBarriers o; evacuateResidents o; rescueStranded o; establishShelter o].

(** The record built by [calculateFinalScore]. *)
Record FinalScore := {
  baseScore : Z;
  timeBonus : Z;
  accuracyBonus : Z;
  objectiveBonus : Z;
  rescueBonus : Z;
  supplyBonus : Z;
  total : Z;
  timeElapsed : Z;
  resultAccuracy : Z;
  resultObjectives : Objectives;
  rescued : nat;
  supplies : nat }.

(** Closures handed to [setTimeout] and to [requestAnimationFrame]. *)
Inductive Callback :=
| autoAdvance (phaseIndex : nat)
| raiseWater
| recedeWater
| staggeredEvacuation (resident : nat)
| residentSheltered (resident center : nat)
| boatLoaded (resident boat : nat)
| boatArrived (resident boat : nat)
| supplyDispatch (supply index : nat)
| supplyDelivered (supply center : nat).

(** Closures attached to the buttons of the instruction panel. *)
Inductive Action :=
| dismiss
| startEvacuation
| deployRescueTeams
| viewResults (results : FinalScore).

Record Session := {
  currentPhase : nat;
  score : Z;
  startTime : Q;
  accuracy : Z;
  mistakes : nat;
  waterLevel : Q;
  isFlooding : bool;
  houseStore : list House.t;
  houses : list nat;
  residentStore : list Resident.t;
  residents : list nat;
  supplyStore : list Supply.t;
  emergencySupplies : list nat;
  centerStore : list Center.t;
  evacuationCenters : list nat;
  boatStore : list Boat.t;
  boats : list nat;
  rescuedResidents : nat;
  suppliesDistributed : nat;
  barriersBuilt : nat;
  objectives : Objectives;
  timers : list (Timer Callback);
  log : list (Host.Effect Action) }.

(** Field assignments. *)
Definition set_currentPhase (v : nat) (s : Session) : Session :=
  Build_Session v (score s) (startTime s) (accuracy s) (mistakes s) (waterLevel s) (isFlooding s)
    (houseStore s) (houses s) (residentStore s) (residents s) (supplyStore s)
    (emergencySupplies s) (centerStore s) (evacuationCenters s) (boatStore s) (boats s)
    (rescuedResidents s) (suppliesDistributed s) (barriersBuilt s) (objectives s)
    (timers s) (log s).
Definition set_score (v : Z) (s : Session) : Session :=
  Build_Session (currentPhase s) v (startTime s) (accuracy s) (mistakes s) (waterLevel s)
    (isFlooding s) (houseStore s) (houses s) (residentStore s) (residents s)
    (supplyStore s) (emergencySupplies s) (centerStore s) (evacuationCenters s)
    (boatStore s) (boats s) (rescuedResidents s) (suppliesDistributed s) (barriersBuilt
    s) (objectives s) (timers s) (log s).
Definition set_startTime (v : Q) (s : Session) : Session :=
  Build_Session (currentPhase s) (score s) v (accuracy s) (mistakes s) (waterLevel s) (isFlooding s)
    (houseStore s) (houses s) (residentStore s) (residents s) (supplyStore s)
    (emergencySupplies s) (centerStore s) (evacuationCenters s) (boatStore s) (boats s)
    (rescuedResidents s) (suppliesDistributed s) (barriersBuilt s) (objectives s)
    (timers s) (log s).
Definition set_accuracy (v : Z) (s : Session) : Session :=
  Build_Session (currentPhase s) (score s) (startTime s) v (mistakes s) (waterLevel s) (isFlooding
    s) (houseStore s) (houses s) (residentStore s) (residents s) (supplyStore s)
    (emergencySupplies s) (centerStore s) (evacuationCenters s) (boatStore s) (boats s)
    (rescuedResidents s) (suppliesDistributed s) (barriersBuilt s) (objectives s)
    (timers s) (log s).
Definition set_mistakes (v : nat) (s : Session) : Session :=
  Build_Session (currentPhase s) (score s) (startTime s) (accuracy s) v (waterLevel s) (isFlooding
    s) (houseStore s) (houses s) (residentStore s) (residents s) (supplyStore s)
    (emergencySupplies s) (centerStore s) (evacuationCenters s) (boatStore s) (boats s)
    (rescuedResidents s) (suppliesDistributed s) (barriersBuilt s) (objectives s)
    (timers s) (log s).
Definition set_waterLevel (v : Q) (s : Session) : Session :=
  Build_Session (currentPhase s) (score s) (startTime s) (accuracy s) (mistakes s) v (isFlooding s)
    (houseStore s) (houses s) (residentStore s) (residents s) (supplyStore s)
    (emergencySupplies s) (centerStore s) (evacuationCenters s) (boatStore s) (boats s)
    (rescuedResidents s) (suppliesDistributed s) (barriersBuilt s) (objectives s)
    (timers s) (log s).
Definition set_isFlooding (v : bool) (s : Session) : Session :=
  Build_Session (currentPhase s) (score s) (startTime s) (accuracy s) (mistakes s) (waterLevel s) v
    (houseStore s) (houses s) (residentStore s) (residents s) (supplyStore s)
    (emergencySupplies s) (centerStore s) (evacuationCenters s) (boatStore s) (boats s)
    (rescuedResidents s) (suppliesDistributed s) (barriersBuilt s) (objectives s)
    (timers s) (log s).
Definition set_houseStore (v : list House.t) (s : Session) : Session :=
  Build_Session (currentPhase s) (score s) (startTime s) (accuracy s) (mistakes s) (waterLevel s)
    (isFlooding s) v (houses s) (residentStore s) (residents s) (supplyStore s)
    (emergencySupplies s) (centerStore s) (evacuationCenters s) (boatStore s) (boats s)
    (rescuedResidents s) (suppliesDistributed s) (barriersBuilt s) (objectives s)
    (timers s) (log s).
Definition set_houses (v : list nat) (s : Session) : Session :=
  Build_Session (currentPhase s) (score s) (startTime s) (accuracy s) (mistakes s) (waterLevel s)
    (isFlooding s) (houseStore s) v (residentStore s) (residents s) (supplyStore s)
    (emergencySupplies s) (centerStore s) (evacuationCenters s) (boatStore s) (boats s)
    (rescuedResidents s) (suppliesDistributed s) (barriersBuilt s) (objectives s)
    (timers s) (log s).
Definition set_residentStore (v : list Resident.t) (s : Session) : Session :=
  Build_Session (currentPhase s) (score s) (startTime s) (accuracy s) (mistakes s) (waterLevel s)
    (isFlooding s) (houseStore s) (houses s) v (residents s) (supplyStore s)
    (emergencySupplies s) (centerStore s) (evacuationCenters s) (boatStore s) (boats s)
    (rescuedResidents s) (suppliesDistributed s) (barriersBuilt s) (objectives s)
    (timers s) (log s).
Definition set_residents (v : list nat) (s : Session) : Session :=
  Build_Session (currentPhase s) (score s) (startTime s) (accuracy s) (mistakes s) (waterLevel s)
    (isFlooding s) (houseStore s) (houses s) (residentStore s) v (supplyStore s)
    (emergencySupplies s) (centerStore s) (evacuationCenters s) (boatStore s) (boats s)
    (rescuedResidents s) (suppliesDistributed s) (barriersBuilt s) (objectives s)
    (timers s) (log s).
Definition set_supplyStore (v : list Supply.t) (s : Session) : Session :=
  Build_Session (currentPhase s) (score s) (startTime s) (accuracy s) (mistakes s) (waterLevel s)
    (isFlooding s) (houseStore s) (houses s) (residentStore s) (residents s) v
    (emergencySupplies s) (centerStore s) (evacuationCenters s) (boatStore s) (boats s)
    (rescuedResidents s) (suppliesDistributed s) (barriersBuilt s) (objectives s)
    (timers s) (log s).
Definition set_emergencySupplies (v : list nat) (s : Session) : Session :=
  Build_Session (currentPhase s) (score s) (startTime s) (accuracy s) (mistakes s) (waterLevel s)
    (isFlooding s) (houseStore s) (houses s) (residentStore s) (residents s)
    (supplyStore s) v (centerStore s) (evacuationCenters s) (boatStore s) (boats s)
    (rescuedResidents s) (suppliesDistributed s) (barriersBuilt s) (objectives s)
    (timers s) (log s).
Definition set_centerStore (v : list Center.t) (s : Session) : Session :=
  Build_Session (currentPhase s) (score s) (startTime s) (accuracy s) (mistakes s) (waterLevel s)
    (isFlooding s) (houseStore s) (houses s) (residentStore s) (residents s)
    (supplyStore s) (emergencySupplies s) v (evacuationCenters s) (boatStore s) (boats
    s) (rescuedResidents s) (suppliesDistributed s) (barriersBuilt s) (objectives s)
    (timers s) (log s).
Definition set_evacuationCenters (v : list nat) (s : Session) : Session :=
  Build_Session (currentPhase s) (score s) (startTime s) (accuracy s) (mistakes s) (waterLevel s)
    (isFlooding s) (houseStore s) (houses s) (residentStore s) (residents s)
    (supplyStore s) (emergencySupplies s) (centerStore s) v (boatStore s) (boats s)
    (rescuedResidents s) (suppliesDistributed s) (barriersBuilt s) (objectives s)
    (timers s) (log s).
Definition set_boatStore (v : list Boat.t) (s : Session) : Session :=
  Build_Session (currentPhase s) (score s) (startTime s) (accuracy s) (mistakes s) (waterLevel s)
    (isFlooding s) (houseStore s) (houses s) (residentStore s) (residents s)
    (supplyStore s) (emergencySupplies s) (centerStore s) (evacuationCenters s) v (boats
    s) (rescuedResidents s) (suppliesDistributed s) (barriersBuilt s) (objectives s)
    (timers s) (log s).
Definition set_boats (v : list nat) (s : Session) : Session :=
  Build_Session (currentPhase s) (score s) (startTime s) (accuracy s) (mistakes s) (waterLevel s)
    (isFlooding s) (houseStore s) (houses s) (residentStore s) (residents s)
    (supplyStore s) (emergencySupplies s) (centerStore s) (evacuationCenters s)
    (boatStore s) v (rescuedResidents s) (suppliesDistributed s) (barriersBuilt s)
    (objectives s) (timers s) (log s).
Definition set_rescuedResidents (v : nat) (s : Session) : Session :=
  Build_Session (currentPhase s) (score s) (startTime s) (accuracy s) (mistakes s) (waterLevel s)
    (isFlooding s) (houseStore s) (houses s) (residentStore s) (residents s)
    (supplyStore s) (emergencySupplies s) (centerStore s) (evacuationCenters s)
    (boatStore s) (boats s) v (suppliesDistributed s) (barriersBuilt s) (objectives s)
    (timers s) (log s).
Definition set_suppliesDistributed (v : nat) (s : Session) : Session :=
  Build_Session (currentPhase s) (score s) (startTime s) (accuracy s) (mistakes s) (waterLevel s)
    (isFlooding s) (houseStore s) (houses s) (residentStore s) (residents s)
    (supplyStore s) (emergencySupplies s) (centerStore s) (evacuationCenters s)
    (boatStore s) (boats s) (rescuedResidents s) v (barriersBuilt s) (objectives s)
    (timers s) (log s).
Definition set_barriersBuilt (v : nat) (s : Session) : Session :=
  Build_Session (currentPhase s) (score s) (startTime s) (accuracy s) (mistakes s) (waterLevel s)
    (isFlooding s) (houseStore s) (houses s) (residentStore s) (residents s)
    (supplyStore s) (emergencySupplies s) (centerStore s) (evacuationCenters s)
    (boatStore s) (boats s) (rescuedResidents s) (suppliesDistributed s) v (objectives
    s) (timers s) (log s).
Definition set_objectives (v : Objectives) (s : Session) : Session :=
  Build_Session (currentPhase s) (score s) (startTime s) (accuracy s) (mistakes s) (waterLevel s)
    (isFlooding s) (houseStore s) (houses s) (residentStore s) (residents s)
    (supplyStore s) (emergencySupplies s) (centerStore s) (evacuationCenters s)
    (boatStore s) (boats s) (rescuedResidents s) (suppliesDistributed s) (barriersBuilt
    s) v (timers s) (log s).
Definition set_timers (v : list (Timer Callback)) (s : Session) : Session :=
  Build_Session (currentPhase s) (score s) (startTime s) (accuracy s) (mistakes s) (waterLevel s)
    (isFlooding s) (houseStore s) (houses s) (residentStore s) (residents s)
    (supplyStore s) (emergencySupplies s) (centerStore s) (evacuationCenters s)
    (boatStore s) (boats s) (rescuedResidents s) (suppliesDistributed s) (barriersBuilt
    s) (objectives s) v (log s).
Definition set_log (v : list (Host.Effect Action)) (s : Session) : Session :=
  Build_Session (currentPhase s) (score s) (startTime s) (accuracy s) (mistakes s) (waterLevel s)
    (isFlooding s) (houseStore s) (houses s) (residentStore s) (residents s)
    (supplyStore s) (emergencySupplies s) (centerStore s) (evacuationCenters s)
    (boatStore s) (boats s) (rescuedResidents s) (suppliesDistributed s) (barriersBuilt
    s) (objectives s) (timers s) v.
Definition set_prepareSupplies (v : bool) (s : Objectives) : Objectives :=
  Build_Objectives v (buildBarriers s) (evacuateResidents s) (rescueStranded s) (establishShelter s).
Definition set_evacuateResidents (v : bool) (s : Objectives) : Objectives :=
  Build_Objectives (prepareSupplies s) (buildBarriers s) v (rescueStranded s) (establishShelter s).
Definition set_rescueStranded (v : bool) (s : Objectives) : Objectives :=
  Build_Objectives (prepareSupplies s) (buildBarriers s) (evacuateResidents s) v (establishShelter s).
Definition set_establishShelter (v : bool) (s : Objectives) : Objectives :=
  Build_Objectives (prepareSupplies s) (buildBarriers s) (evacuateResidents s) (rescueStranded s) v.

Definition maxWaterLevel : Q := 8.
Definition floodSpeed : Q := 2 # 100.
Definition totalResidents : nat := 10.

Definition phases : list Phase :=
  [ {| name := "preparation"; duration := 60000 |};
    {| name := "early_flood"; duration := 90000 |};
    {| name := "rescue_ops"; duration := 120000 |};
    {| name := "recovery"; duration := 90000 |} ].

(** The session as the constructor leaves it. *)
Definition new : Session :=
  {| currentPhase := 0; score := 0; startTime := 0; accuracy := 100; mistakes := 0;
     waterLevel := (-5 # 1); isFlooding := false;
     houseStore := []; houses := []; residentStore := []; residents := [];
     supplyStore := []; emergencySupplies := []; centerStore := []; evacuationCenters := [];
     boatStore := []; boats := [];
     rescuedResidents := 0; suppliesDistributed := 0; barriersBuilt := 0;
     objectives := {| prepareSupplies := false; buildBarriers := false;
                      evacuateResidents := false; rescueStranded := false;
                      establishShelter := false |};
     timers := []; log := [] |}.

Definition emit (e : Host.Effect Action) (s : Session) : Session :=
  set_log (log s ++ [e]) s.

Definition setTimeout (now : Q) (cb : Callback) (delay : Z) (s : Session) : Session :=
  set_timers (timers s ++ [{| due := (now + inject_Z delay)%Q; callback := cb |}]) s.

(** The next animation frame: due from now on. *)
Definition requestAnimationFrame (now : Q) (cb : Callback) (s : Session) : Session :=
  set_timers (timers s ++ [{| due := now; callback := cb |}]) s.

Definition showEducationalInfo (title : string) (s : Session) : Session :=
  emit (Host.showInstructions title [dismiss]) s.

Definition showHint (s : Session) : Session := emit (Host.showMessage Host.Hint) s.

Definition showAchievementMessage (s : Session) : Session :=
  emit (Host.showMessage Host.Achievement) s.

(** [engine.createBuilding(w, h, d, x, y, z)] places the box at [h / 2 + y]. *)
Definition building (height x elevation z : Q) : Vec3.t :=
  {| Vec3.x := x; Vec3.y := (height / 2 + elevation)%Q; Vec3.z := z |}.

(** Houses of [createCommunityBuildings]: [(x, z, elevation)]. *)
Definition lowHousePositions : list (Q * Q * Q) :=
  [ (-25 # 1, -10 # 1, -1 # 1); (-15 # 1, -8 # 1, -5 # 10); (-5 # 1, -12 # 1, -15 # 10);
    (5 # 1, -6 # 1, -8 # 10); (15 # 1, -14 # 1, -12 # 10); (25 # 1, -8 # 1, -6 # 10) ]%Q.

Definition highHousePositions : list (Q * Q * Q) :=
  [ (-30 # 1, 35 # 1, 6 # 1); (-10 # 1, 40 # 1, 7 # 1); (10 # 1, 38 # 1, 65 # 10);
    (30 # 1, 42 # 1, 75 # 10) ]%Q.

Definition createCommunityBuildings (s : Session) : Session :=
  let low := (fun '(x, z, elevation) =>
                {| House.position := building 5 x elevation z; House.floodRisk := "high";
                   House.elevation := elevation; House.atRisk := false |}) <$> lowHousePositions in
  let high := (fun '(x, z, elevation) =>
                {| House.position := building 6 x elevation z; House.floodRisk := "low";
                   House.elevation := elevation; House.atRisk := false |}) <$> highHousePositions in
  let base := length (houseStore s) in
  let s := set_houseStore (houseStore s ++ low ++ high) s in
  set_houses (houses s ++ seq base (length (low ++ high))) s.

(** [createResidents]: one resident per house of index below
    [totalResidents]; [random] gives the successive results of
    [Math.random()] since [start]. *)
Definition createResidents (random : nat -> Q) (s : Session) : Session :=
  let made :=
    omap (fun '(index, h) =>
            match houseStore s !! h with
            | Some house =>
                Some {| Resident.position :=
                          {| Vec3.x := (Vec3.x (House.position house) + 3)%Q;
                             Vec3.y := (Vec3.y (House.position house) - (25 # 10))%Q;
                             Vec3.z := (Vec3.z (House.position house) + 3)%Q |};
                        Resident.id := index;
                        Resident.house := h;
                        Resident.rescued := false;
                        Resident.inShelter := false;
                        Resident.canSwim := JS.gt (random (2 * index)%nat) (3 # 10);
                        Resident.limitedMobility := negb (JS.gt (random (2 * index + 1)%nat) (2 # 10));
                        Resident.needsRescue := false;
                        Resident.stranded := false |}
            | None => None
            end)
         (take totalResidents (imap (fun index h => (index, h)) (houses s))) in
  let base := length (residentStore s) in
  let s := set_residentStore (residentStore s ++ made) s in
  set_residents (residents s ++ seq base (length made)) s.

Definition supplyTypes : list (string * Z) :=
  [("water", 30); ("food", 25); ("medical", 40); ("blankets", 20)].

(** [createEmergencySupplies]: eight kits at random places;
    [engine.createEmergencyKit(x, y, z)] puts the kit at [y + 0.25]. *)
Definition createEmergencySupplies (random : nat -> Q) (drawn : nat) (s : Session) : Session :=
  let made :=
    (fun i =>
       let '(type, points) := default (EmptyString, 0) (supplyTypes !! (i mod length supplyTypes)%nat) in
       {| Supply.position :=
            {| Vec3.x := (random (drawn + 2 * i)%nat * 40 - 20)%Q;
               Vec3.y := (2 + (25 # 100))%Q;
               Vec3.z := (random (drawn + 2 * i + 1)%nat * 60 - 30)%Q |};
          Supply.supplyType := type;
          Supply.points := points;
          Supply.collected := false |}) <$> seq 0 8 in
  let base := length (supplyStore s) in
  let s := set_supplyStore (supplyStore s ++ made) s in
  set_emergencySupplies (emergencySupplies s ++ seq base (length made)) s.

Definition createEvacuationCenters (s : Session) : Session :=
  let made :=
    [ {| Center.position := building 8 (-20 # 1) 7 45; Center.capacity := 6;
         Center.occupants := 0; Center.supplies := 0 |};
      {| Center.position := building 8 20 7 48; Center.capacity := 8;
         Center.occupants := 0; Center.supplies := 0 |} ] in
  let base := length (centerStore s) in
  let s := set_centerStore (centerStore s ++ made) s in
  set_evacuationCenters (evacuationCenters s ++ seq base (length made)) s.

Definition createRescueBoats (s : Session) : Session :=
  let made :=
    (fun '(x, z) =>
       {| Boat.position := {| Vec3.x := x; Vec3.y := 0; Vec3.z := z |};
          Boat.capacity := 4; Boat.passengers := 0; Boat.available := true |})
      <$> [ (-40 # 1, 0); (40 # 1, 0); (0, -25 # 1) ]%Q in
  let base := length (boatStore s) in
  let s := set_boatStore (boatStore s ++ made) s in
  set_boats (boats s ++ seq base (length made)) s.

Definition createCommunityScene (random : nat -> Q) (s : Session) : Session :=
  let s := createCommunityBuildings s in
  let before := length (residentStore s) in
  let s := createResidents random s in
  let drawn := (2 * (length (residentStore s) - before))%nat in
  let s := createEmergencySupplies random drawn s in
  let s := createEvacuationCenters s in
  createRescueBoats s.

Definition showWelcomeInstructions (s : Session) : Session :=
  emit (Host.showInstructions "Welcome to Flood Response Training" [dismiss]) s.

(** [calculateFinalScore], at the clock reading [now]; each operation on
    the clock readings is rounded as the doubles of the code are. *)
Definition calculateFinalScore (now : Q) (s : Session) : FinalScore :=
  let timeElapsed := JS.double (JS.double (now - startTime s) / 1000) in
  let baseScore := score s in
  let maxTime := 450%Q in
  let timeBonus :=
    JS.max 0 (JS.floor (JS.double (JS.double (JS.double (maxTime - timeElapsed) / maxTime)
                                   * 200))) in
  let accuracyBonus := JS.floor (inject_Z (accuracy s) * 2)%Q in
  let objectiveCount := Z.of_nat (length (List.filter (fun b : bool => b) (values (objectives s)))) in
  let objectiveBonus := objectiveCount * 100 in
  let rescueBonus := Z.of_nat (rescuedResidents s) * 25 in
  let supplyBonus := Z.of_nat (suppliesDistributed s) * 15 in
  {| baseScore := baseScore;
     timeBonus := timeBonus;
     accuracyBonus := accuracyBonus;
     objectiveBonus := objectiveBonus;
     rescueBonus := rescueBonus;
     supplyBonus := supplyBonus;
     total := baseScore + timeBonus + accuracyBonus + objectiveBonus + rescueBonus + supplyBonus;
     timeElapsed := JS.floor timeElapsed;
     resultAccuracy := accuracy s;
     resultObjectives := objectives s;
     rescued := rescuedResidents s;
     supplies := suppliesDistributed s |}.

Definition completeSimulation (now : Q) (s : Session) : Session :=
  let results := calculateFinalScore now s in
  let s := emit (Host.updateProgress 100) s in
  emit (Host.showInstructions "Flood Response Training Complete!" [viewResults results]) s.

Definition showPreparationInterface (s : Session) : Session :=
  let preparationItems :=
    [ {| Host.item_id := "water_supply"; Host.item_text := "Water Bottles"; Host.item_type := "supply" |};
      {| Host.item_id := "food_kit"; Host.item_text := "Emergency Food"; Host.item_type := "supply" |};
      {| Host.item_id := "first_aid"; Host.item_text := "First Aid Kit"; Host.item_type := "supply" |};
      {| Host.item_id := "sandbags"; Host.item_text := "Sandbags"; Host.item_type := "barrier" |};
      {| Host.item_id := "plastic_sheeting"; Host.item_text := "Plastic Sheeting";
         Host.item_type := "barrier" |} ] in
  let preparationZones :=
    [ {| Host.zone_id := "house_prep"; Host.zone_text := "Prepare Houses"; Host.accepts := ["supply"] |};
      {| Host.zone_id := "barrier_build"; Host.zone_text := "Build Barriers";
         Host.accepts := ["barrier"] |} ] in
  emit (Host.showDragDropPanel preparationItems preparationZones) s.

Definition startPreparationPhase (s : Session) : Session :=
  let s := emit (Host.showInstructions "Phase 1: Flood Preparation" [dismiss]) s in
  showPreparationInterface s.

Definition showEarlyFloodInstructions (s : Session) : Session :=
  emit (Host.showInstructions "Phase 2: Early Flooding" [startEvacuation]) s.

Definition showRescueInstructions (s : Session) : Session :=
  emit (Host.showInstructions "Phase 3: Rescue Operations" [deployRescueTeams]) s.

Definition distributeSuppliesToShelters (now : Q) (s : Session) : Session :=
  foldl (fun acc '(index, supply) =>
           match supplyStore acc !! supply with
           | Some o =>
               if negb (Supply.collected o)
               then setTimeout now (supplyDispatch supply index) (Z.of_nat index * 1000) acc
               else acc
           | None => acc
           end)
        s (imap (fun index supply => (index, supply)) (emergencySupplies s)).

Definition setupShelterOperations (now : Q) (s : Session) : Session :=
  let s := distributeSuppliesToShelters now s in
  let s := set_objectives (set_establishShelter true (objectives s)) s in
  set_score (score s + 100) s.

(** One run of the closure [recedeWater]. *)
Definition recedeWaterFrame (now : Q) (s : Session) : Session :=
  if JS.gt (waterLevel s) (-5 # 1) then
    let s := set_waterLevel (waterLevel s - (1 # 100))%Q s in
    requestAnimationFrame now recedeWater s
  else set_isFlooding false s.

Definition startWaterReceding (now : Q) (s : Session) : Session :=
  recedeWaterFrame now s.

Definition startRecoveryPhase (now : Q) (s : Session) : Session :=
  let s := emit (Host.showInstructions "Phase 4: Recovery and Shelter" [dismiss]) s in
  let s := setupShelterOperations now s in
  startWaterReceding now s.

Definition startPhase (now : Q) (phaseIndex : nat) (s : Session) : Session :=
  if (length phases <=? phaseIndex)%nat then completeSimulation now s else
  match phases !! phaseIndex with
  | None => s
  | Some phase =>
      let s := set_currentPhase phaseIndex s in
      let s := emit (Host.updateProgress
                       (inject_Z (Z.of_nat phaseIndex) / inject_Z (Z.of_nat (length phases)) * 100)%Q) s in
      let s :=
        if String.eqb (name phase) "preparation" then startPreparationPhase s
        else if String.eqb (name phase) "early_flood" then showEarlyFloodInstructions s
        else if String.eqb (name phase) "rescue_ops" then showRescueInstructions s
        else if String.eqb (name phase) "recovery" then startRecoveryPhase now s
        else s in
      setTimeout now (autoAdvance phaseIndex) (duration phase) s
  end.

Definition start (now : Q) (random : nat -> Q) (s : Session) : Session :=
  let s := set_startTime now s in
  let s := createCommunityScene random s in
  let s := startPhase now 0 s in
  showWelcomeInstructions s.

(** How a call ends: it returns, or it raises an exception that nothing
    catches and that ends every caller up to the event loop; either way
    with the session as the call left it. *)
Inductive Outcome :=
| returned (s : Session)
| raised (s : Session).

Definition state (o : Outcome) : Session :=
  match o with
  | returned s => s
  | raised s => s
  end.

(** [checkResidentsInDanger]. A resident is the [THREE.Group] that
    [engine.createPerson] returns, and a group has no [material]: for the
    first resident below the water line that is not rescued,
    [resident.material.children] reads a property of [undefined] and raises
    a [TypeError]. The statements that follow it in the block
    ([needsRescue = true], [score -= 20], [accuracy -= 5]) are never
    reached, so the session is as it was. *)
Definition checkResidentsInDanger (s : Session) : Outcome :=
  foldl (fun acc resident =>
           match acc with
           | raised _ => acc
           | returned acc =>
               match residentStore acc !! resident with
               | Some o =>
                   let residentElevation := Vec3.y (Resident.position o) in
                   if JS.lt residentElevation (waterLevel acc + 1)%Q && negb (Resident.rescued o)
                   then raised acc
                   else returned acc
               | None => returned acc
               end
           end)
        (returned s) (residents s).

(** One run of the closure [raiseWater]; the next frame is requested only
    when [checkResidentsInDanger] has returned. *)
Definition raiseWaterFrame (now : Q) (s : Session) : Outcome :=
  if isFlooding s && JS.lt (waterLevel s) maxWaterLevel then
    let s := set_waterLevel (waterLevel s + floodSpeed)%Q s in
    match checkResidentsInDanger s with
    | returned s => returned (requestAnimationFrame now raiseWater s)
    | raised s => raised s
    end
  else returned s.

Definition startFloodAnimation (now : Q) (s : Session) : Outcome :=
  raiseWaterFrame now s.

Definition identifyFloodRisks (s : Session) : Session :=
  foldl (fun acc h =>
           match houseStore acc !! h with
           | Some house =>
               if JS.lt (House.elevation house) 2
               then set_houseStore (alter (House.set_atRisk true) h (houseStore acc)) acc
               else acc
           | None => acc
           end)
        s (houses s).

Definition initiateEvacuation (now : Q) (s : Session) : Session :=
  foldl (fun acc '(index, resident) =>
           match residentStore acc !! resident with
           | Some o =>
               match houseStore acc !! Resident.house o with
               | Some house =>
                   if String.eqb (House.floodRisk house) "high"
                   then setTimeout now (staggeredEvacuation resident) (Z.of_nat index * 2000) acc
                   else acc
               | None => acc
               end
           | None => acc
           end)
        s (imap (fun index resident => (index, resident)) (residents s)).

(** [startFloodPhase], the whole of the closure of "Start Evacuation":
    when the first frame raises, the houses are not marked and no
    evacuation is scheduled. *)
Definition startFloodPhase (now : Q) (s : Session) : Session :=
  let s := emit Host.hideDragDropPanel s in
  let s := set_isFlooding true s in
  match startFloodAnimation now s with
  | returned s =>
      let s := identifyFloodRisks s in
      initiateEvacuation now s
  | raised s => s
  end.

(** [findNearestEvacuationCenter]: the closest centre that still has
    room; [None] is [null]. The running minimum starts at infinity. *)
Definition findNearestEvacuationCenter (position : Vec3.t) (s : Session) : option nat :=
  snd (foldl (fun '(minDistance, nearest) center =>
                match centerStore s !! center with
                | Some o =>
                    let distance := Vec3.distanceToSquared position (Center.position o) in
                    if match minDistance with
                       | Some m => JS.lt distance m
                       | None => true
                       end && (Center.occupants o <? Center.capacity o)%nat
                    then (Some distance, Some center)
                    else (minDistance, nearest)
                | None => (minDistance, nearest)
                end)
             (None, None) (evacuationCenters s)).

Definition evacuateResident (now : Q) (resident : nat) (s : Session) : Session :=
  match residentStore s !! resident with
  | Some o =>
      match findNearestEvacuationCenter (Resident.position o) s with
      | Some nearestCenter =>
          match centerStore s !! nearestCenter with
          | Some c =>
              if (Center.occupants c <? Center.capacity c)%nat
              then setTimeout now (residentSheltered resident nearestCenter) 3000 s
              else s
          | None => s
          end
      | None => s
      end
  | None => s
  end.

Definition performRescue (now : Q) (resident boat : nat) (s : Session) : Session :=
  setTimeout now (boatLoaded resident boat) 2000 s.

Definition onBoatRescue (now : Q) (residentId boatId : string) (s : Session) : Session :=
  let residentIndex := JS.parseInt (JS.split "_" residentId !! 1%nat) in
  let boatIndex := JS.parseInt (JS.split "_" boatId !! 1%nat) in
  match JS.index (residents s) residentIndex, JS.index (boats s) boatIndex with
  | Some resident, Some boat =>
      match boatStore s !! boat with
      | Some b =>
          if (Boat.passengers b <? Boat.capacity b)%nat
          then performRescue now resident boat s
          else s
      | None => s
      end
  | _, _ => s
  end.

Definition showBoatInterface (s : Session) : Session :=
  let rescueItems :=
    omap (fun resident =>
            match residentStore s !! resident with
            | Some o =>
                if Resident.needsRescue o && negb (Resident.rescued o) then
                  Some {| Host.item_id := "resident_" +:+ JS.decimal (Resident.id o);
                          Host.item_text := "Rescue Person " +:+ JS.decimal (Resident.id o + 1);
                          Host.item_type := "rescue" |}
                else None
            | None => None
            end) (residents s) in
  let boatZones :=
    imap (fun index _ =>
            {| Host.zone_id := "boat_" +:+ JS.decimal index;
               Host.zone_text := "Rescue Boat " +:+ JS.decimal (index + 1);
               Host.accepts := ["rescue"] |}) (boats s) in
  if (0 <? length rescueItems)%nat
  then emit (Host.showDragDropPanel rescueItems boatZones) s
  else s.

Definition enableBoatRescue (s : Session) : Session :=
  let s := set_boatStore
             (foldl (fun store boat => alter (Boat.set_available true) boat store)
                    (boatStore s) (boats s)) s in
  showBoatInterface s.

Definition identifyStrandedResidents (s : Session) : Session :=
  foldl (fun acc resident =>
           match residentStore acc !! resident with
           | Some o =>
               if negb (Resident.rescued o)
                  && JS.lt (Vec3.y (Resident.position o)) (waterLevel acc + 2)%Q
               then set_residentStore
                      (alter (fun r => Resident.set_needsRescue true (Resident.set_stranded true r))
                             resident (residentStore acc)) acc
               else acc
           | None => acc
           end)
        s (residents s).

Definition startRescuePhase (s : Session) : Session :=
  let s := emit Host.hideInstructions s in
  let s := enableBoatRescue s in
  identifyStrandedResidents s.

(** The body of each closure handed to [setTimeout] or to
    [requestAnimationFrame]. *)
Definition runCallback (now : Q) (cb : Callback) (s : Session) : Session :=
  match cb with
  | autoAdvance phaseIndex =>
      if (currentPhase s =? phaseIndex)%nat then startPhase now (phaseIndex + 1) s else s
  | raiseWater => state (raiseWaterFrame now s)
  | recedeWater => recedeWaterFrame now s
  | staggeredEvacuation resident => evacuateResident now resident s
  | residentSheltered resident nearestCenter =>
      let s := set_residentStore
                 (alter (fun r => Resident.set_inShelter true (Resident.set_rescued true r))
                        resident (residentStore s)) s in
      let s := set_centerStore
                 (alter (fun c => Center.set_occupants (Center.occupants c + 1) c)
                        nearestCenter (centerStore s)) s in
      let s := set_rescuedResidents (rescuedResidents s + 1) s in
      let s := set_score (score s + 50) s in
      if JS.ge (inject_Z (Z.of_nat (rescuedResidents s)))
               (inject_Z (Z.of_nat totalResidents) * (7 # 10))
      then showAchievementMessage (set_objectives (set_evacuateResidents true (objectives s)) s)
      else s
  | boatLoaded resident boat =>
      match boatStore s !! boat with
      | Some b =>
          match findNearestEvacuationCenter (Boat.position b) s with
          | Some evacuationCenter => setTimeout now (boatArrived resident boat) 4000 s
          | None => s
          end
      | None => s
      end
  | boatArrived resident boat =>
      let s := set_residentStore
                 (alter (fun r => Resident.set_inShelter true (Resident.set_rescued true r))
                        resident (residentStore s)) s in
      let s := set_rescuedResidents (rescuedResidents s + 1) s in
      let s := set_score (score s + 75) s in
      if (totalResidents <=? rescuedResidents s)%nat
      then showAchievementMessage (set_objectives (set_rescueStranded true (objectives s)) s)
      else s
  | supplyDispatch supply index =>
      match evacuationCenters s with
      | [] => s
      | _ :: _ =>
          match evacuationCenters s !! (index mod length (evacuationCenters s))%nat with
          | Some center => setTimeout now (supplyDelivered supply center) 2000 s
          | None => s
          end
      end
  | supplyDelivered supply center =>
      let points := match supplyStore s !! supply with Some o => Supply.points o | None => 0 end in
      let s := set_supplyStore (alter (Supply.set_collected true) supply (supplyStore s)) s in
      let s := set_centerStore
                 (alter (fun c => Center.set_supplies (Center.supplies c + 1) c)
                        center (centerStore s)) s in
      let s := set_suppliesDistributed (suppliesDistributed s + 1) s in
      let s := set_score (score s + points) s in
      if JS.ge (inject_Z (Z.of_nat (suppliesDistributed s)))
               (inject_Z (Z.of_nat (length (emergencySupplies s))) * (75 # 100))
      then showAchievementMessage (set_objectives (set_prepareSupplies true (objectives s)) s)
      else s
  end.

Definition onResidentClick (now : Q) (resident : nat) (s : Session) : Session :=
  match residentStore s !! resident with
  | Some o =>
      if Resident.needsRescue o && negb (Resident.rescued o) then showHint s
      else if Resident.inShelter o then showEducationalInfo "Shelter Resident" s
      else evacuateResident now resident s
  | None => s
  end.

Definition onSupplyClick (supply : nat) (s : Session) : Session :=
  match supplyStore s !! supply with
  | Some o =>
      if negb (Supply.collected o) then
        let s := set_supplyStore (alter (Supply.set_collected true) supply (supplyStore s)) s in
        let s := set_suppliesDistributed (suppliesDistributed s + 1) s in
        let s := set_score (score s + Supply.points o) s in
        let s := showEducationalInfo "Emergency Supply" s in
        match findNearestEvacuationCenter (Supply.position o) s with
        | Some nearestCenter =>
            set_centerStore
              (alter (fun c => Center.set_supplies (Center.supplies c + 1) c)
                     nearestCenter (centerStore s)) s
        | None => s
        end
      else s
  | None => s
  end.

Definition onEvacuationCenterClick (center : nat) (s : Session) : Session :=
  showEducationalInfo "Evacuation Center" s.

Definition onBoatClick (boat : nat) (s : Session) : Session :=
  match boatStore s !! boat with
  | Some b => if Boat.available b then showEducationalInfo "Rescue Boat" s else s
  | None => s
  end.

Definition onBuildingInteract (building : nat) (s : Session) : Session :=
  match houseStore s !! building with
  | Some house =>
      if String.eqb (House.floodRisk house) "high"
      then showEducationalInfo "Flood Risk Building" s
      else showEducationalInfo "Safe Building" s
  | None => s
  end.

Definition onPersonInteract (now : Q) (person : nat) (s : Session) : Session :=
  onResidentClick now person s.

Definition onEmergencyKitInteract (kit : nat) (s : Session) : Session :=
  onSupplyClick kit s.

(** The body of each button closure. *)
Definition runAction (now : Q) (a : Action) (s : Session) : Session :=
  match a with
  | dismiss => emit Host.hideInstructions s
  | startEvacuation => startFloodPhase now s
  | deployRescueTeams => startRescuePhase s
  | viewResults results =>
      let s := emit Host.hideInstructions s in
      emit (Host.completeSimulation
              {| Host.disaster := "flood";
                 Host.score := total results;
                 Host.timeBonus := timeBonus results;
                 Host.accuracy := resultAccuracy results |}) s
  end.

Definition reset (now : Q) (s : Session) : Session :=
  let s := set_currentPhase 0 s in
  let s := set_score 0 s in
  let s := set_accuracy 100 s in
  let s := set_mistakes 0 s in
  let s := set_rescuedResidents 0 s in
  let s := set_suppliesDistributed 0 s in
  let s := set_barriersBuilt 0 s in
  let s := set_isFlooding false s in
  let s := set_waterLevel (-5 # 1) s in
  let s := set_objectives
             {| prepareSupplies := false; buildBarriers := false; evacuateResidents := false;
                rescueStranded := false; establishShelter := false |} s in
  let s := set_residentStore
             (foldl (fun store resident =>
                       alter (fun r => Resident.set_stranded false (Resident.set_needsRescue false
                                         (Resident.set_inShelter false (Resident.set_rescued false r))))
                             resident store)
                    (residentStore s) (residents s)) s in
  let s := set_supplyStore
             (foldl (fun store supply => alter (Supply.set_collected false) supply store)
                    (supplyStore s) (emergencySupplies s)) s in
  let s := set_centerStore
             (foldl (fun store center =>
                       alter (fun c => Center.set_supplies 0 (Center.set_occupants 0 c)) center store)
                    (centerStore s) (evacuationCenters s)) s in
  let s := set_boatStore
             (foldl (fun store boat =>
                       alter (fun b => Boat.set_available true (Boat.set_passengers 0 b)) boat store)
                    (boatStore s) (boats s)) s in
  let s := set_startTime now s in
  startPhase now 0 s.

Definition cleanup (s : Session) : Session :=
  let s := set_residents [] s in
  let s := set_houses [] s in
  let s := set_emergencySupplies [] s in
  let s := set_evacuationCenters [] s in
  let s := set_boats [] s in
  set_isFlooding false s.

(** A frame of a movement started by [engine.moveObject]: the engine
    writes the position of the object it animates. *)
Inductive Moved :=
| movedResident (resident : nat) (position : Vec3.t)
| movedSupply (supply : nat) (position : Vec3.t)
| movedBoat (boat : nat) (position : Vec3.t).

Definition animate (m : Moved) (s : Session) : Session :=
  match m with
  | movedResident resident position =>
      set_residentStore (alter (Resident.set_position position) resident (residentStore s)) s
  | movedSupply supply position =>
      set_supplyStore (alter (Supply.set_position position) supply (supplyStore s)) s
  | movedBoat boat position =>
      set_boatStore (alter (Boat.set_position position) boat (boatStore s)) s
  end.

(** Everything that can run a piece of the session. *)
Inductive Event :=
| Start (random : nat -> Q)
| Reset
| Cleanup
| BoatRescue (residentId boatId : string)
| ResidentClick (resident : nat)
| SupplyClick (supply : nat)
| EvacuationCenterClick (center : nat)
| BoatClick (boat : nat)
| BuildingInteract (building : nat)
| PersonInteract (person : nat)
| EmergencyKitInteract (kit : nat)
| Press (a : Action)
| Fire (k : nat)
| Animate (m : Moved).

Definition step (now : Q) (e : Event) (s : Session) : Session :=
  match e with
  | Start random => start now random s
  | Reset => reset now s
  | Cleanup => cleanup s
  | BoatRescue residentId boatId => onBoatRescue now residentId boatId s
  | ResidentClick resident => onResidentClick now resident s
  | SupplyClick supply => onSupplyClick supply s
  | EvacuationCenterClick center => onEvacuationCenterClick center s
  | BoatClick boat => onBoatClick boat s
  | BuildingInteract building => onBuildingInteract building s
  | PersonInteract person => onPersonInteract now person s
  | EmergencyKitInteract kit => onEmergencyKitInteract kit s
  | Press a => runAction now a s
  | Fire k =>
      match timers s !! k with
      | Some t => runCallback now (callback t) (set_timers (delete k (timers s)) s)
      | None => s
      end
  | Animate m => animate m s
  end.

End Flood.

(** ** Landslide module ([LandslideSimulation]) *)
Module Landslide.

(** Methods the module calls on its host and on the engine that neither
    [DisasterSimGame] nor [GameEngine] defines: a call of an absent one
    raises a [TypeError], which ends the handler that made it. *)
Record Support := { showFeedback : bool; returnToMenu : bool; clearScene : bool }.

(** The host and engine of this repository. *)
Definition repository : Support :=
  {| showFeedback := false; returnToMenu := false; clearScene := false |}.

Record House := { house_position : Vec3.t; house_evacuated : bool }.

Module Resident.
Record t := { position : Vec3.t; house : nat; evacuated : bool; atRisk : bool }.
Definition set_position (v : Vec3.t) (r : t) : t := Build_t v (house r) (evacuated r) (atRisk r).
Definition set_evacuated (v : bool) (r : t) : t := Build_t (position r) (house r) v (atRisk r).
End Resident.

Module SafeZone.
Record t := { position : Vec3.t; evacuees : nat }.
Definition set_evacuees (v : nat) (z : t) : t := Build_t (position z) v.
End SafeZone.

Record WarningSign := { type : string; identified : bool }.
Definition set_identified (v : bool) (w : WarningSign) : WarningSign := Build_WarningSign (type w) v.

Record Objectives := {
  identifyWarningSigns : bool;
  activateWarningSystem : bool;
  evacuateResidents : bool;
  reachSafeZone : bool;
  avoidDangerZone : bool }.

(** [Object.values(this.objectives)], in insertion order. *)
Definition values (o : Objectives) : list bool :=
  [identifyWarningSigns o; activateWarningSystem o; evacuateResidents o; reachSafeZone o;
   avoidDangerZone o].

(** The record built by [completeSimulation] for the completion screen. *)
Record Results := {
  finalScore : Z;
  resultAccuracy : Z;
  timeElapsed : Z;
  rating : string;
  resultObjectives : Objectives }.

(** Closures handed to [setTimeout]. *)
Inductive Callback :=
| autoAdvance (phaseIndex : nat)
| activateAfterDrop.

(** Closures attached to the buttons of the instruction panel. *)
Inductive Action :=
| dismiss
| activateWarning
| takeCover
| restartSimulation
| mainMenu.

Record Session := {
  currentPhase : nat;
  score : Z;
  startTime : Q;
  accuracy : Z;
  mistakes : nat;
  houses : list House;
  residentStore : list Resident.t;
  residents : list nat;
  safeZoneStore : list SafeZone.t;
  safeZones : list nat;
  warningSignStore : list WarningSign;
  evacuatedResidents : nat;
  warningSystemActivated : bool;
  warningSignsFound : nat;
  objectives : Objectives;
  timers : list (Timer Callback);
  log : list (Host.Effect Action) }.

(** Field assignments. *)
Definition set_currentPhase (v : nat) (s : Session) : Session :=
  Build_Session v (score s) (startTime s) (accuracy s) (mistakes s) (houses s) (residentStore s)
    (residents s) (safeZoneStore s) (safeZones s) (warningSignStore s)
    (evacuatedResidents s) (warningSystemActivated s) (warningSignsFound s) (objectives
    s) (timers s) (log s).
Definition set_score (v : Z) (s : Session) : Session :=
  Build_Session (currentPhase s) v (startTime s) (accuracy s) (mistakes s) (houses s) (residentStore
    s) (residents s) (safeZoneStore s) (safeZones s) (warningSignStore s)
    (evacuatedResidents s) (warningSystemActivated s) (warningSignsFound s) (objectives
    s) (timers s) (log s).
Definition set_startTime (v : Q) (s : Session) : Session :=
  Build_Session (currentPhase s) (score s) v (accuracy s) (mistakes s) (houses s) (residentStore s)
    (residents s) (safeZoneStore s) (safeZones s) (warningSignStore s)
    (evacuatedResidents s) (warningSystemActivated s) (warningSignsFound s) (objectives
    s) (timers s) (log s).
Definition set_accuracy (v : Z) (s : Session) : Session :=
  Build_Session (currentPhase s) (score s) (startTime s) v (mistakes s) (houses s) (residentStore s)
    (residents s) (safeZoneStore s) (safeZones s) (warningSignStore s)
    (evacuatedResidents s) (warningSystemActivated s) (warningSignsFound s) (objectives
    s) (timers s) (log s).
Definition set_mistakes (v : nat) (s : Session) : Session :=
  Build_Session (currentPhase s) (score s) (startTime s) (accuracy s) v (houses s) (residentStore s)
    (residents s) (safeZoneStore s) (safeZones s) (warningSignStore s)
    (evacuatedResidents s) (warningSystemActivated s) (warningSignsFound s) (objectives
    s) (timers s) (log s).
Definition set_houses (v : list House) (s : Session) : Session :=
  Build_Session (currentPhase s) (score s) (startTime s) (accuracy s) (mistakes s) v (residentStore
    s) (residents s) (safeZoneStore s) (safeZones s) (warningSignStore s)
    (evacuatedResidents s) (warningSystemActivated s) (warningSignsFound s) (objectives
    s) (timers s) (log s).
Definition set_residentStore (v : list Resident.t) (s : Session) : Session :=
  Build_Session (currentPhase s) (score s) (startTime s) (accuracy s) (mistakes s) (houses s) v
    (residents s) (safeZoneStore s) (safeZones s) (warningSignStore s)
    (evacuatedResidents s) (warningSystemActivated s) (warningSignsFound s) (objectives
    s) (timers s) (log s).
Definition set_residents (v : list nat) (s : Session) : Session :=
  Build_Session (currentPhase s) (score s) (startTime s) (accuracy s) (mistakes s) (houses s)
    (residentStore s) v (safeZoneStore s) (safeZones s) (warningSignStore s)
    (evacuatedResidents s) (warningSystemActivated s) (warningSignsFound s) (objectives
    s) (timers s) (log s).
Definition set_safeZoneStore (v : list SafeZone.t) (s : Session) : Session :=
  Build_Session (currentPhase s) (score s) (startTime s) (accuracy s) (mistakes s) (houses s)
    (residentStore s) (residents s) v (safeZones s) (warningSignStore s)
    (evacuatedResidents s) (warningSystemActivated s) (warningSignsFound s) (objectives
    s) (timers s) (log s).
Definition set_safeZones (v : list nat) (s : Session) : Session :=
  Build_Session (currentPhase s) (score s) (startTime s) (accuracy s) (mistakes s) (houses s)
    (residentStore s) (residents s) (safeZoneStore s) v (warningSignStore s)
    (evacuatedResidents s) (warningSystemActivated s) (warningSignsFound s) (objectives
    s) (timers s) (log s).
Definition set_warningSignStore (v : list WarningSign) (s : Session) : Session :=
  Build_Session (currentPhase s) (score s) (startTime s) (accuracy s) (mistakes s) (houses s)
    (residentStore s) (residents s) (safeZoneStore s) (safeZones s) v
    (evacuatedResidents s) (warningSystemActivated s) (warningSignsFound s) (objectives
    s) (timers s) (log s).
Definition set_evacuatedResidents (v : nat) (s : Session) : Session :=
  Build_Session (currentPhase s) (score s) (startTime s) (accuracy s) (mistakes s) (houses s)
    (residentStore s) (residents s) (safeZoneStore s) (safeZones s) (warningSignStore s)
    v (warningSystemActivated s) (warningSignsFound s) (objectives s) (timers s) (log s).
Definition set_warningSystemActivated (v : bool) (s : Session) : Session :=
  Build_Session (currentPhase s) (score s) (startTime s) (accuracy s) (mistakes s) (houses s)
    (residentStore s) (residents s) (safeZoneStore s) (safeZones s) (warningSignStore s)
    (evacuatedResidents s) v (warningSignsFound s) (objectives s) (timers s) (log s).
Definition set_warningSignsFound (v : nat) (s : Session) : Session :=
  Build_Session (currentPhase s) (score s) (startTime s) (accuracy s) (mistakes s) (houses s)
    (residentStore s) (residents s) (safeZoneStore s) (safeZones s) (warningSignStore s)
    (evacuatedResidents s) (warningSystemActivated s) v (objectives s) (timers s) (log
    s).
Definition set_objectives (v : Objectives) (s : Session) : Session :=
  Build_Session (currentPhase s) (score s) (startTime s) (accuracy s) (mistakes s) (houses s)
    (residentStore s) (residents s) (safeZoneStore s) (safeZones s) (warningSignStore s)
    (evacuatedResidents s) (warningSystemActivated s) (warningSignsFound s) v (timers s)
    (log s).
Definition set_timers (v : list (Timer Callback)) (s : Session) : Session :=
  Build_Session (currentPhase s) (score s) (startTime s) (accuracy s) (mistakes s) (houses s)
    (residentStore s) (residents s) (safeZoneStore s) (safeZones s) (warningSignStore s)
    (evacuatedResidents s) (warningSystemActivated s) (warningSignsFound s) (objectives
    s) v (log s).
Definition set_log (v : list (Host.Effect Action)) (s : Session) : Session :=
  Build_Session (currentPhase s) (score s) (startTime s) (accuracy s) (mistakes s) (houses s)
    (residentStore s) (residents s) (safeZoneStore s) (safeZones s) (warningSignStore s)
    (evacuatedResidents s) (warningSystemActivated s) (warningSignsFound s) (objectives
    s) (timers s) v.
Definition set_identifyWarningSigns (v : bool) (s : Objectives) : Objectives :=
  Build_Objectives v (activateWarningSystem s) (evacuateResidents s) (reachSafeZone s) (avoidDangerZone
    s).
Definition set_activateWarningSystem (v : bool) (s : Objectives) : Objectives :=
  Build_Objectives (identifyWarningSigns s) v (evacuateResidents s) (reachSafeZone s) (avoidDangerZone
    s).
Definition set_evacuateResidents (v : bool) (s : Objectives) : Objectives :=
  Build_Objectives (identifyWarningSigns s) (activateWarningSystem s) v (reachSafeZone s)
    (avoidDangerZone s).
Definition set_avoidDangerZone (v : bool) (s : Objectives) : Objectives :=
  Build_Objectives (identifyWarningSigns s) (activateWarningSystem s) (evacuateResidents s)
    (reachSafeZone s) v.

Definition totalResidents : nat := 6.
Definition totalWarningSigns : nat := 13.

Definition phases : list Phase :=
  [ {| name := "warning_signs"; duration := 45000 |};
    {| name := "early_warning"; duration := 60000 |};
    {| name := "evacuation"; duration := 90000 |};
    {| name := "landslide_event"; duration := 30000 |} ].

(** The session as the constructor leaves it. *)
Definition new : Session :=
  {| currentPhase := 0; score := 0; startTime := 0; accuracy := 100; mistakes := 0;
     houses := []; residentStore := []; residents := []; safeZoneStore := []; safeZones := [];
     warningSignStore := [];
     evacuatedResidents := 0; warningSystemActivated := false; warningSignsFound := 0;
     objectives := {| identifyWarningSigns := false; activateWarningSystem := false;
                      evacuateResidents := false; reachSafeZone := false;
                      avoidDangerZone := false |};
     timers := []; log := [] |}.

Definition emit (e : Host.Effect Action) (s : Session) : Session :=
  set_log (log s ++ [e]) s.

Definition setTimeout (now : Q) (cb : Callback) (delay : Z) (s : Session) : Session :=
  set_timers (timers s ++ [{| due := (now + inject_Z delay)%Q; callback := cb |}]) s.

(** [this.game.showFeedback(title, ...)], then the rest [k] of the
    handler; without the method the handler ends here. *)
Definition feedback (host : Support) (title : string) (k : Session -> Session)
    (s : Session) : Session :=
  if showFeedback host then k (emit (Host.showFeedback title) s) else s.

(** [getHeightAtPosition(x, z)]. *)
Definition getHeightAtPosition (x z : Q) : Q :=
  let h := ((z + 40) * (3 # 10))%Q in
  if Qle_bool 0 h then h else 0.

Definition housePositions : list (Q * Q) :=
  [ (-20 # 1, 10 # 1); (-10 # 1, 15 # 1); (0, 20 # 1); (10 # 1, 25 # 1); (20 # 1, 30 # 1);
    (-15 # 1, 35 # 1) ]%Q.

(** [createHillsideHouses]; [engine.createBuilding(4, 6, 4, x, y, z)] puts
    the box at [6 / 2 + y]. *)
Definition createHillsideHouses (s : Session) : Session :=
  set_houses
    (houses s ++
     ((fun '(x, z) =>
         {| house_position := {| Vec3.x := x; Vec3.y := (6 / 2 + getHeightAtPosition x z)%Q;
                                 Vec3.z := z |};
            house_evacuated := false |}) <$> housePositions)) s.

Definition createResidents (s : Session) : Session :=
  let made :=
    imap (fun index house =>
            {| Resident.position :=
                 {| Vec3.x := (Vec3.x (house_position house) + 2)%Q;
                    Vec3.y := (Vec3.y (house_position house) - 3)%Q;
                    Vec3.z := (Vec3.z (house_position house) + 2)%Q |};
               Resident.house := index;
               Resident.evacuated := false;
               Resident.atRisk := true |}) (houses s) in
  let base := length (residentStore s) in
  let s := set_residentStore (residentStore s ++ made) s in
  set_residents (residents s ++ seq base (length made)) s.

Definition createSafeZones (s : Session) : Session :=
  let made :=
    (fun '(x, z) =>
       {| SafeZone.position := {| Vec3.x := x; Vec3.y := 0; Vec3.z := z |};
          SafeZone.evacuees := 0 |}) <$> [ (-40 # 1, -30 # 1); (40 # 1, -30 # 1) ]%Q in
  let base := length (safeZoneStore s) in
  let s := set_safeZoneStore (safeZoneStore s ++ made) s in
  set_safeZones (safeZones s ++ seq base (length made)) s.

(** [createWarningSigns]: three cracks, four tilting trees, six loose
    rocks, handed to the engine as interactive objects. *)
Definition createWarningSigns (s : Session) : Session :=
  set_warningSignStore
    (warningSignStore s
       ++ replicate 3 {| type := "ground_crack"; identified := false |}
       ++ replicate 4 {| type := "tilting_tree"; identified := false |}
       ++ replicate 6 {| type := "loose_rock"; identified := false |}) s.

Definition createHillsideScene (s : Session) : Session :=
  let s := createHillsideHouses s in
  let s := createResidents s in
  let s := createSafeZones s in
  createWarningSigns s.

Definition showWelcomeInstructions (s : Session) : Session :=
  emit (Host.showInstructions "Welcome to Landslide Safety Training" [dismiss]) s.

(** [Math.round] of an exact rational. *)
Definition round (q : Q) : Z := Qfloor (q + (1 # 2))%Q.

Definition showCompletionScreen (results : Results) (s : Session) : Session :=
  emit (Host.showInstructions ("Landslide Simulation Complete - " +:+ rating results)
          [restartSimulation; mainMenu]) s.

Definition completeSimulation (now : Q) (s : Session) : Session :=
  let endTime := now in
  let timeElapsed := round ((endTime - startTime s) / 1000)%Q in
  let objectiveBonus :=
    foldl (fun bonus (completed : bool) => if completed then bonus + 100 else bonus)
          0 (values (objectives s)) in
  let finalScore := score s + objectiveBonus in
  let rating :=
    if 800 <=? finalScore then "Excellent"
    else if 600 <=? finalScore then "Good"
    else if 400 <=? finalScore then "Fair"
    else "Needs Improvement" in
  showCompletionScreen
    {| finalScore := finalScore; resultAccuracy := accuracy s; timeElapsed := timeElapsed;
       rating := rating; resultObjectives := objectives s |} s.

Definition startWarningSignsPhase (s : Session) : Session :=
  emit (Host.showInstructions "Phase 1: Identify Warning Signs" [dismiss]) s.

Definition startEarlyWarningPhase (s : Session) : Session :=
  emit (Host.showInstructions "Phase 2: Early Warning System" [activateWarning]) s.

Definition showWarningInterface (s : Session) : Session :=
  let warningItems :=
    [ {| Host.item_id := "siren"; Host.item_text := "Emergency Siren"; Host.item_type := "warning" |};
      {| Host.item_id := "radio"; Host.item_text := "Radio Alert"; Host.item_type := "warning" |};
      {| Host.item_id := "phone"; Host.item_text := "Mobile Alert"; Host.item_type := "warning" |} ] in
  let warningZones :=
    [ {| Host.zone_id := "community"; Host.zone_text := "Alert Community";
         Host.accepts := ["warning"] |};
      {| Host.zone_id := "authorities"; Host.zone_text := "Notify Authorities";
         Host.accepts := ["warning"] |} ] in
  emit (Host.showDragDropPanel warningItems warningZones) s.

Definition startEvacuationPhase (s : Session) : Session :=
  let s := emit Host.hideDragDropPanel s in
  emit (Host.showInstructions "Phase 3: Evacuation" [dismiss]) s.

Definition startLandslideEvent (s : Session) : Session :=
  emit (Host.showInstructions "LANDSLIDE IN PROGRESS!" [takeCover]) s.

Definition startPhase (now : Q) (phaseIndex : nat) (s : Session) : Session :=
  if (length phases <=? phaseIndex)%nat then completeSimulation now s else
  match phases !! phaseIndex with
  | None => s
  | Some phase =>
      let s := set_currentPhase phaseIndex s in
      let s := emit (Host.updateProgress
                       (inject_Z (Z.of_nat phaseIndex) / inject_Z (Z.of_nat (length phases)) * 100)%Q) s in
      let s :=
        if String.eqb (name phase) "warning_signs" then startWarningSignsPhase s
        else if String.eqb (name phase) "early_warning" then startEarlyWarningPhase s
        else if String.eqb (name phase) "evacuation" then startEvacuationPhase s
        else if String.eqb (name phase) "landslide_event" then startLandslideEvent s
        else s in
      setTimeout now (autoAdvance phaseIndex) (duration phase) s
  end.

Definition start (now : Q) (s : Session) : Session :=
  let s := set_startTime now s in
  let s := createHillsideScene s in
  let s := startPhase now 0 s in
  showWelcomeInstructions s.

(** A call either returns or raises; both carry the session as the call
    leaves it. *)
Inductive Outcome :=
| returned (s : Session)
| raised (s : Session).

Definition state (o : Outcome) : Session :=
  match o with
  | returned s => s
  | raised s => s
  end.

(** [flashDanger] starts with [object.material.color.getHex()]. Every
    resident is the [THREE.Group] that [createPerson] returns, and a group
    has no [material]: the read raises a [TypeError] before anything is
    scheduled. *)
Definition flashDanger (object : nat) (s : Session) : Outcome :=
  raised s.

(** The lines [this.mistakes++] and [this.accuracy = Math.max(0, 100 -
    this.mistakes * 10)] come after the call of [flashDanger] and run only
    if it returns; the error of [flashDanger] ends [forEach] and the
    method. *)
Definition checkResidentSafety (s : Session) : Outcome :=
  let '(residentsInDanger, o) :=
    foldl (fun '(residentsInDanger, o) resident =>
             match o with
             | raised _ => (residentsInDanger, o)
             | returned acc =>
                 match residentStore acc !! resident with
                 | Some r =>
                     if negb (Resident.evacuated r) then
                       match flashDanger resident acc with
                       | returned acc =>
                           let acc := set_mistakes (mistakes acc + 1) acc in
                           let acc := set_accuracy
                                        (JS.max 0 (100 - Z.of_nat (mistakes acc) * 10)) acc in
                           ((residentsInDanger + 1)%nat, returned acc)
                       | raised acc => ((residentsInDanger + 1)%nat, raised acc)
                       end
                     else (residentsInDanger, o)
                 | None => (residentsInDanger, o)
                 end
             end)
          (0%nat, returned s) (residents s) in
  match o with
  | raised s => raised s
  | returned s =>
      if (residentsInDanger =? 0)%nat then
        let s := set_objectives (set_avoidDangerZone true (objectives s)) s in
        returned (set_score (score s + 300) s)
      else returned s
  end.

(** The debris of [engine.simulateLandslide] is in the scene only; an error
    of the safety check leaves the button closure that called this. *)
Definition simulateLandslide (s : Session) : Session :=
  state (checkResidentSafety s).

Definition onWarningSignClick (host : Support) (warningObject : nat) (s : Session) : Session :=
  match warningSignStore s !! warningObject with
  | Some o =>
      if negb (identified o) then
        let s := set_warningSignStore
                   (alter (set_identified true) warningObject (warningSignStore s)) s in
        let s := set_warningSignsFound (warningSignsFound s + 1) s in
        let s := set_score (score s + 10) s in
        feedback host "Warning Sign Identified!"
          (fun s =>
             if (5 <=? warningSignsFound s)%nat then
               let s := set_objectives (set_identifyWarningSigns true (objectives s)) s in
               let s := set_score (score s + 50) s in
               feedback host "Excellent! You've identified critical warning signs." (fun s => s) s
             else s) s
      else feedback host "Already Identified" (fun s => s) s
  | None => s
  end.

Definition activateWarningSystem' (host : Support) (s : Session) : Session :=
  if negb (warningSystemActivated s) then
    let s := set_warningSystemActivated true s in
    let s := set_objectives (set_activateWarningSystem true (objectives s)) s in
    let s := set_score (score s + 100) s in
    feedback host "Warning System Activated!" (fun s => s) s
  else s.

Definition findNearestSafeZone (position : Vec3.t) (s : Session) : option nat :=
  snd (foldl (fun '(minDistance, nearest) zone =>
                match safeZoneStore s !! zone with
                | Some o =>
                    let distance := Vec3.distanceToSquared position (SafeZone.position o) in
                    if match minDistance with
                       | Some m => JS.lt distance m
                       | None => true
                       end
                    then (Some distance, Some zone)
                    else (minDistance, nearest)
                | None => (minDistance, nearest)
                end)
             (None, None) (safeZones s)).

Definition evacuateResident (host : Support) (resident : nat) (s : Session) : Session :=
  match residentStore s !! resident with
  | Some o =>
      if negb (Resident.evacuated o) then
        let s := set_residentStore
                   (alter (Resident.set_evacuated true) resident (residentStore s)) s in
        let s := set_evacuatedResidents (evacuatedResidents s + 1) s in
        let s := match findNearestSafeZone (Resident.position o) s with
                 | Some nearestSafeZone =>
                     set_safeZoneStore
                       (alter (fun z => SafeZone.set_evacuees (SafeZone.evacuees z + 1) z)
                              nearestSafeZone (safeZoneStore s)) s
                 | None => s
                 end in
        let s := set_score (score s + 50) s in
        feedback host "Resident Evacuated"
          (fun s =>
             if (totalResidents <=? evacuatedResidents s)%nat then
               let s := set_objectives (set_evacuateResidents true (objectives s)) s in
               let s := set_score (score s + 200) s in
               feedback host "All Residents Safe!" (fun s => s) s
             else s) s
      else s
  | None => s
  end.

(** [restart]: when the engine has no [clearScene] the handler ends at
    that call, after the counters and the objectives were reset. *)
Definition restart (host : Support) (now : Q) (s : Session) : Session :=
  let s := set_currentPhase 0 s in
  let s := set_score 0 s in
  let s := set_accuracy 100 s in
  let s := set_mistakes 0 s in
  let s := set_evacuatedResidents 0 s in
  let s := set_warningSystemActivated false s in
  let s := set_warningSignsFound 0 s in
  let s := set_objectives
             {| identifyWarningSigns := false; activateWarningSystem := false;
                evacuateResidents := false; reachSafeZone := false;
                avoidDangerZone := false |} s in
  if clearScene host then
    let s := set_houses [] s in
    let s := set_residents [] s in
    let s := set_safeZones [] s in
    start now s
  else s.

Definition onDragDropComplete (host : Support) (now : Q) (item : Host.Item) (zone : Host.Zone)
    (s : Session) : Session :=
  if String.eqb (Host.zone_id zone) "community" || String.eqb (Host.zone_id zone) "authorities" then
    if String.eqb (Host.item_type item) "warning" then
      let s := set_score (score s + 25) s in
      feedback host "Alert Sent!" (fun s => setTimeout now activateAfterDrop 1000 s) s
    else s
  else s.

(** The body of each closure handed to [setTimeout]. *)
Definition runCallback (host : Support) (now : Q) (cb : Callback) (s : Session) : Session :=
  match cb with
  | autoAdvance phaseIndex =>
      if (currentPhase s =? phaseIndex)%nat then startPhase now (phaseIndex + 1) s else s
  | activateAfterDrop => activateWarningSystem' host s
  end.

(** The body of each button closure. *)
Definition runAction (host : Support) (now : Q) (a : Action) (s : Session) : Session :=
  match a with
  | dismiss => emit Host.hideInstructions s
  | activateWarning => showWarningInterface (emit Host.hideInstructions s)
  | takeCover => simulateLandslide (emit Host.hideInstructions s)
  | restartSimulation => restart host now s
  | mainMenu => if returnToMenu host then emit Host.returnToMenu s else s
  end.

(** Everything that can run a piece of the session. The module has no
    [reset] and no [cleanup]: the host's calls of them raise and change
    nothing. *)
Inductive Event :=
| Start
| WarningSignClick (warningObject : nat)
| WarningSystemClick
| ResidentClick (resident : nat)
| DragDropComplete (item : Host.Item) (zone : Host.Zone)
| Press (a : Action)
| Fire (k : nat)
| Animate (resident : nat) (position : Vec3.t).

Definition step (host : Support) (now : Q) (e : Event) (s : Session) : Session :=
  match e with
  | Start => start now s
  | WarningSignClick warningObject => onWarningSignClick host warningObject s
  | WarningSystemClick => activateWarningSystem' host s
  | ResidentClick resident => evacuateResident host resident s
  | DragDropComplete item zone => onDragDropComplete host now item zone s
  | Press a => runAction host now a s
  | Fire k =>
      match timers s !! k with
      | Some t => runCallback host now (callback t) (set_timers (delete k (timers s)) s)
      | None => s
      end
  | Animate resident position =>
      set_residentStore (alter (Resident.set_position position) resident (residentStore s)) s
  end.

End Landslide.

(** ** The player profile ([playerData], [playerStats]) *)
Module Player.

(** An entry of [completedSimulations]; [timeElapsed = None] is an entry
    without that key. *)
Record Completion := {
  completed : bool;
  score : Z;
  timeBonus : Z;
  accuracy : Z;
  completedAt : string;
  timeElapsed : option Z }.

Record t := {
  totalScore : Z;
  level : Z;
  badges : list string;
  completedSimulations : gmap string Completion }.

Definition set_totalScore (v : Z) (p : t) : t :=
  Build_t v (level p) (badges p) (completedSimulations p).
Definition set_level (v : Z) (p : t) : t :=
  Build_t (totalScore p) v (badges p) (completedSimulations p).
Definition set_badges (v : list string) (p : t) : t :=
  Build_t (totalScore p) (level p) v (completedSimulations p).
Definition set_completedSimulations (v : gmap string Completion) (p : t) : t :=
  Build_t (totalScore p) (level p) (badges p) v.

(** The profile of a new player. *)
Definition new : t :=
  {| totalScore := 0; level := 1; badges := []; completedSimulations := ∅ |}.

End Player.

(** ** Badges ([BadgeSystem]) *)
Module BadgeSystem.

(** The [requirements] object of a badge; [None] is an absent key. *)
Record Requirements := {
  completeSimulation : option string;
  minScore : option Z;
  maxTime : option Z;
  completeAllSimulations : option bool;
  totalScore : option Z;
  completeAnyIn : option Z;
  perfectAccuracy : option bool;
  evacuateAll : option bool;
  completeTutorials : option Z }.

Definition noRequirements : Requirements :=
  {| completeSimulation := None; minScore := None; maxTime := None;
     completeAllSimulations := None; totalScore := None; completeAnyIn := None;
     perfectAccuracy := None; evacuateAll := None; completeTutorials := None |}.

Record Badge := { id : string; name : string; requirements : Requirements }.

(** [this.badges], keys in insertion order. *)
Definition badges : list (string * Badge) :=
  [ ("earthquake",
     {| id := "earthquake"; name := "Earthquake Expert";
        requirements := {| completeSimulation := Some "earthquake"; minScore := Some 500;
                           maxTime := Some 900; completeAllSimulations := None;
                           totalScore := None; completeAnyIn := None; perfectAccuracy := None;
                           evacuateAll := None; completeTutorials := None |} |});
    ("landslide",
     {| id := "landslide"; name := "Landslide Guardian";
        requirements := {| completeSimulation := Some "landslide"; minScore := Some 600;
                           maxTime := Some 1200; completeAllSimulations := None;
                           totalScore := None; completeAnyIn := None; perfectAccuracy := None;
                           evacuateAll := None; completeTutorials := None |} |});
    ("flood",
     {| id := "flood"; name := "Flood Hero";
        requirements := {| completeSimulation := Some "flood"; minScore := Some 700;
                           maxTime := Some 1500; completeAllSimulations := None;
                           totalScore := None; completeAnyIn := None; perfectAccuracy := None;
                           evacuateAll := None; completeTutorials := None |} |});
    ("master",
     {| id := "master"; name := "Disaster Master";
        requirements := {| completeSimulation := None; minScore := None; maxTime := None;
                           completeAllSimulations := Some true; totalScore := Some 2000;
                           completeAnyIn := None; perfectAccuracy := None;
                           evacuateAll := None; completeTutorials := None |} |});
    ("speedRunner",
     {| id := "speedRunner"; name := "Quick Response";
        requirements := {| completeSimulation := None; minScore := None; maxTime := None;
                           completeAllSimulations := None; totalScore := None;
                           completeAnyIn := Some 300; perfectAccuracy := None;
                           evacuateAll := None; completeTutorials := None |} |});
    ("perfectionist",
     {| id := "perfectionist"; name := "Perfect Score";
        requirements := {| completeSimulation := None; minScore := None; maxTime := None;
                           completeAllSimulations := None; totalScore := None;
                           completeAnyIn := None; perfectAccuracy := Some true;
                           evacuateAll := None; completeTutorials := None |} |});
    ("lifeSaver",
     {| id := "lifeSaver"; name := "Life Saver";
        requirements := {| completeSimulation := None; minScore := None; maxTime := None;
                           completeAllSimulations := None; totalScore := None;
                           completeAnyIn := None; perfectAccuracy := None;
                           evacuateAll := Some true; completeTutorials := None |} |});
    ("educator",
     {| id := "educator"; name := "Disaster Educator";
        requirements := {| completeSimulation := None; minScore := None; maxTime := None;
                           completeAllSimulations := None; totalScore := None;
                           completeAnyIn := None; perfectAccuracy := None;
                           evacuateAll := None; completeTutorials := Some 3 |} |}) ].

(** [this.badges[key]] for a key that is not inherited from
    [Object.prototype] ([JS.inheritedKey]); [None] is [undefined]. For an
    inherited key the code gets a function or the prototype, which is truthy
    and has no [requirements]: the methods that go on to read the
    requirements raise. *)
Definition badge (key : string) : option Badge :=
  snd <$> List.find (fun kv => String.eqb (fst kv) key) badges.

Definition getBadgeForDisaster (disasterType : string) : option Badge := badge disasterType.

(** Truth value of an optional number, string or boolean. *)
Definition truthyNumber (v : option Z) : bool :=
  match v with Some n => negb (n =? 0) | None => false end.
Definition truthyString (v : option string) : bool :=
  match v with Some s => negb (String.eqb s EmptyString) | None => false end.
Definition truthyBool (v : option bool) : bool := default false v.

(** [a > b] and [a <= b] when [a] may be [undefined]: a comparison with
    [undefined] is false. *)
Definition gtUndefined (a : option Z) (b : Z) : bool :=
  match a with Some a => b <? a | None => false end.
Definition leUndefined (a : option Z) (b : Z) : bool :=
  match a with Some a => a <=? b | None => false end.

(** [Object.values(playerStats.completedSimulations)]. *)
Definition completions (playerStats : Player.t) : list Player.Completion :=
  snd <$> map_to_list (Player.completedSimulations playerStats).

(** The blocks of [checkBadgeRequirements]: each tells whether the block
    falls through (true) or returns false. *)
Definition passesSimulation (req : Requirements) (playerStats : Player.t) : bool :=
  if truthyString (completeSimulation req) then
    match Player.completedSimulations playerStats !! default EmptyString (completeSimulation req) with
    | None => false
    | Some simulation =>
        if negb (Player.completed simulation) then false
        else if truthyNumber (minScore req) && (Player.score simulation <? default 0 (minScore req)) then false
        else if truthyNumber (maxTime req)
                && gtUndefined (Player.timeElapsed simulation) (default 0 (maxTime req)) then false
        else true
    end
  else true.

Definition passesAllSimulations (req : Requirements) (playerStats : Player.t) : bool :=
  if truthyBool (completeAllSimulations req) then
    forallb (fun sim =>
               match Player.completedSimulations playerStats !! sim with
               | Some c => Player.completed c
               | None => false
               end) ["earthquake"; "landslide"; "flood"]
  else true.

Definition passesTotalScore (req : Requirements) (playerStats : Player.t) : bool :=
  negb (truthyNumber (totalScore req)
        && (Player.totalScore playerStats <? default 0 (totalScore req))).

Definition passesSpeed (req : Requirements) (playerStats : Player.t) : bool :=
  if truthyNumber (completeAnyIn req) then
    existsb (fun sim => leUndefined (Player.timeElapsed sim) (default 0 (completeAnyIn req)))
            (completions playerStats)
  else true.

Definition passesAccuracy (req : Requirements) (playerStats : Player.t) : bool :=
  if truthyBool (perfectAccuracy req) then
    existsb (fun sim => 100 <=? Player.accuracy sim) (completions playerStats)
  else true.

(** The body of [checkBadgeRequirements] once the badge is found. *)
Definition checkRequirements (req : Requirements) (playerStats : Player.t) : bool :=
  if negb (passesSimulation req playerStats) then false
  else if negb (passesAllSimulations req playerStats) then false
  else if negb (passesTotalScore req playerStats) then false
  else if negb (passesSpeed req playerStats) then false
  else if negb (passesAccuracy req playerStats) then false
  else true.

Definition checkBadgeRequirements (badgeId : string) (playerStats : Player.t) : bool :=
  match badge badgeId with
  | None => false
  | Some b => checkRequirements (requirements b) playerStats
  end.

(** [getEarnedBadges], as the list of the ids. *)
Definition getEarnedBadges (playerStats : Player.t) : list string :=
  List.filter (fun badgeId => checkBadgeRequirements badgeId playerStats) (fst <$> badges).

(** [obj[key]] for a key that may be [undefined]: the property name is the
    string form of the key. *)
Definition propertyKey (key : option string) : string := default "undefined" key.

(** The counting part of [calculateBadgeProgress]: the requirements met
    and the requirements counted. *)
Definition countProgress (req : Requirements) (playerStats : Player.t) : nat * nat :=
  let progress := 0%nat in
  let totalRequirements := 0%nat in
  let simulation := Player.completedSimulations playerStats !! propertyKey (completeSimulation req) in
  let '(progress, totalRequirements) :=
    if truthyString (completeSimulation req) then
      (match simulation with
       | Some sim => if Player.completed sim then S progress else progress
       | None => progress
       end, S totalRequirements)
    else (progress, totalRequirements) in
  let '(progress, totalRequirements) :=
    if truthyNumber (minScore req) then
      (match simulation with
       | Some sim => if default 0 (minScore req) <=? Player.score sim then S progress else progress
       | None => progress
       end, S totalRequirements)
    else (progress, totalRequirements) in
  let '(progress, totalRequirements) :=
    if truthyNumber (maxTime req) then
      (match simulation with
       | Some sim => if leUndefined (Player.timeElapsed sim) (default 0 (maxTime req))
                     then S progress else progress
       | None => progress
       end, S totalRequirements)
    else (progress, totalRequirements) in
  if truthyBool (completeAllSimulations req) then
    (foldl (fun progress sim =>
              match Player.completedSimulations playerStats !! sim with
              | Some c => if Player.completed c then S progress else progress
              | None => progress
              end) progress ["earthquake"; "landslide"; "flood"],
     (totalRequirements + 3)%nat)
  else (progress, totalRequirements).

(** [calculateBadgeProgress]: a percentage. *)
Definition calculateBadgeProgress (badgeId : string) (playerStats : Player.t) : Q :=
  match badge badgeId with
  | None => 0
  | Some b =>
      let '(progress, totalRequirements) := countProgress (requirements b) playerStats in
      if (0 <? totalRequirements)%nat
      then (inject_Z (Z.of_nat progress) / inject_Z (Z.of_nat totalRequirements) * 100)%Q
      else 0
  end.

Definition getAllBadges : list Badge := snd <$> badges.

(** [verifyBadgeEligibility]. *)
Definition verifyBadgeEligibility (badgeId : string) (playerStats : Player.t) : bool :=
  checkBadgeRequirements badgeId playerStats.

(** The record built by [getOverallProgress]. *)
Record OverallProgress := {
  badgeProgress : Q;
  simulationProgress : Q;
  overallProgress : Q }.

(** Number of entries of [completedSimulations] whose [completed] is set. *)
Definition completedCount (playerStats : Player.t) : nat :=
  length (List.filter Player.completed (completions playerStats)).

Definition getOverallProgress (playerStats : Player.t) : OverallProgress :=
  let totalBadges := length badges in
  let earnedBadges := length (getEarnedBadges playerStats) in
  let totalSimulations := 3%nat in
  let completedSimulations := completedCount playerStats in
  {| badgeProgress :=
       (inject_Z (Z.of_nat earnedBadges) / inject_Z (Z.of_nat totalBadges) * 100)%Q;
     simulationProgress :=
       (inject_Z (Z.of_nat completedSimulations) / inject_Z (Z.of_nat totalSimulations) * 100)%Q;
     overallProgress :=
       (inject_Z (Z.of_nat (earnedBadges + completedSimulations))
        / inject_Z (Z.of_nat (totalBadges + totalSimulations)) * 100)%Q |}.

(** [completions.reduce((sum, sim) => sum + sim.field, 0) / completions.length]:
    [None] is [NaN], which a missing field or an empty list gives. *)
Definition average (field : Player.Completion -> option Z) (completions : list Player.Completion) :
    option Q :=
  let sum := foldl (fun sum sim =>
                      match sum, field sim with
                      | Some a, Some b => Some (a + b)
                      | _, _ => None
                      end) (Some 0) completions in
  match sum, completions with
  | Some a, _ :: _ => Some (inject_Z a / inject_Z (Z.of_nat (length completions)))%Q
  | _, _ => None
  end.

(** [a < b] and [a > b] when [a] may be [NaN]. *)
Definition ltNaN (a : option Q) (b : Q) : bool :=
  match a with Some a => JS.lt a b | None => false end.
Definition gtNaN (a : option Q) (b : Q) : bool :=
  match a with Some a => JS.gt a b | None => false end.

Definition getPlayerStrengths (playerStats : Player.t) : list string :=
  let strengths := [] in
  let completions := completions playerStats in
  let avgTime := average Player.timeElapsed completions in
  let strengths := if ltNaN avgTime 600 then strengths ++ ["Quick Decision Making"] else strengths in
  let avgScore := average (fun sim => Some (Player.score sim)) completions in
  let strengths := if gtNaN avgScore 700 then strengths ++ ["Excellent Safety Knowledge"]
                   else strengths in
  let avgAccuracy := average (fun sim => Some (Player.accuracy sim)) completions in
  let strengths := if gtNaN avgAccuracy 85 then strengths ++ ["High Accuracy"] else strengths in
  if (0 <? length strengths)%nat then strengths else ["Dedicated Learner"].

Definition tryMessage (disaster : string) : string :=
  "Try the " +:+ disaster +:+ " simulation to expand your knowledge".
Definition reviewMessage (disaster : string) : string :=
  "Review " +:+ disaster +:+ " safety protocols to improve accuracy".

Definition getRecommendations (playerStats : Player.t) : list string :=
  let recommendations := [] in
  let completions := completions playerStats in
  let recommendations :=
    foldl (fun recommendations disaster =>
             match Player.completedSimulations playerStats !! disaster with
             | Some sim =>
                 if negb (Player.completed sim) then recommendations ++ [tryMessage disaster]
                 else if Player.accuracy sim <? 75 then recommendations ++ [reviewMessage disaster]
                 else recommendations
             | None => recommendations ++ [tryMessage disaster]
             end) recommendations ["earthquake"; "landslide"; "flood"] in
  let recommendations :=
    if (0 <? length completions)%nat then
      let avgAccuracy := average (fun sim => Some (Player.accuracy sim)) completions in
      if ltNaN avgAccuracy 80
      then recommendations ++ ["Take time to read instructions carefully"]
      else recommendations
    else recommendations in
  if (length recommendations =? 0)%nat
  then recommendations ++ ["Great job! Try helping others learn disaster preparedness"]
  else recommendations.

(** The record built by [generatePlayerReport]. *)
Record PlayerReport := {
  report_totalScore : Z;
  report_level : Z;
  badgesEarned : nat;
  totalBadges : nat;
  simulationsCompleted : nat;
  totalSimulations : nat;
  report_overallProgress : Q;
  strengths : list string;
  recommendations : list string }.

Definition generatePlayerReport (playerStats : Player.t) : PlayerReport :=
  let progress := getOverallProgress playerStats in
  let earnedBadges := getEarnedBadges playerStats in
  {| report_totalScore := Player.totalScore playerStats;
     report_level := Player.level playerStats;
     badgesEarned := length earnedBadges;
     totalBadges := length badges;
     simulationsCompleted := completedCount playerStats;
     totalSimulations := 3;
     report_overallProgress := overallProgress progress;
     strengths := getPlayerStrengths playerStats;
     recommendations := getRecommendations playerStats |}.

End BadgeSystem.

(** ** The parent controller ([DisasterSimGame]) *)
Module Game.

Import BadgeSystem.

(** [completeSimulation(results)] on the profile; [date] is the time
    stamp of the moment. For a [disaster] without a badge the method
    raises at [badge.id], after the score, the entry and the level were
    written. *)
Definition completeSimulation (date : string) (results : Host.Result)
    (playerData : Player.t) : Player.t :=
  let score := Host.score results in
  let timeBonus := Host.timeBonus results in
  let accuracy := Host.accuracy results in
  let disaster := Host.disaster results in
  let playerData := Player.set_totalScore (Player.totalScore playerData + (score + timeBonus))
                      playerData in
  let playerData :=
    Player.set_completedSimulations
      (<[disaster := {| Player.completed := true; Player.score := score;
                        Player.timeBonus := timeBonus; Player.accuracy := accuracy;
                        Player.completedAt := date; Player.timeElapsed := None |}]>
         (Player.completedSimulations playerData)) playerData in
  let newLevel := Player.totalScore playerData / 1000 + 1 in
  let playerData := if Player.level playerData <? newLevel then Player.set_level newLevel playerData
                    else playerData in
  match getBadgeForDisaster disaster with
  | None => playerData
  | Some badge =>
      let playerData :=
        if negb (JS.includes (Player.badges playerData) (id badge))
        then Player.set_badges (Player.badges playerData ++ [id badge]) playerData
        else playerData in
      let allDisasters := ["earthquake"; "landslide"; "flood"] in
      let completedAll :=
        forallb (fun d => bool_decide (is_Some (Player.completedSimulations playerData !! d)))
                allDisasters in
      if completedAll && negb (JS.includes (Player.badges playerData) "master")
      then Player.set_badges (Player.badges playerData ++ ["master"]) playerData
      else playerData
  end.

(** The session the controller drives. *)
Inductive SimulationModule :=
| earthquake (s : Earthquake.Session)
| landslide (s : Landslide.Session)
| flood (s : Flood.Session).

(** The controller: the profile, the running session and what the
    matching panel shows. *)
Record t := {
  playerData : Player.t;
  simulationModule : option SimulationModule;
  draggableItems : list Host.Item;
  dropZones : list Host.Zone }.

(** The host's side of one call made by a session. *)
Definition handle {A} (date : string) (e : Host.Effect A) (g : t) : t :=
  match e with
  | Host.showDragDropPanel items zones =>
      {| playerData := playerData g; simulationModule := simulationModule g;
         draggableItems := items; dropZones := zones |}
  | Host.completeSimulation results =>
      {| playerData := completeSimulation date results (playerData g);
         simulationModule := simulationModule g;
         draggableItems := draggableItems g; dropZones := dropZones g |}
  | _ => g
  end.

Definition set_simulationModule (m : option SimulationModule) (g : t) : t :=
  {| playerData := playerData g; simulationModule := m;
     draggableItems := draggableItems g; dropZones := dropZones g |}.

(** A piece of the earthquake session runs: the calls it made reach the
    host in order. *)
Definition runEarthquake (date : string) (f : Earthquake.Session -> Earthquake.Session)
    (s : Earthquake.Session) (g : t) : t :=
  let s' := f (Earthquake.set_log [] s) in
  foldl (fun g e => handle date e g) (set_simulationModule (Some (earthquake s')) g)
        (Earthquake.log s').

Definition runFlood (date : string) (f : Flood.Session -> Flood.Session)
    (s : Flood.Session) (g : t) : t :=
  let s' := f (Flood.set_log [] s) in
  foldl (fun g e => handle date e g) (set_simulationModule (Some (flood s')) g)
        (Flood.log s').

Definition runLandslide (date : string) (f : Landslide.Session -> Landslide.Session)
    (s : Landslide.Session) (g : t) : t :=
  let s' := f (Landslide.set_log [] s) in
  foldl (fun g e => handle date e g) (set_simulationModule (Some (landslide s')) g)
        (Landslide.log s').

(** [draggedElement.remove()]: the first element of that id leaves the
    panel. *)
Fixpoint removeElement (draggedId : string) (items : list Host.Item) : list Host.Item :=
  match items with
  | [] => []
  | item :: rest =>
      if String.eqb (Host.item_id item) draggedId then rest
      else item :: removeElement draggedId rest
  end.

(** The [drop] listener of a zone of the matching panel.
    [document.querySelector] returns the first element of the page whose
    [data-id] is the dragged id: the elements that carry one are the items
    and then the zones of the panel. A zone element has no [data-type]:
    when the id names a zone and no item, [accepts.includes(undefined)] is
    false and the drop is an incorrect one. Only the earthquake session
    defines [onCorrectDrop] and [onIncorrectDrop]. *)
Definition drop (date : string) (draggedId : string) (zone : Host.Zone) (g : t) : t :=
  match List.find (fun item => String.eqb (Host.item_id item) draggedId) (draggableItems g) with
  | None =>
      match List.find (fun z => String.eqb (Host.zone_id z) draggedId) (dropZones g) with
      | None => g
      | Some _ =>
          match simulationModule g with
          | Some (earthquake s) =>
              runEarthquake date (Earthquake.onIncorrectDrop draggedId (Host.zone_id zone)) s g
          | _ => g
          end
      end
  | Some draggedElement =>
      let isCorrect := JS.includes (Host.accepts zone) (Host.item_type draggedElement) in
      if isCorrect then
        let g := {| playerData := playerData g; simulationModule := simulationModule g;
                    draggableItems := removeElement draggedId (draggableItems g);
                    dropZones := dropZones g |} in
        match simulationModule g with
        | Some (earthquake s) =>
            runEarthquake date (Earthquake.onCorrectDrop draggedId (Host.zone_id zone)) s g
        | _ => g
        end
      else
        match simulationModule g with
        | Some (earthquake s) =>
            runEarthquake date (Earthquake.onIncorrectDrop draggedId (Host.zone_id zone)) s g
        | _ => g
        end
  end.

(** [resetSimulation]: the landslide session has no [reset], the call
    raises. *)
Definition resetSimulation (date : string) (now : Q) (g : t) : t :=
  match simulationModule g with
  | Some (earthquake s) => runEarthquake date (Earthquake.reset now) s g
  | Some (flood s) => runFlood date (Flood.reset now) s g
  | Some (landslide s) => g
  | None => g
  end.

End Game.

(** ** The two-dimensional escape game (tail of [game-engine.js]) *)
Module Canvas.

(** The player's position and speed and the heights of the debris are
    multiples of a quarter far below [2^53], on which the arithmetic of
    doubles is exact; what depends on a [Math.random()] (the spawn test, the
    abscissa of a piece and its right edge, the shake) is rounded with
    [JS.double], operation by operation. [Date.now()] and every
    [Math.random()], a double, are inputs. *)
Definition CANVAS_WIDTH : Q := 800.
Definition CANVAS_HEIGHT : Q := 600.
Definition PLAYER_WIDTH : Q := 50.
Definition PLAYER_HEIGHT : Q := 50.
Definition PLAYER_SPEED : Q := 5.
Definition JUMP_SPEED : Q := 15.
Definition GRAVITY : Q := 1 # 2.
Definition DEBRIS_SPEED : Q := 3.
Definition DEBRIS_SPAWN_RATE : Q := 60.
Definition TIME_LIMIT : Z := 10000.
Definition MAX_LIVES : Z := 3.
Definition SHAKE_INTENSITY : Q := 5.
Definition TABLE_WIDTH : Q := 100.
Definition TABLE_HEIGHT : Q := 50.

Record Player := { x : Q; y : Q; vx : Q; vy : Q; onGround : bool }.

Definition set_x (v : Q) (p : Player) : Player := Build_Player v (y p) (vx p) (vy p) (onGround p).
Definition set_y (v : Q) (p : Player) : Player := Build_Player (x p) v (vx p) (vy p) (onGround p).
Definition set_vy (v : Q) (p : Player) : Player := Build_Player (x p) (y p) (vx p) v (onGround p).
Definition set_onGround (v : bool) (p : Player) : Player :=
  Build_Player (x p) (y p) (vx p) (vy p) v.

(** A rectangle of the canvas: each piece of debris and the table, which has
    no speed of its own (its field is 0 and never read). *)
Record Box := { box_x : Q; box_y : Q; width : Q; height : Q; speed : Q }.

Definition set_box_y (v : Q) (b : Box) : Box :=
  Build_Box (box_x b) v (width b) (height b) (speed b).

Inductive GameState := playing | win | lose.

Inductive Screen :=
| scene
| result (text : string).

(** The readings a frame takes: [Date.now()], then the [Math.random()] of
    the spawn test, of the spawn position and of the two shake offsets. *)
Record Frame := { date : Z; spawnRoll : Q; spawnX : Q; shakeX : Q; shakeY : Q }.

Record Game := {
  gameState : GameState;
  startTime : Z;
  lives : Z;
  score : Z;
  shakeOffsetX : Q;
  shakeOffsetY : Q;
  debris : list Box;
  keys : gmap string bool;
  player : Player;
  table : Box;
  menu : bool;
  info : string;
  screen : Screen;
  frameRequested : bool }.

Definition set_gameState (v : GameState) (g : Game) : Game :=
  Build_Game v (startTime g) (lives g) (score g) (shakeOffsetX g) (shakeOffsetY g) (debris g)
    (keys g) (player g) (table g) (menu g) (info g) (screen g) (frameRequested g).
Definition set_lives (v : Z) (g : Game) : Game :=
  Build_Game (gameState g) (startTime g) v (score g) (shakeOffsetX g) (shakeOffsetY g) (debris g)
    (keys g) (player g) (table g) (menu g) (info g) (screen g) (frameRequested g).
Definition set_score (v : Z) (g : Game) : Game :=
  Build_Game (gameState g) (startTime g) (lives g) v (shakeOffsetX g) (shakeOffsetY g) (debris g)
    (keys g) (player g) (table g) (menu g) (info g) (screen g) (frameRequested g).
Definition set_shake (vx vy : Q) (g : Game) : Game :=
  Build_Game (gameState g) (startTime g) (lives g) (score g) vx vy (debris g)
    (keys g) (player g) (table g) (menu g) (info g) (screen g) (frameRequested g).
Definition set_debris (v : list Box) (g : Game) : Game :=
  Build_Game (gameState g) (startTime g) (lives g) (score g) (shakeOffsetX g) (shakeOffsetY g) v
    (keys g) (player g) (table g) (menu g) (info g) (screen g) (frameRequested g).
Definition set_keys (v : gmap string bool) (g : Game) : Game :=
  Build_Game (gameState g) (startTime g) (lives g) (score g) (shakeOffsetX g) (shakeOffsetY g)
    (debris g) v (player g) (table g) (menu g) (info g) (screen g) (frameRequested g).
Definition set_player (v : Player) (g : Game) : Game :=
  Build_Game (gameState g) (startTime g) (lives g) (score g) (shakeOffsetX g) (shakeOffsetY g)
    (debris g) (keys g) v (table g) (menu g) (info g) (screen g) (frameRequested g).
Definition set_menu (v : bool) (g : Game) : Game :=
  Build_Game (gameState g) (startTime g) (lives g) (score g) (shakeOffsetX g) (shakeOffsetY g)
    (debris g) (keys g) (player g) (table g) v (info g) (screen g) (frameRequested g).
Definition set_info (v : string) (g : Game) : Game :=
  Build_Game (gameState g) (startTime g) (lives g) (score g) (shakeOffsetX g) (shakeOffsetY g)
    (debris g) (keys g) (player g) (table g) (menu g) v (screen g) (frameRequested g).
Definition set_screen (v : Screen) (g : Game) : Game :=
  Build_Game (gameState g) (startTime g) (lives g) (score g) (shakeOffsetX g) (shakeOffsetY g)
    (debris g) (keys g) (player g) (table g) (menu g) (info g) v (frameRequested g).
Definition set_frameRequested (v : bool) (g : Game) : Game :=
  Build_Game (gameState g) (startTime g) (lives g) (score g) (shakeOffsetX g) (shakeOffsetY g)
    (debris g) (keys g) (player g) (table g) (menu g) (info g) (screen g) v.

(** [keys[k]] as a condition: an absent key is [undefined]. *)
Definition pressed (k : string) (g : Game) : bool := default false (keys g !! k).

(** Template-literal rendering of an integer. *)
Definition number (z : Z) : string := NilZero.string_of_int (Z.to_int z).

Definition infoLine (lives score timeLeft : Z) : string :=
  "Lives: " +:+ number lives +:+ " | Score: " +:+ number score
    +:+ " | Time: " +:+ number timeLeft +:+ "s".

(** The rectangle test written out twice in [update], for a piece of
    debris and for the table. *)
Definition overlaps (p : Player) (b : Box) : bool :=
  JS.lt (x p) (JS.double (box_x b + width b))
  && JS.gt (x p + PLAYER_WIDTH) (box_x b)
  && JS.lt (y p) (box_y b + height b)
  && JS.gt (y p + PLAYER_HEIGHT) (box_y b).

(** The player's part of [update], given which of the keys to the left,
    to the right and for a jump are held: keys, gravity, ground and
    boundaries. *)
Definition move (left right up : bool) (p : Player) : Player :=
  let p := if left then set_x (x p - PLAYER_SPEED) p else p in
  let p := if right then set_x (x p + PLAYER_SPEED) p else p in
  let p := if up && onGround p then set_onGround false (set_vy (- JUMP_SPEED) p) else p in
  let p := set_vy (vy p + GRAVITY) p in
  let p := set_y (y p + vy p) p in
  let p := if JS.ge (y p) (CANVAS_HEIGHT - PLAYER_HEIGHT)
           then set_onGround true (set_vy 0 (set_y (CANVAS_HEIGHT - PLAYER_HEIGHT) p)) else p in
  let p := if JS.lt (x p) 0 then set_x 0 p else p in
  let p := if JS.gt (x p) (CANVAS_WIDTH - PLAYER_WIDTH)
           then set_x (CANVAS_WIDTH - PLAYER_WIDTH) p else p in
  p.

Definition movePlayer (g : Game) : Player :=
  move (pressed "ArrowLeft" g || pressed "a" g)
       (pressed "ArrowRight" g || pressed "d" g)
       (pressed "ArrowUp" g || pressed "w" g || pressed " " g)
       (player g).

(** One call of the callback of [debris.filter]: the piece falls, then is
    dropped when below the canvas or when it hits the player, which costs
    a life. *)
Definition fall (p : Player) (acc : Z * GameState * list Box) (obs : Box)
    : Z * GameState * list Box :=
  let '(lives, gameState, kept) := acc in
  let obs := set_box_y (box_y obs + speed obs) obs in
  if JS.gt (box_y obs) CANVAS_HEIGHT then (lives, gameState, kept)
  else if overlaps p obs then
    let lives := lives - 1 in
    (lives, if lives <=? 0 then lose else gameState, kept)
  else (lives, gameState, kept ++ [obs]).

Definition update (f : Frame) (g : Game) : Game :=
  let elapsed := date f - startTime g in
  let timeLeft := JS.max 0 (JS.floor (inject_Z (TIME_LIMIT - elapsed) / 1000)) in
  let g := set_player (movePlayer g) g in
  let g := if JS.lt (JS.double (spawnRoll f * 100)) (DEBRIS_SPAWN_RATE / 60)
           then set_debris
                  (debris g ++
                     [{| box_x := JS.double (spawnX f * (CANVAS_WIDTH - 50)); box_y := -50;
                         width := 50; height := 50; speed := DEBRIS_SPEED |}]) g
           else g in
  let '(lives', gameState', kept) :=
    foldl (fall (player g)) (lives g, gameState g, []) (debris g) in
  let g := set_debris kept (set_gameState gameState' (set_lives lives' g)) in
  let g := if overlaps (player g) (table g) then set_gameState win g else g in
  let g := if TIME_LIMIT <=? elapsed then set_gameState lose g else g in
  let g := set_info (infoLine (lives g) (score g) timeLeft) g in
  let g := set_shake (JS.double (JS.double (shakeX f - (1 # 2)) * SHAKE_INTENSITY))
             (JS.double (JS.double (shakeY f - (1 # 2)) * SHAKE_INTENSITY)) g in
  set_score (score g + 1) g.

Definition draw (g : Game) : Game := set_screen scene g.

Definition showResult (g : Game) : Game :=
  let g := set_screen
             (result match gameState g with
                     | win => "You Survived!"
                     | _ => "Game Over: You Died"
                     end) g in
  let g := set_menu true g in
  set_info "" g.

(** [gameLoop]: once the game is over the result is shown and no further
    frame is requested. *)
Definition gameLoop (f : Frame) (g : Game) : Game :=
  match gameState g with
  | playing => set_frameRequested true (draw (update f g))
  | _ => set_frameRequested false (showResult g)
  end.

(** [initGame], run by a click on the start button at the time [now]; it
    ends with a first call of [gameLoop]. *)
Definition initGame (now : Z) (f : Frame) : Game :=
  gameLoop f
    {| gameState := playing; startTime := now; lives := MAX_LIVES; score := 0;
       shakeOffsetX := 0; shakeOffsetY := 0; debris := []; keys := ∅;
       player := {| x := 100; y := CANVAS_HEIGHT - PLAYER_HEIGHT; vx := 0; vy := 0;
                    onGround := true |};
       table := {| box_x := CANVAS_WIDTH - TABLE_WIDTH - 50; box_y := CANVAS_HEIGHT - TABLE_HEIGHT;
                   width := TABLE_WIDTH; height := TABLE_HEIGHT; speed := 0 |};
       menu := false;
       info := infoLine MAX_LIVES 0 10;
       screen := scene;
       frameRequested := false |}.

(** What happens on the page once a game was started. The start button
    sits in the menu, which is hidden while a game runs. *)
Inductive Event :=
| KeyDown (key : string)
| KeyUp (key : string)
| AnimationFrame (f : Frame)
| ClickStart (now : Z) (f : Frame).

Definition step (e : Event) (g : Game) : Game :=
  match e with
  | KeyDown key => set_keys (<[key := true]> (keys g)) g
  | KeyUp key => set_keys (<[key := false]> (keys g)) g
  | AnimationFrame f => if frameRequested g then gameLoop f g else g
  | ClickStart now f => if menu g then initGame now f else g
  end.

End Canvas.

(** * Definitions used to state the properties *)

(** Number of objective flags that are true, flag by flag. *)
Definition earthquakeObjectivesMet (o : Earthquake.Objectives) : Z :=
  Z.b2z (Earthquake.dropCoverHold o) + Z.b2z (Earthquake.stayCalm o)
  + Z.b2z (Earthquake.checkInjuries o) + Z.b2z (Earthquake.evacuateSafely o)
  + Z.b2z (Earthquake.assembleAtSafePoint o).

Definition floodObjectivesMet (o : Flood.Objectives) : Z :=
  Z.b2z (Flood.prepareSupplies o) + Z.b2z (Flood.buildBarriers o)
  + Z.b2z (Flood.evacuateResidents o) + Z.b2z (Flood.rescueStranded o)
  + Z.b2z (Flood.establishShelter o).

(** The elapsed seconds and the time bonus as the code computes them, each
    operation rounded to a double. *)
Definition elapsedSeconds (now start : Q) : Q :=
  JS.double (JS.double (now - start) / 1000).

Definition codeTimeBonus (ceiling timeElapsed : Q) : Z :=
  Z.max 0 (Qfloor (JS.double (JS.double (JS.double (ceiling - timeElapsed) / ceiling) * 200))).

(** The time bonus in the words of the specification, on the exact elapsed
    time. *)
Definition claimedTimeBonus (ceiling elapsed : Q) : Z :=
  Z.max 0 (Qfloor ((ceiling - elapsed) / ceiling * 200)).

(** The first sentence of the specification's contract at one clock reading
    of an earthquake session, and of a flood session. *)
Definition earthquakeBonusAsClaimed (now : Q) (s : Earthquake.Session) : Prop :=
  Earthquake.timeBonus (Earthquake.calculateFinalScore now s)
  = claimedTimeBonus 300 ((now - Earthquake.startTime s) / 1000).

Definition floodBonusAsClaimed (now : Q) (s : Flood.Session) : Prop :=
  Flood.timeBonus (Flood.calculateFinalScore now s)
  = claimedTimeBonus 450 ((now - Flood.startTime s) / 1000).

(** The relative error of a rounding, and its absolute error near zero. *)
Definition epsilon : Q := (2 ^ (-53))%Q.
Definition tiny : Q := (2 ^ (-1075))%Q.

(** A profile none of whose completion entries has a [timeElapsed] key, as
    [DisasterSimGame.completeSimulation] writes them. *)
Definition lacksTimeElapsed (p : Player.t) : Prop :=
  Forall (fun c => Player.timeElapsed c = None) (BadgeSystem.completions p).

(** The requirements without their [maxTime] key. *)
Definition withoutMaxTime (req : BadgeSystem.Requirements) : BadgeSystem.Requirements :=
  {| BadgeSystem.completeSimulation := BadgeSystem.completeSimulation req;
     BadgeSystem.minScore := BadgeSystem.minScore req;
     BadgeSystem.maxTime := None;
     BadgeSystem.completeAllSimulations := BadgeSystem.completeAllSimulations req;
     BadgeSystem.totalScore := BadgeSystem.totalScore req;
     BadgeSystem.completeAnyIn := BadgeSystem.completeAnyIn req;
     BadgeSystem.perfectAccuracy := BadgeSystem.perfectAccuracy req;
     BadgeSystem.evacuateAll := BadgeSystem.evacuateAll req;
     BadgeSystem.completeTutorials := BadgeSystem.completeTutorials req |}.

(** What the specification says of the badges after a completion: a badge
    is earned afterwards exactly when it was earned before or its
    requirements hold of the updated profile. *)
Definition awardsNewlySatisfied (date : string) (results : Host.Result) (p : Player.t) : Prop :=
  let p' := Game.completeSimulation date results p in
  forall badgeId : string,
    In badgeId (fst <$> BadgeSystem.badges) ->
    (In badgeId (Player.badges p')
     <-> In badgeId (Player.badges p) \/ BadgeSystem.checkBadgeRequirements badgeId p' = true).

(** The badges [completeSimulation] pushes: the badge of the disaster when
    it is new, then [master] when the three disasters have an entry and it
    is new. *)
Definition pushed (badge : BadgeSystem.Badge) (p p' : Player.t) : list string :=
  let own := if JS.includes (Player.badges p) (BadgeSystem.id badge) then []
             else [BadgeSystem.id badge] in
  let all := forallb (fun d => bool_decide (is_Some (Player.completedSimulations p' !! d)))
                     ["earthquake"; "landslide"; "flood"] in
  own ++ (if all && negb (JS.includes (Player.badges p ++ own) "master") then ["master"] else []).

(** The profile of a new player after a first earthquake run reported with
    total 900, of which 150 are time bonus, and accuracy 100. *)
Definition firstEarthquakeProfile : Player.t :=
  Game.completeSimulation "2024-01-01T00:00:00.000Z"
    {| Host.disaster := "earthquake"; Host.score := 900; Host.timeBonus := 150;
       Host.accuracy := 100 |} Player.new.

(** A run of the earthquake module reported with nothing scored. *)
Definition poorEarthquakeRun : Host.Result :=
  {| Host.disaster := "earthquake"; Host.score := 0; Host.timeBonus := 0; Host.accuracy := 100 |}.

(** ** Runs of the flood module *)

#[global] Instance floodCallback_eq_dec : EqDecision Flood.Callback.
Proof. solve_decision. Defined.

(** What happens in a run: the player or the host does something, or the
    first pending timer that holds a given closure comes due. *)
Inductive FloodHappening :=
| FloodUser (e : Flood.Event)
| FloodTimer (cb : Flood.Callback).

(** Index of the first pending timer that holds [cb] and is due at [now]. *)
Definition floodDue (now : Q) (cb : Flood.Callback) (s : Flood.Session) : option nat :=
  fst <$> list_find (fun t => callback t = cb /\ Qle_bool (due t) now = true) (Flood.timers s).

Definition floodHappens (now : Q) (h : FloodHappening) (s : Flood.Session) : Flood.Session :=
  match h with
  | FloodUser e => Flood.step now e s
  | FloodTimer cb =>
      match floodDue now cb s with
      | Some k => Flood.step now (Flood.Fire k) s
      | None => s
      end
  end.

(** A run: the happenings in order, each with the clock reading it happens
    at. *)
Definition floodRun (events : list (Q * FloodHappening)) (s : Flood.Session) : Flood.Session :=
  foldl (fun s '(now, h) => floodHappens now h s) s events.

(** Draws of [Math.random()] under which every resident can swim, and
    under which none can. *)
Definition swimmers : nat -> Q := fun _ => 1 # 2.
Definition nonSwimmers : nat -> Q := fun _ => 0%Q.

(** The two closures that count a resident as rescued: the arrival at the
    shelter after a click or an automatic evacuation, and the arrival of
    the boat. *)
Definition countsResident (cb : Flood.Callback) : bool :=
  match cb with
  | Flood.residentSheltered _ _ | Flood.boatArrived _ _ => true
  | _ => false
  end.

(** What the specification says of the two thresholds: whichever path
    counted the resident, the count reached decides both objectives. *)
Definition thresholdsOnEitherPath (now : Q) (cb : Flood.Callback) (s : Flood.Session) : Prop :=
  let s' := Flood.runCallback now cb s in
  ((Flood.totalResidents <= Flood.rescuedResidents s')%nat ->
   Flood.rescueStranded (Flood.objectives s') = true)
  /\ ((7 <= Flood.rescuedResidents s')%nat ->
      Flood.evacuateResidents (Flood.objectives s') = true).

(** Right after the start the player clicks the ten residents, one every
    100 ms from 1 s on; each walks to a shelter for 3 s, and the first nine
    have arrived. *)
Definition nineSheltered : Flood.Session :=
  floodRun
    ([ (0%Q, FloodUser (Flood.Start swimmers)) ]
       ++ ((fun i => (1000 + 100 * inject_Z (Z.of_nat i), FloodUser (Flood.ResidentClick i))%Q)
             <$> seq 0 10)
       ++ ((fun i => (4000 + 100 * inject_Z (Z.of_nat i), FloodUser (Flood.Fire 1))%Q)
             <$> seq 0 9))
    Flood.new.

(** A run in which no resident can swim. The first phase ends after 60 s;
    at 61 s the player presses "Start Evacuation", the first resident sets
    off at once, and the water rises frame by frame, 60 frames a second;
    the second resident sets off at 63 s. [frames] counts the animation
    frames after the one that runs inside the button's closure. *)
Definition frameTime (k : nat) : Q := 61000 + (50 # 3) * inject_Z (Z.of_nat k).

Definition floodedRun (frames : nat) : Flood.Session :=
  floodRun
    ([ (0%Q, FloodUser (Flood.Start nonSwimmers));
       (60000%Q, FloodTimer (Flood.autoAdvance 0));
       (61000%Q, FloodUser (Flood.Press Flood.startEvacuation));
       (61000%Q, FloodTimer (Flood.staggeredEvacuation 0)) ]
       ++ ((fun k => (frameTime k, FloodTimer Flood.raiseWater)) <$> seq 1 (Nat.min frames 119))
       ++ (if (120 <=? frames)%nat
           then (63000%Q, FloodTimer (Flood.staggeredEvacuation 1))
                  :: ((fun k => (frameTime k, FloodTimer Flood.raiseWater)) <$> seq 120 (frames - 119))
           else []))
    Flood.new.

(** A run in which the host resets the session 10 s after the start. *)
Definition resetRun : Flood.Session :=
  floodRun [ (0%Q, FloodUser (Flood.Start swimmers)); (10000%Q, FloodUser Flood.Reset) ] Flood.new.

(** ** The phase driver, module by module *)

Inductive Disaster := earthquake | landslide | flood.

(** What the three modules share: the phase table, the current index,
    [startPhase], [completeSimulation], the closure that [startPhase] hands
    to [setTimeout] (given the index it captured), and the pending timers
    that hold such a closure, as pairs of due time and captured index. *)
Module Driver.
Record t := {
  Session : Type;
  phases : list Phase;
  currentPhase : Session -> nat;
  startPhase : Q -> nat -> Session -> Session;
  completeSimulation : Q -> Session -> Session;
  fire : Q -> nat -> Session -> Session;
  advances : Session -> list (Q * nat) }.
End Driver.

Definition earthquakeAdvances (s : Earthquake.Session) : list (Q * nat) :=
  omap (fun t => match callback t with
                 | Earthquake.autoAdvance phaseIndex => Some (due t, phaseIndex)
                 | _ => None
                 end) (Earthquake.timers s).

Definition floodAdvances (s : Flood.Session) : list (Q * nat) :=
  omap (fun t => match callback t with
                 | Flood.autoAdvance phaseIndex => Some (due t, phaseIndex)
                 | _ => None
                 end) (Flood.timers s).

Definition landslideAdvances (s : Landslide.Session) : list (Q * nat) :=
  omap (fun t => match callback t with
                 | Landslide.autoAdvance phaseIndex => Some (due t, phaseIndex)
                 | _ => None
                 end) (Landslide.timers s).

Definition driver (host : Landslide.Support) (d : Disaster) : Driver.t :=
  match d with
  | earthquake =>
      {| Driver.Session := Earthquake.Session;
         Driver.phases := Earthquake.phases;
         Driver.currentPhase := Earthquake.currentPhase;
         Driver.startPhase := Earthquake.startPhase;
         Driver.completeSimulation := Earthquake.completeSimulation;
         Driver.fire := fun now phaseIndex =>
                          Earthquake.runCallback now (Earthquake.autoAdvance phaseIndex);
         Driver.advances := earthquakeAdvances |}
  | landslide =>
      {| Driver.Session := Landslide.Session;
         Driver.phases := Landslide.phases;
         Driver.currentPhase := Landslide.currentPhase;
         Driver.startPhase := Landslide.startPhase;
         Driver.completeSimulation := Landslide.completeSimulation;
         Driver.fire := fun now phaseIndex =>
                          Landslide.runCallback host now (Landslide.autoAdvance phaseIndex);
         Driver.advances := landslideAdvances |}
  | flood =>
      {| Driver.Session := Flood.Session;
         Driver.phases := Flood.phases;
         Driver.currentPhase := Flood.currentPhase;
         Driver.startPhase := Flood.startPhase;
         Driver.completeSimulation := Flood.completeSimulation;
         Driver.fire := fun now phaseIndex =>
                          Flood.runCallback now (Flood.autoAdvance phaseIndex);
         Driver.advances := floodAdvances |}
  end.

(** ** Reports to the parent controller *)

(** A call of [game.completeSimulation]. *)
Definition reports {A} (e : Host.Effect A) : bool :=
  match e with
  | Host.completeSimulation _ => true
  | _ => false
  end.

(** ** Drops on the matching panel *)

(** Score and mistake counter of the running session, whichever it is. *)
Definition moduleScore (m : Game.SimulationModule) : Z :=
  match m with
  | Game.earthquake s => Earthquake.score s
  | Game.landslide s => Landslide.score s
  | Game.flood s => Flood.score s
  end.

Definition moduleMistakes (m : Game.SimulationModule) : nat :=
  match m with
  | Game.earthquake s => Earthquake.mistakes s
  | Game.landslide s => Landslide.mistakes s
  | Game.flood s => Flood.mistakes s
  end.

(** Whether the session defines [onCorrectDrop] and [onIncorrectDrop]. *)
Definition definesDropCallbacks (m : Game.SimulationModule) : bool :=
  match m with
  | Game.earthquake _ => true
  | _ => false
  end.

(** The failure warning ([showErrorMessage]) is among the calls the session
    made while it handled the drop. *)
Definition warned (m : Game.SimulationModule) : Prop :=
  match m with
  | Game.earthquake s => In (Host.showMessage Host.Error) (Earthquake.log s)
  | Game.landslide s => In (Host.showMessage Host.Error) (Landslide.log s)
  | Game.flood s => In (Host.showMessage Host.Error) (Flood.log s)
  end.

(** The ids of the dragged item and of the zone name a student and a desk
    of the session, as those of the panel of [showDropCoverHoldInterface]
    do: the test [student && desk] of [onCorrectDrop]. *)
Definition namesStudentAndDesk (draggedId zoneId : string) (m : Game.SimulationModule) : Prop :=
  match m with
  | Game.earthquake s =>
      is_Some (JS.index (Earthquake.students s) (JS.parseInt (JS.split "_" draggedId !! 1%nat)))
      /\ is_Some (JS.index (Earthquake.desks s) (JS.parseInt (JS.split "_" zoneId !! 1%nat)))
  | _ => True
  end.

(** The controller with an earthquake session: started at 0, "Take
    Action!" pressed at 31 s, so that the panel of students and desks is
    up. *)
Definition classroomGame : Game.t :=
  let g := {| Game.playerData := Player.new;
              Game.simulationModule := Some (Game.earthquake Earthquake.new);
              Game.draggableItems := []; Game.dropZones := [] |} in
  let g := Game.runEarthquake EmptyString (Earthquake.start 0) Earthquake.new g in
  match Game.simulationModule g with
  | Some (Game.earthquake s) =>
      let g := Game.runEarthquake EmptyString
                 (Earthquake.step 30000 (Earthquake.Fire 0)) s g in
      match Game.simulationModule g with
      | Some (Game.earthquake s) =>
          Game.runEarthquake EmptyString
            (Earthquake.step 31000 (Earthquake.Press Earthquake.takeAction)) s g
      | _ => g
      end
  | _ => g
  end.

Definition deskZone (index : nat) : Host.Zone :=
  {| Host.zone_id := "desk_" +:+ JS.decimal index;
     Host.zone_text := "Under Desk " +:+ JS.decimal (index + 1);
     Host.accepts := ["person"] |}.

(** ** Flags that only go up *)

(** A flag that was true is still true. *)
Definition atLeast (before after : bool) : Prop := before = true -> after = true.

(** Every object of the store is still there, each of its flags at least
    what it was. *)
Definition storeAtLeast {A} (flags : A -> list bool) (before after : list A) : Prop :=
  forall (ref : nat) (o : A),
    before !! ref = Some o ->
    exists o' : A, after !! ref = Some o' /\ Forall2 atLeast (flags o) (flags o').

Definition studentFlags (o : Earthquake.Student) : list bool :=
  [Earthquake.safe o; Earthquake.evacuated o].

Definition earthquakeMonotone (s s' : Earthquake.Session) : Prop :=
  Forall2 atLeast (Earthquake.values (Earthquake.objectives s))
                  (Earthquake.values (Earthquake.objectives s'))
  /\ storeAtLeast studentFlags (Earthquake.studentStore s) (Earthquake.studentStore s').

Definition floodResidentFlags (o : Flood.Resident.t) : list bool :=
  [Flood.Resident.rescued o; Flood.Resident.inShelter o; Flood.Resident.needsRescue o;
   Flood.Resident.stranded o].

Definition supplyFlags (o : Flood.Supply.t) : list bool := [Flood.Supply.collected o].

Definition houseFlags (o : Flood.House.t) : list bool := [Flood.House.atRisk o].

Definition floodMonotone (s s' : Flood.Session) : Prop :=
  Forall2 atLeast (Flood.values (Flood.objectives s)) (Flood.values (Flood.objectives s'))
  /\ storeAtLeast floodResidentFlags (Flood.residentStore s) (Flood.residentStore s')
  /\ storeAtLeast supplyFlags (Flood.supplyStore s) (Flood.supplyStore s')
  /\ storeAtLeast houseFlags (Flood.houseStore s) (Flood.houseStore s').

Definition landslideResidentFlags (o : Landslide.Resident.t) : list bool :=
  [Landslide.Resident.evacuated o].

Definition warningSignFlags (o : Landslide.WarningSign) : list bool := [Landslide.identified o].

Definition landslideMonotone (s s' : Landslide.Session) : Prop :=
  Forall2 atLeast (Landslide.values (Landslide.objectives s))
                  (Landslide.values (Landslide.objectives s'))
  /\ atLeast (Landslide.warningSystemActivated s) (Landslide.warningSystemActivated s')
  /\ storeAtLeast landslideResidentFlags (Landslide.residentStore s) (Landslide.residentStore s')
  /\ storeAtLeast warningSignFlags (Landslide.warningSignStore s) (Landslide.warningSignStore s').

(** The explicit reset of each module: [reset] of the earthquake and flood
    sessions, the "Restart Simulation" button of the landslide session. *)
Definition earthquakeResets (e : Earthquake.Event) : bool :=
  match e with Earthquake.Reset => true | _ => false end.

Definition floodResets (e : Flood.Event) : bool :=
  match e with Flood.Reset => true | _ => false end.

Definition landslideResets (e : Landslide.Event) : bool :=
  match e with Landslide.Press Landslide.restartSimulation => true | _ => false end.

(** Runs of the earthquake and landslide sessions. *)
Definition earthquakeRun (events : list (Q * Earthquake.Event)) (s : Earthquake.Session) :
    Earthquake.Session :=
  foldl (fun s '(now, e) => Earthquake.step now e s) s events.

Definition landslideRun (host : Landslide.Support) (events : list (Q * Landslide.Event))
    (s : Landslide.Session) : Landslide.Session :=
  foldl (fun s '(now, e) => Landslide.step host now e s) s events.

Definition floodSteps (events : list (Q * Flood.Event)) (s : Flood.Session) : Flood.Session :=
  foldl (fun s '(now, e) => Flood.step now e s) s events.

(** ** The timeline of an earthquake session *)

(** The pending timer that comes due first, with its index and due time;
    of two due at the same time, the one scheduled first. *)
Fixpoint firstDue {C} (timers : list (Timer C)) : option (nat * Q) :=
  match timers with
  | [] => None
  | t :: rest =>
      match firstDue rest with
      | Some (k, d) => if JS.lt d (due t) then Some (S k, d) else Some (0%nat, due t)
      | None => Some (0%nat, due t)
      end
  end.

(** The first [events] events of a session in which the host calls
    [reset] at the clock readings [resets] (in increasing order) and every
    timer fires when it is due. *)
Fixpoint earthquakeTimeline (events : nat) (resets : list Q) (s : Earthquake.Session) :
    Earthquake.Session :=
  match events with
  | O => s
  | S events =>
      match firstDue (Earthquake.timers s), resets with
      | Some (k, d), r :: later =>
          if Qle_bool d r
          then earthquakeTimeline events resets (Earthquake.step d (Earthquake.Fire k) s)
          else earthquakeTimeline events later (Earthquake.step r Earthquake.Reset s)
      | Some (k, d), [] =>
          earthquakeTimeline events [] (Earthquake.step d (Earthquake.Fire k) s)
      | None, r :: later =>
          earthquakeTimeline events later (Earthquake.step r Earthquake.Reset s)
      | None, [] => s
      end
  end.

(** The results offered by the completion screens the session has shown so
    far, oldest first. *)
Definition completionScreens (s : Earthquake.Session) : list Earthquake.FinalScore :=
  omap (fun e => match e with
                 | Host.showInstructions _ [Earthquake.viewResults results] => Some results
                 | _ => None
                 end) (Earthquake.log s).

(** A session started at 0 s and reset at 37 s, 81 s, 109 s and 137 s,
    after its first [events] events. *)
Definition fourResets (events : nat) : Earthquake.Session :=
  earthquakeTimeline events [37000; 81000; 109000; 137000]%Q
    (Earthquake.start 0 Earthquake.new).

(** ** Badges and reports *)

(** The three disasters. *)
Definition disasters : list string := ["earthquake"; "landslide"; "flood"].

(** An entry that is there, is marked completed, has at least the score
    [minScore] and, when it records a time, took at most [maxTime]. *)
Definition meets (minScore maxTime : Z) (entry : option Player.Completion) : Prop :=
  exists sim : Player.Completion,
    entry = Some sim
    /\ Player.completed sim = true
    /\ minScore <= Player.score sim
    /\ forall t : Z, Player.timeElapsed sim = Some t -> t <= maxTime.

(** The entry of a disaster, when there is one, records the time it took. *)
Definition recordsTime (d : string) (p : Player.t) : Prop :=
  forall sim : Player.Completion,
    Player.completedSimulations p !! d = Some sim -> is_Some (Player.timeElapsed sim).

(** A profile with an earthquake entry that records its time. *)
Definition timedEarthquakeProfile (score time : Z) : Player.t :=
  {| Player.totalScore := score; Player.level := 1; Player.badges := [];
     Player.completedSimulations :=
       {[ "earthquake" := {| Player.completed := true; Player.score := score;
                             Player.timeBonus := 0; Player.accuracy := 90;
                             Player.completedAt := EmptyString;
                             Player.timeElapsed := Some time |} ]} |}.

(** Every entry of the profile is that of one of the three disasters. *)
Definition knownDisasters (p : Player.t) : Prop :=
  forall k : string, is_Some (Player.completedSimulations p !! k) -> In k disasters.

(** A disaster has no entry marked completed. *)
Definition notCompleted (d : string) (p : Player.t) : Prop :=
  match Player.completedSimulations p !! d with
  | Some sim => Player.completed sim = false
  | None => True
  end.

(** A profile with the three entries, each with the given accuracy. *)
Definition veteranProfile (accuracy : Z) : Player.t :=
  let entry := {| Player.completed := true; Player.score := 800; Player.timeBonus := 100;
                  Player.accuracy := accuracy; Player.completedAt := EmptyString;
                  Player.timeElapsed := None |} in
  {| Player.totalScore := 2700; Player.level := 3;
     Player.badges := ["earthquake"; "landslide"; "flood"; "master"];
     Player.completedSimulations :=
       <["earthquake" := entry]> (<["landslide" := entry]> (<["flood" := entry]> ∅)) |}.

Definition greatJob : string := "Great job! Try helping others learn disaster preparedness".

(** What [getRecommendations] says of one disaster. *)
Definition recommendationFor (d : string) (p : Player.t) : list string :=
  match Player.completedSimulations p !! d with
  | Some sim =>
      if negb (Player.completed sim) then [BadgeSystem.tryMessage d]
      else if Player.accuracy sim <? 75 then [BadgeSystem.reviewMessage d]
      else []
  | None => [BadgeSystem.tryMessage d]
  end.

(** ** The profile over several completions *)

(** The controller receives the results one after the other, each with the
    time stamp of its moment. *)
Definition completeAll (results : list (string * Host.Result)) (p : Player.t) : Player.t :=
  foldl (fun p '(date, r) => Game.completeSimulation date r p) p results.

(** What a result adds to the total score. *)
Definition gain (r : Host.Result) : Z := Host.score r + Host.timeBonus r.

(** The earned badges are those of the disasters that have an entry, and
    [master] when the three have one; no badge is listed twice. *)
Definition badgesMatchCompletions (p : Player.t) : Prop :=
  NoDup (Player.badges p)
  /\ (forall d : string,
        In d disasters ->
        (In d (Player.badges p) <-> is_Some (Player.completedSimulations p !! d)))
  /\ (In "master" (Player.badges p)
      <-> forall d : string, In d disasters -> is_Some (Player.completedSimulations p !! d))
  /\ (forall b : string, In b (Player.badges p) -> In b (disasters ++ ["master"])).

(** Two reports: the earthquake session twice, then the flood session. *)
Definition someReports : list (string * Host.Result) :=
  [ ("2024-01-01T00:00:00.000Z",
     {| Host.disaster := "earthquake"; Host.score := 900; Host.timeBonus := 150;
        Host.accuracy := 100 |});
    ("2024-01-02T00:00:00.000Z",
     {| Host.disaster := "earthquake"; Host.score := 400; Host.timeBonus := 0;
        Host.accuracy := 70 |});
    ("2024-01-03T00:00:00.000Z",
     {| Host.disaster := "flood"; Host.score := 1200; Host.timeBonus := 80;
        Host.accuracy := 95 |}) ].

(** ** Nearest shelter *)





(** ** What the events of a session keep *)

(** The timers pending before an event, the one that fires set aside. *)
Definition pendingBefore {C} (fired : option nat) (timers : list (Timer C)) : list (Timer C) :=
  match fired with
  | Some k => delete k timers
  | None => timers
  end.

Definition earthquakeFired (e : Earthquake.Event) : option nat :=
  match e with Earthquake.Fire k => Some k | _ => None end.

Definition floodFired (e : Flood.Event) : option nat :=
  match e with Flood.Fire k => Some k | _ => None end.

Definition landslideFired (e : Landslide.Event) : option nat :=
  match e with Landslide.Fire k => Some k | _ => None end.

(** The events that put a session back at the first phase: the host's
    [start] and the explicit reset. *)
Definition earthquakeRestarts (e : Earthquake.Event) : bool :=
  match e with Earthquake.Start | Earthquake.Reset => true | _ => false end.

Definition floodRestarts (e : Flood.Event) : bool :=
  match e with Flood.Start _ | Flood.Reset => true | _ => false end.

Definition landslideRestarts (e : Landslide.Event) : bool :=
  match e with
  | Landslide.Start | Landslide.Press Landslide.restartSimulation => true
  | _ => false
  end.

(** The accuracy is what the mistakes counted so far leave of it. *)
Definition accuracyFollowsMistakes (accuracy : Z) (mistakes : nat) : Prop :=
  accuracy = Z.max 0 (100 - 10 * Z.of_nat mistakes).

(** What an event does to the accuracy and the mistake count: nothing, or
    one mistake more and ten points less, down to 0. *)
Definition tallyMoves (accuracy : Z) (mistakes : nat) (accuracy' : Z) (mistakes' : nat) : Prop :=
  (accuracy' = accuracy /\ mistakes' = mistakes)
  \/ (accuracy' = Z.max 0 (accuracy - 10) /\ mistakes' = S mistakes).

(** Phase index, accuracy and mistakes are as they were, the score is no
    lower and no pending timer is gone. *)
Definition earthquakeKeeps (s s' : Earthquake.Session) : Prop :=
  Earthquake.currentPhase s' = Earthquake.currentPhase s
  /\ Earthquake.accuracy s' = Earthquake.accuracy s
  /\ Earthquake.mistakes s' = Earthquake.mistakes s
  /\ Earthquake.score s <= Earthquake.score s'
  /\ Earthquake.timers s `prefix_of` Earthquake.timers s'.

Definition landslideKeeps (s s' : Landslide.Session) : Prop :=
  Landslide.currentPhase s' = Landslide.currentPhase s
  /\ Landslide.accuracy s' = Landslide.accuracy s
  /\ Landslide.mistakes s' = Landslide.mistakes s
  /\ Landslide.score s <= Landslide.score s'
  /\ Landslide.timers s `prefix_of` Landslide.timers s'.

(** Phase index, water level, accuracy and mistakes are as they were and
    no pending timer is gone. *)
Definition floodKeeps (s s' : Flood.Session) : Prop :=
  Flood.currentPhase s' = Flood.currentPhase s
  /\ Flood.waterLevel s' = Flood.waterLevel s
  /\ Flood.timers s `prefix_of` Flood.timers s'
  /\ Flood.accuracy s' = Flood.accuracy s
  /\ Flood.mistakes s' = Flood.mistakes s.

(** Accuracy and mistakes are as they were. *)
Definition floodTally (s s' : Flood.Session) : Prop :=
  Flood.accuracy s' = Flood.accuracy s /\ Flood.mistakes s' = Flood.mistakes s.

(** One event moves the water level by at most one step: it stays, rises
    by [floodSpeed] from below the maximum, falls by a hundredth from above
    the river bed, or is put back on the river bed. *)
Definition waterMoves (w w' : Q) : Prop :=
  w' = w
  \/ (JS.lt w Flood.maxWaterLevel = true /\ w' = (w + Flood.floodSpeed)%Q)
  \/ (JS.gt w (-5 # 1) = true /\ w' = (w - (1 # 100))%Q)
  \/ w' = (-5 # 1)%Q.

(** The objectives of the landslide session that no run reaches:
    [reachSafeZone] whatever the host, and the two objectives set after a
    call of [game.showFeedback] when the host has no such method. *)
Definition landslideOutOfReach (host : Landslide.Support) (s : Landslide.Session) : Prop :=
  Landslide.reachSafeZone (Landslide.objectives s) = false
  /\ (Landslide.showFeedback host = false ->
      Landslide.identifyWarningSigns (Landslide.objectives s) = false
      /\ Landslide.evacuateResidents (Landslide.objectives s) = false).

(** The water level stays within a frame's step of the river bed and of
    the maximum. *)
Definition waterInRange (w : Q) : Prop :=
  (-5 - (1 # 100) <= w /\ w <= Flood.maxWaterLevel + Flood.floodSpeed)%Q.

(** A session in which the player clicks five warning signs and the six
    residents, then takes cover when the landslide comes. *)
Definition diligentLandslide : list (Q * Landslide.Event) :=
  [ (0%Q, Landslide.Start) ]
    ++ ((fun i => (1000 * inject_Z (Z.of_nat i), Landslide.WarningSignClick i)%Q) <$> seq 0 5)
    ++ ((fun i => (50000 + 1000 * inject_Z (Z.of_nat i), Landslide.ResidentClick i)%Q) <$> seq 0 6)
    ++ [ (200000%Q, Landslide.Press Landslide.takeCover) ].

(** An earthquake session with two incorrect drops and a desk click. *)
Definition clumsyEarthquake : list (Q * Earthquake.Event) :=
  [ (0%Q, Earthquake.Start);
    (31000%Q, Earthquake.IncorrectDrop "student_0" "desk_0");
    (32000%Q, Earthquake.DeskClick);
    (33000%Q, Earthquake.IncorrectDrop "student_1" "desk_0") ].

(** A run of the escape game. *)
Definition canvasRun (events : list Canvas.Event) (g : Canvas.Game) : Canvas.Game :=
  foldl (fun g e => Canvas.step e g) g events.

(** The player stands on the floor, at rest. *)
Definition grounded (p : Canvas.Player) : Prop :=
  Canvas.onGround p = true /\ Canvas.y p == 550 /\ Canvas.vy p == 0.

(** Speed and height [k] frames after the start of a jump. *)
Definition flightAt (k : Z) (p : Canvas.Player) : Prop :=
  Canvas.vy p == inject_Z (k - 30) / 2
  /\ Canvas.y p == inject_Z (k * k - 59 * k + 2200) / 4.

Definition inFlight (p : Canvas.Player) : Prop :=
  Canvas.onGround p = false /\ exists k : Z, 1 <= k <= 58 /\ flightAt k p.

Definition playerOnCanvas (p : Canvas.Player) : Prop :=
  (0 <= Canvas.x p /\ Canvas.x p <= 750)%Q /\ (grounded p \/ inFlight p).

(** The debris in play in a frame: the pieces of the frame before and the
    one the frame spawns, each moved down by its speed. *)
Definition spawns (f : Canvas.Frame) : bool :=
  JS.lt (JS.double (Canvas.spawnRoll f * 100)) (Canvas.DEBRIS_SPAWN_RATE / 60).

Definition spawnedPiece (f : Canvas.Frame) : Canvas.Box :=
  {| Canvas.box_x := JS.double (Canvas.spawnX f * (Canvas.CANVAS_WIDTH - 50)); Canvas.box_y := -50;
     Canvas.width := 50; Canvas.height := 50; Canvas.speed := Canvas.DEBRIS_SPEED |}.

Definition lowered (obs : Canvas.Box) : Canvas.Box :=
  Canvas.set_box_y (Canvas.box_y obs + Canvas.speed obs) obs.

Definition inPlay (f : Canvas.Frame) (g : Canvas.Game) : list Canvas.Box :=
  lowered <$> (Canvas.debris g ++ if spawns f then [spawnedPiece f] else []).

(** A piece still on the canvas that overlaps the player, and one that
    stays for the next frame. *)
Definition onCanvas (obs : Canvas.Box) : bool :=
  negb (JS.gt (Canvas.box_y obs) Canvas.CANVAS_HEIGHT).

Definition hits (p : Canvas.Player) (obs : Canvas.Box) : bool :=
  onCanvas obs && Canvas.overlaps p obs.

Definition stays (p : Canvas.Player) (obs : Canvas.Box) : bool :=
  onCanvas obs && negb (Canvas.overlaps p obs).

Definition hitCount (f : Canvas.Frame) (g : Canvas.Game) : Z :=
  Z.of_nat (length (List.filter (hits (Canvas.movePlayer g)) (inPlay f g))).

(** A piece of debris as [update] makes them: fifty wide and high, falling
    by [DEBRIS_SPEED] a frame, [k] frames below its spawning height. *)
Definition aged (lo hi : Z) (obs : Canvas.Box) : Prop :=
  (exists k : Z, lo <= k <= hi /\ Canvas.box_y obs == inject_Z (3 * k - 50))
  /\ Canvas.width obs = 50%Q /\ Canvas.height obs = 50%Q
  /\ Canvas.speed obs = Canvas.DEBRIS_SPEED.

(** Each piece is higher up than the ones before it in the array. *)
Fixpoint descending (ds : list Canvas.Box) : Prop :=
  match ds with
  | [] => True
  | a :: l => Forall (fun b => (Canvas.box_y b < Canvas.box_y a)%Q) l /\ descending l
  end.

Definition debrisShape (ds : list Canvas.Box) : Prop :=
  descending ds /\ Forall (aged 1 216) ds.

(** The table stands on the floor, fifty short of the right edge. *)
Definition tablePlaced (t : Canvas.Box) : Prop :=
  Canvas.box_x t == 650 /\ Canvas.box_y t == 550
  /\ Canvas.width t == 100 /\ Canvas.height t == 50.

(** What every frame of a game leaves true. *)
Definition canvasInvariant (g : Canvas.Game) : Prop :=
  playerOnCanvas (Canvas.player g)
  /\ tablePlaced (Canvas.table g)
  /\ Canvas.lives g <= Canvas.MAX_LIVES
  /\ (Canvas.gameState g = Canvas.playing -> 1 <= Canvas.lives g)
  /\ (Canvas.gameState g = Canvas.win ->
      Canvas.overlaps (Canvas.player g) (Canvas.table g) = true)
  /\ debrisShape (Canvas.debris g)
  /\ Forall (fun obs => Canvas.overlaps (Canvas.player g) obs = false) (Canvas.debris g)
  /\ 1 <= Canvas.score g.

(** The events other than a click on the start button. *)
Definition sameGame (e : Canvas.Event) : bool :=
  match e with Canvas.ClickStart _ _ => false | _ => true end.

(** A frame taken when the time limit has run out. *)
Definition lateFrame : Canvas.Frame :=
  {| Canvas.date := 10000; Canvas.spawnRoll := 1 # 2; Canvas.spawnX := 1 # 2;
     Canvas.shakeX := 0; Canvas.shakeY := 0 |}.

(** A frame early in a game that spawns nothing. *)
Definition calmFrame : Canvas.Frame :=
  {| Canvas.date := 1000; Canvas.spawnRoll := 1 # 2; Canvas.spawnX := 1 # 2;
     Canvas.shakeX := 0; Canvas.shakeY := 0 |}.

(** The player walks to the right until the table is reached. *)
Definition walkToTable : list Canvas.Event :=
  Canvas.KeyDown "ArrowRight" :: replicate 101 (Canvas.AnimationFrame calmFrame).

(** The text [showResult] writes for an outcome. *)
Definition resultText (s : Canvas.GameState) : string :=
  match s with
  | Canvas.win => "You Survived!"
  | _ => "Game Over: You Died"
  end.

(** The menu is offered exactly when no frame is pending, and then the
    result of the game that is over is on the screen. *)
Definition menuInvariant (g : Canvas.Game) : Prop :=
  Canvas.menu g = negb (Canvas.frameRequested g)
  /\ (Canvas.menu g = true ->
      Canvas.gameState g <> Canvas.playing
      /\ Canvas.screen g = Canvas.result (resultText (Canvas.gameState g))
      /\ Canvas.info g = EmptyString).

(** * Properties *)

(** ** Helper facts about the JavaScript fragment *)

Lemma includes_In (arr : list string) (x : string) :
  JS.includes arr x = true <-> In x arr.
Proof.
  unfold JS.includes. rewrite existsb_exists. split.
  - intros (y & Hy & Heq). apply String.eqb_eq in Heq. now subst.
  - intros H. exists x. split; [assumption | apply String.eqb_refl].
Qed.

Lemma includes_false (arr : list string) (x : string) :
  JS.includes arr x = false <-> ~ In x arr.
Proof.
  rewrite <- includes_In. destruct (JS.includes arr x); split; congruence.
Qed.

Lemma floor_of_integer (n : Z) : JS.floor (inject_Z n * 2) = 2 * n.
Proof.
  unfold JS.floor. change (inject_Z n * 2)%Q with (inject_Z n * inject_Z 2)%Q.
  rewrite <- inject_Z_mult, Qfloor_Z. lia.
Qed.

(** ** Scoring *)

(** *** Rounding to a double *)

Lemma roundHalfEven_near (x : Q) :
  (inject_Z (JS.roundHalfEven x) - x <= 1 # 2 /\ x - inject_Z (JS.roundHalfEven x) <= 1 # 2)%Q.
Proof.
  unfold JS.roundHalfEven.
  pose proof (Qfloor_le x) as Hlo. pose proof (Qlt_floor x) as Hhi.
  set (f := Qfloor x) in *. clearbody f.
  rewrite inject_Z_plus in Hhi. change (inject_Z 1) with 1%Q in Hhi.
  destruct (x - inject_Z f ?= 1 # 2)%Q eqn:E.
  - apply Qeq_alt in E. destruct (Z.even f).
    + split; lra.
    + rewrite inject_Z_plus. change (inject_Z 1) with 1%Q. split; lra.
  - apply Qlt_alt in E. split; lra.
  - apply Qgt_alt in E. rewrite inject_Z_plus. change (inject_Z 1) with 1%Q. split; lra.
Qed.

Lemma two_pow_pos (z : Z) : (0 < 2 ^ z)%Q.
Proof. apply Qpower_0_lt. reflexivity. Qed.

Lemma two_pow_succ (z : Z) : (2 ^ (z + 1) == 2 * 2 ^ z)%Q.
Proof. rewrite Qpower_plus by discriminate. rewrite Qpower_1_r. ring. Qed.

Lemma two_pow_pred (z : Z) : (2 * 2 ^ (z - 1) == 2 ^ z)%Q.
Proof.
  rewrite <- two_pow_succ. replace (z - 1 + 1) with z by lia. reflexivity.
Qed.

Lemma log2_lower (n : positive) : (2 ^ Z.log2 (Zpos n) <= inject_Z (Zpos n))%Q.
Proof.
  change (2 ^ Z.log2 (Z.pos n))%Q with (inject_Z 2 ^ Z.log2 (Z.pos n))%Q.
  rewrite <- Zpower_Qpower by apply Z.log2_nonneg.
  rewrite <- Zle_Qle. apply Z.log2_spec. lia.
Qed.

Lemma log2_upper (n : positive) : (inject_Z (Zpos n) < 2 * 2 ^ Z.log2 (Zpos n))%Q.
Proof.
  rewrite <- two_pow_succ.
  change (2 ^ (Z.log2 (Z.pos n) + 1))%Q with (inject_Z 2 ^ (Z.log2 (Z.pos n) + 1))%Q.
  rewrite <- Zpower_Qpower by (pose proof (Z.log2_nonneg (Zpos n)); lia).
  rewrite <- Zlt_Qlt. replace (Z.log2 (Z.pos n) + 1) with (Z.succ (Z.log2 (Z.pos n))) by lia.
  apply Z.log2_spec. lia.
Qed.

Lemma floorLog2_le (q : Q) : (0 < q)%Q -> (2 ^ JS.floorLog2 q <= q)%Q.
Proof.
  intros Hq. unfold JS.floorLog2.
  destruct (Qle_bool _ q) eqn:E; [apply Qle_bool_iff, E |].
  destruct q as [n d]. cbn [Qnum Qden] in *.
  assert (Hn : 0 < n) by (unfold Qlt in Hq; cbn in Hq; lia).
  destruct n as [| n | n]; try lia.
  pose proof (log2_lower n) as Hlo. pose proof (log2_upper d) as Hhi.
  set (a := Z.log2 (Z.pos n)) in *. set (b := Z.log2 (Z.pos d)) in *. clearbody a b.
  replace (a - b - 1) with (a - (b + 1)) by lia.
  rewrite Qpower_minus by discriminate. rewrite two_pow_succ.
  pose proof (two_pow_pos a) as Ha. pose proof (two_pow_pos b) as Hb.
  setoid_replace (Z.pos n # d)%Q with (inject_Z (Z.pos n) / inject_Z (Z.pos d))%Q
    using relation Qeq by (rewrite Qmake_Qdiv; reflexivity).
  assert (Hd : (0 < inject_Z (Z.pos d))%Q) by (rewrite <- (Zlt_Qlt 0); lia).
  apply Qle_shift_div_l; [exact Hd |].
  apply Qle_trans with (2 ^ a)%Q; [| exact Hlo].
  set (X := (2 ^ a)%Q) in *. set (Y := (2 ^ b)%Q) in *. set (D := inject_Z (Z.pos d)) in *.
  clearbody X Y D.
  setoid_replace (X / (2 * Y) * D)%Q with (X * D / (2 * Y))%Q
    using relation Qeq by (field; lra).
  apply Qle_shift_div_r; [lra |].
  apply Qmult_le_l; [exact Ha |]. lra.
Qed.

Lemma roundPositive_error (q : Q) :
  (0 < q)%Q ->
  (q * (1 - epsilon) - tiny <= JS.roundPositive q
   /\ JS.roundPositive q <= q * (1 + epsilon) + tiny)%Q.
Proof.
  intros Hq. unfold JS.roundPositive.
  pose proof (floorLog2_le q Hq) as He.
  set (e := JS.floorLog2 q) in *. clearbody e.
  set (e' := Z.max e (-1022)).
  pose proof (two_pow_pos (e' - 52)) as Hulp.
  set (ulp := (2 ^ (e' - 52))%Q) in *.
  destruct (roundHalfEven_near (q / ulp)) as [Hup Hdown].
  set (n := inject_Z (JS.roundHalfEven (q / ulp))) in *. clearbody n.
  assert (Hhalf : (ulp <= 2 * (q * epsilon + tiny))%Q).
  { unfold ulp, epsilon, tiny. subst e'.
    pose proof (two_pow_pos e) as Hpe.
    destruct (Z.max_spec e (-1022)) as [[Hlt ->] | [Hle ->]].
    - rewrite <- (two_pow_pred (-1022 - 52)). change (-1022 - 52 - 1) with (-1075).
      assert (0 <= q * 2 ^ (-53))%Q by (apply Qmult_le_0_compat; [lra | discriminate]).
      pose proof (two_pow_pos (-1075)). lra.
    - replace (e - 52) with (1 + e + -53) by lia.
      rewrite !Qpower_plus by discriminate. rewrite Qpower_1_r.
      pose proof (two_pow_pos (-1075)). pose proof (two_pow_pos (-53)) as H53.
      set (E := (2 ^ (-53))%Q) in *. clearbody E.
      assert (2 ^ e * E <= q * E)%Q by (apply Qmult_le_r; assumption).
      lra. }
  clearbody ulp. clear He.
  assert (Hq' : (q == q / ulp * ulp)%Q) by (field; lra).
  set (x := (q / ulp)%Q) in *. clearbody x.
  assert (H1 : ((n - x) * ulp <= (1 # 2) * ulp)%Q) by (apply Qmult_le_r; assumption).
  assert (H2 : ((x - n) * ulp <= (1 # 2) * ulp)%Q) by (apply Qmult_le_r; assumption).
  split; lra.
Qed.

Lemma double_of_nonneg (q : Q) :
  (0 <= q)%Q ->
  (q * (1 - epsilon) - tiny <= JS.double q /\ JS.double q <= q * (1 + epsilon) + tiny)%Q.
Proof.
  intros Hq. unfold JS.double. destruct q as [[| n | n] d]; cbn [Qnum].
  - pose proof (two_pow_pos (-1075)). unfold tiny.
    assert (E : (0 # d == 0)%Q) by reflexivity. rewrite E. split; lra.
  - apply roundPositive_error. reflexivity.
  - exfalso. unfold Qle in Hq. cbn in Hq. lia.
Qed.

Lemma double_of_nonpos (q : Q) :
  (q <= 0)%Q ->
  (q * (1 + epsilon) - tiny <= JS.double q /\ JS.double q <= q * (1 - epsilon) + tiny)%Q.
Proof.
  intros Hq. unfold JS.double. destruct q as [[| n | n] d]; cbn [Qnum].
  - pose proof (two_pow_pos (-1075)). unfold tiny.
    assert (E : (0 # d == 0)%Q) by reflexivity. rewrite E. split; lra.
  - exfalso. unfold Qle in Hq. cbn in Hq. lia.
  - assert (Hpos : (0 < - (Z.neg n # d))%Q) by reflexivity.
    destruct (roundPositive_error _ Hpos) as [Hlo Hhi].
    set (r := JS.roundPositive _) in *. clearbody r.
    set (q := (Z.neg n # d)%Q) in *. clearbody q. split; lra.
Qed.

Lemma roundHalfEven_nonneg (x : Q) : (0 <= x)%Q -> 0 <= JS.roundHalfEven x.
Proof.
  intros Hx. unfold JS.roundHalfEven.
  assert (Hf : 0 <= Qfloor x).
  { change 0 with (Qfloor 0). apply Qfloor_resp_le, Hx. }
  destruct (_ ?= _)%Q; [destruct (Z.even _) | |]; lia.
Qed.

Lemma double_sign (q : Q) :
  ((0 <= q -> 0 <= JS.double q) /\ (q <= 0 -> JS.double q <= 0))%Q.
Proof.
  assert (Hpos : forall p : Q, (0 < p)%Q -> (0 <= JS.roundPositive p)%Q).
  { intros p Hp. unfold JS.roundPositive.
    set (ulp := (2 ^ _)%Q). pose proof (two_pow_pos (Z.max (JS.floorLog2 p) (-1022) - 52)) as Hulp.
    fold ulp in Hulp. clearbody ulp.
    apply Qmult_le_0_compat; [| lra].
    change 0%Q with (inject_Z 0). rewrite <- Zle_Qle. apply roundHalfEven_nonneg.
    apply Qle_shift_div_l; lra. }
  unfold JS.double. destruct q as [[| n | n] d]; cbn [Qnum].
  - split; intros _; lra.
  - split; [intros _; apply Hpos; reflexivity |].
    intros H. exfalso. unfold Qle in H. cbn in H. lia.
  - split; [intros H; exfalso; unfold Qle in H; cbn in H; lia |].
    intros _. assert (H : (0 < - (Z.neg n # d))%Q) by reflexivity.
    apply Hpos in H. lra.
Qed.

Lemma epsilon_value : (epsilon == 1 # 9007199254740992)%Q.
Proof. reflexivity. Qed.

Lemma tiny_small : (0 < tiny /\ tiny <= 1 # 1000000000000000000000000000000)%Q.
Proof. split; [apply two_pow_pos |]. vm_compute. discriminate. Qed.

Lemma floor_near (c e : Q) :
  (e - 1 < c)%Q -> (c < e + 1)%Q -> Qfloor e - 1 <= Qfloor c <= Qfloor e + 1.
Proof.
  intros H1 H2.
  pose proof (Qfloor_le c) as Hc1. pose proof (Qlt_floor c) as Hc2.
  pose proof (Qfloor_le e) as He1. pose proof (Qlt_floor e) as He2.
  rewrite inject_Z_plus in Hc2, He2. change (inject_Z 1) with 1%Q in *.
  split.
  - assert (H : (inject_Z (Qfloor e) < inject_Z (Qfloor c + 2))%Q).
    { rewrite inject_Z_plus. change (inject_Z 2) with 2%Q. lra. }
    rewrite <- Zlt_Qlt in H. lia.
  - assert (H : (inject_Z (Qfloor c) < inject_Z (Qfloor e + 2))%Q).
    { rewrite inject_Z_plus. change (inject_Z 2) with 2%Q. lra. }
    rewrite <- Zlt_Qlt in H. lia.
Qed.

Lemma floor_negative (c : Q) : (c < 0)%Q -> Qfloor c < 0.
Proof.
  intros H. pose proof (Qfloor_le c) as Hc.
  assert (H' : (inject_Z (Qfloor c) < inject_Z 0)%Q) by (change (inject_Z 0) with 0%Q; lra).
  rewrite <- Zlt_Qlt in H'. exact H'.
Qed.

(** Rounding step by step: the sign of each intermediate result and its
    distance from the exact one. *)
Ltac round_step name q sign :=
  let H1 := fresh "Hlo" in
  let H2 := fresh "Hhi" in
  let Hs := fresh "Hsign" in
  match sign with
  | true =>
      assert (Hs : (0 <= q)%Q) by lra;
      destruct (double_of_nonneg q Hs) as [H1 H2];
      apply (proj1 (double_sign q)) in Hs
  | false =>
      assert (Hs : (q <= 0)%Q) by lra;
      destruct (double_of_nonpos q Hs) as [H1 H2];
      apply (proj2 (double_sign q)) in Hs
  end;
  rewrite epsilon_value in H1, H2;
  set (name := JS.double q) in *; clearbody name.

Ltac time_bonus_chain ceiling inv delta :=
  let d := fresh "d" in
  let t := fresh "t" in
  let a := fresh "a" in
  let b := fresh "b" in
  let c := fresh "c" in
  round_step d delta true;
  round_step t (d * (1 # 1000))%Q true;
  destruct (Qlt_le_dec ceiling t);
  [ round_step a (ceiling - t)%Q false;
    round_step b (a * inv)%Q false;
    round_step c (b * 200)%Q false;
    destruct (Qlt_le_dec 1000000 delta);
    [ assert (Hcn : (c < 0)%Q) by lra;
      assert (Hen : ((ceiling - delta * (1 # 1000)) * inv * 200 < 0)%Q) by lra;
      apply floor_negative in Hcn, Hen; lia
    | assert (Hnear : Qfloor ((ceiling - delta * (1 # 1000)) * inv * 200) - 1
                      <= Qfloor c
                      <= Qfloor ((ceiling - delta * (1 # 1000)) * inv * 200) + 1)
        by (apply floor_near; lra);
      lia ]
  | round_step a (ceiling - t)%Q true;
    round_step b (a * inv)%Q true;
    round_step c (b * 200)%Q true;
    assert (Hnear : Qfloor ((ceiling - delta * (1 # 1000)) * inv * 200) - 1
                    <= Qfloor c
                    <= Qfloor ((ceiling - delta * (1 # 1000)) * inv * 200) + 1)
      by (apply floor_near; lra);
    lia ].

Lemma timeBonus_near (ceiling now start : Q) :
  ceiling = 300%Q \/ ceiling = 450%Q ->
  (start <= now)%Q ->
  claimedTimeBonus ceiling ((now - start) / 1000) - 1
  <= codeTimeBonus ceiling (elapsedSeconds now start)
  <= claimedTimeBonus ceiling ((now - start) / 1000) + 1.
Proof.
  intros Hc Hclock. unfold claimedTimeBonus, codeTimeBonus, elapsedSeconds.
  set (delta := (now - start)%Q). assert (Hd : (0 <= delta)%Q) by (subst delta; lra).
  clearbody delta. clear Hclock now start.
  destruct tiny_small as [Ht0 Ht1].
  destruct Hc as [-> | ->]; unfold Qdiv; cbn [Qinv Qnum Qden].
  - time_bonus_chain 300%Q (1 # 300)%Q delta.
  - time_bonus_chain 450%Q (1 # 450)%Q delta.
Qed.

(** C1. For every session state and clock reading, [calculateFinalScore]
    returns a record whose time bonus is
    [max(0, floor((ceiling - elapsed) / ceiling * 200))] as the doubles of
    the code evaluate it, each operation rounded, with the ceiling 300 s
    (earthquake) or 450 s (flood); when the clock has not gone backwards
    since the start this is within 1 of the exact value. The accuracy bonus
    is [floor(accuracy * 2)], the objective bonus is 100 times the number of
    objective flags that are true, the flood bonuses are
    [rescuedResidents * 25] and [suppliesDistributed * 15], and the total is
    the base score plus all of these. *)
Theorem calculateFinalScore_components :
  (forall (now : Q) (s : Earthquake.Session),
      let r := Earthquake.calculateFinalScore now s in
      let exact := claimedTimeBonus 300 ((now - Earthquake.startTime s) / 1000) in
      Earthquake.baseScore r = Earthquake.score s
      /\ Earthquake.timeBonus r
         = codeTimeBonus 300 (elapsedSeconds now (Earthquake.startTime s))
      /\ ((Earthquake.startTime s <= now)%Q -> exact - 1 <= Earthquake.timeBonus r <= exact + 1)
      /\ Earthquake.accuracyBonus r = Qfloor (inject_Z (Earthquake.accuracy s) * 2)
      /\ Earthquake.objectiveBonus r = 100 * earthquakeObjectivesMet (Earthquake.objectives s)
      /\ Earthquake.total r
         = Earthquake.score s + Earthquake.timeBonus r + Earthquake.accuracyBonus r
           + Earthquake.objectiveBonus r)
  /\ (forall (now : Q) (s : Flood.Session),
      let r := Flood.calculateFinalScore now s in
      let exact := claimedTimeBonus 450 ((now - Flood.startTime s) / 1000) in
      Flood.baseScore r = Flood.score s
      /\ Flood.timeBonus r = codeTimeBonus 450 (elapsedSeconds now (Flood.startTime s))
      /\ ((Flood.startTime s <= now)%Q -> exact - 1 <= Flood.timeBonus r <= exact + 1)
      /\ Flood.accuracyBonus r = Qfloor (inject_Z (Flood.accuracy s) * 2)
      /\ Flood.objectiveBonus r = 100 * floodObjectivesMet (Flood.objectives s)
      /\ Flood.rescueBonus r = Z.of_nat (Flood.rescuedResidents s) * 25
      /\ Flood.supplyBonus r = Z.of_nat (Flood.suppliesDistributed s) * 15
      /\ Flood.total r
         = Flood.score s + Flood.timeBonus r + Flood.accuracyBonus r + Flood.objectiveBonus r
           + Flood.rescueBonus r + Flood.supplyBonus r).
Proof.
  split; intros now s r exact; subst r exact.
  - split; [reflexivity |]. split; [reflexivity |].
    split; [intros Hclock; apply (timeBonus_near 300 now _ (or_introl eq_refl) Hclock) |].
    split; [reflexivity |]. split; [| reflexivity].
    cbn [Earthquake.calculateFinalScore Earthquake.objectiveBonus].
    unfold earthquakeObjectivesMet, Earthquake.values.
    destruct (Earthquake.objectives s) as [[] [] [] [] []]; reflexivity.
  - split; [reflexivity |]. split; [reflexivity |].
    split; [intros Hclock; apply (timeBonus_near 450 now _ (or_intror eq_refl) Hclock) |].
    split; [reflexivity |]. split; [| repeat split].
    cbn [Flood.calculateFinalScore Flood.objectiveBonus].
    unfold floodObjectivesMet, Flood.values.
    destruct (Flood.objectives s) as [[] [] [] [] []]; reflexivity.
Qed.

Lemma calculateFinalScore_components_witness :
  let exact := claimedTimeBonus 300 ((128000 - Earthquake.startTime Earthquake.new) / 1000) in
  exact - 1 <= Earthquake.timeBonus (Earthquake.calculateFinalScore 128000 Earthquake.new)
  <= exact + 1.
Proof.
  destruct calculateFinalScore_components as [He _].
  destruct (He 128000%Q Earthquake.new) as (_ & _ & H & _).
  apply H. vm_compute. discriminate.
Defined.

(** C1, as stated, fails: 126 s after the start of an earthquake session
    the exact value of the formula is 116, while the code divides the
    rounded 174 by 300 first and its time bonus is 115; the same 189 s after
    the start of a flood session. *)
Lemma timeBonus_below_claimed :
  ~ (earthquakeBonusAsClaimed 126000 Earthquake.new
     \/ floodBonusAsClaimed 189000 Flood.new).
Proof.
  unfold earthquakeBonusAsClaimed, floodBonusAsClaimed.
  intros [H | H]; vm_compute in H; discriminate H.
Qed.

(** The accuracy bonus of an integer accuracy is twice the accuracy. *)
Lemma accuracyBonus_twice (now : Q) (s : Earthquake.Session) :
  Earthquake.accuracyBonus (Earthquake.calculateFinalScore now s) = 2 * Earthquake.accuracy s.
Proof. apply floor_of_integer. Qed.

(** ** Badges *)

Lemma completions_insert_lacks (k : string) (c : Player.Completion)
    (m : gmap string Player.Completion) :
  Player.timeElapsed c = None ->
  Forall (fun c => Player.timeElapsed c = None) (snd <$> map_to_list m) ->
  Forall (fun c => Player.timeElapsed c = None) (snd <$> map_to_list (<[k:=c]> m)).
Proof.
  intros Hc Hm. rewrite Forall_fmap in *. apply Forall_forall. intros [k' c'] Hin. simpl.
  apply elem_of_map_to_list in Hin.
  destruct (decide (k = k')) as [-> | Hne].
  - rewrite lookup_insert_eq in Hin. congruence.
  - rewrite lookup_insert_ne in Hin by assumption.
    apply elem_of_map_to_list in Hin.
    rewrite Forall_forall in Hm. apply (Hm (k', c')). assumption.
Qed.

(** The profile of a new player has no entry, and [completeSimulation]
    writes entries without [timeElapsed]. *)
Lemma new_lacksTimeElapsed : lacksTimeElapsed Player.new.
Proof. unfold lacksTimeElapsed, BadgeSystem.completions. simpl. rewrite map_to_list_empty. constructor. Qed.

Lemma completeSimulation_lacksTimeElapsed (date : string) (results : Host.Result) (p : Player.t) :
  lacksTimeElapsed p -> lacksTimeElapsed (Game.completeSimulation date results p).
Proof.
  unfold lacksTimeElapsed, BadgeSystem.completions. intros H.
  assert (Hins : Forall (fun c => Player.timeElapsed c = None)
                   (snd <$> map_to_list
                      (<[Host.disaster results :=
                           {| Player.completed := true; Player.score := Host.score results;
                              Player.timeBonus := Host.timeBonus results;
                              Player.accuracy := Host.accuracy results;
                              Player.completedAt := date; Player.timeElapsed := None |}]>
                         (Player.completedSimulations p))))
    by (apply completions_insert_lacks; [reflexivity | assumption]).
  unfold Game.completeSimulation. cbn -[insert Z.div].
  repeat (match goal with |- context [if ?b then _ else _] => destruct b end
          || match goal with |- context [match ?b with Some _ => _ | None => _ end] => destruct b end);
    exact Hins.
Qed.

Lemma existsb_leUndefined_none (limit : Z) (l : list Player.Completion) :
  Forall (fun c => Player.timeElapsed c = None) l ->
  existsb (fun sim => BadgeSystem.leUndefined (Player.timeElapsed sim) limit) l = false.
Proof.
  induction 1 as [| c l Hc _ IH]; simpl; [reflexivity |].
  rewrite Hc, IH. reflexivity.
Qed.

Lemma passesSimulation_withoutMaxTime (req : BadgeSystem.Requirements) (p : Player.t) :
  lacksTimeElapsed p ->
  BadgeSystem.passesSimulation req p = BadgeSystem.passesSimulation (withoutMaxTime req) p.
Proof.
  intros H. unfold BadgeSystem.passesSimulation. cbn [withoutMaxTime BadgeSystem.completeSimulation
    BadgeSystem.minScore BadgeSystem.maxTime BadgeSystem.truthyNumber].
  destruct (BadgeSystem.truthyString _); [| reflexivity].
  destruct (Player.completedSimulations p !! _) as [simulation |] eqn:Hsim; [| reflexivity].
  assert (Hnone : Player.timeElapsed simulation = None).
  { unfold lacksTimeElapsed, BadgeSystem.completions in H. rewrite Forall_fmap, Forall_forall in H.
    apply (H (default EmptyString (BadgeSystem.completeSimulation req), simulation)).
    apply elem_of_map_to_list. exact Hsim. }
  rewrite Hnone. simpl. rewrite andb_false_r. reflexivity.
Qed.

(** C10. For every profile whose completion entries have no [timeElapsed]
    field, as [DisasterSimGame.completeSimulation] writes them,
    [checkBadgeRequirements('speedRunner', profile)] is false, and the
    [maxTime] requirement never makes [checkBadgeRequirements] return
    false: every badge is decided as if it had no [maxTime]. *)
Theorem speedRunner_never_satisfied (p : Player.t) :
  lacksTimeElapsed p ->
  BadgeSystem.checkBadgeRequirements "speedRunner" p = false
  /\ forall (badgeId : string) (b : BadgeSystem.Badge),
       BadgeSystem.badge badgeId = Some b ->
       BadgeSystem.checkBadgeRequirements badgeId p
       = BadgeSystem.checkRequirements (withoutMaxTime (BadgeSystem.requirements b)) p.
Proof.
  intros H. split.
  - unfold BadgeSystem.checkBadgeRequirements. simpl.
    unfold BadgeSystem.checkRequirements, BadgeSystem.passesSpeed. simpl.
    rewrite (existsb_leUndefined_none 300 _ H). reflexivity.
  - intros badgeId b Hb. unfold BadgeSystem.checkBadgeRequirements. rewrite Hb.
    unfold BadgeSystem.checkRequirements.
    rewrite (passesSimulation_withoutMaxTime _ _ H). reflexivity.
Qed.

Lemma speedRunner_never_satisfied_witness :
  lacksTimeElapsed firstEarthquakeProfile
  /\ BadgeSystem.checkBadgeRequirements "speedRunner" firstEarthquakeProfile = false
  /\ BadgeSystem.checkBadgeRequirements "earthquake" firstEarthquakeProfile = true.
Proof.
  assert (H : lacksTimeElapsed firstEarthquakeProfile)
    by (unfold lacksTimeElapsed; vm_compute; repeat constructor).
  split; [exact H |].
  split; [exact (proj1 (speedRunner_never_satisfied firstEarthquakeProfile H)) |].
  rewrite (proj2 (speedRunner_never_satisfied firstEarthquakeProfile H) "earthquake" _ eq_refl).
  vm_compute. reflexivity.
Defined.

(** The scenario of the specification: an earthquake entry with score 550
    and 400 s satisfies the earthquake badge; a lower score or a longer
    time does not. *)
Example earthquake_badge_scenario :
  let entry score time :=
    {| Player.totalScore := 0; Player.level := 1; Player.badges := [];
       Player.completedSimulations :=
         {[ "earthquake" := {| Player.completed := true; Player.score := score;
                               Player.timeBonus := 0; Player.accuracy := 0;
                               Player.completedAt := EmptyString;
                               Player.timeElapsed := Some time |} ]} |} in
  BadgeSystem.checkBadgeRequirements "earthquake" (entry 550 400) = true
  /\ BadgeSystem.checkBadgeRequirements "earthquake" (entry 499 400) = false
  /\ BadgeSystem.checkBadgeRequirements "earthquake" (entry 550 901) = false.
Proof. vm_compute. repeat split. Qed.

Ltac player_simpl :=
  cbn [Player.badges Player.level Player.totalScore Player.completedSimulations
       Player.set_badges Player.set_level Player.set_totalScore
       Player.set_completedSimulations negb app] in *.

(** The entry [completeSimulation] writes. *)
Lemma completeSimulation_entry (date : string) (results : Host.Result) (p : Player.t) :
  Player.completedSimulations (Game.completeSimulation date results p)
  = <[Host.disaster results :=
        {| Player.completed := true; Player.score := Host.score results;
           Player.timeBonus := Host.timeBonus results; Player.accuracy := Host.accuracy results;
           Player.completedAt := date; Player.timeElapsed := None |}]>
      (Player.completedSimulations p).
Proof.
  unfold Game.completeSimulation. cbv zeta.
  destruct (BadgeSystem.getBadgeForDisaster _);
    repeat (player_simpl;
            match goal with |- context [if ?b then _ else _] => destruct b end);
    reflexivity.
Qed.

(** What [completeSimulation] does to the list of badges. *)
Lemma completeSimulation_badges_eq (date : string) (results : Host.Result) (p : Player.t)
    (badge : BadgeSystem.Badge) :
  BadgeSystem.getBadgeForDisaster (Host.disaster results) = Some badge ->
  Player.badges (Game.completeSimulation date results p)
  = Player.badges p ++ pushed badge p (Game.completeSimulation date results p).
Proof.
  intros Hb. unfold pushed. rewrite completeSimulation_entry.
  unfold Game.completeSimulation. rewrite Hb. cbv zeta.
  destruct (Player.level _ <? _); player_simpl;
    destruct (JS.includes (Player.badges p) (BadgeSystem.id badge)); player_simpl;
    rewrite ?app_nil_r;
    match goal with |- context [forallb ?f ?l && ?c] => destruct (forallb f l && c) end;
    player_simpl; rewrite ?app_nil_r, <- ?app_assoc; reflexivity.
Qed.

Lemma pushed_NoDup (badge : BadgeSystem.Badge) (p p' : Player.t) :
  NoDup (Player.badges p) -> NoDup (Player.badges p ++ pushed badge p p').
Proof.
  intros Hnd. unfold pushed.
  destruct (JS.includes (Player.badges p) (BadgeSystem.id badge)) eqn:Hown.
  - rewrite app_nil_r. cbn [app].
    destruct (forallb _ _ && negb (JS.includes (Player.badges p) "master")) eqn:Hm.
    + apply andb_prop in Hm as [_ Hm]. apply negb_true_iff, includes_false in Hm.
      apply NoDup_app. repeat split; [assumption | | apply NoDup_singleton].
      intros x Hx Hx'. apply list_elem_of_In in Hx. apply list_elem_of_singleton in Hx'. subst x. contradiction.
    + rewrite app_nil_r. assumption.
  - apply includes_false in Hown.
    assert (Hnd' : NoDup (Player.badges p ++ [BadgeSystem.id badge])).
    { apply NoDup_app. repeat split; [assumption | | apply NoDup_singleton].
      intros x Hx Hx'. apply list_elem_of_In in Hx. apply list_elem_of_singleton in Hx'. subst x. contradiction. }
    destruct (forallb _ _ && negb (JS.includes (Player.badges p ++ [BadgeSystem.id badge]) "master"))
      eqn:Hm.
    + apply andb_prop in Hm as [_ Hm]. apply negb_true_iff, includes_false in Hm.
      rewrite app_assoc. apply NoDup_app. repeat split; [assumption | | apply NoDup_singleton].
      intros x Hx Hx'. apply list_elem_of_In in Hx. apply list_elem_of_singleton in Hx'. subst x. contradiction.
    + rewrite app_nil_r. assumption.
Qed.

(** C6, as the code has it. When the parent controller receives a
    completion result for a disaster that has a badge, it does not evaluate
    the requirement predicates: it appends the badge of that disaster unless
    it is already earned, then [master] once the three disasters have a
    completion entry unless it is already earned. Nothing else changes in
    the list, and a list without duplicates stays without duplicates. *)
Theorem completeSimulation_awards (date : string) (results : Host.Result) (p : Player.t)
    (badge : BadgeSystem.Badge) :
  BadgeSystem.getBadgeForDisaster (Host.disaster results) = Some badge ->
  NoDup (Player.badges p) ->
  let p' := Game.completeSimulation date results p in
  Player.badges p' = Player.badges p ++ pushed badge p p'
  /\ NoDup (Player.badges p')
  /\ In (BadgeSystem.id badge) (Player.badges p').
Proof.
  intros Hb Hnd p'. subst p'.
  rewrite (completeSimulation_badges_eq _ _ _ _ Hb).
  split; [reflexivity |]. split; [apply pushed_NoDup; assumption |].
  unfold pushed. destruct (JS.includes (Player.badges p) (BadgeSystem.id badge)) eqn:Hown.
  - apply includes_In in Hown. apply in_or_app. left. assumption.
  - apply in_or_app. right. apply in_or_app. left. left. reflexivity.
Qed.

Lemma completeSimulation_awards_witness :
  NoDup (Player.badges firstEarthquakeProfile)
  /\ Player.badges (Game.completeSimulation "2024-01-02T00:00:00.000Z" poorEarthquakeRun
                      firstEarthquakeProfile)
     = ["earthquake"].
Proof.
  assert (Hnd : NoDup (Player.badges firstEarthquakeProfile))
    by (vm_compute; repeat constructor; intros H; inversion H).
  split; [exact Hnd |].
  destruct (completeSimulation_awards "2024-01-02T00:00:00.000Z" poorEarthquakeRun
              firstEarthquakeProfile _ eq_refl Hnd) as (Heq & _ & _).
  rewrite Heq. vm_compute. reflexivity.
Defined.

(** C6, as stated, fails: after a first earthquake run that scored nothing
    the earthquake badge is earned although its requirement (score at least
    500) does not hold of the updated profile. *)
Lemma completion_awards_unsatisfied_badge :
  ~ awardsNewlySatisfied "2024-01-01T00:00:00.000Z" poorEarthquakeRun Player.new.
Proof.
  unfold awardsNewlySatisfied. intros H.
  specialize (H "earthquake"). 
  assert (Hin : In "earthquake" (fst <$> BadgeSystem.badges)) by (vm_compute; tauto).
  apply H in Hin. clear H.
  assert (Hearned : In "earthquake"
            (Player.badges (Game.completeSimulation "2024-01-01T00:00:00.000Z"
                              poorEarthquakeRun Player.new)))
    by (vm_compute; tauto).
  apply Hin in Hearned. destruct Hearned as [Hbefore | Hcheck].
  - vm_compute in Hbefore. exact Hbefore.
  - vm_compute in Hcheck. discriminate Hcheck.
Qed.

(** ** Flood: counting rescued residents *)

Lemma ge_seven_tenths (n : nat) :
  JS.ge (inject_Z (Z.of_nat n)) (inject_Z (Z.of_nat Flood.totalResidents) * (7 # 10))
  = (7 <=? n)%nat.
Proof.
  unfold JS.ge, Qle_bool. cbn -[Z.of_nat Z.mul Z.leb Nat.leb].
  change Flood.totalResidents with 10%nat.
  destruct (Nat.leb_spec 7 n); [apply Z.leb_le | apply Z.leb_gt]; lia.
Qed.

Ltac flood_simpl :=
  cbn [Flood.currentPhase Flood.score Flood.startTime Flood.accuracy Flood.mistakes
       Flood.waterLevel Flood.isFlooding Flood.houseStore Flood.houses Flood.residentStore
       Flood.residents Flood.supplyStore Flood.emergencySupplies Flood.centerStore
       Flood.evacuationCenters Flood.boatStore Flood.boats Flood.rescuedResidents
       Flood.suppliesDistributed Flood.barriersBuilt Flood.objectives Flood.timers Flood.log
       Flood.set_currentPhase Flood.set_score Flood.set_startTime Flood.set_accuracy
       Flood.set_mistakes Flood.set_waterLevel Flood.set_isFlooding Flood.set_houseStore
       Flood.set_houses Flood.set_residentStore Flood.set_residents Flood.set_supplyStore
       Flood.set_emergencySupplies Flood.set_centerStore Flood.set_evacuationCenters
       Flood.set_boatStore Flood.set_boats Flood.set_rescuedResidents
       Flood.set_suppliesDistributed Flood.set_barriersBuilt Flood.set_objectives
       Flood.set_timers Flood.set_log Flood.emit Flood.setTimeout Flood.requestAnimationFrame
       Flood.showAchievementMessage Flood.showHint Flood.showEducationalInfo
       Flood.prepareSupplies Flood.buildBarriers Flood.evacuateResidents Flood.rescueStranded
       Flood.establishShelter Flood.set_prepareSupplies Flood.set_evacuateResidents
       Flood.set_rescueStranded Flood.set_establishShelter] in *.

(** C9, as the code has it. Each path counts the resident and checks its
    own threshold only: the arrival at a shelter sets [evacuateResidents]
    once the count is at least 7 of 10 and leaves [rescueStranded] as it
    was; the arrival of the boat sets [rescueStranded] once the count is
    at least 10 and leaves [evacuateResidents] as it was. *)
Theorem rescued_thresholds_per_path (now : Q) (s : Flood.Session) (resident : nat) :
  (forall center : nat,
      let s' := Flood.runCallback now (Flood.residentSheltered resident center) s in
      Flood.rescuedResidents s' = S (Flood.rescuedResidents s)
      /\ Flood.evacuateResidents (Flood.objectives s')
         = Flood.evacuateResidents (Flood.objectives s) || (7 <=? Flood.rescuedResidents s')%nat
      /\ Flood.rescueStranded (Flood.objectives s') = Flood.rescueStranded (Flood.objectives s))
  /\ (forall boat : nat,
      let s' := Flood.runCallback now (Flood.boatArrived resident boat) s in
      Flood.rescuedResidents s' = S (Flood.rescuedResidents s)
      /\ Flood.rescueStranded (Flood.objectives s')
         = Flood.rescueStranded (Flood.objectives s) || (10 <=? Flood.rescuedResidents s')%nat
      /\ Flood.evacuateResidents (Flood.objectives s') = Flood.evacuateResidents (Flood.objectives s)).
Proof.
  split.
  - intros center. cbn [Flood.runCallback]. flood_simpl. rewrite ge_seven_tenths.
    replace (Flood.rescuedResidents s + 1)%nat with (S (Flood.rescuedResidents s)) by lia.
    destruct (7 <=? S (Flood.rescuedResidents s))%nat eqn:E; flood_simpl;
      rewrite ?E, ?orb_true_r, ?orb_false_r; repeat split.
  - intros boat. cbn [Flood.runCallback]. flood_simpl.
    replace (Flood.rescuedResidents s + 1)%nat with (S (Flood.rescuedResidents s)) by lia.
    change Flood.totalResidents with 10%nat.
    destruct (10 <=? S (Flood.rescuedResidents s))%nat eqn:E; flood_simpl;
      rewrite ?E, ?orb_true_r, ?orb_false_r; repeat split.
Qed.

(** C9, as stated, fails: when the tenth resident arrives at a shelter
    after a click, all ten residents are counted and [rescueStranded] is
    still false. *)
Lemma tenth_sheltered_not_rescueStranded :
  Flood.rescuedResidents nineSheltered = 9%nat
  /\ Flood.timers nineSheltered !! 1%nat
     = Some {| due := 4900%Q; callback := Flood.residentSheltered 9 1 |}
  /\ ~ thresholdsOnEitherPath 4900%Q (Flood.residentSheltered 9 1) nineSheltered.
Proof.
  split; [vm_compute; reflexivity |].
  split; [vm_compute; reflexivity |].
  unfold thresholdsOnEitherPath. intros [H _].
  assert (Hcount : (Flood.totalResidents
                    <= Flood.rescuedResidents
                         (Flood.runCallback 4900%Q (Flood.residentSheltered 9 1) nineSheltered))%nat)
    by (vm_compute; lia).
  apply H in Hcount. vm_compute in Hcount. discriminate Hcount.
Qed.

(** ** The phase driver *)

Ltac earthquake_simpl :=
  cbn [Earthquake.currentPhase Earthquake.score Earthquake.startTime Earthquake.accuracy
       Earthquake.mistakes Earthquake.studentStore Earthquake.students Earthquake.desks
       Earthquake.phaseStartTime Earthquake.isEarthquakeActive Earthquake.evacuatedStudents
       Earthquake.objectives Earthquake.timers Earthquake.log
       Earthquake.set_currentPhase Earthquake.set_score Earthquake.set_startTime
       Earthquake.set_accuracy Earthquake.set_mistakes Earthquake.set_studentStore
       Earthquake.set_students Earthquake.set_desks Earthquake.set_phaseStartTime
       Earthquake.set_isEarthquakeActive Earthquake.set_evacuatedStudents
       Earthquake.set_objectives Earthquake.set_timers Earthquake.set_log
       Earthquake.emit Earthquake.setTimeout Earthquake.showEducationalInfo
       Earthquake.showAchievementMessage
       Earthquake.dropCoverHold Earthquake.stayCalm Earthquake.checkInjuries
       Earthquake.evacuateSafely Earthquake.assembleAtSafePoint
       Earthquake.set_dropCoverHold Earthquake.set_checkInjuries Earthquake.set_evacuateSafely
       Earthquake.set_assembleAtSafePoint] in *.

Ltac landslide_simpl :=
  cbn [Landslide.currentPhase Landslide.score Landslide.startTime Landslide.accuracy
       Landslide.mistakes Landslide.houses Landslide.residentStore Landslide.residents
       Landslide.safeZoneStore Landslide.safeZones Landslide.warningSignStore
       Landslide.evacuatedResidents Landslide.warningSystemActivated Landslide.warningSignsFound
       Landslide.objectives Landslide.timers Landslide.log
       Landslide.set_currentPhase Landslide.set_score Landslide.set_startTime
       Landslide.set_accuracy Landslide.set_mistakes Landslide.set_houses
       Landslide.set_residentStore Landslide.set_residents Landslide.set_safeZoneStore
       Landslide.set_safeZones Landslide.set_warningSignStore Landslide.set_evacuatedResidents
       Landslide.set_warningSystemActivated Landslide.set_warningSignsFound
       Landslide.set_objectives Landslide.set_timers Landslide.set_log
       Landslide.emit Landslide.setTimeout
       Landslide.identifyWarningSigns Landslide.activateWarningSystem
       Landslide.evacuateResidents Landslide.reachSafeZone Landslide.avoidDangerZone
       Landslide.set_identifyWarningSigns Landslide.set_activateWarningSystem
       Landslide.set_evacuateResidents Landslide.set_avoidDangerZone] in *.

(** A loop keeps what each of its rounds keeps. *)
Lemma foldl_invariant {S A : Type} (P : S -> Prop) (f : S -> A -> S) (l : list A) (s : S) :
  P s -> (forall acc x, P acc -> P (f acc x)) -> P (foldl f s l).
Proof.
  intros Hs Hf. revert s Hs. induction l as [| x l IH]; intros s Hs; simpl; [assumption |].
  apply IH, Hf, Hs.
Qed.

(** The recovery phase of the flood module schedules the dispatch of the
    supplies and a frame of the receding water, no phase advance, and
    leaves the phase index alone. *)
Lemma startRecoveryPhase_driver (now : Q) (s : Flood.Session) :
  Flood.currentPhase (Flood.startRecoveryPhase now s) = Flood.currentPhase s
  /\ floodAdvances (Flood.startRecoveryPhase now s) = floodAdvances s.
Proof.
  unfold Flood.startRecoveryPhase, Flood.setupShelterOperations, Flood.startWaterReceding,
    Flood.recedeWaterFrame.
  set (s1 := Flood.emit _ s).
  assert (H1 : Flood.currentPhase s1 = Flood.currentPhase s /\ floodAdvances s1 = floodAdvances s)
    by (split; reflexivity).
  assert (H2 : Flood.currentPhase (Flood.distributeSuppliesToShelters now s1) = Flood.currentPhase s
               /\ floodAdvances (Flood.distributeSuppliesToShelters now s1) = floodAdvances s).
  { unfold Flood.distributeSuppliesToShelters. apply foldl_invariant; [exact H1 |].
    intros acc [index supply] [Hp Ha].
    destruct (Flood.supplyStore acc !! supply) as [o |]; [| split; assumption].
    destruct (negb (Flood.Supply.collected o)); [| split; assumption].
    split; [exact Hp |]. unfold floodAdvances in *. flood_simpl.
    rewrite omap_app. simpl. rewrite app_nil_r. exact Ha. }
  destruct H2 as [Hp Ha].
  match goal with |- context [if ?b then _ else _] => destruct b end; flood_simpl.
  - split; [exact Hp |]. unfold floodAdvances in *. flood_simpl.
    rewrite omap_app. simpl. rewrite app_nil_r. exact Ha.
  - split; [exact Hp | exact Ha].
Qed.

Lemma earthquake_startPhase_in_range (now : Q) (N : nat) (s : Earthquake.Session) (phase : Phase) :
  Earthquake.phases !! N = Some phase ->
  Earthquake.currentPhase (Earthquake.startPhase now N s) = N
  /\ earthquakeAdvances (Earthquake.startPhase now N s)
     = earthquakeAdvances s ++ [((now + inject_Z (duration phase))%Q, N)].
Proof.
  intros H. do 4 (destruct N as [| N]; [injection H as <-; split; [reflexivity |];
    unfold earthquakeAdvances; cbn -[Qplus inject_Z]; rewrite omap_app; reflexivity |]).
  discriminate H.
Qed.

Lemma landslide_startPhase_in_range (now : Q) (N : nat) (s : Landslide.Session) (phase : Phase) :
  Landslide.phases !! N = Some phase ->
  Landslide.currentPhase (Landslide.startPhase now N s) = N
  /\ landslideAdvances (Landslide.startPhase now N s)
     = landslideAdvances s ++ [((now + inject_Z (duration phase))%Q, N)].
Proof.
  intros H. do 4 (destruct N as [| N]; [injection H as <-; split; [reflexivity |];
    unfold landslideAdvances; cbn -[Qplus inject_Z]; rewrite omap_app; reflexivity |]).
  discriminate H.
Qed.

Lemma flood_startPhase_in_range (now : Q) (N : nat) (s : Flood.Session) (phase : Phase) :
  Flood.phases !! N = Some phase ->
  Flood.currentPhase (Flood.startPhase now N s) = N
  /\ floodAdvances (Flood.startPhase now N s)
     = floodAdvances s ++ [((now + inject_Z (duration phase))%Q, N)].
Proof.
  intros H. do 3 (destruct N as [| N]; [injection H as <-; split; [reflexivity |];
    unfold floodAdvances; cbn -[Qplus inject_Z]; rewrite omap_app; reflexivity |]).
  destruct N as [| N]; [| discriminate H]. injection H as <-.
  unfold Flood.startPhase. cbn [length Flood.phases Nat.leb lookup list_lookup name duration String.eqb
    Ascii.eqb Bool.eqb].
  set (s1 := Flood.emit _ (Flood.set_currentPhase 3 s)).
  destruct (startRecoveryPhase_driver now s1) as [Hp Ha].
  split.
  - flood_simpl. exact Hp.
  - unfold floodAdvances in *. flood_simpl. rewrite omap_app, Ha. reflexivity.
Qed.

Lemma driver_startPhase_in_range (host : Landslide.Support) (d : Disaster) (now : Q) (N : nat)
    (s : Driver.Session (driver host d)) (phase : Phase) :
  Driver.phases (driver host d) !! N = Some phase ->
  Driver.currentPhase _ (Driver.startPhase _ now N s) = N
  /\ Driver.advances _ (Driver.startPhase _ now N s)
     = Driver.advances _ s ++ [((now + inject_Z (duration phase))%Q, N)].
Proof.
  destruct d; simpl in *.
  - apply earthquake_startPhase_in_range.
  - apply landslide_startPhase_in_range.
  - apply flood_startPhase_in_range.
Qed.

Lemma driver_fire (host : Landslide.Support) (d : Disaster) (now : Q) (N : nat)
    (s : Driver.Session (driver host d)) :
  Driver.fire _ now N s
  = if (Driver.currentPhase _ s =? N)%nat then Driver.startPhase _ now (N + 1) s else s.
Proof. destruct d; reflexivity. Qed.

Lemma driver_phases_length (host : Landslide.Support) (d : Disaster) :
  length (Driver.phases (driver host d)) = 4%nat.
Proof. destruct d; reflexivity. Qed.

Lemma earthquake_startPhase_past_end (now : Q) (N : nat) (s : Earthquake.Session) :
  (4 <= N)%nat -> Earthquake.startPhase now N s = Earthquake.completeSimulation now s.
Proof.
  intros H. unfold Earthquake.startPhase. change (length Earthquake.phases) with 4%nat.
  apply Nat.leb_le in H. rewrite H. reflexivity.
Qed.

Lemma landslide_startPhase_past_end (now : Q) (N : nat) (s : Landslide.Session) :
  (4 <= N)%nat -> Landslide.startPhase now N s = Landslide.completeSimulation now s.
Proof.
  intros H. unfold Landslide.startPhase. change (length Landslide.phases) with 4%nat.
  apply Nat.leb_le in H. rewrite H. reflexivity.
Qed.

Lemma flood_startPhase_past_end (now : Q) (N : nat) (s : Flood.Session) :
  (4 <= N)%nat -> Flood.startPhase now N s = Flood.completeSimulation now s.
Proof.
  intros H. unfold Flood.startPhase. change (length Flood.phases) with 4%nat.
  apply Nat.leb_le in H. rewrite H. reflexivity.
Qed.

Lemma driver_startPhase_past_end (host : Landslide.Support) (d : Disaster) (now : Q) (N : nat)
    (s : Driver.Session (driver host d)) :
  (length (Driver.phases (driver host d)) <= N)%nat ->
  Driver.startPhase _ now N s = Driver.completeSimulation _ now s
  /\ Driver.currentPhase _ (Driver.startPhase _ now N s) = Driver.currentPhase _ s
  /\ Driver.advances _ (Driver.startPhase _ now N s) = Driver.advances _ s.
Proof.
  rewrite driver_phases_length. intros H.
  destruct d; cbn [driver Driver.startPhase Driver.completeSimulation Driver.currentPhase
                   Driver.advances Driver.Session] in *.
  - rewrite (earthquake_startPhase_past_end now N s H). repeat split.
  - rewrite (landslide_startPhase_past_end now N s H). repeat split.
  - rewrite (flood_startPhase_past_end now N s H). repeat split.
Qed.

(** What the phase driver does keep. In each of the three modules and for
    every phase index [N] in
    range, [startPhase(N)] sets the current phase to [N] and adds exactly
    one automatic advance to the pending timers, due the configured
    duration of phase [N] after the call and capturing [N]; the closure
    calls [startPhase(N + 1)] when the current index is still [N] and does
    nothing otherwise, so once the session has moved on to [N + 1] a
    further timer that captured [N] does not advance it again; and for
    every [N] from the length of the phase list on, [startPhase(N)] is
    [completeSimulation], which sets no phase and schedules no advance. *)
Theorem startPhase_auto_advance (host : Landslide.Support) (d : Disaster) :
  (forall (now : Q) (N : nat) (s : Driver.Session (driver host d)) (phase : Phase),
      Driver.phases (driver host d) !! N = Some phase ->
      Driver.currentPhase _ (Driver.startPhase _ now N s) = N
      /\ Driver.advances _ (Driver.startPhase _ now N s)
         = Driver.advances _ s ++ [((now + inject_Z (duration phase))%Q, N)])
  /\ (forall (now : Q) (N : nat) (s : Driver.Session (driver host d)),
      Driver.currentPhase _ s = N ->
      Driver.fire _ now N s = Driver.startPhase _ now (N + 1) s)
  /\ (forall (now : Q) (N : nat) (s : Driver.Session (driver host d)),
      Driver.currentPhase _ s <> N ->
      Driver.fire _ now N s = s)
  /\ (forall (now now' : Q) (N : nat) (s : Driver.Session (driver host d)),
      Driver.currentPhase _ s = N ->
      (N + 1 < length (Driver.phases (driver host d)))%nat ->
      Driver.currentPhase _ (Driver.fire _ now N s) = (N + 1)%nat
      /\ Driver.fire _ now' N (Driver.fire _ now N s) = Driver.fire _ now N s)
  /\ (forall (now : Q) (N : nat) (s : Driver.Session (driver host d)),
      (length (Driver.phases (driver host d)) <= N)%nat ->
      Driver.startPhase _ now N s = Driver.completeSimulation _ now s
      /\ Driver.currentPhase _ (Driver.startPhase _ now N s) = Driver.currentPhase _ s
      /\ Driver.advances _ (Driver.startPhase _ now N s) = Driver.advances _ s).
Proof.
  assert (Hfire_eq : forall now N s, Driver.currentPhase (driver host d) s = N ->
            Driver.fire _ now N s = Driver.startPhase _ now (N + 1) s).
  { intros now N s H. rewrite driver_fire. apply Nat.eqb_eq in H. rewrite H. reflexivity. }
  assert (Hfire_ne : forall now N s, Driver.currentPhase (driver host d) s <> N ->
            Driver.fire _ now N s = s).
  { intros now N s H. rewrite driver_fire. apply Nat.eqb_neq in H. rewrite H. reflexivity. }
  split; [apply driver_startPhase_in_range |].
  split; [exact Hfire_eq |].
  split; [exact Hfire_ne |].
  split; [| apply driver_startPhase_past_end].
  intros now now' N s Hcur Hlt.
  destruct (Driver.phases (driver host d) !! (N + 1)%nat) as [phase |] eqn:Hphase.
  - rewrite (Hfire_eq now N s Hcur).
    destruct (driver_startPhase_in_range host d now (N + 1) s phase Hphase) as [Hp _].
    split; [exact Hp |]. apply Hfire_ne. rewrite Hp. lia.
  - apply lookup_ge_None in Hphase. lia.
Qed.

Lemma startPhase_auto_advance_witness :
  (Flood.currentPhase (Flood.startPhase 0 0 Flood.new) = 0%nat
   /\ floodAdvances (Flood.startPhase 0 0 Flood.new) = [((0 + inject_Z 60000)%Q, 0%nat)])
  /\ Flood.runCallback 70000 (Flood.autoAdvance 1) (Flood.startPhase 0 0 Flood.new)
     = Flood.startPhase 0 0 Flood.new
  /\ Flood.currentPhase
       (Flood.runCallback 60000 (Flood.autoAdvance 0) (Flood.startPhase 0 0 Flood.new)) = 1%nat
  /\ Flood.startPhase 0 4 Flood.new = Flood.completeSimulation 0 Flood.new.
Proof.
  destruct (startPhase_auto_advance Landslide.repository flood) as (Ha & Hb & Hc & Hd & He).
  split; [exact (Ha 0%Q 0%nat Flood.new _ eq_refl) |].
  split; [apply (Hc 70000%Q 1%nat (Flood.startPhase 0 0 Flood.new)); vm_compute; lia |].
  split.
  - apply (Hd 60000%Q 70000%Q 0%nat (Flood.startPhase 0 0 Flood.new)); [reflexivity | vm_compute; lia].
  - apply (He 0%Q 4%nat Flood.new). vm_compute. lia.
Defined.

(** C3 on the code: the last phase is advanced twice. An earthquake
    session is started at 0 s and reset at 37 s, 81 s, 109 s and 137 s;
    every timer fires when it is due. The two lists give the current phase
    and the time it was entered after each of the first 18 events. After 16
    events the session is in the last phase (entered at 172 s) and two
    timers that captured index 3 are pending, the one from the entry at
    135 s before the last reset and the one from the entry at 172 s. Both
    find the current index equal to the captured one: the first shows the
    completion screen at 225 s (88 s after the last reset), the second
    shows it again at 262 s (125 s after it), with no reset in between. *)
Theorem last_phase_advanced_twice :
  (fun events => Earthquake.currentPhase (fourResets events)) <$> seq 0 19
  = [0; 1; 0; 1; 2; 0; 0; 1; 2; 3; 0; 1; 2; 2; 3; 3; 3; 3; 3]%nat
  /\ (fun events => Earthquake.phaseStartTime (fourResets events)) <$> seq 0 19
     = [ 0; 30000; 37000; 67000; 75000; 81000; 109000; 111000; 112000; 135000; 137000;
         139000; 156000; 156000; 172000; 172000; 172000; 172000; 172000 ]%Q
  /\ Earthquake.timers (fourResets 16)
     = [ {| due := 225000; callback := Earthquake.autoAdvance 3 |};
         {| due := 262000; callback := Earthquake.autoAdvance 3 |} ]
  /\ Earthquake.startTime (fourResets 16) = 137000%Q
  /\ completionScreens (fourResets 16) = []
  /\ fourResets 17
     = Earthquake.runCallback 225000 (Earthquake.autoAdvance 3)
         (Earthquake.set_timers [ {| due := 262000; callback := Earthquake.autoAdvance 3 |} ]
            (fourResets 16))
  /\ Earthquake.timeElapsed <$> completionScreens (fourResets 17) = [88]
  /\ fourResets 18
     = Earthquake.runCallback 262000 (Earthquake.autoAdvance 3)
         (Earthquake.set_timers [] (fourResets 17))
  /\ Earthquake.timeElapsed <$> completionScreens (fourResets 18) = [88; 125]
  /\ Earthquake.timers (fourResets 18) = [].
Proof. vm_compute. repeat split. Qed.

(** ** Timers and reset *)

(** A freshly reset session is in phase 0, whatever it was before. *)
Lemma flood_reset_phase (now : Q) (s : Flood.Session) :
  Flood.currentPhase (Flood.reset now s) = 0%nat.
Proof.
  unfold Flood.reset. cbv zeta.
  match goal with |- Flood.currentPhase (Flood.startPhase now 0 ?x) = _ =>
    exact (proj1 (flood_startPhase_in_range now 0 x _ eq_refl)) end.
Qed.

(** So a timer that captured index 0 advances a session reset in the
    meantime: the comparison of the captured index with the current one
    lets it through. *)
Lemma flood_timer_of_phase_0_after_reset (now now' : Q) (s : Flood.Session) :
  Flood.runCallback now' (Flood.autoAdvance 0) (Flood.reset now s)
  = Flood.startPhase now' 1 (Flood.reset now s).
Proof. cbn [Flood.runCallback]. rewrite flood_reset_phase. reflexivity. Qed.

(** C8 on the code: the session starts at 0 s and is reset at 10 s. The
    timer scheduled by the start (due at 60 s, captured index 0) is still
    pending after the reset; when it fires at 60 s it moves the session
    from phase 0 to phase 1, 10 s before the timer scheduled by the reset
    is due. *)
Theorem timer_before_reset_advances :
  Flood.timers resetRun
  = [ {| due := 60000; callback := Flood.autoAdvance 0 |};
      {| due := 70000; callback := Flood.autoAdvance 0 |} ]
  /\ Flood.currentPhase resetRun = 0%nat
  /\ Flood.currentPhase (floodHappens 60000 (FloodTimer (Flood.autoAdvance 0)) resetRun) = 1%nat
  /\ Flood.timers (floodHappens 60000 (FloodTimer (Flood.autoAdvance 0)) resetRun)
     = [ {| due := 70000; callback := Flood.autoAdvance 0 |};
         {| due := 150000; callback := Flood.autoAdvance 1 |} ].
Proof. vm_compute. repeat split. Qed.

(** ** Accuracy *)

(** An incorrect drop of the earthquake module keeps the accuracy within
    0 and 100 and takes 10 points off it, down to 0. *)
Lemma earthquake_onIncorrectDrop_accuracy (studentId deskId : string) (s : Earthquake.Session) :
  0 <= Earthquake.accuracy s <= 100 ->
  let s' := Earthquake.onIncorrectDrop studentId deskId s in
  0 <= Earthquake.accuracy s' <= 100
  /\ Earthquake.accuracy s' = Z.max 0 (Earthquake.accuracy s - 10)
  /\ Earthquake.mistakes s' = S (Earthquake.mistakes s).
Proof.
  intros H s'. subst s'. unfold Earthquake.onIncorrectDrop. cbv zeta.
  match goal with |- context [if ?b then _ else _] => destruct b end;
    earthquake_simpl; unfold JS.max; repeat split; lia.
Qed.

(** The safety check of the landslide module either raises at the first
    resident who was not evacuated, with the session as it was, or finds
    nobody in danger and adds the objective and 300 points. *)
Lemma landslide_checkResidentSafety_cases (s : Landslide.Session) :
  Landslide.checkResidentSafety s = Landslide.raised s
  \/ Landslide.checkResidentSafety s
     = Landslide.returned
         (Landslide.set_score (Landslide.score s + 300)
            (Landslide.set_objectives
               (Landslide.set_avoidDangerZone true (Landslide.objectives s)) s)).
Proof.
  unfold Landslide.checkResidentSafety.
  match goal with |- context [foldl ?f0 _ _] => set (f := f0) end.
  assert (H : let r := foldl f (0%nat, Landslide.returned s) (Landslide.residents s) in
              (fst r = 0%nat /\ snd r = Landslide.returned s)
              \/ snd r = Landslide.raised s).
  { cbv zeta.
    apply (foldl_invariant (fun r : nat * Landslide.Outcome =>
             (fst r = 0%nat /\ snd r = Landslide.returned s)
             \/ snd r = Landslide.raised s)).
    - left. split; reflexivity.
    - intros [n o] resident [[Hn Ho] | Ho]; cbn [fst snd] in *; subst; unfold f.
      + destruct (Landslide.residentStore s !! resident) as [r |];
          [| left; split; reflexivity].
        destruct (negb (Landslide.Resident.evacuated r)).
        * right. reflexivity.
        * left. split; reflexivity.
      + right. reflexivity. }
  cbv zeta in H.
  destruct (foldl f (0%nat, Landslide.returned s) (Landslide.residents s)) as [n o].
  cbn [fst snd] in H. destruct H as [[-> ->] | ->].
  - right. reflexivity.
  - left. reflexivity.
Qed.

(** ** Completion and the parent controller *)

(** What [DisasterSimGame.completeSimulation] does to the score, the entry
    of the disaster and the level. *)
Lemma completeSimulation_profile (date : string) (results : Host.Result) (p : Player.t) :
  let p' := Game.completeSimulation date results p in
  Player.totalScore p' = Player.totalScore p + (Host.score results + Host.timeBonus results)
  /\ Player.completedSimulations p' !! Host.disaster results
     = Some {| Player.completed := true; Player.score := Host.score results;
               Player.timeBonus := Host.timeBonus results;
               Player.accuracy := Host.accuracy results;
               Player.completedAt := date; Player.timeElapsed := None |}
  /\ Player.level p' = Z.max (Player.level p) (Player.totalScore p' / 1000 + 1).
Proof.
  intros p'. subst p'. rewrite completeSimulation_entry, lookup_insert_eq.
  unfold Game.completeSimulation. cbv zeta.
  player_simpl.
  destruct (Player.level p <? _) eqn:Hlevel;
    [apply Z.ltb_lt in Hlevel | apply Z.ltb_ge in Hlevel];
    (destruct (BadgeSystem.getBadgeForDisaster _);
     repeat (player_simpl;
             match goal with |- context [if ?b then _ else _] => destruct b end);
     player_simpl; repeat split; lia).
Qed.

(** The host's side of calls that are no report leaves the profile alone. *)
Lemma handle_quiet {A} (date : string) (effects : list (Host.Effect A)) (g : Game.t) :
  existsb reports effects = false ->
  Game.playerData (foldl (fun g e => Game.handle date e g) g effects) = Game.playerData g.
Proof.
  revert g. induction effects as [| e effects IH]; intros g H; simpl in *; [reflexivity |].
  apply orb_false_elim in H as [He H]. rewrite (IH _ H).
  destruct e; simpl in *; try reflexivity. discriminate He.
Qed.

(** The earthquake module: completion shows a panel whose only button
    reports the total, the time bonus and the accuracy, and the controller
    takes them in. The same holds of the flood module. *)
Lemma earthquake_completion_reported (date : string) (now now' : Q) (s : Earthquake.Session)
    (g : Game.t) :
  let r := Earthquake.calculateFinalScore now s in
  Earthquake.log (Earthquake.completeSimulation now s)
  = Earthquake.log s
      ++ [Host.updateProgress 100;
          Host.showInstructions "Earthquake Simulation Complete!" [Earthquake.viewResults r]]
  /\ Game.playerData
       (Game.runEarthquake date (Earthquake.runAction now' (Earthquake.viewResults r))
          (Earthquake.completeSimulation now s) g)
     = Game.completeSimulation date
         {| Host.disaster := "earthquake"; Host.score := Earthquake.total r;
            Host.timeBonus := Earthquake.timeBonus r; Host.accuracy := Earthquake.accuracy s |}
         (Game.playerData g).
Proof.
  split.
  - unfold Earthquake.completeSimulation. earthquake_simpl. rewrite <- app_assoc. reflexivity.
  - reflexivity.
Qed.

Lemma flood_completion_reported (date : string) (now now' : Q) (s : Flood.Session) (g : Game.t) :
  let r := Flood.calculateFinalScore now s in
  Flood.log (Flood.completeSimulation now s)
  = Flood.log s
      ++ [Host.updateProgress 100;
          Host.showInstructions "Flood Response Training Complete!" [Flood.viewResults r]]
  /\ Game.playerData
       (Game.runFlood date (Flood.runAction now' (Flood.viewResults r))
          (Flood.completeSimulation now s) g)
     = Game.completeSimulation date
         {| Host.disaster := "flood"; Host.score := Flood.total r;
            Host.timeBonus := Flood.timeBonus r; Host.accuracy := Flood.accuracy s |}
         (Game.playerData g).
Proof.
  split.
  - unfold Flood.completeSimulation. flood_simpl. rewrite <- app_assoc. reflexivity.
  - reflexivity.
Qed.

(** The landslide module never calls [game.completeSimulation]. *)
Definition landslideQuiet (s : Landslide.Session) : Prop :=
  existsb reports (Landslide.log s) = false.

Ltac landslide_quiet :=
  unfold landslideQuiet in *; cbn -[Qplus Qmult Qdiv inject_Z existsb app] in *;
  rewrite ?existsb_app; simpl;
  repeat match goal with H : existsb reports _ = false |- _ => rewrite H end;
  try reflexivity.

Lemma landslide_startPhase_quiet (now : Q) (N : nat) (s : Landslide.Session) :
  landslideQuiet s -> landslideQuiet (Landslide.startPhase now N s).
Proof.
  intros H. do 4 (destruct N as [| N]; [cbn; landslide_quiet |]).
  rewrite landslide_startPhase_past_end by lia.
  unfold Landslide.completeSimulation, Landslide.showCompletionScreen. landslide_quiet.
Qed.

Lemma landslide_start_quiet (now : Q) (s : Landslide.Session) :
  landslideQuiet s -> landslideQuiet (Landslide.start now s).
Proof.
  intros H. unfold Landslide.start, Landslide.showWelcomeInstructions. cbv zeta.
  set (s1 := Landslide.createHillsideScene _).
  assert (H1 : landslideQuiet s1) by exact H.
  pose proof (landslide_startPhase_quiet now 0 s1 H1) as H2.
  unfold landslideQuiet in *.
  change (Landslide.log (Landslide.emit ?e ?x)) with (Landslide.log x ++ [e]).
  rewrite existsb_app, H2. reflexivity.
Qed.

Lemma landslide_checkResidentSafety_log (s : Landslide.Session) :
  Landslide.log (Landslide.state (Landslide.checkResidentSafety s)) = Landslide.log s.
Proof.
  destruct (landslide_checkResidentSafety_cases s) as [-> | ->]; reflexivity.
Qed.

Lemma landslide_step_quiet (host : Landslide.Support) (now : Q) (e : Landslide.Event)
    (s : Landslide.Session) :
  landslideQuiet s -> landslideQuiet (Landslide.step host now e s).
Proof.
  intros H. destruct e as [| w | | r | item zone | a | k | r p]; cbn [Landslide.step].
  - apply landslide_start_quiet, H.
  - unfold Landslide.onWarningSignClick, Landslide.feedback.
    repeat (match goal with
            | |- context [match ?x with Some _ => _ | None => _ end] => destruct x
            | |- context [if ?b then _ else _] => destruct b
            end; try assumption); landslide_quiet.
  - unfold Landslide.activateWarningSystem', Landslide.feedback.
    repeat (match goal with
            | |- context [if ?b then _ else _] => destruct b
            end; try assumption); landslide_quiet.
  - unfold Landslide.evacuateResident, Landslide.feedback.
    repeat (match goal with
            | |- context [match ?x with Some _ => _ | None => _ end] => destruct x
            | |- context [if ?b then _ else _] => destruct b
            end; try assumption); landslide_quiet.
  - unfold Landslide.onDragDropComplete, Landslide.feedback.
    repeat (match goal with
            | |- context [if ?b then _ else _] => destruct b
            end; try assumption); landslide_quiet.
  - destruct a; cbn [Landslide.runAction].
    + landslide_quiet.
    + unfold Landslide.showWarningInterface. landslide_quiet.
    + unfold Landslide.simulateLandslide, landslideQuiet.
      rewrite landslide_checkResidentSafety_log. landslide_quiet.
    + unfold Landslide.restart. cbv zeta.
      destruct (Landslide.clearScene host); [apply landslide_start_quiet |]; landslide_quiet.
    + destruct (Landslide.returnToMenu host); landslide_quiet.
  - destruct (Landslide.timers s !! k) as [t |]; [| exact H].
    destruct (callback t) as [N |]; cbn [Landslide.runCallback].
    + destruct (_ =? _)%nat; [apply landslide_startPhase_quiet |]; landslide_quiet.
    + unfold Landslide.activateWarningSystem', Landslide.feedback.
      repeat (match goal with
              | |- context [if ?b then _ else _] => destruct b
              end; try assumption); landslide_quiet.
  - landslide_quiet.
Qed.

(** C7 on the code: whatever runs in the landslide session, its
    completion and the buttons of its completion screen included, the
    profile kept by the parent controller does not change; the completion
    computes no time bonus and shows a screen whose buttons restart the
    session or leave for the menu. *)
Theorem landslide_completion_not_reported (host : Landslide.Support) (date : string)
    (now : Q) (e : Landslide.Event) (s : Landslide.Session) (g : Game.t) :
  Game.playerData (Game.runLandslide date (Landslide.step host now e) s g) = Game.playerData g
  /\ exists rating : string,
       Landslide.log (Landslide.completeSimulation now s)
       = Landslide.log s
           ++ [Host.showInstructions ("Landslide Simulation Complete - " +:+ rating)
                 [Landslide.restartSimulation; Landslide.mainMenu]].
Proof.
  split.
  - unfold Game.runLandslide. cbv zeta. rewrite handle_quiet; [reflexivity |].
    apply landslide_step_quiet. reflexivity.
  - unfold Landslide.completeSimulation, Landslide.showCompletionScreen. landslide_simpl.
    eexists. reflexivity.
Qed.

(** ** The matching panel *)

(** The host's side of the calls of a session never swaps the session. *)
Lemma handle_module {A} (date : string) (effects : list (Host.Effect A)) (g : Game.t) :
  Game.simulationModule (foldl (fun g e => Game.handle date e g) g effects)
  = Game.simulationModule g.
Proof.
  revert g. induction effects as [| e effects IH]; intros g; simpl; [reflexivity |].
  rewrite IH. destruct e; reflexivity.
Qed.

Lemma runEarthquake_module (date : string) (f : Earthquake.Session -> Earthquake.Session)
    (s : Earthquake.Session) (g : Game.t) :
  Game.simulationModule (Game.runEarthquake date f s g)
  = Some (Game.earthquake (f (Earthquake.set_log [] s))).
Proof. unfold Game.runEarthquake. cbv zeta. rewrite handle_module. reflexivity. Qed.

(** A correct drop of a student on a desk of the session scores 100 and
    counts no mistake; it shows no failure warning. *)
Lemma onCorrectDrop_deltas (studentId deskId : string) (s : Earthquake.Session) :
  namesStudentAndDesk studentId deskId (Game.earthquake s) ->
  Earthquake.log s = [] ->
  let s' := Earthquake.onCorrectDrop studentId deskId s in
  Earthquake.score s' = Earthquake.score s + 100
  /\ Earthquake.mistakes s' = Earthquake.mistakes s
  /\ ~ In (Host.showMessage Host.Error) (Earthquake.log s').
Proof.
  intros [[student Hs] [desk Hd]] Hlog s'. subst s'. unfold Earthquake.onCorrectDrop. cbv zeta.
  rewrite Hs, Hd.
  match goal with |- context [if ?b then _ else _] => destruct b end;
    earthquake_simpl; rewrite Hlog; repeat split; simpl; try lia;
    intros [H | H]; (discriminate H || exact H).
Qed.

(** An incorrect drop counts one mistake and scores nothing; the failure
    warning is shown exactly when the count has reached the ceiling. *)
Lemma onIncorrectDrop_deltas (studentId deskId : string) (s : Earthquake.Session) :
  Earthquake.log s = [] ->
  let s' := Earthquake.onIncorrectDrop studentId deskId s in
  Earthquake.score s' = Earthquake.score s
  /\ Earthquake.mistakes s' = S (Earthquake.mistakes s)
  /\ (In (Host.showMessage Host.Error) (Earthquake.log s')
      <-> (Earthquake.maxMistakes <= Earthquake.mistakes s')%nat).
Proof.
  intros Hlog s'. subst s'. unfold Earthquake.onIncorrectDrop. cbv zeta. earthquake_simpl.
  destruct (Nat.leb_spec Earthquake.maxMistakes (Earthquake.mistakes s + 1)) as [Hle | Hlt];
    earthquake_simpl; rewrite Hlog; (split; [reflexivity |]); (split; [lia |]); simpl.
  - split; [intros _; exact Hle | intros _; left; reflexivity].
  - split; [intros [] | intros H; lia].
Qed.

(** C4. For every dropped item and every drop zone, the drop is classified
    as correct exactly when the type tag of the item is among the types
    the zone accepts. A correct drop calls [onCorrectDrop] of the session
    and an incorrect one [onIncorrectDrop], when the session defines them
    (the earthquake session does; the handler tests for them). For ids that
    name a student and a desk, the score goes up by 100 on a correct drop
    and the mistake counter by 1 on an incorrect one, and nothing else: both
    deltas are functions of the membership alone. The failure warning is
    shown by the incorrect drops from the third mistake on. *)
Theorem drop_correct_iff_accepted (date : string) (draggedId : string) (zone : Host.Zone)
    (g : Game.t) (item : Host.Item) (m : Game.SimulationModule) :
  List.find (fun item => String.eqb (Host.item_id item) draggedId) (Game.draggableItems g)
  = Some item ->
  Game.simulationModule g = Some m ->
  namesStudentAndDesk draggedId (Host.zone_id zone) m ->
  let correct := JS.includes (Host.accepts zone) (Host.item_type item) in
  (correct = true <-> In (Host.item_type item) (Host.accepts zone))
  /\ exists m' : Game.SimulationModule,
       Game.simulationModule (Game.drop date draggedId zone g) = Some m'
       /\ match m with
          | Game.earthquake s =>
              m' = Game.earthquake
                     (if correct
                      then Earthquake.onCorrectDrop draggedId (Host.zone_id zone)
                             (Earthquake.set_log [] s)
                      else Earthquake.onIncorrectDrop draggedId (Host.zone_id zone)
                             (Earthquake.set_log [] s))
          | _ => m' = m
          end
       /\ moduleScore m'
          = moduleScore m + (if definesDropCallbacks m && correct then 100 else 0)
       /\ moduleMistakes m'
          = (moduleMistakes m + (if definesDropCallbacks m && negb correct then 1 else 0))%nat
       /\ (definesDropCallbacks m = true ->
           (warned m' <-> correct = false /\ (Earthquake.maxMistakes <= moduleMistakes m')%nat)).
Proof.
  intros Hfind Hm Hnames correct. split; [apply includes_In |].
  unfold Game.drop. rewrite Hfind. fold correct.
  destruct m as [s | s | s].
  - destruct correct eqn:Hc.
    + cbn [Game.simulationModule]. rewrite Hm, runEarthquake_module.
      eexists. split; [reflexivity |]. split; [reflexivity |].
      destruct (onCorrectDrop_deltas draggedId (Host.zone_id zone) (Earthquake.set_log [] s))
        as (Hscore & Hmist & Hwarn); [exact Hnames | reflexivity |].
      cbn [moduleScore moduleMistakes definesDropCallbacks andb negb warned].
      split; [exact Hscore |]. split; [rewrite Hmist; simpl; lia |].
      intros _. split; [intros H; contradiction | intros [H _]; discriminate H].
    + rewrite Hm, runEarthquake_module.
      eexists. split; [reflexivity |]. split; [reflexivity |].
      destruct (onIncorrectDrop_deltas draggedId (Host.zone_id zone) (Earthquake.set_log [] s))
        as (Hscore & Hmist & Hwarn); [reflexivity |].
      cbn [moduleScore moduleMistakes definesDropCallbacks andb negb warned].
      split; [rewrite Hscore; simpl; lia |]. split; [rewrite Hmist; simpl; lia |].
      intros _. rewrite Hwarn. tauto.
  - exists (Game.landslide s).
    destruct correct; cbn [Game.simulationModule]; rewrite Hm;
      cbn [moduleScore moduleMistakes definesDropCallbacks andb];
      (split; [exact Hm || reflexivity |]); (split; [reflexivity |]);
      (split; [lia |]); (split; [lia |]); intros H; discriminate H.
  - exists (Game.flood s).
    destruct correct; cbn [Game.simulationModule]; rewrite Hm;
      cbn [moduleScore moduleMistakes definesDropCallbacks andb];
      (split; [exact Hm || reflexivity |]); (split; [reflexivity |]);
      (split; [lia |]); (split; [lia |]); intros H; discriminate H.
Qed.

Lemma drop_correct_iff_accepted_witness :
  exists m' : Game.SimulationModule,
    Game.simulationModule (Game.drop EmptyString "student_3" (deskZone 5) classroomGame) = Some m'
    /\ moduleScore m' = 100
    /\ moduleMistakes m' = 0%nat.
Proof.
  destruct (drop_correct_iff_accepted EmptyString "student_3" (deskZone 5) classroomGame
              {| Host.item_id := "student_3"; Host.item_text := "Student 4";
                 Host.item_type := "person" |}
              (default (Game.earthquake Earthquake.new) (Game.simulationModule classroomGame)))
    as (_ & m' & Hm' & _ & Hscore & Hmist & _).
  - vm_compute. reflexivity.
  - vm_compute. reflexivity.
  - vm_compute. split; eexists; reflexivity.
  - exists m'. split; [exact Hm' |]. split; [rewrite Hscore | rewrite Hmist]; vm_compute; reflexivity.
Defined.

(** Every item and every zone of the panel the earthquake session puts up
    name a student and a desk of the session. *)
Lemma panel_names_students_and_desks (m : Game.SimulationModule) :
  Game.simulationModule classroomGame = Some m ->
  Forall (fun item =>
            Forall (fun zone => namesStudentAndDesk (Host.item_id item) (Host.zone_id zone) m)
                   (Game.dropZones classroomGame))
         (Game.draggableItems classroomGame).
Proof.
  intros H. vm_compute in H. injection H as <-. cbn [namesStudentAndDesk].
  apply (bool_decide_unpack _). vm_compute. exact I.
Qed.

(** ** Flags only go up *)

Lemma atLeast_refl (b : bool) : atLeast b b.
Proof. intros H. exact H. Qed.

Lemma atLeast_true (b : bool) : atLeast b true.
Proof. intros _. reflexivity. Qed.

Lemma flags_refl (l : list bool) : Forall2 atLeast l l.
Proof. induction l; constructor; [apply atLeast_refl | assumption]. Qed.

Lemma flags_trans (l1 l2 l3 : list bool) :
  Forall2 atLeast l1 l2 -> Forall2 atLeast l2 l3 -> Forall2 atLeast l1 l3.
Proof.
  intros H12. revert l3. induction H12 as [| a b l1 l2 Hab _ IH]; intros l3 H23.
  - inversion H23. constructor.
  - inversion H23 as [| b' c l2' l3' Hbc H23' ]; subst. constructor.
    + intros Ha. apply Hbc, Hab, Ha.
    + apply IH. assumption.
Qed.

Lemma storeAtLeast_refl {A} (flags : A -> list bool) (store : list A) :
  storeAtLeast flags store store.
Proof. intros ref o H. exists o. split; [exact H | apply flags_refl]. Qed.

Lemma storeAtLeast_trans {A} (flags : A -> list bool) (s1 s2 s3 : list A) :
  storeAtLeast flags s1 s2 -> storeAtLeast flags s2 s3 -> storeAtLeast flags s1 s3.
Proof.
  intros H12 H23 ref o H. destruct (H12 ref o H) as (o2 & H2 & Hf2).
  destruct (H23 ref o2 H2) as (o3 & H3 & Hf3). exists o3. split; [exact H3 |].
  eapply flags_trans; eassumption.
Qed.

Lemma storeAtLeast_app {A} (flags : A -> list bool) (store more : list A) :
  storeAtLeast flags store (store ++ more).
Proof.
  intros ref o H. exists o. split; [| apply flags_refl].
  rewrite lookup_app_l; [exact H |]. eapply lookup_lt_Some. exact H.
Qed.

Lemma storeAtLeast_alter {A} (flags : A -> list bool) (f : A -> A) (i : nat) (store : list A) :
  (forall o, Forall2 atLeast (flags o) (flags (f o))) ->
  storeAtLeast flags store (alter f i store).
Proof.
  intros Hf ref o H. destruct (decide (i = ref)) as [-> | Hne].
  - exists (f o). split; [| apply Hf].
    rewrite list_lookup_alter_eq, H. reflexivity.
  - exists o. split; [| apply flags_refl].
    rewrite list_lookup_alter_ne by assumption. exact H.
Qed.

Lemma earthquakeMonotone_refl (s : Earthquake.Session) : earthquakeMonotone s s.
Proof. split; [apply flags_refl | apply storeAtLeast_refl]. Qed.

Lemma earthquakeMonotone_trans (s1 s2 s3 : Earthquake.Session) :
  earthquakeMonotone s1 s2 -> earthquakeMonotone s2 s3 -> earthquakeMonotone s1 s3.
Proof.
  intros [Ho Hs] [Ho' Hs']. split;
    [eapply flags_trans | eapply storeAtLeast_trans]; eassumption.
Qed.

(** Closes a goal [earthquakeMonotone s s'] once [s'] is spelled out. *)
Ltac flags_goal :=
  repeat match goal with
         | |- Forall2 atLeast _ _ => constructor
         | |- atLeast ?b ?b => apply atLeast_refl
         | |- atLeast _ true => apply atLeast_true
         | |- storeAtLeast _ ?s ?s => apply storeAtLeast_refl
         | |- storeAtLeast _ ?s (?s ++ _) => apply storeAtLeast_app
         | |- storeAtLeast _ ?s (alter _ _ ?s) =>
             apply storeAtLeast_alter; intros []; simpl
         end.

Ltac earthquake_flags :=
  split; earthquake_simpl; unfold Earthquake.values, studentFlags; earthquake_simpl; flags_goal.

Lemma earthquake_startPhase_flags (now : Q) (N : nat) (s : Earthquake.Session) :
  Earthquake.objectives (Earthquake.startPhase now N s) = Earthquake.objectives s
  /\ Earthquake.studentStore (Earthquake.startPhase now N s) = Earthquake.studentStore s.
Proof.
  do 4 (destruct N as [| N]; [split; reflexivity |]).
  rewrite earthquake_startPhase_past_end by lia. split; reflexivity.
Qed.

Lemma earthquake_initiateEvacuation_flags (now : Q) (s : Earthquake.Session) :
  Earthquake.objectives (Earthquake.initiateEvacuation now s) = Earthquake.objectives s
  /\ Earthquake.studentStore (Earthquake.initiateEvacuation now s) = Earthquake.studentStore s.
Proof.
  unfold Earthquake.initiateEvacuation.
  apply (foldl_invariant (fun acc => Earthquake.objectives acc = Earthquake.objectives s
                                     /\ Earthquake.studentStore acc = Earthquake.studentStore s));
    [split; reflexivity |].
  intros acc [index student] H. exact H.
Qed.

Lemma earthquakeMonotone_eq (s s' : Earthquake.Session) :
  Earthquake.objectives s' = Earthquake.objectives s
  /\ Earthquake.studentStore s' = Earthquake.studentStore s ->
  earthquakeMonotone s s'.
Proof.
  intros [Ho Hs]. unfold earthquakeMonotone. rewrite Ho, Hs.
  split; [apply flags_refl | apply storeAtLeast_refl].
Qed.

Lemma earthquake_onStudentClick_monotone (now : Q) (student : nat) (s : Earthquake.Session) :
  earthquakeMonotone s (Earthquake.onStudentClick now student s).
Proof.
  unfold Earthquake.onStudentClick, Earthquake.evacuateStudent.
  destruct (Earthquake.isEarthquakeActive s && _); [earthquake_flags |].
  destruct ((Earthquake.currentPhase s =? 3)%nat && _); earthquake_flags.
Qed.


Lemma earthquake_createClassroomScene_flags (s : Earthquake.Session) :
  Earthquake.objectives (Earthquake.createClassroomScene s) = Earthquake.objectives s
  /\ exists more, Earthquake.studentStore (Earthquake.createClassroomScene s)
                  = Earthquake.studentStore s ++ more.
Proof. split; [reflexivity | eexists; reflexivity]. Qed.

Lemma earthquake_start_monotone (now : Q) (s : Earthquake.Session) :
  earthquakeMonotone s (Earthquake.start now s).
Proof.
  unfold Earthquake.start, Earthquake.showWelcomeInstructions. cbv zeta.
  destruct (earthquake_createClassroomScene_flags (Earthquake.set_startTime now s))
    as (Ho1 & more & Hs1).
  set (x := Earthquake.createClassroomScene _) in *. clearbody x.
  destruct (earthquake_startPhase_flags now 0 x) as [Ho Hs].
  set (y := Earthquake.startPhase now 0 x) in *. clearbody y.
  split; earthquake_simpl; [rewrite Ho, Ho1 | rewrite Hs, Hs1]; earthquake_simpl; flags_goal.
Qed.

Lemma earthquake_onCorrectDrop_monotone (studentId deskId : string) (s : Earthquake.Session) :
  earthquakeMonotone s (Earthquake.onCorrectDrop studentId deskId s).
Proof.
  unfold Earthquake.onCorrectDrop. cbv zeta.
  destruct (JS.index (Earthquake.students s) _) as [student |]; [| apply earthquakeMonotone_refl].
  destruct (JS.index (Earthquake.desks s) _) as [desk |]; [| apply earthquakeMonotone_refl].
  match goal with |- context [if ?b then _ else _] => destruct b end; earthquake_flags.
Qed.

Lemma earthquake_runAction_monotone (now : Q) (a : Earthquake.Action) (s : Earthquake.Session) :
  earthquakeMonotone s (Earthquake.runAction now a s).
Proof.
  destruct a; cbn [Earthquake.runAction].
  - earthquake_flags.
  - unfold Earthquake.startEarthquakePhase, Earthquake.showDropCoverHoldInterface. earthquake_flags.
  - unfold Earthquake.startEvacuationPhase. cbv zeta. apply earthquakeMonotone_eq.
    match goal with |- context [Earthquake.initiateEvacuation ?n ?x] =>
      destruct (earthquake_initiateEvacuation_flags n x) as [Ho Hs]; rewrite Ho, Hs end.
    split; reflexivity.
  - earthquake_flags.
Qed.

Lemma earthquake_runCallback_monotone (now : Q) (cb : Earthquake.Callback) (s : Earthquake.Session) :
  earthquakeMonotone s (Earthquake.runCallback now cb s).
Proof.
  destruct cb as [N | st | st |]; cbn [Earthquake.runCallback].
  - destruct (_ =? _)%nat; [| apply earthquakeMonotone_refl].
    apply earthquakeMonotone_eq, earthquake_startPhase_flags.
  - unfold Earthquake.evacuateStudent. destruct (negb _); earthquake_flags.
  - cbv zeta. match goal with |- context [if ?b then _ else _] => destruct b end;
      earthquake_flags.
  - unfold Earthquake.completeSimulation. earthquake_flags.
Qed.

(** Every piece of the earthquake session but [reset] leaves each flag at
    least what it was. *)
Lemma earthquake_step_monotone (now : Q) (e : Earthquake.Event) (s : Earthquake.Session) :
  earthquakeResets e = false -> earthquakeMonotone s (Earthquake.step now e s).
Proof.
  intros He.
  destruct e as [| | | sid did | sid did | | st | | | p | | a | k]; try discriminate He;
    cbn [Earthquake.step].
  - apply earthquake_start_monotone.
  - unfold Earthquake.cleanup. earthquake_flags.
  - apply earthquake_onCorrectDrop_monotone.
  - unfold Earthquake.onIncorrectDrop. cbv zeta.
    match goal with |- context [if ?b then _ else _] => destruct b end; earthquake_flags.
  - unfold Earthquake.onDeskClick. cbv zeta. destruct (_ =? _)%nat; earthquake_flags.
  - apply earthquake_onStudentClick_monotone.
  - unfold Earthquake.onExitClick. cbv zeta.
    destruct (Earthquake.currentPhase s =? 0)%nat; [earthquake_flags |].
    destruct (Earthquake.currentPhase s =? 3)%nat; earthquake_flags.
  - unfold Earthquake.onBuildingInteract. earthquake_flags.
  - destruct p; cbn [Earthquake.onPersonInteract];
      [apply earthquake_onStudentClick_monotone | earthquake_flags].
  - unfold Earthquake.onEmergencyKitInteract. cbv zeta. earthquake_flags.
  - apply earthquake_runAction_monotone.
  - destruct (Earthquake.timers s !! k) as [t |]; [| apply earthquakeMonotone_refl].
    eapply earthquakeMonotone_trans; [| apply earthquake_runCallback_monotone].
    earthquake_flags.
Qed.

(** The same for the flood module. *)
Definition floodSame (s s' : Flood.Session) : Prop :=
  Flood.objectives s' = Flood.objectives s
  /\ Flood.residentStore s' = Flood.residentStore s
  /\ Flood.supplyStore s' = Flood.supplyStore s
  /\ Flood.houseStore s' = Flood.houseStore s.

Lemma floodMonotone_refl (s : Flood.Session) : floodMonotone s s.
Proof.
  split; [apply flags_refl |]. split; [apply storeAtLeast_refl |].
  split; apply storeAtLeast_refl.
Qed.

Lemma floodMonotone_trans (s1 s2 s3 : Flood.Session) :
  floodMonotone s1 s2 -> floodMonotone s2 s3 -> floodMonotone s1 s3.
Proof.
  intros (Ho & Hr & Hk & Hh) (Ho' & Hr' & Hk' & Hh').
  split; [eapply flags_trans; eassumption |].
  split; [eapply storeAtLeast_trans; eassumption |].
  split; eapply storeAtLeast_trans; eassumption.
Qed.

Lemma floodSame_monotone (s s' : Flood.Session) : floodSame s s' -> floodMonotone s s'.
Proof.
  intros (Ho & Hr & Hk & Hh). unfold floodMonotone. rewrite Ho, Hr, Hk, Hh.
  apply floodMonotone_refl.
Qed.

Lemma floodSame_refl (s : Flood.Session) : floodSame s s.
Proof. repeat split. Qed.

Lemma floodSame_trans (s1 s2 s3 : Flood.Session) :
  floodSame s1 s2 -> floodSame s2 s3 -> floodSame s1 s3.
Proof.
  intros (Ho & Hr & Hk & Hh) (Ho' & Hr' & Hk' & Hh').
  unfold floodSame. rewrite Ho', Hr', Hk', Hh'. repeat split; assumption.
Qed.

Ltac flood_flags :=
  unfold floodMonotone, Flood.values, floodResidentFlags, supplyFlags, houseFlags;
  flood_simpl;
  (split; [| split; [| split]]);
  repeat match goal with
         | |- Forall2 atLeast _ _ => constructor
         | |- atLeast ?b ?b => apply atLeast_refl
         | |- atLeast _ true => apply atLeast_true
         | |- storeAtLeast _ ?s ?s => apply storeAtLeast_refl
         | |- storeAtLeast _ ?s (?s ++ _) => apply storeAtLeast_app
         | |- storeAtLeast _ ?s (alter _ _ ?s) =>
             apply storeAtLeast_alter; intros []; cbn
         end.

Ltac flood_same := unfold floodSame; flood_simpl; repeat split.

(** A loop whose rounds leave the flags at least what they were does so
    as a whole. *)
Lemma flood_loop_monotone {A} (f : Flood.Session -> A -> Flood.Session) (l : list A)
    (s : Flood.Session) :
  (forall acc x, floodMonotone acc (f acc x)) -> floodMonotone s (foldl f s l).
Proof.
  intros Hf. apply (foldl_invariant (fun acc => floodMonotone s acc)).
  - apply floodMonotone_refl.
  - intros acc x H. eapply floodMonotone_trans; [exact H | apply Hf].
Qed.

Lemma flood_loop_same {A} (f : Flood.Session -> A -> Flood.Session) (l : list A)
    (s : Flood.Session) :
  (forall acc x, floodSame acc (f acc x)) -> floodSame s (foldl f s l).
Proof.
  intros Hf. apply (foldl_invariant (fun acc => floodSame s acc)).
  - apply floodSame_refl.
  - intros acc x H. eapply floodSame_trans; [exact H | apply Hf].
Qed.

Lemma flood_distributeSuppliesToShelters_same (now : Q) (s : Flood.Session) :
  floodSame s (Flood.distributeSuppliesToShelters now s).
Proof.
  unfold Flood.distributeSuppliesToShelters. apply flood_loop_same.
  intros acc [index supply].
  destruct (Flood.supplyStore acc !! supply) as [o |]; [| apply floodSame_refl].
  destruct (negb (Flood.Supply.collected o)); [flood_same | apply floodSame_refl].
Qed.

Lemma flood_recedeWaterFrame_same (now : Q) (s : Flood.Session) :
  floodSame s (Flood.recedeWaterFrame now s).
Proof.
  unfold Flood.recedeWaterFrame. destruct (JS.gt _ _); flood_same.
Qed.

Lemma flood_startRecoveryPhase_monotone (now : Q) (s : Flood.Session) :
  floodMonotone s (Flood.startRecoveryPhase now s).
Proof.
  unfold Flood.startRecoveryPhase, Flood.setupShelterOperations, Flood.startWaterReceding.
  cbv zeta.
  eapply floodMonotone_trans; [| apply floodSame_monotone, flood_recedeWaterFrame_same].
  pose proof (flood_distributeSuppliesToShelters_same now
                (Flood.emit (Host.showInstructions "Phase 4: Recovery and Shelter" [Flood.dismiss]) s))
    as (Ho & Hr & Hk & Hh).
  set (x := Flood.distributeSuppliesToShelters _ _) in *. clearbody x.
  unfold floodMonotone, Flood.values. flood_simpl. rewrite Ho, Hr, Hk, Hh. flood_simpl.
  (split; [| split; [| split]]); try apply storeAtLeast_refl.
  repeat first [apply atLeast_refl | apply atLeast_true | constructor].
Qed.

Lemma flood_startPhase_monotone (now : Q) (N : nat) (s : Flood.Session) :
  floodMonotone s (Flood.startPhase now N s).
Proof.
  do 3 (destruct N as [| N]; [apply floodSame_monotone; repeat split |]).
  destruct N as [| N].
  - unfold Flood.startPhase.
    cbn [length Flood.phases Nat.leb lookup list_lookup name duration String.eqb Ascii.eqb
         Bool.eqb].
    set (s1 := Flood.emit _ (Flood.set_currentPhase 3 s)).
    assert (H1 : floodMonotone s s1) by (apply floodSame_monotone; repeat split).
    clearbody s1.
    eapply floodMonotone_trans; [exact H1 |].
    eapply floodMonotone_trans; [apply flood_startRecoveryPhase_monotone |].
    apply floodSame_monotone. flood_same.
  - rewrite flood_startPhase_past_end by lia. apply floodSame_monotone. repeat split.
Qed.

Lemma flood_createCommunityScene_monotone (random : nat -> Q) (s : Flood.Session) :
  floodMonotone s (Flood.createCommunityScene random s).
Proof.
  unfold Flood.createCommunityScene. cbv zeta.
  set (s1 := Flood.createCommunityBuildings s).
  assert (H1 : floodMonotone s s1)
    by (subst s1; unfold Flood.createCommunityBuildings; cbv zeta; flood_flags).
  clearbody s1.
  set (s2 := Flood.createResidents random s1).
  assert (H2 : floodMonotone s1 s2)
    by (subst s2; unfold Flood.createResidents; cbv zeta; flood_flags).
  set (drawn := (2 * _)%nat). clearbody drawn. clearbody s2.
  set (s3 := Flood.createEmergencySupplies random drawn s2).
  assert (H3 : floodMonotone s2 s3)
    by (subst s3; unfold Flood.createEmergencySupplies; cbv zeta; flood_flags).
  clearbody s3.
  eapply floodMonotone_trans; [exact H1 |].
  eapply floodMonotone_trans; [exact H2 |].
  eapply floodMonotone_trans; [exact H3 |].
  apply floodSame_monotone. unfold Flood.createRescueBoats, Flood.createEvacuationCenters.
  cbv zeta. flood_same.
Qed.

Lemma flood_start_monotone (now : Q) (random : nat -> Q) (s : Flood.Session) :
  floodMonotone s (Flood.start now random s).
Proof.
  unfold Flood.start, Flood.showWelcomeInstructions. cbv zeta.
  pose proof (flood_createCommunityScene_monotone random (Flood.set_startTime now s)) as H1.
  set (x := Flood.createCommunityScene _ _) in *. clearbody x.
  pose proof (flood_startPhase_monotone now 0 x) as H2.
  set (y := Flood.startPhase now 0 x) in *. clearbody y.
  eapply floodMonotone_trans; [| eapply floodMonotone_trans; [exact H1 |]].
  - apply floodSame_monotone. flood_same.
  - eapply floodMonotone_trans; [exact H2 |]. apply floodSame_monotone. flood_same.
Qed.

(** Whether it returns or raises, [checkResidentsInDanger] leaves the
    session as it was. *)
Lemma flood_checkResidentsInDanger_state (s : Flood.Session) :
  Flood.state (Flood.checkResidentsInDanger s) = s.
Proof.
  unfold Flood.checkResidentsInDanger.
  apply (foldl_invariant (fun o => Flood.state o = s)); [reflexivity |].
  intros [acc | acc] resident Hacc; [| exact Hacc]. cbn [Flood.state] in Hacc. subst acc.
  destruct (Flood.residentStore s !! resident) as [o |]; [| reflexivity].
  cbv zeta. destruct (JS.lt _ _ && _); reflexivity.
Qed.

(** A frame of the rising water does nothing, or raises the water and
    stops there, or raises the water and requests the next frame. *)
Lemma flood_raiseWaterFrame_cases (now : Q) (s : Flood.Session) :
  let risen := Flood.set_waterLevel (Flood.waterLevel s + Flood.floodSpeed)%Q s in
  Flood.raiseWaterFrame now s = Flood.returned s
  \/ (JS.lt (Flood.waterLevel s) Flood.maxWaterLevel = true
      /\ (Flood.raiseWaterFrame now s = Flood.raised risen
          \/ Flood.raiseWaterFrame now s
             = Flood.returned (Flood.requestAnimationFrame now Flood.raiseWater risen))).
Proof.
  cbv zeta. unfold Flood.raiseWaterFrame.
  destruct (Flood.isFlooding s); cbn [andb]; [| left; reflexivity].
  destruct (JS.lt (Flood.waterLevel s) Flood.maxWaterLevel); [| left; reflexivity].
  right. split; [reflexivity |]. cbv zeta.
  pose proof (flood_checkResidentsInDanger_state
                (Flood.set_waterLevel (Flood.waterLevel s + Flood.floodSpeed)%Q s)) as H.
  destruct (Flood.checkResidentsInDanger _) as [x | x]; cbn [Flood.state] in H; subst x;
    [right | left]; reflexivity.
Qed.

Lemma flood_raiseWaterFrame_monotone (now : Q) (s : Flood.Session) :
  floodMonotone s (Flood.state (Flood.raiseWaterFrame now s)).
Proof.
  destruct (flood_raiseWaterFrame_cases now s) as [-> | [_ [-> | ->]]]; cbn [Flood.state];
    apply floodSame_monotone; flood_same.
Qed.

Lemma flood_identifyFloodRisks_monotone (s : Flood.Session) :
  floodMonotone s (Flood.identifyFloodRisks s).
Proof.
  unfold Flood.identifyFloodRisks. apply flood_loop_monotone. intros acc h.
  destruct (Flood.houseStore acc !! h) as [house |]; [| apply floodMonotone_refl].
  destruct (JS.lt _ _); [flood_flags | apply floodMonotone_refl].
Qed.

Lemma flood_initiateEvacuation_same (now : Q) (s : Flood.Session) :
  floodSame s (Flood.initiateEvacuation now s).
Proof.
  unfold Flood.initiateEvacuation. apply flood_loop_same. intros acc [index resident].
  destruct (Flood.residentStore acc !! resident) as [o |]; [| apply floodSame_refl].
  destruct (Flood.houseStore acc !! _) as [house |]; [| apply floodSame_refl].
  destruct (String.eqb _ _); [flood_same | apply floodSame_refl].
Qed.

Lemma flood_startFloodPhase_monotone (now : Q) (s : Flood.Session) :
  floodMonotone s (Flood.startFloodPhase now s).
Proof.
  unfold Flood.startFloodPhase, Flood.startFloodAnimation. cbv zeta.
  set (s1 := Flood.set_isFlooding true _).
  assert (H1 : floodMonotone s s1) by (apply floodSame_monotone; subst s1; flood_same).
  clearbody s1.
  pose proof (flood_raiseWaterFrame_monotone now s1) as H2.
  destruct (Flood.raiseWaterFrame now s1) as [s2 | s2]; cbn [Flood.state] in H2.
  - pose proof (flood_identifyFloodRisks_monotone s2) as H3.
    set (s3 := Flood.identifyFloodRisks s2) in *. clearbody s3.
    eapply floodMonotone_trans; [exact H1 |].
    eapply floodMonotone_trans; [exact H2 |].
    eapply floodMonotone_trans; [exact H3 |].
    apply floodSame_monotone, flood_initiateEvacuation_same.
  - eapply floodMonotone_trans; [exact H1 | exact H2].
Qed.

Lemma flood_identifyStrandedResidents_monotone (s : Flood.Session) :
  floodMonotone s (Flood.identifyStrandedResidents s).
Proof.
  unfold Flood.identifyStrandedResidents. apply flood_loop_monotone. intros acc resident.
  destruct (Flood.residentStore acc !! resident) as [o |]; [| apply floodMonotone_refl].
  destruct (negb _ && _); [flood_flags | apply floodMonotone_refl].
Qed.

Lemma flood_startRescuePhase_monotone (s : Flood.Session) :
  floodMonotone s (Flood.startRescuePhase s).
Proof.
  unfold Flood.startRescuePhase. cbv zeta.
  set (s1 := Flood.enableBoatRescue _).
  assert (H1 : floodMonotone s s1).
  { apply floodSame_monotone. subst s1.
    unfold Flood.enableBoatRescue, Flood.showBoatInterface. cbv zeta.
    match goal with |- context [if ?b then _ else _] => destruct b end; flood_same. }
  clearbody s1.
  eapply floodMonotone_trans; [exact H1 | apply flood_identifyStrandedResidents_monotone].
Qed.

Lemma flood_evacuateResident_same (now : Q) (resident : nat) (s : Flood.Session) :
  floodSame s (Flood.evacuateResident now resident s).
Proof.
  unfold Flood.evacuateResident.
  destruct (Flood.residentStore s !! resident) as [o |]; [| apply floodSame_refl].
  destruct (Flood.findNearestEvacuationCenter _ s) as [c |]; [| apply floodSame_refl].
  destruct (Flood.centerStore s !! c) as [o' |]; [| apply floodSame_refl].
  destruct (_ <? _)%nat; [flood_same | apply floodSame_refl].
Qed.

Lemma flood_onResidentClick_monotone (now : Q) (resident : nat) (s : Flood.Session) :
  floodMonotone s (Flood.onResidentClick now resident s).
Proof.
  apply floodSame_monotone. unfold Flood.onResidentClick.
  destruct (Flood.residentStore s !! resident) as [o |]; [| apply floodSame_refl].
  destruct (Flood.Resident.needsRescue o && _); [flood_same |].
  destruct (Flood.Resident.inShelter o); [flood_same | apply flood_evacuateResident_same].
Qed.

Lemma flood_onSupplyClick_monotone (supply : nat) (s : Flood.Session) :
  floodMonotone s (Flood.onSupplyClick supply s).
Proof.
  unfold Flood.onSupplyClick.
  destruct (Flood.supplyStore s !! supply) as [o |]; [| apply floodMonotone_refl].
  destruct (negb (Flood.Supply.collected o)); [| apply floodMonotone_refl].
  cbv zeta.
  match goal with |- context [match ?x with Some _ => _ | None => _ end] => destruct x end;
    flood_flags.
Qed.

Lemma flood_runCallback_monotone (now : Q) (cb : Flood.Callback) (s : Flood.Session) :
  floodMonotone s (Flood.runCallback now cb s).
Proof.
  destruct cb as [N | | | r | r c | r b | r b | k i | k c]; cbn [Flood.runCallback].
  - destruct (_ =? _)%nat; [apply flood_startPhase_monotone | apply floodMonotone_refl].
  - apply flood_raiseWaterFrame_monotone.
  - apply floodSame_monotone, flood_recedeWaterFrame_same.
  - apply floodSame_monotone, flood_evacuateResident_same.
  - cbv zeta. match goal with |- context [if ?b then _ else _] => destruct b end; flood_flags.
  - destruct (Flood.boatStore s !! b) as [o |]; [| apply floodMonotone_refl].
    destruct (Flood.findNearestEvacuationCenter _ s); [flood_flags | apply floodMonotone_refl].
  - cbv zeta. match goal with |- context [if ?b then _ else _] => destruct b end; flood_flags.
  - destruct (Flood.evacuationCenters s) as [| c0 rest] eqn:Hc; [apply floodMonotone_refl |].
    destruct (_ !! _); [flood_flags | apply floodMonotone_refl].
  - cbv zeta. match goal with |- context [if ?b then _ else _] => destruct b end; flood_flags.
Qed.

Lemma flood_runAction_monotone (now : Q) (a : Flood.Action) (s : Flood.Session) :
  floodMonotone s (Flood.runAction now a s).
Proof.
  destruct a; cbn [Flood.runAction].
  - flood_flags.
  - apply flood_startFloodPhase_monotone.
  - apply flood_startRescuePhase_monotone.
  - flood_flags.
Qed.

(** Every piece of the flood session but [reset] leaves each flag at least
    what it was. *)
Lemma flood_step_monotone (now : Q) (e : Flood.Event) (s : Flood.Session) :
  floodResets e = false -> floodMonotone s (Flood.step now e s).
Proof.
  intros He.
  destruct e as [random | | | rid bid | r | k | c | b | h | p | kit | a | k | m];
    try discriminate He; cbn [Flood.step].
  - apply flood_start_monotone.
  - unfold Flood.cleanup. cbv zeta. flood_flags.
  - unfold Flood.onBoatRescue, Flood.performRescue. cbv zeta.
    destruct (JS.index (Flood.residents s) _) as [resident |]; [| apply floodMonotone_refl].
    destruct (JS.index (Flood.boats s) _) as [boat |]; [| apply floodMonotone_refl].
    destruct (Flood.boatStore s !! boat) as [o |]; [| apply floodMonotone_refl].
    destruct (_ <? _)%nat; [flood_flags | apply floodMonotone_refl].
  - apply flood_onResidentClick_monotone.
  - apply flood_onSupplyClick_monotone.
  - unfold Flood.onEvacuationCenterClick. flood_flags.
  - unfold Flood.onBoatClick. destruct (Flood.boatStore s !! b) as [o |];
      [| apply floodMonotone_refl].
    destruct (Flood.Boat.available o); [flood_flags | apply floodMonotone_refl].
  - unfold Flood.onBuildingInteract. destruct (Flood.houseStore s !! h) as [o |];
      [| apply floodMonotone_refl].
    destruct (String.eqb _ _); flood_flags.
  - apply flood_onResidentClick_monotone.
  - apply flood_onSupplyClick_monotone.
  - apply flood_runAction_monotone.
  - destruct (Flood.timers s !! k) as [t |]; [| apply floodMonotone_refl].
    eapply floodMonotone_trans; [| apply flood_runCallback_monotone].
    flood_flags.
  - destruct m; cbn [Flood.animate]; flood_flags.
Qed.

(** The same for the landslide module. *)
Lemma landslideMonotone_refl (s : Landslide.Session) : landslideMonotone s s.
Proof.
  split; [apply flags_refl |]. split; [apply atLeast_refl |].
  split; apply storeAtLeast_refl.
Qed.

Lemma landslideMonotone_trans (s1 s2 s3 : Landslide.Session) :
  landslideMonotone s1 s2 -> landslideMonotone s2 s3 -> landslideMonotone s1 s3.
Proof.
  intros (Ho & Hw & Hr & Hk) (Ho' & Hw' & Hr' & Hk').
  split; [eapply flags_trans; eassumption |].
  split; [intros H; apply Hw', Hw, H |].
  split; eapply storeAtLeast_trans; eassumption.
Qed.

Ltac landslide_flags :=
  unfold landslideMonotone, Landslide.values, landslideResidentFlags, warningSignFlags;
  landslide_simpl;
  (split; [| split; [| split]]);
  repeat match goal with
         | |- Forall2 atLeast _ _ => constructor
         | |- atLeast ?b ?b => apply atLeast_refl
         | |- atLeast _ true => apply atLeast_true
         | |- storeAtLeast _ ?s ?s => apply storeAtLeast_refl
         | |- storeAtLeast _ ?s (?s ++ _) => apply storeAtLeast_app
         | |- storeAtLeast _ ?s (alter _ _ ?s) =>
             apply storeAtLeast_alter; intros []; cbn
         end.

Lemma landslide_startPhase_flags (now : Q) (N : nat) (s : Landslide.Session) :
  Landslide.objectives (Landslide.startPhase now N s) = Landslide.objectives s
  /\ Landslide.warningSystemActivated (Landslide.startPhase now N s)
     = Landslide.warningSystemActivated s
  /\ Landslide.residentStore (Landslide.startPhase now N s) = Landslide.residentStore s
  /\ Landslide.warningSignStore (Landslide.startPhase now N s) = Landslide.warningSignStore s.
Proof.
  do 4 (destruct N as [| N]; [repeat split |]).
  rewrite landslide_startPhase_past_end by lia. repeat split.
Qed.

Lemma landslide_startPhase_monotone (now : Q) (N : nat) (s : Landslide.Session) :
  landslideMonotone s (Landslide.startPhase now N s).
Proof.
  destruct (landslide_startPhase_flags now N s) as (Ho & Hw & Hr & Hk).
  unfold landslideMonotone. rewrite Ho, Hw, Hr, Hk. apply landslideMonotone_refl.
Qed.

Lemma landslide_start_monotone (now : Q) (s : Landslide.Session) :
  landslideMonotone s (Landslide.start now s).
Proof.
  unfold Landslide.start, Landslide.showWelcomeInstructions. cbv zeta.
  set (x := Landslide.createHillsideScene _).
  assert (H1 : landslideMonotone s x).
  { subst x. unfold Landslide.createHillsideScene, Landslide.createWarningSigns,
      Landslide.createSafeZones, Landslide.createResidents, Landslide.createHillsideHouses.
    cbv zeta. landslide_flags. }
  clearbody x.
  pose proof (landslide_startPhase_monotone now 0 x) as H2.
  set (y := Landslide.startPhase now 0 x) in *. clearbody y.
  eapply landslideMonotone_trans; [exact H1 |].
  eapply landslideMonotone_trans; [exact H2 |]. landslide_flags.
Qed.

Lemma landslide_checkResidentSafety_monotone (s : Landslide.Session) :
  landslideMonotone s (Landslide.state (Landslide.checkResidentSafety s)).
Proof.
  destruct (landslide_checkResidentSafety_cases s) as [-> | ->]; cbn [Landslide.state].
  - apply landslideMonotone_refl.
  - landslide_flags.
Qed.

Lemma landslide_activateWarningSystem_monotone (host : Landslide.Support) (s : Landslide.Session) :
  landslideMonotone s (Landslide.activateWarningSystem' host s).
Proof.
  unfold Landslide.activateWarningSystem', Landslide.feedback.
  destruct (negb _); [| apply landslideMonotone_refl].
  cbv zeta. destruct (Landslide.showFeedback host); landslide_flags.
Qed.

Lemma landslide_runCallback_monotone (host : Landslide.Support) (now : Q)
    (cb : Landslide.Callback) (s : Landslide.Session) :
  landslideMonotone s (Landslide.runCallback host now cb s).
Proof.
  destruct cb as [N |]; cbn [Landslide.runCallback].
  - destruct (_ =? _)%nat; [apply landslide_startPhase_monotone | apply landslideMonotone_refl].
  - apply landslide_activateWarningSystem_monotone.
Qed.

(** Every piece of the landslide session but the restart leaves each flag
    at least what it was, whether or not the host has [showFeedback]. *)
Lemma landslide_step_monotone (host : Landslide.Support) (now : Q) (e : Landslide.Event)
    (s : Landslide.Session) :
  landslideResets e = false -> landslideMonotone s (Landslide.step host now e s).
Proof.
  intros He. destruct e as [| w | | r | item zone | a | k | r p]; cbn [Landslide.step].
  - apply landslide_start_monotone.
  - unfold Landslide.onWarningSignClick, Landslide.feedback.
    destruct (Landslide.warningSignStore s !! w) as [o |]; [| apply landslideMonotone_refl].
    destruct (negb (Landslide.identified o)).
    + cbv zeta. destruct (Landslide.showFeedback host); [| landslide_flags].
      landslide_simpl. destruct (5 <=? _)%nat; landslide_flags.
    + destruct (Landslide.showFeedback host); landslide_flags.
  - apply landslide_activateWarningSystem_monotone.
  - unfold Landslide.evacuateResident, Landslide.feedback.
    destruct (Landslide.residentStore s !! r) as [o |]; [| apply landslideMonotone_refl].
    destruct (negb (Landslide.Resident.evacuated o)); [| apply landslideMonotone_refl].
    cbv zeta.
    destruct (Landslide.findNearestSafeZone _ _);
      (destruct (Landslide.showFeedback host); [| landslide_flags]);
      landslide_simpl; destruct (Landslide.totalResidents <=? _)%nat; landslide_flags.
  - unfold Landslide.onDragDropComplete, Landslide.feedback.
    destruct (_ || _); [| apply landslideMonotone_refl].
    destruct (String.eqb _ _); [| apply landslideMonotone_refl].
    cbv zeta. destruct (Landslide.showFeedback host); landslide_flags.
  - destruct a; try discriminate He; cbn [Landslide.runAction].
    + landslide_flags.
    + unfold Landslide.showWarningInterface. landslide_flags.
    + unfold Landslide.simulateLandslide.
      eapply landslideMonotone_trans; [| apply landslide_checkResidentSafety_monotone].
      landslide_flags.
    + destruct (Landslide.returnToMenu host); landslide_flags.
  - destruct (Landslide.timers s !! k) as [t |]; [| apply landslideMonotone_refl].
    eapply landslideMonotone_trans; [| apply landslide_runCallback_monotone].
    landslide_flags.
  - landslide_flags.
Qed.

(** C5. In every session of every module, along every run that holds no
    explicit reset ([reset] of the earthquake and flood sessions, the
    restart of the landslide session), each objective flag and each status
    flag of each entity (safe, evacuated, rescued, collected, identified,
    and the others the sessions keep) that was true is still true, and
    every entity is still in the store. *)
Theorem flags_never_cleared_without_reset :
  (forall (events : list (Q * Earthquake.Event)) (s : Earthquake.Session),
      Forall (fun '(_, e) => earthquakeResets e = false) events ->
      earthquakeMonotone s (earthquakeRun events s))
  /\ (forall (events : list (Q * Flood.Event)) (s : Flood.Session),
      Forall (fun '(_, e) => floodResets e = false) events ->
      floodMonotone s (floodSteps events s))
  /\ (forall (host : Landslide.Support) (events : list (Q * Landslide.Event))
        (s : Landslide.Session),
      Forall (fun '(_, e) => landslideResets e = false) events ->
      landslideMonotone s (landslideRun host events s)).
Proof.
  split; [| split].
  - intros events. induction events as [| [now e] events IH]; intros s H.
    + apply earthquakeMonotone_refl.
    + inversion H as [| ? ? He Hrest]; subst. cbn [earthquakeRun foldl].
      eapply earthquakeMonotone_trans; [apply earthquake_step_monotone, He |].
      apply IH, Hrest.
  - intros events. induction events as [| [now e] events IH]; intros s H.
    + apply floodMonotone_refl.
    + inversion H as [| ? ? He Hrest]; subst. cbn [floodSteps foldl].
      eapply floodMonotone_trans; [apply flood_step_monotone, He |].
      apply IH, Hrest.
  - intros host events. induction events as [| [now e] events IH]; intros s H.
    + apply landslideMonotone_refl.
    + inversion H as [| ? ? He Hrest]; subst. cbn [landslideRun foldl].
      eapply landslideMonotone_trans; [apply landslide_step_monotone, He |].
      apply IH, Hrest.
Qed.

Lemma flags_never_cleared_without_reset_witness :
  earthquakeMonotone
    (Earthquake.step 5000 Earthquake.EmergencyKitInteract (Earthquake.start 0 Earthquake.new))
    (earthquakeRun [ (6000%Q, Earthquake.DeskClick); (30000%Q, Earthquake.Fire 0) ]
       (Earthquake.step 5000 Earthquake.EmergencyKitInteract (Earthquake.start 0 Earthquake.new))).
Proof.
  apply (proj1 flags_never_cleared_without_reset). repeat constructor.
Defined.

(** The reset is what clears them: after the reset of the flood session in
    which nine residents were sheltered, [evacuateResidents] is false
    again. *)
Example flood_reset_clears_flags :
  Flood.evacuateResidents (Flood.objectives nineSheltered) = true
  /\ Flood.evacuateResidents (Flood.objectives (Flood.step 5000 Flood.Reset nineSheltered)) = false.
Proof. vm_compute. split; reflexivity. Qed.

(** * Further properties of the code *)

Section BadgeProperties.

Import BadgeSystem.

(** ** Badge progress and reports *)

(** A percentage of [n] out of [t] lies between 0 and 100. *)
Lemma percentage_range (n t : nat) :
  (n <= t)%nat -> (0 < t)%nat ->
  (0 <= inject_Z (Z.of_nat n) / inject_Z (Z.of_nat t) * 100
   /\ inject_Z (Z.of_nat n) / inject_Z (Z.of_nat t) * 100 <= 100)%Q.
Proof.
  intros Hle Hpos.
  assert (Ht : (0 < inject_Z (Z.of_nat t))%Q).
  { change 0%Q with (inject_Z 0). rewrite <- Zlt_Qlt. lia. }
  assert (Hn : (0 <= inject_Z (Z.of_nat n))%Q).
  { change 0%Q with (inject_Z 0). rewrite <- Zle_Qle. lia. }
  assert (Hnt : (inject_Z (Z.of_nat n) <= inject_Z (Z.of_nat t))%Q).
  { rewrite <- Zle_Qle. lia. }
  split.
  - apply Qmult_le_0_compat; [| discriminate].
    apply Qle_shift_div_l; [exact Ht |]. rewrite Qmult_0_l. exact Hn.
  - apply Qle_trans with (1 * 100)%Q; [| discriminate].
    apply Qmult_le_compat_r; [| discriminate].
    apply Qle_shift_div_r; [exact Ht |]. rewrite Qmult_1_l. exact Hnt.
Qed.

(** The requirements met are among the requirements counted. *)
Lemma countProgress_le (req : Requirements) (p : Player.t) :
  (fst (countProgress req p) <= snd (countProgress req p))%nat.
Proof.
  unfold countProgress.
  destruct (truthyString _), (truthyNumber (minScore req)), (truthyNumber (maxTime req)),
    (truthyBool _); cbn [foldl fst snd];
    repeat match goal with
           | |- context [match ?x with Some _ => _ | None => _ end] => destruct x
           | |- context [if ?b then _ else _] => destruct b
           end; cbn [fst snd]; lia.
Qed.

(** X1. [calculateBadgeProgress] is a percentage between 0 and 100 for every
    profile and every badge id that is not a property name inherited from
    [Object.prototype], and it is 0 for the four badges none of whose
    requirement keys it counts. *)
Theorem calculateBadgeProgress_range (badgeId : string) (p : Player.t) :
  (JS.inheritedKey badgeId = false ->
   (0 <= calculateBadgeProgress badgeId p /\ calculateBadgeProgress badgeId p <= 100)%Q)
  /\ calculateBadgeProgress "speedRunner" p = 0%Q
  /\ calculateBadgeProgress "perfectionist" p = 0%Q
  /\ calculateBadgeProgress "lifeSaver" p = 0%Q
  /\ calculateBadgeProgress "educator" p = 0%Q.
Proof.
  split; [intros _ | repeat split].
  unfold calculateBadgeProgress. destruct (badge badgeId) as [b |]; [| split; discriminate].
  pose proof (countProgress_le (requirements b) p) as Hle.
  destruct (countProgress (requirements b) p) as [progress total]. cbn [fst snd] in Hle.
  destruct (Nat.ltb_spec 0 total) as [Hpos | _]; [| split; discriminate].
  apply percentage_range; assumption.
Qed.

Lemma calculateBadgeProgress_range_witness :
  JS.inheritedKey "master" = false
  /\ (0 <= calculateBadgeProgress "master" Player.new
      /\ calculateBadgeProgress "master" Player.new <= 100)%Q.
Proof.
  split; [reflexivity |].
  apply (proj1 (calculateBadgeProgress_range "master" Player.new)). reflexivity.
Defined.

(** X2. The requirement keys [evacuateAll] and [completeTutorials] are never
    examined: [lifeSaver] and [educator] pass for every profile, a new
    player's included, and are always among the earned badges. *)
Theorem unexamined_badges_always_earned (p : Player.t) :
  checkBadgeRequirements "lifeSaver" p = true
  /\ checkBadgeRequirements "educator" p = true
  /\ In "lifeSaver" (getEarnedBadges p)
  /\ In "educator" (getEarnedBadges p).
Proof.
  assert (H1 : checkBadgeRequirements "lifeSaver" p = true) by reflexivity.
  assert (H2 : checkBadgeRequirements "educator" p = true) by reflexivity.
  split; [exact H1 |]. split; [exact H2 |].
  unfold getEarnedBadges. split; apply filter_In; (split; [| assumption]); cbn; tauto.
Qed.

(** The blocks of [checkBadgeRequirements] for requirements that name a
    simulation, a minimum score and a maximum time. *)
Lemma simulation_requirement (k : string) (m t : Z) (p : Player.t) :
  k <> EmptyString -> m <> 0 -> t <> 0 ->
  checkRequirements
    {| completeSimulation := Some k; minScore := Some m; maxTime := Some t;
       completeAllSimulations := None; totalScore := None; completeAnyIn := None;
       perfectAccuracy := None; evacuateAll := None; completeTutorials := None |} p = true
  <-> meets m t (Player.completedSimulations p !! k).
Proof.
  intros Hk Hm Ht.
  unfold checkRequirements, passesSimulation, passesAllSimulations, passesTotalScore, passesSpeed,
    passesAccuracy, meets.
  cbn [completeSimulation minScore maxTime completeAllSimulations totalScore completeAnyIn
       perfectAccuracy truthyString truthyNumber truthyBool default from_option Datatypes.id
       negb andb].
  apply String.eqb_neq in Hk. rewrite Hk. apply Z.eqb_neq in Hm, Ht. rewrite Hm, Ht.
  cbn [negb andb].
  destruct (Player.completedSimulations p !! k) as [sim |].
  - destruct (Player.completed sim) eqn:Hc; cbn [negb].
    + destruct (Z.ltb_spec (Player.score sim) m) as [Hs | Hs]; cbn [negb].
      * split; [intros H; discriminate H |]. intros (sim' & Heq & _ & Hle & _).
        injection Heq as <-. lia.
      * destruct (Player.timeElapsed sim) as [e |] eqn:He; cbn [gtUndefined].
        -- destruct (Z.ltb_spec t e) as [Hlt | Hle]; cbn [negb].
           ++ split; [intros H; discriminate H |]. intros (sim' & Heq & _ & _ & Hmax).
              injection Heq as <-. specialize (Hmax e He). lia.
           ++ split; [| reflexivity]. intros _. exists sim. repeat split; try assumption.
              intros e' He'. congruence.
        -- split; [| reflexivity]. intros _. exists sim. repeat split; try assumption.
           intros e' He'. congruence.
    + split; [intros H; discriminate H |]. intros (sim' & Heq & Hc' & _).
      injection Heq as <-. congruence.
  - split; [intros H; discriminate H |]. intros (sim' & Heq & _). discriminate Heq.
Qed.

(** The three disaster badges, each against the entry of its disaster. *)
Lemma disaster_badge_meets (p : Player.t) :
  (checkBadgeRequirements "earthquake" p = true
   <-> meets 500 900 (Player.completedSimulations p !! "earthquake"))
  /\ (checkBadgeRequirements "landslide" p = true
      <-> meets 600 1200 (Player.completedSimulations p !! "landslide"))
  /\ (checkBadgeRequirements "flood" p = true
      <-> meets 700 1500 (Player.completedSimulations p !! "flood")).
Proof.
  repeat split; intros H;
    (apply (simulation_requirement _ _ _ p) in H ||  apply (simulation_requirement _ _ _ p));
    first [exact H | discriminate].
Qed.

(** X3. The badge of a disaster is satisfied exactly when the entry of that
    disaster is there and completed, reaches the minimum score of the badge
    and, if it records a time, took no longer than the badge allows. *)
Theorem disaster_badge_characterised (p : Player.t) :
  (checkBadgeRequirements "earthquake" p = true
   <-> meets 500 900 (Player.completedSimulations p !! "earthquake"))
  /\ (checkBadgeRequirements "landslide" p = true
      <-> meets 600 1200 (Player.completedSimulations p !! "landslide"))
  /\ (checkBadgeRequirements "flood" p = true
      <-> meets 700 1500 (Player.completedSimulations p !! "flood")).
Proof. exact (disaster_badge_meets p). Qed.

Lemma disaster_badge_characterised_witness :
  meets 500 900 (Player.completedSimulations (timedEarthquakeProfile 550 400) !! "earthquake").
Proof.
  apply (disaster_badge_characterised (timedEarthquakeProfile 550 400)).
  vm_compute. reflexivity.
Defined.

(** The count of [calculateBadgeProgress] for the badge of a disaster. *)
Lemma disaster_badge_count (d : string) (b : Badge) (p : Player.t) :
  In d disasters -> badge d = Some b ->
  countProgress (requirements b) p
  = (match Player.completedSimulations p !! d with
     | Some sim =>
         (Nat.b2n (Player.completed sim)
          + Nat.b2n (Z.leb (default 0%Z (minScore (requirements b))) (Player.score sim))
          + Nat.b2n (leUndefined (Player.timeElapsed sim)
                       (default 0%Z (maxTime (requirements b)))))%nat
     | None => 0%nat
     end, 3%nat).
Proof.
  intros Hd Hb. unfold disasters in Hd. cbn [In] in Hd.
  destruct Hd as [<- | [<- | [<- | []]]]; injection Hb as <-;
    unfold countProgress;
    cbn [requirements completeSimulation minScore maxTime completeAllSimulations
         truthyString truthyNumber truthyBool default negb String.eqb Ascii.eqb Bool.eqb
         Z.eqb Pos.eqb propertyKey];
    (destruct (Player.completedSimulations p !! _) as [sim |]; [| reflexivity]);
    destruct (Player.completed sim), (_ <=? Player.score sim), (leUndefined _ _); reflexivity.
Qed.

(** X4. For the badge of a disaster, [calculateBadgeProgress] reaches 100
    only when [checkBadgeRequirements] holds; when the entry of the
    disaster records the time it took, the two agree. *)
Theorem progress_full_iff_earned (d : string) (p : Player.t) :
  In d disasters ->
  (calculateBadgeProgress d p == 100 -> checkBadgeRequirements d p = true)%Q
  /\ (recordsTime d p ->
      checkBadgeRequirements d p = true -> calculateBadgeProgress d p == 100)%Q.
Proof.
  intros Hd.
  assert (Hb : exists b, badge d = Some b
                 /\ (checkBadgeRequirements d p = true
                     <-> meets (default 0 (minScore (requirements b)))
                               (default 0 (maxTime (requirements b)))
                               (Player.completedSimulations p !! d))).
  { pose proof (disaster_badge_meets p) as (He & Hl & Hf).
    unfold disasters in Hd. cbn [In] in Hd.
    destruct Hd as [<- | [<- | [<- | []]]]; eexists; (split; [reflexivity |]); assumption. }
  destruct Hb as (b & Hb & Hcheck).
  unfold calculateBadgeProgress. rewrite Hb, (disaster_badge_count d b p Hd Hb).
  cbn [Nat.ltb Nat.leb]. rewrite Hcheck. unfold meets, recordsTime.
  destruct (Player.completedSimulations p !! d) as [sim |].
  - split.
    + intros H. exists sim. split; [reflexivity |].
      destruct (Player.completed sim); [| destruct (_ <=? _), (leUndefined _ _); discriminate H].
      split; [reflexivity |].
      destruct (Z.leb_spec (default 0 (minScore (requirements b))) (Player.score sim)) as [Hs | Hs];
        [| destruct (leUndefined _ _); discriminate H].
      split; [exact Hs |]. intros t Ht. rewrite Ht in H. cbn [leUndefined] in H.
      destruct (Z.leb_spec t (default 0 (maxTime (requirements b)))); [assumption | discriminate H].
    + intros Hrec (sim' & Heq & Hc & Hs & Ht). injection Heq as <-.
      destruct (Hrec sim eq_refl) as [t Htime]. rewrite Hc, Htime. cbn [leUndefined].
      apply Z.leb_le in Hs. rewrite Hs. specialize (Ht t Htime). apply Z.leb_le in Ht. rewrite Ht.
      reflexivity.
  - split; [intros H; discriminate H |]. intros _ (sim' & Heq & _). discriminate Heq.
Qed.

Lemma progress_full_iff_earned_witness :
  (calculateBadgeProgress "earthquake" (timedEarthquakeProfile 550 400) == 100)%Q
  /\ checkBadgeRequirements "earthquake" (timedEarthquakeProfile 550 400) = true.
Proof.
  assert (Hd : In "earthquake" disasters) by (cbn; tauto).
  assert (Hc : checkBadgeRequirements "earthquake" (timedEarthquakeProfile 550 400) = true)
    by (vm_compute; reflexivity).
  split; [| exact Hc].
  apply (proj2 (progress_full_iff_earned "earthquake" (timedEarthquakeProfile 550 400) Hd));
    [| exact Hc].
  intros sim Hsim. vm_compute in Hsim. injection Hsim as <-. eexists. reflexivity.
Defined.

(** X5. On a profile whose entries record no time, as the controller writes
    them, the progress of the badge of a disaster never exceeds two thirds,
    whether the badge is satisfied or not. *)
Theorem progress_stuck_without_time (d : string) (p : Player.t) :
  In d disasters -> lacksTimeElapsed p ->
  (calculateBadgeProgress d p <= 200 # 3)%Q.
Proof.
  intros Hd Hlacks.
  assert (Hb : exists b, badge d = Some b).
  { unfold disasters in Hd. cbn [In] in Hd.
    destruct Hd as [<- | [<- | [<- | []]]]; eexists; reflexivity. }
  destruct Hb as (b & Hb).
  unfold calculateBadgeProgress. rewrite Hb, (disaster_badge_count d b p Hd Hb).
  cbn [Nat.ltb Nat.leb].
  destruct (Player.completedSimulations p !! d) as [sim |] eqn:Hsim; [| discriminate].
  assert (Hnone : Player.timeElapsed sim = None).
  { unfold lacksTimeElapsed, completions in Hlacks. rewrite Forall_fmap, Forall_forall in Hlacks.
    apply (Hlacks (d, sim)). apply elem_of_map_to_list. exact Hsim. }
  rewrite Hnone. cbn [leUndefined].
  destruct (Player.completed sim), (_ <=? Player.score sim); discriminate.
Qed.

Lemma progress_stuck_without_time_witness :
  (calculateBadgeProgress "earthquake" firstEarthquakeProfile <= 200 # 3)%Q
  /\ checkBadgeRequirements "earthquake" firstEarthquakeProfile = true.
Proof.
  split; [| vm_compute; reflexivity].
  apply (progress_stuck_without_time "earthquake" firstEarthquakeProfile).
  - cbn. tauto.
  - unfold lacksTimeElapsed. vm_compute. repeat constructor.
Defined.

(** A larger count gives a larger percentage. *)
Lemma percentage_le (n m t : nat) :
  (n <= m)%nat -> (0 < t)%nat ->
  (inject_Z (Z.of_nat n) / inject_Z (Z.of_nat t) * 100
   <= inject_Z (Z.of_nat m) / inject_Z (Z.of_nat t) * 100)%Q.
Proof.
  intros Hle Hpos.
  assert (Ht : (0 < inject_Z (Z.of_nat t))%Q).
  { change 0%Q with (inject_Z 0). rewrite <- Zlt_Qlt. lia. }
  apply Qmult_le_compat_r; [| discriminate].
  unfold Qdiv. apply Qmult_le_compat_r; [rewrite <- Zle_Qle; lia |].
  apply Qlt_le_weak, Qinv_lt_0_compat, Ht.
Qed.

(** Between two and eight badges are reported earned. *)
Lemma earned_count (p : Player.t) :
  (2 <= length (getEarnedBadges p) <= 8)%nat.
Proof.
  unfold getEarnedBadges. cbn [badges fmap list_fmap fst List.filter].
  change (checkBadgeRequirements "lifeSaver" p) with true.
  change (checkBadgeRequirements "educator" p) with true.
  destruct (checkBadgeRequirements "earthquake" p), (checkBadgeRequirements "landslide" p),
    (checkBadgeRequirements "flood" p), (checkBadgeRequirements "master" p),
    (checkBadgeRequirements "speedRunner" p), (checkBadgeRequirements "perfectionist" p);
    cbn [length]; lia.
Qed.

(** A profile whose entries are those of the three disasters has at most
    three of them. *)
Lemma completedCount_le (p : Player.t) :
  knownDisasters p -> (completedCount p <= 3)%nat.
Proof.
  intros Hknown. unfold completedCount.
  etransitivity; [apply List.filter_length_le |].
  unfold completions. rewrite length_fmap, length_map_to_list, <- (size_dom (D := gset string)).
  assert (Hsub : dom (Player.completedSimulations p) ⊆ (list_to_set disasters : gset string)).
  { intros k Hk. apply elem_of_dom in Hk. apply elem_of_list_to_set, list_elem_of_In, Hknown, Hk. }
  etransitivity; [apply subseteq_size, Hsub |].
  vm_compute. lia.
Qed.

(** X6. In [getOverallProgress] the badge progress lies between 25 and 100
    for every profile; when every entry of the profile is that of one of
    the three disasters the simulation progress and the overall progress
    are at most 100. *)
Theorem getOverallProgress_bounds (p : Player.t) :
  (25 <= badgeProgress (getOverallProgress p) /\ badgeProgress (getOverallProgress p) <= 100)%Q
  /\ (0 <= simulationProgress (getOverallProgress p))%Q
  /\ (knownDisasters p ->
      (simulationProgress (getOverallProgress p) <= 100
       /\ overallProgress (getOverallProgress p) <= 100)%Q).
Proof.
  pose proof (earned_count p) as [Hlo Hhi].
  unfold getOverallProgress. cbn [badgeProgress simulationProgress overallProgress].
  change (length badges) with 8%nat.
  split; [split |].
  - apply Qle_trans with (inject_Z (Z.of_nat 2) / inject_Z (Z.of_nat 8) * 100)%Q; [discriminate |].
    apply percentage_le; lia.
  - refine (proj2 (percentage_range _ 8 Hhi _)). lia.
  - split.
    + apply Qmult_le_0_compat; [| discriminate].
      apply Qle_shift_div_l; [reflexivity |]. rewrite Qmult_0_l.
      change 0%Q with (inject_Z 0). rewrite <- Zle_Qle. lia.
    + intros Hknown. pose proof (completedCount_le p Hknown) as Hc. split.
      * refine (proj2 (percentage_range _ 3 Hc _)). lia.
      * refine (proj2 (percentage_range _ (8 + 3) _ _)); lia.
Qed.

Lemma getOverallProgress_bounds_witness :
  (simulationProgress (getOverallProgress (timedEarthquakeProfile 550 400)) <= 100
   /\ overallProgress (getOverallProgress (timedEarthquakeProfile 550 400)) <= 100)%Q.
Proof.
  apply (getOverallProgress_bounds (timedEarthquakeProfile 550 400)).
  intros k [c Hk]. unfold timedEarthquakeProfile in Hk. cbn [Player.completedSimulations] in Hk.
  apply lookup_singleton_Some in Hk as [<- _]. cbn. tauto.
Defined.

(** The average of a field that no entry has is [NaN]. *)
Lemma average_timeElapsed_lacks (l : list Player.Completion) :
  Forall (fun c => Player.timeElapsed c = None) l -> average Player.timeElapsed l = None.
Proof.
  intros H. unfold average. destruct l as [| c l]; [reflexivity |].
  inversion H as [| ? ? Hc Hl]; subst. cbn [foldl]. rewrite Hc.
  assert (Hnone : forall l', foldl (fun (sum : option Z) (sim : Player.Completion) =>
                    match sum, Player.timeElapsed sim with
                    | Some a, Some b => Some (a + b)
                    | _, _ => None
                    end) None l' = None).
  { induction l' as [| c' l' IH]; [reflexivity | exact IH]. }
  rewrite Hnone. reflexivity.
Qed.

(** X7. [getPlayerStrengths] never returns an empty list; for a profile
    whose entries record no time, as the controller writes them, it never
    reports "Quick Decision Making"; for a profile without entries it
    returns the fallback alone. *)
Theorem getPlayerStrengths_fallback (p : Player.t) :
  getPlayerStrengths p <> []
  /\ (lacksTimeElapsed p -> ~ In "Quick Decision Making" (getPlayerStrengths p))
  /\ (completions p = [] -> getPlayerStrengths p = ["Dedicated Learner"]).
Proof.
  unfold getPlayerStrengths. cbv zeta. split; [| split].
  - destruct (ltNaN _ _), (gtNaN _ 700), (gtNaN _ 85); discriminate.
  - intros H. rewrite (average_timeElapsed_lacks _ H). cbn [ltNaN].
    destruct (gtNaN _ 700), (gtNaN _ 85); cbn; intros Hin;
      repeat (destruct Hin as [Hin | Hin]; [discriminate Hin |]); exact Hin.
  - intros ->. reflexivity.
Qed.

Lemma getPlayerStrengths_fallback_witness :
  ~ In "Quick Decision Making" (getPlayerStrengths firstEarthquakeProfile)
  /\ getPlayerStrengths Player.new = ["Dedicated Learner"].
Proof.
  split.
  - apply (getPlayerStrengths_fallback firstEarthquakeProfile).
    unfold lacksTimeElapsed. vm_compute. repeat constructor.
  - apply (getPlayerStrengths_fallback Player.new). vm_compute. reflexivity.
Defined.

(** [getRecommendations] disaster by disaster. *)
Lemma getRecommendations_eq (p : Player.t) :
  exists general : list string,
    (length general <= 1)%nat
    /\ ~ In greatJob general
    /\ let base := recommendationFor "earthquake" p ++ recommendationFor "landslide" p
                      ++ recommendationFor "flood" p ++ general in
       getRecommendations p = match base with [] => [greatJob] | _ :: _ => base end.
Proof.
  unfold getRecommendations. cbv zeta.
  set (step := fun (recommendations : list string) (disaster : string) => _).
  assert (Hstep : forall recs d, step recs d = recs ++ recommendationFor d p).
  { intros recs d. unfold step, recommendationFor.
    destruct (Player.completedSimulations p !! d) as [sim |]; [| reflexivity].
    destruct (negb (Player.completed sim)); [reflexivity |].
    destruct (Player.accuracy sim <? 75); [reflexivity | symmetry; apply app_nil_r]. }
  cbn [foldl]. rewrite !Hstep. cbn [app]. clearbody step. clear Hstep step.
  exists (if (0 <? length (completions p))%nat && ltNaN (average (fun sim => Some (Player.accuracy sim))
                                                       (completions p)) 80
          then ["Take time to read instructions carefully"] else []).
  destruct (0 <? length (completions p))%nat, (ltNaN _ 80); cbn [andb].
  all: split; [cbn [length]; lia |].
  all: split; [cbn [In]; first [intros [H | H]; [discriminate H | exact H] | intros H; exact H] |].
  all: match goal with |- (if (length ?b =? 0)%nat then _ else _) = match ?b' with _ => _ end =>
         replace b' with b by (rewrite <- ?app_assoc, ?app_nil_r; reflexivity); destruct b
       end; reflexivity.
Qed.

(** The recommendation for a disaster is at most one message, never the
    closing praise, and it is the invitation to try the disaster when the
    disaster has no completed entry. *)
Lemma recommendationFor_shape (d : string) (p : Player.t) :
  (length (recommendationFor d p) <= 1)%nat
  /\ ~ In greatJob (recommendationFor d p)
  /\ (notCompleted d p -> recommendationFor d p = [tryMessage d]).
Proof.
  unfold recommendationFor, notCompleted.
  destruct (Player.completedSimulations p !! d) as [sim |].
  - destruct (Player.completed sim); cbn [negb].
    + destruct (Player.accuracy sim <? 75); (split; [cbn [length]; lia |]);
        (split; [| intros H; discriminate H]); cbn [In].
      * intros [H | H]; [discriminate H | exact H].
      * intros H; exact H.
    + split; [cbn [length]; lia |]. split; [| reflexivity].
      cbn [In]. intros [H | H]; [discriminate H | exact H].
  - split; [cbn [length]; lia |]. split; [| reflexivity].
    cbn [In]. intros [H | H]; [discriminate H | exact H].
Qed.

(** The two lists of a report are never empty. *)
Lemma getPlayerStrengths_nonempty (p : Player.t) : getPlayerStrengths p <> [].
Proof.
  unfold getPlayerStrengths. cbv zeta.
  destruct (ltNaN _ _), (gtNaN _ 700), (gtNaN _ 85); discriminate.
Qed.

Lemma getRecommendations_nonempty (p : Player.t) : getRecommendations p <> [].
Proof.
  destruct (getRecommendations_eq p) as (general & _ & _ & ->).
  match goal with |- match ?b with [] => _ | _ :: _ => _ end <> _ => destruct b end; discriminate.
Qed.

(** X8. [getRecommendations] never returns an empty list and returns at most
    four recommendations; every disaster without a completed entry is
    recommended; the closing praise is given only when nothing else is. *)
Theorem getRecommendations_shape (p : Player.t) :
  getRecommendations p <> []
  /\ (length (getRecommendations p) <= 4)%nat
  /\ (forall d : string,
        In d disasters -> notCompleted d p -> In (tryMessage d) (getRecommendations p))
  /\ (In greatJob (getRecommendations p) -> getRecommendations p = [greatJob]).
Proof.
  split; [apply getRecommendations_nonempty |].
  destruct (getRecommendations_eq p) as (general & Hlen & Hgen & Heq). cbv zeta in Heq.
  destruct (recommendationFor_shape "earthquake" p) as (Hle & Hge & Hte).
  destruct (recommendationFor_shape "landslide" p) as (Hll & Hgl & Htl).
  destruct (recommendationFor_shape "flood" p) as (Hlf & Hgf & Htf).
  set (base := _ ++ _ ++ _ ++ general) in Heq.
  assert (Hbase : (length base <= 4)%nat) by (unfold base; rewrite !length_app; lia).
  assert (Hpraise : ~ In greatJob base).
  { unfold base. rewrite !in_app_iff. tauto. }
  rewrite Heq. split; [| split].
  - destruct base; cbn [length] in *; lia.
  - intros d Hd Hnot.
    assert (Hin : In (tryMessage d) base).
    { unfold base, disasters in *. cbn [In] in Hd. rewrite !in_app_iff.
      destruct Hd as [<- | [<- | [<- | []]]];
        [rewrite (Hte Hnot) | rewrite (Htl Hnot) | rewrite (Htf Hnot)]; cbn [In]; tauto. }
    destruct base; [destruct Hin | exact Hin].
  - destruct base; [reflexivity |]. intros Hin. contradiction.
Qed.

Lemma getRecommendations_shape_witness :
  In (tryMessage "flood") (getRecommendations firstEarthquakeProfile)
  /\ getRecommendations (veteranProfile 90) = [greatJob].
Proof.
  split.
  - apply (getRecommendations_shape firstEarthquakeProfile); [cbn; tauto |].
    vm_compute. exact I.
  - apply (getRecommendations_shape (veteranProfile 90)). vm_compute. tauto.
Defined.

(** X9. Every report of [generatePlayerReport] counts between two and eight
    earned badges out of eight, names at least one strength and gives at
    least one recommendation; for a profile whose entries are those of the
    three disasters its overall progress is at most 100. *)
Theorem generatePlayerReport_sound (p : Player.t) :
  let report := generatePlayerReport p in
  totalBadges report = 8%nat
  /\ (2 <= badgesEarned report <= totalBadges report)%nat
  /\ strengths report <> []
  /\ recommendations report <> []
  /\ (knownDisasters p ->
      (simulationsCompleted report <= totalSimulations report)%nat
      /\ (report_overallProgress report <= 100)%Q).
Proof.
  cbv zeta. unfold generatePlayerReport.
  cbn [totalBadges badgesEarned strengths recommendations simulationsCompleted totalSimulations
       report_overallProgress].
  split; [reflexivity |]. split; [apply earned_count |].
  split; [apply getPlayerStrengths_nonempty |].
  split; [apply getRecommendations_nonempty |].
  intros Hknown. split; [apply completedCount_le, Hknown |].
  pose proof (earned_count p) as [_ Hhi]. pose proof (completedCount_le p Hknown) as Hc.
  unfold getOverallProgress. cbn [overallProgress]. change (length badges) with 8%nat.
  refine (proj2 (percentage_range _ (8 + 3) _ _)); lia.
Qed.

Lemma generatePlayerReport_sound_witness :
  (simulationsCompleted (generatePlayerReport (timedEarthquakeProfile 550 400)) <= 3)%nat
  /\ (report_overallProgress (generatePlayerReport (timedEarthquakeProfile 550 400)) <= 100)%Q.
Proof.
  apply (generatePlayerReport_sound (timedEarthquakeProfile 550 400)).
  intros k [c Hk]. unfold timedEarthquakeProfile in Hk. cbn [Player.completedSimulations] in Hk.
  apply lookup_singleton_Some in Hk as [<- _]. cbn. tauto.
Defined.

End BadgeProperties.

(** ** The profile over several completions *)

Lemma completeAll_snoc (results : list (string * Host.Result)) (date : string) (r : Host.Result)
    (p : Player.t) :
  completeAll (results ++ [(date, r)]) p = Game.completeSimulation date r (completeAll results p).
Proof. unfold completeAll. rewrite foldl_app. reflexivity. Qed.

(** X10. The level never decreases and never falls behind the total score;
    starting from a new profile, as long as no result takes points away,
    the total score is the sum of what the results added and the level is
    [floor(totalScore / 1000) + 1]. *)
Theorem level_tracks_total (results : list (string * Host.Result)) :
  (forall (date : string) (r : Host.Result) (p : Player.t),
      Player.level p <= Player.level (Game.completeSimulation date r p)
      /\ Player.totalScore (Game.completeSimulation date r p) / 1000 + 1
         <= Player.level (Game.completeSimulation date r p))
  /\ (Forall (fun '(_, r) => 0 <= gain r) results ->
      Player.totalScore (completeAll results Player.new)
      = foldr (fun '(_, r) sum => gain r + sum) 0 results
      /\ Player.level (completeAll results Player.new)
         = Player.totalScore (completeAll results Player.new) / 1000 + 1).
Proof.
  split.
  - intros date r p. destruct (completeSimulation_profile date r p) as (_ & _ & Hl).
    cbv zeta in Hl. rewrite Hl. lia.
  - induction results as [| [date r] results IH] using rev_ind; intros Hall.
    + split; reflexivity.
    + apply Forall_app in Hall as [Hall Hr]. inversion Hr as [| ? ? Hgain _]; subst.
      destruct (IH Hall) as [Hsum Hlevel]. clear IH.
      rewrite completeAll_snoc.
      destruct (completeSimulation_profile date r (completeAll results Player.new))
        as (Ht & _ & Hl). cbv zeta in Ht, Hl.
      assert (Hnonneg : 0 <= foldr (fun '(_, r) sum => gain r + sum) 0 results).
      { clear -Hall. induction Hall as [| [d x] l Hx _ IHl]; simpl; lia. }
      split.
      * rewrite Ht, Hsum, foldr_app. cbn [foldr]. unfold gain in *.
        assert (Hshift : forall (l : list (string * Host.Result)) (a : Z),
                  foldr (fun '(_, r) sum => Host.score r + Host.timeBonus r + sum) a l
                  = foldr (fun '(_, r) sum => Host.score r + Host.timeBonus r + sum) 0 l + a).
        { induction l as [| [d x] l IHl]; intros a; simpl; [lia | rewrite IHl; lia]. }
        rewrite (Hshift results (_ + 0)). lia.
      * rewrite Hl, Hlevel, Ht. unfold gain in *.
        assert (Hmono : Player.totalScore (completeAll results Player.new) / 1000
                        <= (Player.totalScore (completeAll results Player.new)
                            + (Host.score r + Host.timeBonus r)) / 1000)
          by (apply Z.div_le_mono; lia).
        lia.
Qed.

Lemma level_tracks_total_witness :
  Player.totalScore (completeAll someReports Player.new) = 2730
  /\ Player.level (completeAll someReports Player.new) = 3.
Proof.
  destruct (level_tracks_total someReports) as [_ H].
  destruct H as [Hsum Hlevel].
  - repeat constructor; vm_compute; discriminate.
  - split; [rewrite Hsum | rewrite Hlevel, Hsum]; reflexivity.
Defined.

(** Whether the three disasters have an entry, as [completeSimulation]
    tests it. *)
Lemma completedAll_spec (m : gmap string Player.Completion) :
  forallb (fun d => bool_decide (is_Some (m !! d))) ["earthquake"; "landslide"; "flood"] = true
  <-> forall d : string, In d disasters -> is_Some (m !! d).
Proof.
  rewrite forallb_forall. unfold disasters.
  split; intros H d Hd.
  - specialize (H d Hd). apply bool_decide_eq_true in H. exact H.
  - apply bool_decide_eq_true. apply H, Hd.
Qed.

Lemma completeSimulation_keeps_match (date : string) (r : Host.Result) (p : Player.t) :
  In (Host.disaster r) disasters ->
  badgesMatchCompletions p -> badgesMatchCompletions (Game.completeSimulation date r p).
Proof.
  intros Hd (Hnd & Hown & Hmaster & Hsub).
  assert (Hb : exists b, BadgeSystem.getBadgeForDisaster (Host.disaster r) = Some b
                         /\ BadgeSystem.id b = Host.disaster r).
  { unfold disasters in Hd. cbn [In] in Hd.
    destruct Hd as [<- | [<- | [<- | []]]]; eexists; split; reflexivity. }
  destruct Hb as (b & Hb & Hid).
  assert (Hnm : Host.disaster r <> "master").
  { unfold disasters in Hd. cbn [In] in Hd.
    destruct Hd as [<- | [<- | [<- | []]]]; discriminate. }
  unfold badgesMatchCompletions.
  rewrite (completeSimulation_badges_eq date r p b Hb).
  split; [apply pushed_NoDup, Hnd |].
  unfold pushed. rewrite completeSimulation_entry, Hid.
  set (entry := {| Player.completed := true |}).
  set (own := if JS.includes (Player.badges p) (Host.disaster r) then [] else [Host.disaster r]).
  assert (Hown' : forall x, In x (Player.badges p ++ own) <-> In x (Player.badges p) \/ x = Host.disaster r).
  { intros x. rewrite in_app_iff. unfold own.
    destruct (JS.includes (Player.badges p) (Host.disaster r)) eqn:Hinc.
    - apply includes_In in Hinc. cbn [In]. split; [tauto |]. intros [H | ->]; tauto.
    - cbn [In]. split; [intros [H | [H | []]]; [tauto | right; congruence] |].
      intros [H | ->]; tauto. }
  set (all := forallb _ _).
  assert (Hall : all = true <-> forall d, In d disasters ->
                   is_Some (<[Host.disaster r := entry]> (Player.completedSimulations p) !! d))
    by apply completedAll_spec.
  assert (Hlook : forall d, is_Some (<[Host.disaster r := entry]> (Player.completedSimulations p) !! d)
                            <-> d = Host.disaster r \/ is_Some (Player.completedSimulations p !! d)).
  { intros d. destruct (decide (Host.disaster r = d)) as [<- | Hne].
    - rewrite lookup_insert_eq. split; [tauto | intros _; eexists; reflexivity].
    - rewrite lookup_insert_ne by assumption. split; [tauto |]. intros [-> | H]; [congruence | exact H]. }
  set (master := if all && negb (JS.includes (Player.badges p ++ own) "master")
                 then ["master"] else []).
  assert (Hm : forall x, In x master <-> x = "master" /\ all = true
                                         /\ ~ In "master" (Player.badges p)).
  { intros x. unfold master. destruct all.
    - destruct (JS.includes (Player.badges p ++ own) "master") eqn:Hinc; cbn [andb negb In].
      + apply includes_In, Hown' in Hinc. destruct Hinc as [Hinc | Hinc]; [tauto | congruence].
      + apply includes_false in Hinc. rewrite Hown' in Hinc.
        split; [| intros (-> & _); left; reflexivity].
        intros [<- | []]. tauto.
    - cbn [andb In]. split; [tauto |]. intros (_ & H & _). discriminate H. }
  assert (Hin : forall x, In x (Player.badges p ++ own ++ master)
                          <-> In x (Player.badges p) \/ x = Host.disaster r \/ In x master).
  { intros x. rewrite app_assoc, in_app_iff, Hown'. tauto. }
  split; [| split].
  - intros d Hdd. rewrite Hin, Hlook, Hm, (Hown d Hdd).
    assert (d <> "master").
    { unfold disasters in Hdd. cbn [In] in Hdd.
      destruct Hdd as [<- | [<- | [<- | []]]]; discriminate. }
    tauto.
  - rewrite Hin, Hm, Hmaster, <- Hall.
    split.
    + intros [H | [H | H]]; [| congruence | tauto].
      apply Hall. intros d Hdd. apply Hlook. right. apply H, Hdd.
    + intros H. destruct (in_dec string_dec "master" (Player.badges p)) as [Hyes | Hno].
      * left. apply Hmaster. exact Hyes.
      * right. right. tauto.
  - intros x. rewrite Hin, Hm. intros [H | [-> | (-> & _)]].
    + apply Hsub, H.
    + apply in_app_iff. left. exact Hd.
    + apply in_app_iff. right. left. reflexivity.
Qed.

(** X11. Starting from a new profile, after any reports of the three
    disasters the earned badges are exactly the disasters that have an
    entry, plus [master] exactly when the three have one, each listed
    once. *)
Theorem badges_track_completions (results : list (string * Host.Result)) :
  Forall (fun '(_, r) => In (Host.disaster r) disasters) results ->
  badgesMatchCompletions (completeAll results Player.new).
Proof.
  induction results as [| [date r] results IH] using rev_ind; intros Hall.
  - unfold badgesMatchCompletions, completeAll. cbn [foldl Player.new Player.badges
      Player.completedSimulations].
    split; [constructor |]. split; [| split].
    + intros d _. rewrite lookup_empty. split; [intros [] | intros [c Hc]; discriminate Hc].
    + split; [intros [] |]. intros H. specialize (H "earthquake" ltac:(left; reflexivity)).
      rewrite lookup_empty in H. destruct H as [c Hc]. discriminate Hc.
    + intros b [].
  - apply Forall_app in Hall as [Hall Hr]. inversion Hr as [| ? ? Hd _]; subst.
    rewrite completeAll_snoc. apply completeSimulation_keeps_match; [exact Hd | apply IH, Hall].
Qed.

Lemma badges_track_completions_witness :
  Player.badges (completeAll someReports Player.new) = ["earthquake"; "flood"]
  /\ badgesMatchCompletions (completeAll someReports Player.new).
Proof.
  split; [vm_compute; reflexivity |].
  apply (badges_track_completions someReports).
  repeat constructor; cbn; tauto.
Defined.

(** ** The matching panel: what a drop leaves on it *)

Lemma removeElement_find (draggedId : string) (items : list Host.Item) (item : Host.Item) :
  List.find (fun item => String.eqb (Host.item_id item) draggedId) items = Some item ->
  NoDup (Host.item_id <$> items) ->
  List.find (fun item => String.eqb (Host.item_id item) draggedId)
            (Game.removeElement draggedId items) = None
  /\ (length (Game.removeElement draggedId items) + 1 = length items)%nat.
Proof.
  induction items as [| i items IH]; intros Hfind Hnd; [discriminate Hfind |].
  cbn [List.find Game.removeElement] in *. rewrite fmap_cons in Hnd.
  apply NoDup_cons in Hnd as [Hnotin Hnd].
  destruct (String.eqb (Host.item_id i) draggedId) eqn:Heq.
  - apply String.eqb_eq in Heq. split; [| cbn [length]; lia].
    destruct (List.find _ items) as [j |] eqn:Hj; [| reflexivity].
    apply find_some in Hj as [Hin Hid]. apply String.eqb_eq in Hid.
    exfalso. apply Hnotin. rewrite Heq, <- Hid. apply list_elem_of_fmap_2, list_elem_of_In, Hin.
  - cbn [List.find]. rewrite Heq. destruct (IH Hfind Hnd) as [Hnone Hlen].
    split; [exact Hnone | cbn [length]; lia].
Qed.

(** The calls the two drop callbacks make reach the host without touching
    the panel. *)
Lemma runEarthquake_drop_panel (date : string) (correct : bool) (draggedId zoneId : string)
    (s : Earthquake.Session) (g : Game.t) :
  Game.draggableItems
    (Game.runEarthquake date
       (if correct then Earthquake.onCorrectDrop draggedId zoneId
        else Earthquake.onIncorrectDrop draggedId zoneId) s g)
  = Game.draggableItems g.
Proof.
  unfold Game.runEarthquake. cbv zeta. destruct correct.
  - unfold Earthquake.onCorrectDrop. cbv zeta.
    destruct (JS.index _ _); [| reflexivity]. destruct (JS.index _ _); [| reflexivity].
    match goal with |- context [if ?b then _ else _] => destruct b end; reflexivity.
  - unfold Earthquake.onIncorrectDrop. cbv zeta.
    match goal with |- context [if ?b then _ else _] => destruct b end; reflexivity.
Qed.

(** The items on the panel after a drop. *)
Lemma drop_items (date : string) (draggedId : string) (zone : Host.Zone) (g : Game.t)
    (item : Host.Item) :
  List.find (fun item => String.eqb (Host.item_id item) draggedId) (Game.draggableItems g)
  = Some item ->
  Game.draggableItems (Game.drop date draggedId zone g)
  = if JS.includes (Host.accepts zone) (Host.item_type item)
    then Game.removeElement draggedId (Game.draggableItems g)
    else Game.draggableItems g.
Proof.
  intros Hfind. unfold Game.drop. rewrite Hfind.
  destruct (JS.includes (Host.accepts zone) (Host.item_type item)); cbn [Game.simulationModule];
    destruct (Game.simulationModule g) as [[s | s | s] |]; try reflexivity.
  - apply (runEarthquake_drop_panel date true).
  - apply (runEarthquake_drop_panel date false).
Qed.

(** X12. A correct drop takes the dragged item off the panel: with distinct
    item ids the panel has one item less and the id names no item of the
    panel any more, so that a further drop of the same id on any zone does
    nothing unless a zone carries that id; an incorrect drop leaves every
    item on the panel. *)
Theorem drop_consumes_item (date : string) (draggedId : string) (zone : Host.Zone) (g : Game.t)
    (item : Host.Item) :
  List.find (fun item => String.eqb (Host.item_id item) draggedId) (Game.draggableItems g)
  = Some item ->
  NoDup (Host.item_id <$> Game.draggableItems g) ->
  let g' := Game.drop date draggedId zone g in
  if JS.includes (Host.accepts zone) (Host.item_type item)
  then Game.draggableItems g' = Game.removeElement draggedId (Game.draggableItems g)
       /\ (length (Game.draggableItems g') + 1 = length (Game.draggableItems g))%nat
       /\ List.find (fun item => String.eqb (Host.item_id item) draggedId)
            (Game.draggableItems g') = None
       /\ (List.find (fun z => String.eqb (Host.zone_id z) draggedId) (Game.dropZones g') = None ->
           forall zone' : Host.Zone, Game.drop date draggedId zone' g' = g')
  else Game.draggableItems g' = Game.draggableItems g.
Proof.
  intros Hfind Hnd g'.
  destruct (removeElement_find draggedId _ item Hfind Hnd) as [Hnone Hlen].
  pose proof (drop_items date draggedId zone g item Hfind) as Hitems. fold g' in Hitems.
  clearbody g'.
  destruct (JS.includes (Host.accepts zone) (Host.item_type item)); [| exact Hitems].
  split; [exact Hitems |]. split; [rewrite Hitems; exact Hlen |].
  split; [rewrite Hitems; exact Hnone |].
  intros Hzones zone'. unfold Game.drop. rewrite Hitems, Hnone, Hzones. reflexivity.
Qed.

Lemma drop_consumes_item_witness :
  length (Game.draggableItems (Game.drop EmptyString "student_3" (deskZone 5) classroomGame)) = 7%nat
  /\ Game.drop EmptyString "student_3" (deskZone 0)
       (Game.drop EmptyString "student_3" (deskZone 5) classroomGame)
     = Game.drop EmptyString "student_3" (deskZone 5) classroomGame.
Proof.
  pose proof (drop_consumes_item EmptyString "student_3" (deskZone 5) classroomGame
                {| Host.item_id := "student_3"; Host.item_text := "Student 4";
                   Host.item_type := "person" |}) as H.
  cbv zeta in H. destruct H as (Hitems & Hlen & Hgone & Hagain).
  - vm_compute. reflexivity.
  - vm_compute. repeat constructor; intros Hin; inversion Hin as [| ? ? ? Hin']; subst;
      repeat (try discriminate; match goal with H : _ ∈ _ |- _ => inversion H; clear H; subst end).
  - split; [| apply Hagain; vm_compute; reflexivity].
    assert (Hn : length (Game.draggableItems classroomGame) = 8%nat) by (vm_compute; reflexivity).
    lia.
Defined.

(** A drop of an id that names a zone and no item is an incorrect drop: on
    the panel of the classroom, the id of a desk dropped on a desk counts a
    mistake. *)
Lemma drop_of_a_zone_id_is_incorrect :
  match Game.simulationModule (Game.drop EmptyString "desk_2" (deskZone 5) classroomGame),
        Game.simulationModule classroomGame with
  | Some (Game.earthquake s'), Some (Game.earthquake s) =>
      Earthquake.mistakes s' = S (Earthquake.mistakes s)
      /\ Earthquake.accuracy s' = Earthquake.accuracy s - 10
  | _, _ => False
  end.
Proof. vm_compute. split; reflexivity. Qed.

(** ** Ids of the matching panel *)

(** Reading the decimal digits of a number gives the number back. *)
Lemma digits_of_uint (d : Decimal.uint) (a : nat) :
  JS.digits 10 (NilEmpty.string_of_uint d) (Some (Z.of_nat a))
  = Some (Z.of_nat (Nat.of_uint_acc d a)).
Proof.
  revert a. induction d; intros a; cbn [NilEmpty.string_of_uint Nat.of_uint_acc]; [reflexivity | ..];
    cbn [JS.digits];
    match goal with
    | |- context [JS.digitValue ?c] =>
        let v := eval vm_compute in (JS.digitValue c) in change (JS.digitValue c) with v
    end;
    cbn [Z.ltb Z.compare Pos.compare Pos.compare_cont default from_option Datatypes.id];
    rewrite <- IHd; f_equal; f_equal; rewrite Nat.tail_mul_spec; lia.
Qed.

Ltac digit_value :=
  repeat match goal with
         | |- context [JS.digitValue ?c] =>
             let v := eval vm_compute in (JS.digitValue c) in change (JS.digitValue c) with v
         | H : context [JS.digitValue ?c] |- _ =>
             let v := eval vm_compute in (JS.digitValue c) in change (JS.digitValue c) with v in H
         end.

Ltac white_space :=
  repeat match goal with
         | |- context [JS.isWhiteSpace ?c] =>
             let v := eval vm_compute in (JS.isWhiteSpace c) in change (JS.isWhiteSpace c) with v
         end.

Ltac parse_digits H :=
  cbn [NilZero.string_of_uint NilEmpty.string_of_uint] in *;
  unfold JS.parseInt; cbn [JS.trimStart]; white_space; cbv beta iota zeta;
  cbn [JS.digits] in *; digit_value;
  cbn [Z.ltb Z.compare Pos.compare Pos.compare_cont default from_option Datatypes.id] in *;
  rewrite H.

Lemma parseInt_decimal (n : nat) : JS.parseInt (Some (JS.decimal n)) = Some (Z.of_nat n).
Proof.
  unfold JS.decimal.
  rewrite <- (DecimalNat.Unsigned.of_to n) at 2. unfold Nat.of_uint.
  pose proof (digits_of_uint (Nat.to_uint n) 0) as H. change (Z.of_nat 0) with 0 in H.
  assert (Hone : forall z : Z, Z.mul 1 <$> Some z = Some z).
  { intros z. cbn [fmap option_fmap option_map]. f_equal. lia. }
  destruct (Nat.to_uint n) as [| d | d | d | d | d | d | d | d | d | d];
    [reflexivity | | parse_digits H; apply Hone ..].
  destruct d; [reflexivity | parse_digits H; apply Hone ..].
Qed.

Lemma split_of_uint (d : Decimal.uint) :
  JS.split "_" (NilEmpty.string_of_uint d) = [NilEmpty.string_of_uint d].
Proof.
  induction d; cbn [NilEmpty.string_of_uint JS.split]; [reflexivity | ..];
    match goal with
    | |- context [Ascii.eqb ?a ?b] =>
        let v := eval vm_compute in (Ascii.eqb a b) in change (Ascii.eqb a b) with v
    end; cbv beta iota; rewrite IHd; reflexivity.
Qed.

Lemma split_decimal (n : nat) : JS.split "_" (JS.decimal n) = [JS.decimal n].
Proof.
  unfold JS.decimal, NilZero.string_of_uint.
  destruct (Nat.to_uint n); [reflexivity | apply split_of_uint ..].
Qed.

Lemma panel_ids_ok (n : nat) :
  JS.parseInt (JS.split "_" ("student_" +:+ JS.decimal n) !! 1%nat) = Some (Z.of_nat n)
  /\ JS.parseInt (JS.split "_" ("desk_" +:+ JS.decimal n) !! 1%nat) = Some (Z.of_nat n)
  /\ JS.parseInt (JS.split "_" ("resident_" +:+ JS.decimal n) !! 1%nat) = Some (Z.of_nat n)
  /\ JS.parseInt (JS.split "_" ("boat_" +:+ JS.decimal n) !! 1%nat) = Some (Z.of_nat n)
  /\ forall (A : Type) (arr : list A), JS.index arr (Some (Z.of_nat n)) = arr !! n.
Proof.
  repeat split;
    try (cbv [String.append]; cbn [JS.split]; cbn [Ascii.eqb Bool.eqb]; cbv beta iota;
         rewrite split_decimal; cbn [lookup list_lookup]; apply parseInt_decimal).
  intros A arr. unfold JS.index. destruct (Z.ltb_spec (Z.of_nat n) 0); [lia |].
  rewrite Nat2Z.id. reflexivity.
Qed.

(** X13. The ids the sessions give to the items and zones of the matching
    panel parse back to the index they were made from, and the index reads
    the array at that position; for every index up to [2^53], the range in
    which [parseInt] gives the very integer the digits denote. *)
Theorem panel_ids_parse_back (n : nat) :
  Z.of_nat n <= 2 ^ 53 ->
  JS.parseInt (JS.split "_" ("student_" +:+ JS.decimal n) !! 1%nat) = Some (Z.of_nat n)
  /\ JS.parseInt (JS.split "_" ("desk_" +:+ JS.decimal n) !! 1%nat) = Some (Z.of_nat n)
  /\ JS.parseInt (JS.split "_" ("resident_" +:+ JS.decimal n) !! 1%nat) = Some (Z.of_nat n)
  /\ JS.parseInt (JS.split "_" ("boat_" +:+ JS.decimal n) !! 1%nat) = Some (Z.of_nat n)
  /\ forall (A : Type) (arr : list A), JS.index arr (Some (Z.of_nat n)) = arr !! n.
Proof. intros _. apply panel_ids_ok. Qed.

Lemma panel_ids_parse_back_witness :
  JS.parseInt (JS.split "_" ("student_" +:+ JS.decimal 7) !! 1%nat) = Some 7
  /\ JS.parseInt (JS.split "_" ("desk_" +:+ JS.decimal 7) !! 1%nat) = Some 7.
Proof.
  destruct (panel_ids_parse_back 7) as (Hs & Hd & _); [cbn; lia |].
  split; [exact Hs | exact Hd].
Defined.

(** X14. Dropping the panel item of the student of index [i] on the zone of
    the desk of index [j] marks that student safe and scores 100 when both
    indices are in range, and changes nothing otherwise. *)
Theorem panel_drop_marks_student (i j : nat) (s : Earthquake.Session) :
  let s' := Earthquake.onCorrectDrop ("student_" +:+ JS.decimal i) ("desk_" +:+ JS.decimal j) s in
  match Earthquake.students s !! i, Earthquake.desks s !! j with
  | Some student, Some _ =>
      Earthquake.studentStore s'
      = alter (Earthquake.set_safe true) student (Earthquake.studentStore s)
      /\ Earthquake.score s' = Earthquake.score s + 100
  | _, _ => s' = s
  end.
Proof.
  cbv zeta. unfold Earthquake.onCorrectDrop. cbv zeta.
  destruct (panel_ids_ok i) as (Hs & _ & _ & _ & Hi).
  destruct (panel_ids_ok j) as (_ & Hd & _ & _ & Hj).
  rewrite Hs, Hd, Hi, Hj.
  destruct (Earthquake.students s !! i) as [student |]; [| reflexivity].
  destruct (Earthquake.desks s !! j) as [desk |]; [| reflexivity].
  match goal with |- context [if ?b then _ else _] => destruct b end; split; reflexivity.
Qed.

(** ** Nearest shelter *)





(** ** What the events of a session keep *)

(** Deleting past the end of a list deletes nothing. *)
Lemma delete_absent {A} (k : nat) (l : list A) : l !! k = None -> delete k l = l.
Proof.
  intros H. apply lookup_ge_None in H.
  rewrite delete_take_drop, take_ge, drop_ge by lia. apply app_nil_r.
Qed.

Lemma earthquakeKeeps_refl (s : Earthquake.Session) : earthquakeKeeps s s.
Proof. unfold earthquakeKeeps. repeat split; (reflexivity || lia). Qed.

Lemma earthquakeKeeps_trans (s1 s2 s3 : Earthquake.Session) :
  earthquakeKeeps s1 s2 -> earthquakeKeeps s2 s3 -> earthquakeKeeps s1 s3.
Proof.
  intros (Hp & Ha & Hm & Hs & Ht) (Hp' & Ha' & Hm' & Hs' & Ht').
  unfold earthquakeKeeps. rewrite Hp', Ha', Hm'. repeat split; try assumption; [lia |].
  etransitivity; eassumption.
Qed.

Ltac earthquake_quiet :=
  unfold earthquakeKeeps; earthquake_simpl;
  repeat split; try reflexivity; try lia;
  try (apply prefix_app_r; reflexivity).

Lemma earthquake_initiateEvacuation_quiet (now : Q) (s : Earthquake.Session) :
  earthquakeKeeps s (Earthquake.initiateEvacuation now s).
Proof.
  unfold Earthquake.initiateEvacuation.
  apply (foldl_invariant (fun acc => earthquakeKeeps s acc)); [apply earthquakeKeeps_refl |].
  intros acc [index student] H. eapply earthquakeKeeps_trans; [exact H |]. earthquake_quiet.
Qed.

Lemma earthquake_completeSimulation_quiet (now : Q) (s : Earthquake.Session) :
  earthquakeKeeps s (Earthquake.completeSimulation now s).
Proof. unfold Earthquake.completeSimulation. cbv zeta. earthquake_quiet. Qed.

(** [startPhase] sets the index when it is in range and touches neither
    the accuracy, the mistakes, the score nor a pending timer. *)
Lemma earthquake_startPhase_keeps (now : Q) (N : nat) (s : Earthquake.Session) :
  Earthquake.currentPhase (Earthquake.startPhase now N s)
  = (if (N <? 4)%nat then N else Earthquake.currentPhase s)
  /\ Earthquake.accuracy (Earthquake.startPhase now N s) = Earthquake.accuracy s
  /\ Earthquake.mistakes (Earthquake.startPhase now N s) = Earthquake.mistakes s
  /\ Earthquake.score (Earthquake.startPhase now N s) = Earthquake.score s
  /\ Earthquake.timers s `prefix_of` Earthquake.timers (Earthquake.startPhase now N s).
Proof.
  do 4 (destruct N as [| N];
        [repeat split; first [reflexivity | eexists; reflexivity] |]).
  rewrite earthquake_startPhase_past_end by lia.
  destruct (earthquake_completeSimulation_quiet now s) as (Hp & Ha & Hm & Hs & Ht).
  repeat split; assumption.
Qed.

Lemma earthquake_onStudentClick_quiet (now : Q) (student : nat) (s : Earthquake.Session) :
  earthquakeKeeps s (Earthquake.onStudentClick now student s).
Proof.
  unfold Earthquake.onStudentClick, Earthquake.evacuateStudent.
  destruct (Earthquake.isEarthquakeActive s && _); [earthquake_quiet |].
  destruct ((Earthquake.currentPhase s =? 3)%nat && _); earthquake_quiet.
Qed.

Lemma earthquake_onCorrectDrop_quiet (studentId deskId : string) (s : Earthquake.Session) :
  earthquakeKeeps s (Earthquake.onCorrectDrop studentId deskId s).
Proof.
  unfold Earthquake.onCorrectDrop. cbv zeta.
  destruct (JS.index (Earthquake.students s) _) as [student |]; [| apply earthquakeKeeps_refl].
  destruct (JS.index (Earthquake.desks s) _) as [desk |]; [| apply earthquakeKeeps_refl].
  match goal with |- context [if ?b then _ else _] => destruct b end; earthquake_quiet.
Qed.

Lemma earthquake_runAction_quiet (now : Q) (a : Earthquake.Action) (s : Earthquake.Session) :
  earthquakeKeeps s (Earthquake.runAction now a s).
Proof.
  destruct a; cbn [Earthquake.runAction].
  - earthquake_quiet.
  - unfold Earthquake.startEarthquakePhase, Earthquake.showDropCoverHoldInterface. earthquake_quiet.
  - unfold Earthquake.startEvacuationPhase. cbv zeta.
    eapply earthquakeKeeps_trans; [| apply earthquake_initiateEvacuation_quiet]. earthquake_quiet.
  - earthquake_quiet.
Qed.

(** The closures other than the phase advance. *)
Lemma earthquake_runCallback_quiet (now : Q) (cb : Earthquake.Callback) (s : Earthquake.Session) :
  (forall N, cb <> Earthquake.autoAdvance N) ->
  earthquakeKeeps s (Earthquake.runCallback now cb s).
Proof.
  intros Hcb. destruct cb as [N | st | st |]; cbn [Earthquake.runCallback].
  - destruct (Hcb N eq_refl).
  - unfold Earthquake.evacuateStudent. destruct (negb _); earthquake_quiet.
  - cbv zeta. match goal with |- context [if ?b then _ else _] => destruct b end;
      earthquake_quiet.
  - apply earthquake_completeSimulation_quiet.
Qed.

(** The events that are neither a start, a reset, an incorrect drop nor a
    timer. *)
Lemma earthquake_step_quiet (now : Q) (e : Earthquake.Event) (s : Earthquake.Session) :
  match e with
  | Earthquake.Start | Earthquake.Reset | Earthquake.IncorrectDrop _ _ | Earthquake.Fire _ => True
  | _ => earthquakeKeeps s (Earthquake.step now e s)
  end.
Proof.
  destruct e as [| | | sid did | sid did | | st | | | p | | a | k]; try exact I;
    cbn [Earthquake.step].
  - unfold Earthquake.cleanup. earthquake_quiet.
  - apply earthquake_onCorrectDrop_quiet.
  - unfold Earthquake.onDeskClick. cbv zeta. destruct (_ =? _)%nat; earthquake_quiet.
  - apply earthquake_onStudentClick_quiet.
  - unfold Earthquake.onExitClick. cbv zeta.
    destruct (Earthquake.currentPhase s =? 0)%nat; [earthquake_quiet |].
    destruct (Earthquake.currentPhase s =? 3)%nat; earthquake_quiet.
  - unfold Earthquake.onBuildingInteract. earthquake_quiet.
  - destruct p; cbn [Earthquake.onPersonInteract];
      [apply earthquake_onStudentClick_quiet | earthquake_quiet].
  - unfold Earthquake.onEmergencyKitInteract. cbv zeta. earthquake_quiet.
  - apply earthquake_runAction_quiet.
Qed.

(** [start] and [reset]: the first phase, and no pending timer gone. *)
Lemma earthquake_start_keeps (now : Q) (s : Earthquake.Session) :
  Earthquake.currentPhase (Earthquake.start now s) = 0%nat
  /\ Earthquake.accuracy (Earthquake.start now s) = Earthquake.accuracy s
  /\ Earthquake.mistakes (Earthquake.start now s) = Earthquake.mistakes s
  /\ Earthquake.score (Earthquake.start now s) = Earthquake.score s
  /\ Earthquake.timers s `prefix_of` Earthquake.timers (Earthquake.start now s).
Proof.
  unfold Earthquake.start, Earthquake.showWelcomeInstructions. cbv zeta.
  set (x := Earthquake.createClassroomScene _).
  assert (Hx : Earthquake.accuracy x = Earthquake.accuracy s
               /\ Earthquake.mistakes x = Earthquake.mistakes s
               /\ Earthquake.score x = Earthquake.score s
               /\ Earthquake.timers x = Earthquake.timers s) by (repeat split; reflexivity).
  clearbody x. destruct Hx as (Ha & Hm & Hs & Ht).
  destruct (earthquake_startPhase_keeps now 0 x) as (Hp' & Ha' & Hm' & Hs' & Ht').
  set (y := Earthquake.startPhase now 0 x) in *. clearbody y.
  earthquake_simpl. rewrite Hp', Ha', Hm', Hs', <- Ht. repeat split; assumption.
Qed.

Lemma earthquake_reset_keeps (now : Q) (s : Earthquake.Session) :
  Earthquake.currentPhase (Earthquake.reset now s) = 0%nat
  /\ Earthquake.accuracy (Earthquake.reset now s) = 100
  /\ Earthquake.mistakes (Earthquake.reset now s) = 0%nat
  /\ Earthquake.score (Earthquake.reset now s) = 0
  /\ Earthquake.timers s `prefix_of` Earthquake.timers (Earthquake.reset now s).
Proof.
  unfold Earthquake.reset. cbv zeta.
  match goal with |- context [Earthquake.startPhase now 0 ?x] =>
    set (x0 := x);
    assert (Hx : Earthquake.accuracy x0 = 100 /\ Earthquake.mistakes x0 = 0%nat
                 /\ Earthquake.score x0 = 0 /\ Earthquake.timers x0 = Earthquake.timers s)
      by (repeat split; reflexivity);
    clearbody x0
  end.
  destruct Hx as (Ha & Hm & Hs & Ht).
  destruct (earthquake_startPhase_keeps now 0 x0) as (Hp' & Ha' & Hm' & Hs' & Ht').
  rewrite Hp', Ha', Hm', Hs', <- Ht. repeat split; assumption.
Qed.

(** What an event of the earthquake session does to the phase index, the
    accuracy, the score and the pending timers. *)
Lemma earthquake_step_summary (now : Q) (e : Earthquake.Event) (s : Earthquake.Session) :
  let s' := Earthquake.step now e s in
  pendingBefore (earthquakeFired e) (Earthquake.timers s) `prefix_of` Earthquake.timers s'
  /\ (if earthquakeRestarts e then Earthquake.currentPhase s' = 0%nat
      else Earthquake.currentPhase s' = Earthquake.currentPhase s
           \/ (Earthquake.currentPhase s' = S (Earthquake.currentPhase s)
               /\ (S (Earthquake.currentPhase s) < 4)%nat))
  /\ (accuracyFollowsMistakes (Earthquake.accuracy s) (Earthquake.mistakes s) ->
      accuracyFollowsMistakes (Earthquake.accuracy s') (Earthquake.mistakes s'))
  /\ (earthquakeResets e = false -> Earthquake.score s <= Earthquake.score s').
Proof.
  cbv zeta.
  assert (Hquiet : forall s', earthquakeKeeps s s' ->
            Earthquake.timers s `prefix_of` Earthquake.timers s'
            /\ (Earthquake.currentPhase s' = Earthquake.currentPhase s
                \/ (Earthquake.currentPhase s' = S (Earthquake.currentPhase s)
                    /\ (S (Earthquake.currentPhase s) < 4)%nat))
            /\ (accuracyFollowsMistakes (Earthquake.accuracy s) (Earthquake.mistakes s) ->
                accuracyFollowsMistakes (Earthquake.accuracy s') (Earthquake.mistakes s'))
            /\ (false = false -> Earthquake.score s <= Earthquake.score s')).
  { intros s' (Hp & Ha & Hm & Hs & Ht). rewrite Ha, Hm. repeat split; auto. }
  pose proof (earthquake_step_quiet now e s) as Hstep.
  destruct e as [| | | sid did | sid did | | st | | | p | | a | k];
    cbn [earthquakeFired earthquakeRestarts earthquakeResets pendingBefore];
    try (apply Hquiet, Hstep); cbn [Earthquake.step]; clear Hstep.
  - destruct (earthquake_start_keeps now s) as (Hp & Ha & Hm & Hs & Ht).
    rewrite Ha, Hm. split; [exact Ht |]. split; [exact Hp |].
    split; [intros H; exact H | intros _; lia].
  - destruct (earthquake_reset_keeps now s) as (Hp & Ha & Hm & Hs & Ht).
    rewrite Ha, Hm. split; [exact Ht |]. split; [exact Hp |].
    split; [intros _; reflexivity | intros H; discriminate H].
  - unfold Earthquake.onIncorrectDrop. cbv zeta.
    match goal with |- context [if ?b then _ else _] => destruct b end;
      earthquake_simpl; (split; [try reflexivity; apply prefix_app_r; reflexivity |]);
      (split; [left; reflexivity |]);
      (split; [unfold accuracyFollowsMistakes, JS.max; intros ->; lia | intros _; lia]).
  - destruct (Earthquake.timers s !! k) as [t |] eqn:Hk.
    + set (s0 := Earthquake.set_timers (delete k (Earthquake.timers s)) s).
      destruct (callback t) as [N | st | st |] eqn:Hcb.
      * cbn [Earthquake.runCallback].
        change (Earthquake.currentPhase s0) with (Earthquake.currentPhase s).
        destruct (Nat.eqb_spec (Earthquake.currentPhase s) N) as [<- | Hne].
        -- destruct (earthquake_startPhase_keeps now (Earthquake.currentPhase s + 1) s0)
             as (Hp & Ha & Hm & Hs & Ht).
           split; [exact Ht |]. split.
           ++ rewrite Hp. change (Earthquake.currentPhase s0) with (Earthquake.currentPhase s).
              destruct (Nat.ltb_spec (Earthquake.currentPhase s + 1) 4); [right | left]; lia.
           ++ rewrite Ha, Hm, Hs. repeat split; auto. intros _. reflexivity.
        -- repeat split; auto; try reflexivity.
      * destruct (earthquake_runCallback_quiet now (Earthquake.staggeredEvacuation st) s0)
          as (Hp & Ha & Hm & Hs & Ht); [discriminate |].
        rewrite Ha, Hm. repeat split; auto.
      * destruct (earthquake_runCallback_quiet now (Earthquake.studentExited st) s0)
          as (Hp & Ha & Hm & Hs & Ht); [discriminate |].
        rewrite Ha, Hm. repeat split; auto.
      * destruct (earthquake_runCallback_quiet now Earthquake.completeEarly s0)
          as (Hp & Ha & Hm & Hs & Ht); [discriminate |].
        rewrite Ha, Hm. repeat split; auto.
    + rewrite (delete_absent _ _ Hk). repeat split; auto; try reflexivity.
Qed.

Lemma landslideKeeps_refl (s : Landslide.Session) : landslideKeeps s s.
Proof. unfold landslideKeeps. repeat split; (reflexivity || lia). Qed.

Lemma landslideKeeps_trans (s1 s2 s3 : Landslide.Session) :
  landslideKeeps s1 s2 -> landslideKeeps s2 s3 -> landslideKeeps s1 s3.
Proof.
  intros (Hp & Ha & Hm & Hs & Ht) (Hp' & Ha' & Hm' & Hs' & Ht').
  unfold landslideKeeps. rewrite Hp', Ha', Hm'. repeat split; try assumption; [lia |].
  etransitivity; eassumption.
Qed.

Ltac landslide_keeps :=
  unfold landslideKeeps, Landslide.feedback; landslide_simpl;
  repeat match goal with
         | |- context [if ?b then _ else _] => destruct b
         end;
  landslide_simpl;
  repeat split; try reflexivity; try lia;
  try (apply prefix_app_r; reflexivity).

Lemma landslide_completeSimulation_quiet (now : Q) (s : Landslide.Session) :
  landslideKeeps s (Landslide.completeSimulation now s).
Proof.
  unfold Landslide.completeSimulation, Landslide.showCompletionScreen. cbv zeta.
  unfold landslideKeeps. landslide_simpl. repeat split; try reflexivity; lia.
Qed.

Lemma landslide_startPhase_keeps (now : Q) (N : nat) (s : Landslide.Session) :
  Landslide.currentPhase (Landslide.startPhase now N s)
  = (if (N <? 4)%nat then N else Landslide.currentPhase s)
  /\ Landslide.accuracy (Landslide.startPhase now N s) = Landslide.accuracy s
  /\ Landslide.mistakes (Landslide.startPhase now N s) = Landslide.mistakes s
  /\ Landslide.score (Landslide.startPhase now N s) = Landslide.score s
  /\ Landslide.timers s `prefix_of` Landslide.timers (Landslide.startPhase now N s).
Proof.
  do 4 (destruct N as [| N];
        [repeat split; first [reflexivity | eexists; reflexivity] |]).
  rewrite landslide_startPhase_past_end by lia.
  destruct (landslide_completeSimulation_quiet now s) as (Hp & Ha & Hm & Hs & Ht).
  repeat split; assumption.
Qed.

Lemma landslide_start_keeps (now : Q) (s : Landslide.Session) :
  Landslide.currentPhase (Landslide.start now s) = 0%nat
  /\ Landslide.accuracy (Landslide.start now s) = Landslide.accuracy s
  /\ Landslide.mistakes (Landslide.start now s) = Landslide.mistakes s
  /\ Landslide.score (Landslide.start now s) = Landslide.score s
  /\ Landslide.timers s `prefix_of` Landslide.timers (Landslide.start now s).
Proof.
  unfold Landslide.start, Landslide.showWelcomeInstructions. cbv zeta.
  set (x := Landslide.createHillsideScene _).
  assert (Hx : Landslide.accuracy x = Landslide.accuracy s
               /\ Landslide.mistakes x = Landslide.mistakes s
               /\ Landslide.score x = Landslide.score s
               /\ Landslide.timers x = Landslide.timers s) by (repeat split; reflexivity).
  clearbody x. destruct Hx as (Ha & Hm & Hs & Ht).
  destruct (landslide_startPhase_keeps now 0 x) as (Hp' & Ha' & Hm' & Hs' & Ht').
  set (y := Landslide.startPhase now 0 x) in *. clearbody y.
  landslide_simpl. rewrite Hp', Ha', Hm', Hs', <- Ht. repeat split; assumption.
Qed.

(** [checkResidentSafety] leaves the accuracy and the mistakes as they
    were. *)
Lemma landslide_checkResidentSafety_keeps (s : Landslide.Session) :
  let s' := Landslide.state (Landslide.checkResidentSafety s) in
  Landslide.currentPhase s' = Landslide.currentPhase s
  /\ (Landslide.accuracy s' = Landslide.accuracy s /\ Landslide.mistakes s' = Landslide.mistakes s)
  /\ Landslide.score s <= Landslide.score s'
  /\ Landslide.timers s' = Landslide.timers s.
Proof.
  cbv zeta.
  destruct (landslide_checkResidentSafety_cases s) as [-> | ->]; cbn [Landslide.state];
    landslide_simpl; repeat split; lia.
Qed.

Lemma landslide_activateWarningSystem_quiet (host : Landslide.Support) (s : Landslide.Session) :
  landslideKeeps s (Landslide.activateWarningSystem' host s).
Proof. unfold Landslide.activateWarningSystem'. cbv zeta. landslide_keeps. Qed.

Lemma landslide_restart_keeps (host : Landslide.Support) (now : Q) (s : Landslide.Session) :
  Landslide.currentPhase (Landslide.restart host now s) = 0%nat
  /\ Landslide.accuracy (Landslide.restart host now s) = 100
  /\ Landslide.mistakes (Landslide.restart host now s) = 0%nat
  /\ Landslide.timers s `prefix_of` Landslide.timers (Landslide.restart host now s).
Proof.
  unfold Landslide.restart. cbv zeta. destruct (Landslide.clearScene host).
  - match goal with |- context [Landslide.start now ?x] =>
      set (x0 := x);
      assert (Hx : Landslide.accuracy x0 = 100 /\ Landslide.mistakes x0 = 0%nat
                   /\ Landslide.timers x0 = Landslide.timers s) by (repeat split; reflexivity);
      clearbody x0
    end.
    destruct Hx as (Ha & Hm & Ht).
    destruct (landslide_start_keeps now x0) as (Hp' & Ha' & Hm' & _ & Ht').
    rewrite Hp', Ha', Hm', <- Ht. repeat split; assumption.
  - repeat split; reflexivity.
Qed.

(** What an event of the landslide session does to the phase index, the
    accuracy, the score and the pending timers. *)
Lemma landslide_step_summary (host : Landslide.Support) (now : Q) (e : Landslide.Event)
    (s : Landslide.Session) :
  let s' := Landslide.step host now e s in
  pendingBefore (landslideFired e) (Landslide.timers s) `prefix_of` Landslide.timers s'
  /\ (if landslideRestarts e then Landslide.currentPhase s' = 0%nat
      else Landslide.currentPhase s' = Landslide.currentPhase s
           \/ (Landslide.currentPhase s' = S (Landslide.currentPhase s)
               /\ (S (Landslide.currentPhase s) < 4)%nat))
  /\ (if landslideResets e
      then Landslide.accuracy s' = 100 /\ Landslide.mistakes s' = 0%nat
      else Landslide.accuracy s' = Landslide.accuracy s
           /\ Landslide.mistakes s' = Landslide.mistakes s)
  /\ (landslideResets e = false -> Landslide.score s <= Landslide.score s').
Proof.
  cbv zeta.
  assert (Hquiet : forall s', landslideKeeps s s' ->
            Landslide.timers s `prefix_of` Landslide.timers s'
            /\ (Landslide.currentPhase s' = Landslide.currentPhase s
                \/ (Landslide.currentPhase s' = S (Landslide.currentPhase s)
                    /\ (S (Landslide.currentPhase s) < 4)%nat))
            /\ (Landslide.accuracy s' = Landslide.accuracy s
                /\ Landslide.mistakes s' = Landslide.mistakes s)
            /\ (false = false -> Landslide.score s <= Landslide.score s')).
  { intros s' (Hp & Ha & Hm & Hs & Ht). repeat split; auto. }
  destruct e as [| w | | r | item zone | a | k | r pos];
    cbn [Landslide.step landslideFired landslideRestarts landslideResets pendingBefore].
  - destruct (landslide_start_keeps now s) as (Hp & Ha & Hm & Hs & Ht).
    repeat split; auto. intros _. lia.
  - apply Hquiet. unfold Landslide.onWarningSignClick.
    destruct (Landslide.warningSignStore s !! w) as [o |]; [| apply landslideKeeps_refl].
    cbv zeta. landslide_keeps.
  - apply Hquiet, landslide_activateWarningSystem_quiet.
  - apply Hquiet. unfold Landslide.evacuateResident.
    destruct (Landslide.residentStore s !! r) as [o |]; [| apply landslideKeeps_refl].
    cbv zeta. destruct (negb _); [| apply landslideKeeps_refl].
    destruct (Landslide.findNearestSafeZone _ _); landslide_keeps.
  - apply Hquiet. unfold Landslide.onDragDropComplete. landslide_keeps.
  - destruct a; cbn [Landslide.runAction landslideRestarts landslideResets].
    + apply Hquiet. landslide_keeps.
    + apply Hquiet. unfold Landslide.showWarningInterface. landslide_keeps.
    + unfold Landslide.simulateLandslide.
      destruct (landslide_checkResidentSafety_keeps (Landslide.emit Host.hideInstructions s))
        as (Hp & (Ha & Hm) & Hs & Ht). cbv zeta in *.
      rewrite Ht. repeat split; auto; try reflexivity.
    + destruct (landslide_restart_keeps host now s) as (Hp & Ha & Hm & Ht).
      repeat split; auto. intros H; discriminate H.
    + apply Hquiet. landslide_keeps.
  - destruct (Landslide.timers s !! k) as [t |] eqn:Hk.
    + set (s0 := Landslide.set_timers (delete k (Landslide.timers s)) s).
      destruct (callback t) as [N |]; cbn [Landslide.runCallback].
      * change (Landslide.currentPhase s0) with (Landslide.currentPhase s).
        destruct (Nat.eqb_spec (Landslide.currentPhase s) N) as [<- | Hne].
        -- destruct (landslide_startPhase_keeps now (Landslide.currentPhase s + 1) s0)
             as (Hp & Ha & Hm & Hs & Ht).
           split; [exact Ht |]. split.
           ++ rewrite Hp. change (Landslide.currentPhase s0) with (Landslide.currentPhase s).
              destruct (Nat.ltb_spec (Landslide.currentPhase s + 1) 4); [right | left]; lia.
           ++ split; [split; assumption |]. intros _. rewrite Hs. reflexivity.
        -- repeat split; auto; try reflexivity.
      * destruct (landslide_activateWarningSystem_quiet host s0) as (Hp & Ha & Hm & Hs & Ht).
        repeat split; auto.
    + rewrite (delete_absent _ _ Hk). repeat split; auto; try reflexivity.
  - apply Hquiet. landslide_keeps.
Qed.

Lemma floodKeeps_refl (s : Flood.Session) : floodKeeps s s.
Proof. unfold floodKeeps. repeat split; reflexivity. Qed.

Lemma floodKeeps_trans (s1 s2 s3 : Flood.Session) :
  floodKeeps s1 s2 -> floodKeeps s2 s3 -> floodKeeps s1 s3.
Proof.
  intros (Hp & Hw & Ht & Ha & Hm) (Hp' & Hw' & Ht' & Ha' & Hm').
  unfold floodKeeps. rewrite Hp', Hw', Ha', Hm'. repeat split; try assumption.
  etransitivity; eassumption.
Qed.

Lemma floodKeeps_tally (s s' : Flood.Session) : floodKeeps s s' -> floodTally s s'.
Proof. intros (_ & _ & _ & Ha & Hm). split; assumption. Qed.

Lemma floodTally_trans (s1 s2 s3 : Flood.Session) :
  floodTally s1 s2 -> floodTally s2 s3 -> floodTally s1 s3.
Proof. intros [Ha Hm] [Ha' Hm']. unfold floodTally. rewrite Ha', Hm'. split; assumption. Qed.

Ltac flood_keeps :=
  unfold floodKeeps; flood_simpl;
  repeat split; try reflexivity;
  try (apply prefix_app_r; reflexivity).

Lemma flood_loop_keeps {A} (f : Flood.Session -> A -> Flood.Session) (l : list A)
    (s : Flood.Session) :
  (forall acc x, floodKeeps acc (f acc x)) -> floodKeeps s (foldl f s l).
Proof.
  intros Hf. apply (foldl_invariant (fun acc => floodKeeps s acc)).
  - apply floodKeeps_refl.
  - intros acc x H. eapply floodKeeps_trans; [exact H | apply Hf].
Qed.

Lemma flood_distributeSuppliesToShelters_keeps (now : Q) (s : Flood.Session) :
  floodKeeps s (Flood.distributeSuppliesToShelters now s).
Proof.
  unfold Flood.distributeSuppliesToShelters. apply flood_loop_keeps.
  intros acc [index supply].
  destruct (Flood.supplyStore acc !! supply) as [o |]; [| apply floodKeeps_refl].
  destruct (negb (Flood.Supply.collected o)); [flood_keeps | apply floodKeeps_refl].
Qed.

Lemma flood_identifyFloodRisks_keeps (s : Flood.Session) :
  floodKeeps s (Flood.identifyFloodRisks s).
Proof.
  unfold Flood.identifyFloodRisks. apply flood_loop_keeps. intros acc h.
  destruct (Flood.houseStore acc !! h) as [house |]; [| apply floodKeeps_refl].
  destruct (JS.lt _ _); [flood_keeps | apply floodKeeps_refl].
Qed.

Lemma flood_initiateEvacuation_keeps (now : Q) (s : Flood.Session) :
  floodKeeps s (Flood.initiateEvacuation now s).
Proof.
  unfold Flood.initiateEvacuation. apply flood_loop_keeps. intros acc [index resident].
  destruct (Flood.residentStore acc !! resident) as [o |]; [| apply floodKeeps_refl].
  destruct (Flood.houseStore acc !! _) as [house |]; [| apply floodKeeps_refl].
  destruct (String.eqb _ _); [flood_keeps | apply floodKeeps_refl].
Qed.

Lemma flood_identifyStrandedResidents_keeps (s : Flood.Session) :
  floodKeeps s (Flood.identifyStrandedResidents s).
Proof.
  unfold Flood.identifyStrandedResidents. apply flood_loop_keeps. intros acc resident.
  destruct (Flood.residentStore acc !! resident) as [o |]; [| apply floodKeeps_refl].
  destruct (negb _ && _); [flood_keeps | apply floodKeeps_refl].
Qed.

Lemma flood_evacuateResident_keeps (now : Q) (resident : nat) (s : Flood.Session) :
  floodKeeps s (Flood.evacuateResident now resident s).
Proof.
  unfold Flood.evacuateResident.
  destruct (Flood.residentStore s !! resident) as [o |]; [| apply floodKeeps_refl].
  destruct (Flood.findNearestEvacuationCenter _ _) as [c |]; [| apply floodKeeps_refl].
  destruct (Flood.centerStore s !! c) as [o' |]; [| apply floodKeeps_refl].
  destruct (_ <? _)%nat; [flood_keeps | apply floodKeeps_refl].
Qed.

Lemma flood_onResidentClick_keeps (now : Q) (resident : nat) (s : Flood.Session) :
  floodKeeps s (Flood.onResidentClick now resident s).
Proof.
  unfold Flood.onResidentClick.
  destruct (Flood.residentStore s !! resident) as [o |]; [| apply floodKeeps_refl].
  destruct (_ && _); [flood_keeps |].
  destruct (Flood.Resident.inShelter o); [flood_keeps | apply flood_evacuateResident_keeps].
Qed.

Lemma flood_onSupplyClick_keeps (supply : nat) (s : Flood.Session) :
  floodKeeps s (Flood.onSupplyClick supply s).
Proof.
  unfold Flood.onSupplyClick.
  destruct (Flood.supplyStore s !! supply) as [o |]; [| apply floodKeeps_refl].
  destruct (negb _); [| apply floodKeeps_refl]. cbv zeta.
  destruct (Flood.findNearestEvacuationCenter _ _); flood_keeps.
Qed.

Lemma flood_startRescuePhase_keeps (s : Flood.Session) :
  floodKeeps s (Flood.startRescuePhase s).
Proof.
  unfold Flood.startRescuePhase. cbv zeta.
  eapply floodKeeps_trans; [| apply flood_identifyStrandedResidents_keeps].
  unfold Flood.enableBoatRescue, Flood.showBoatInterface. cbv zeta.
  match goal with |- context [if ?b then _ else _] => destruct b end; flood_keeps.
Qed.

(** A frame of the rising water and a frame of the receding water. *)
Lemma flood_raiseWaterFrame_keeps (now : Q) (s : Flood.Session) :
  let s' := Flood.state (Flood.raiseWaterFrame now s) in
  Flood.currentPhase s' = Flood.currentPhase s
  /\ waterMoves (Flood.waterLevel s) (Flood.waterLevel s')
  /\ Flood.timers s `prefix_of` Flood.timers s'.
Proof.
  cbv zeta.
  destruct (flood_raiseWaterFrame_cases now s) as [-> | [Hlt [-> | ->]]]; cbn [Flood.state];
    flood_simpl.
  - split; [reflexivity |]. split; [left; reflexivity | reflexivity].
  - split; [reflexivity |]. split; [right; left; split; [exact Hlt | reflexivity] | reflexivity].
  - split; [reflexivity |]. split; [right; left; split; [exact Hlt | reflexivity] |].
    apply prefix_app_r. reflexivity.
Qed.

Lemma flood_raiseWaterFrame_tally (now : Q) (s : Flood.Session) :
  floodTally s (Flood.state (Flood.raiseWaterFrame now s)).
Proof.
  destruct (flood_raiseWaterFrame_cases now s) as [-> | [_ [-> | ->]]]; cbn [Flood.state];
    split; reflexivity.
Qed.

Lemma flood_recedeWaterFrame_keeps (now : Q) (s : Flood.Session) :
  Flood.currentPhase (Flood.recedeWaterFrame now s) = Flood.currentPhase s
  /\ waterMoves (Flood.waterLevel s) (Flood.waterLevel (Flood.recedeWaterFrame now s))
  /\ Flood.timers s `prefix_of` Flood.timers (Flood.recedeWaterFrame now s).
Proof.
  unfold Flood.recedeWaterFrame.
  destruct (JS.gt (Flood.waterLevel s) (-5 # 1)) eqn:Hgt; flood_simpl.
  - split; [reflexivity |]. split; [right; right; left; split; [exact Hgt | reflexivity] |].
    apply prefix_app_r. reflexivity.
  - split; [reflexivity |]. split; [left; reflexivity | reflexivity].
Qed.

Lemma flood_startFloodPhase_keeps (now : Q) (s : Flood.Session) :
  Flood.currentPhase (Flood.startFloodPhase now s) = Flood.currentPhase s
  /\ waterMoves (Flood.waterLevel s) (Flood.waterLevel (Flood.startFloodPhase now s))
  /\ Flood.timers s `prefix_of` Flood.timers (Flood.startFloodPhase now s).
Proof.
  unfold Flood.startFloodPhase, Flood.startFloodAnimation. cbv zeta.
  set (s1 := Flood.set_isFlooding true _).
  assert (H1 : Flood.currentPhase s1 = Flood.currentPhase s
               /\ Flood.waterLevel s1 = Flood.waterLevel s
               /\ Flood.timers s1 = Flood.timers s) by (repeat split; reflexivity).
  clearbody s1. destruct H1 as (Hp1 & Hw1 & Ht1).
  destruct (flood_raiseWaterFrame_keeps now s1) as (Hp2 & Hw2 & Ht2). cbv zeta in *.
  destruct (Flood.raiseWaterFrame now s1) as [s2 | s2]; cbn [Flood.state] in *.
  - destruct (flood_identifyFloodRisks_keeps s2) as (Hp3 & Hw3 & Ht3 & _).
    set (s3 := Flood.identifyFloodRisks s2) in *. clearbody s3.
    destruct (flood_initiateEvacuation_keeps now s3) as (Hp4 & Hw4 & Ht4 & _).
    rewrite Hp4, Hw4, Hp3, Hw3, Hp2, Hp1, <- Hw1, <- Ht1.
    split; [reflexivity |]. split; [exact Hw2 |].
    etransitivity; [exact Ht2 |]. etransitivity; [exact Ht3 | exact Ht4].
  - rewrite Hp2, Hp1, <- Hw1, <- Ht1. split; [reflexivity |]. split; [exact Hw2 | exact Ht2].
Qed.

Lemma flood_startFloodPhase_tally (now : Q) (s : Flood.Session) :
  floodTally s (Flood.startFloodPhase now s).
Proof.
  unfold Flood.startFloodPhase, Flood.startFloodAnimation. cbv zeta.
  set (s1 := Flood.set_isFlooding true _).
  assert (H1 : floodTally s s1) by (split; reflexivity).
  clearbody s1.
  pose proof (flood_raiseWaterFrame_tally now s1) as H2.
  destruct (Flood.raiseWaterFrame now s1) as [s2 | s2]; cbn [Flood.state] in H2.
  - eapply floodTally_trans; [exact H1 |]. eapply floodTally_trans; [exact H2 |].
    eapply floodTally_trans; [apply floodKeeps_tally, flood_identifyFloodRisks_keeps |].
    apply floodKeeps_tally, flood_initiateEvacuation_keeps.
  - eapply floodTally_trans; [exact H1 | exact H2].
Qed.

Lemma flood_startRecoveryPhase_keeps (now : Q) (s : Flood.Session) :
  Flood.currentPhase (Flood.startRecoveryPhase now s) = Flood.currentPhase s
  /\ waterMoves (Flood.waterLevel s) (Flood.waterLevel (Flood.startRecoveryPhase now s))
  /\ Flood.timers s `prefix_of` Flood.timers (Flood.startRecoveryPhase now s).
Proof.
  unfold Flood.startRecoveryPhase, Flood.setupShelterOperations, Flood.startWaterReceding.
  cbv zeta.
  pose proof (flood_distributeSuppliesToShelters_keeps now
                (Flood.emit (Host.showInstructions "Phase 4: Recovery and Shelter" [Flood.dismiss]) s))
    as (Hp1 & Hw1 & Ht1 & _).
  set (s1 := Flood.distributeSuppliesToShelters _ _) in *. clearbody s1.
  set (s2 := Flood.set_score _ _).
  assert (H2 : Flood.currentPhase s2 = Flood.currentPhase s1
               /\ Flood.waterLevel s2 = Flood.waterLevel s1
               /\ Flood.timers s2 = Flood.timers s1) by (repeat split; reflexivity).
  clearbody s2. destruct H2 as (Hp2 & Hw2 & Ht2).
  destruct (flood_recedeWaterFrame_keeps now s2) as (Hp3 & Hw3 & Ht3).
  flood_simpl. rewrite Hp3, Hp2, Hp1. rewrite Hw2, Hw1 in Hw3. rewrite Ht2 in Ht3.
  split; [reflexivity |]. split; [exact Hw3 |]. etransitivity; eassumption.
Qed.

Lemma flood_recedeWaterFrame_tally (now : Q) (s : Flood.Session) :
  floodTally s (Flood.recedeWaterFrame now s).
Proof. unfold Flood.recedeWaterFrame. destruct (JS.gt _ _); split; reflexivity. Qed.

Lemma flood_startRecoveryPhase_tally (now : Q) (s : Flood.Session) :
  floodTally s (Flood.startRecoveryPhase now s).
Proof.
  unfold Flood.startRecoveryPhase, Flood.setupShelterOperations, Flood.startWaterReceding.
  cbv zeta.
  pose proof (floodKeeps_tally _ _
                (flood_distributeSuppliesToShelters_keeps now
                   (Flood.emit (Host.showInstructions "Phase 4: Recovery and Shelter"
                                  [Flood.dismiss]) s))) as H1.
  set (s1 := Flood.distributeSuppliesToShelters _ _) in *. clearbody s1.
  set (s2 := Flood.set_score _ _).
  assert (H2 : floodTally s1 s2) by (split; reflexivity).
  clearbody s2.
  eapply floodTally_trans; [| apply flood_recedeWaterFrame_tally].
  eapply floodTally_trans; [| exact H2]. exact H1.
Qed.

Lemma flood_completeSimulation_keeps (now : Q) (s : Flood.Session) :
  floodKeeps s (Flood.completeSimulation now s).
Proof. unfold Flood.completeSimulation. cbv zeta. flood_keeps. Qed.

Lemma flood_startPhase_keeps (now : Q) (N : nat) (s : Flood.Session) :
  Flood.currentPhase (Flood.startPhase now N s)
  = (if (N <? 4)%nat then N else Flood.currentPhase s)
  /\ waterMoves (Flood.waterLevel s) (Flood.waterLevel (Flood.startPhase now N s))
  /\ Flood.timers s `prefix_of` Flood.timers (Flood.startPhase now N s).
Proof.
  do 3 (destruct N as [| N];
        [split; [reflexivity |]; split; [left; reflexivity | eexists; reflexivity] |]).
  destruct N as [| N].
  - unfold Flood.startPhase.
    cbn [length Flood.phases Nat.leb lookup list_lookup name duration String.eqb Ascii.eqb
         Bool.eqb].
    set (s1 := Flood.emit _ (Flood.set_currentPhase 3 s)).
    assert (H1 : Flood.currentPhase s1 = 3%nat /\ Flood.waterLevel s1 = Flood.waterLevel s
                 /\ Flood.timers s1 = Flood.timers s) by (repeat split; reflexivity).
    clearbody s1. destruct H1 as (Hp1 & Hw1 & Ht1).
    destruct (flood_startRecoveryPhase_keeps now s1) as (Hp2 & Hw2 & Ht2).
    set (s2 := Flood.startRecoveryPhase now s1) in *. clearbody s2.
    flood_simpl. rewrite Hp2, Hp1. rewrite Hw1 in Hw2. rewrite Ht1 in Ht2.
    split; [reflexivity |]. split; [exact Hw2 |]. apply prefix_app_r. exact Ht2.
  - rewrite flood_startPhase_past_end by lia.
    destruct (flood_completeSimulation_keeps now s) as (Hp & Hw & Ht & _).
    split; [exact Hp |]. split; [left; exact Hw | exact Ht].
Qed.

Lemma flood_startPhase_tally (now : Q) (N : nat) (s : Flood.Session) :
  floodTally s (Flood.startPhase now N s).
Proof.
  do 3 (destruct N as [| N]; [split; reflexivity |]).
  destruct N as [| N].
  - unfold Flood.startPhase.
    cbn [length Flood.phases Nat.leb lookup list_lookup name duration String.eqb Ascii.eqb
         Bool.eqb].
    set (s1 := Flood.emit _ (Flood.set_currentPhase 3 s)).
    assert (H1 : floodTally s s1) by (split; reflexivity).
    clearbody s1.
    pose proof (flood_startRecoveryPhase_tally now s1) as H2.
    set (s2 := Flood.startRecoveryPhase now s1) in *. clearbody s2.
    eapply floodTally_trans; [exact H1 |]. eapply floodTally_trans; [exact H2 |].
    split; reflexivity.
  - rewrite flood_startPhase_past_end by lia.
    apply floodKeeps_tally, flood_completeSimulation_keeps.
Qed.

Lemma flood_start_tally (now : Q) (random : nat -> Q) (s : Flood.Session) :
  floodTally s (Flood.start now random s).
Proof.
  unfold Flood.start, Flood.showWelcomeInstructions. cbv zeta.
  set (x := Flood.createCommunityScene _ _).
  assert (H1 : floodTally s x) by (split; reflexivity).
  clearbody x.
  pose proof (flood_startPhase_tally now 0 x) as H2.
  set (y := Flood.startPhase now 0 x) in *. clearbody y.
  eapply floodTally_trans; [exact H1 |]. eapply floodTally_trans; [exact H2 |].
  split; reflexivity.
Qed.

(** [reset] puts the accuracy back to 100 and the mistakes to 0. *)
Lemma flood_reset_tally (now : Q) (s : Flood.Session) :
  Flood.accuracy (Flood.reset now s) = 100 /\ Flood.mistakes (Flood.reset now s) = 0%nat.
Proof.
  unfold Flood.reset. cbv zeta.
  match goal with |- context [Flood.startPhase now 0 ?x] =>
    set (x0 := x);
    assert (Hx : Flood.accuracy x0 = 100 /\ Flood.mistakes x0 = 0%nat)
      by (split; reflexivity);
    clearbody x0
  end.
  destruct (flood_startPhase_tally now 0 x0) as [Ha Hm].
  rewrite Ha, Hm. exact Hx.
Qed.

Lemma flood_createCommunityScene_keeps (random : nat -> Q) (s : Flood.Session) :
  Flood.currentPhase (Flood.createCommunityScene random s) = Flood.currentPhase s
  /\ Flood.waterLevel (Flood.createCommunityScene random s) = Flood.waterLevel s
  /\ Flood.timers (Flood.createCommunityScene random s) = Flood.timers s.
Proof. repeat split; reflexivity. Qed.

Lemma flood_start_keeps (now : Q) (random : nat -> Q) (s : Flood.Session) :
  Flood.currentPhase (Flood.start now random s) = 0%nat
  /\ waterMoves (Flood.waterLevel s) (Flood.waterLevel (Flood.start now random s))
  /\ Flood.timers s `prefix_of` Flood.timers (Flood.start now random s).
Proof.
  unfold Flood.start, Flood.showWelcomeInstructions. cbv zeta.
  destruct (flood_createCommunityScene_keeps random (Flood.set_startTime now s))
    as (Hp1 & Hw1 & Ht1).
  set (x := Flood.createCommunityScene _ _) in *. clearbody x.
  destruct (flood_startPhase_keeps now 0 x) as (Hp2 & Hw2 & Ht2).
  set (y := Flood.startPhase now 0 x) in *. clearbody y.
  flood_simpl. rewrite Hp2. rewrite Hw1 in Hw2. rewrite Ht1 in Ht2. flood_simpl.
  repeat split; assumption.
Qed.

Lemma flood_startPhase_first (now : Q) (s : Flood.Session) :
  Flood.currentPhase (Flood.startPhase now 0 s) = 0%nat
  /\ Flood.waterLevel (Flood.startPhase now 0 s) = Flood.waterLevel s
  /\ Flood.timers s `prefix_of` Flood.timers (Flood.startPhase now 0 s).
Proof. split; [reflexivity |]. split; [reflexivity | eexists; reflexivity]. Qed.

Lemma flood_reset_keeps (now : Q) (s : Flood.Session) :
  Flood.currentPhase (Flood.reset now s) = 0%nat
  /\ waterMoves (Flood.waterLevel s) (Flood.waterLevel (Flood.reset now s))
  /\ Flood.timers s `prefix_of` Flood.timers (Flood.reset now s).
Proof.
  unfold Flood.reset. cbv zeta.
  match goal with |- context [Flood.startPhase now 0 ?x] =>
    set (x0 := x);
    assert (Hx : Flood.waterLevel x0 = (-5 # 1)%Q /\ Flood.timers x0 = Flood.timers s)
      by (split; reflexivity);
    clearbody x0
  end.
  destruct Hx as (Hw & Ht).
  destruct (flood_startPhase_first now x0) as (Hp' & Hw' & Ht').
  set (y := Flood.startPhase now 0 x0) in *. clearbody y.
  rewrite Hp', Hw', Hw, <- Ht.
  split; [reflexivity |]. split; [| exact Ht'].
  right. right. right. reflexivity.
Qed.

(** The closures other than the phase advance and the two water frames. *)
Lemma flood_runCallback_keeps (now : Q) (cb : Flood.Callback) (s : Flood.Session) :
  match cb with
  | Flood.autoAdvance _ | Flood.raiseWater | Flood.recedeWater => True
  | _ => floodKeeps s (Flood.runCallback now cb s)
  end.
Proof.
  destruct cb as [N | | | r | r c | r b | r b | k i | k c]; try exact I;
    cbn [Flood.runCallback].
  - apply flood_evacuateResident_keeps.
  - cbv zeta. match goal with |- context [if ?b then _ else _] => destruct b end; flood_keeps.
  - destruct (Flood.boatStore s !! b) as [o |]; [| apply floodKeeps_refl].
    destruct (Flood.findNearestEvacuationCenter _ _); [flood_keeps | apply floodKeeps_refl].
  - cbv zeta. match goal with |- context [if ?b then _ else _] => destruct b end; flood_keeps.
  - destruct (Flood.evacuationCenters s) as [| c0 cs] eqn:Hc; [apply floodKeeps_refl |].
    destruct (_ !! _); [flood_keeps | apply floodKeeps_refl].
  - cbv zeta. match goal with |- context [if ?b then _ else _] => destruct b end; flood_keeps.
Qed.

(** The events that are neither a start, a reset, a press of "Start
    Evacuation" nor a timer. *)
Lemma flood_step_keeps (now : Q) (e : Flood.Event) (s : Flood.Session) :
  match e with
  | Flood.Start _ | Flood.Reset | Flood.Press Flood.startEvacuation | Flood.Fire _ => True
  | _ => floodKeeps s (Flood.step now e s)
  end.
Proof.
  destruct e as [random | | | rid bid | r | k | c | b | h | p | kit | a | k | m]; try exact I;
    cbn [Flood.step].
  - unfold Flood.cleanup. cbv zeta. flood_keeps.
  - unfold Flood.onBoatRescue, Flood.performRescue. cbv zeta.
    destruct (JS.index (Flood.residents s) _); [| apply floodKeeps_refl].
    destruct (JS.index (Flood.boats s) _) as [b |]; [| apply floodKeeps_refl].
    destruct (Flood.boatStore s !! b) as [o |]; [| apply floodKeeps_refl].
    destruct (_ <? _)%nat; [flood_keeps | apply floodKeeps_refl].
  - apply flood_onResidentClick_keeps.
  - apply flood_onSupplyClick_keeps.
  - unfold Flood.onEvacuationCenterClick. flood_keeps.
  - unfold Flood.onBoatClick. destruct (Flood.boatStore s !! b) as [o |]; [| apply floodKeeps_refl].
    destruct (Flood.Boat.available o); [flood_keeps | apply floodKeeps_refl].
  - unfold Flood.onBuildingInteract.
    destruct (Flood.houseStore s !! h) as [o |]; [| apply floodKeeps_refl].
    destruct (String.eqb _ _); flood_keeps.
  - apply flood_onResidentClick_keeps.
  - apply flood_onSupplyClick_keeps.
  - destruct a; try exact I; cbn [Flood.runAction].
    + flood_keeps.
    + apply flood_startRescuePhase_keeps.
    + flood_keeps.
  - destruct m; cbn [Flood.animate]; flood_keeps.
Qed.

(** What an event of the flood session does to the phase index, the water
    level and the pending timers. *)
Lemma flood_step_summary (now : Q) (e : Flood.Event) (s : Flood.Session) :
  let s' := Flood.step now e s in
  pendingBefore (floodFired e) (Flood.timers s) `prefix_of` Flood.timers s'
  /\ (if floodRestarts e then Flood.currentPhase s' = 0%nat
      else Flood.currentPhase s' = Flood.currentPhase s
           \/ (Flood.currentPhase s' = S (Flood.currentPhase s)
               /\ (S (Flood.currentPhase s) < 4)%nat))
  /\ waterMoves (Flood.waterLevel s) (Flood.waterLevel s').
Proof.
  cbv zeta.
  assert (Hquiet : forall s', floodKeeps s s' ->
            Flood.timers s `prefix_of` Flood.timers s'
            /\ (Flood.currentPhase s' = Flood.currentPhase s
                \/ (Flood.currentPhase s' = S (Flood.currentPhase s)
                    /\ (S (Flood.currentPhase s) < 4)%nat))
            /\ waterMoves (Flood.waterLevel s) (Flood.waterLevel s')).
  { intros s' (Hp & Hw & Ht & _). repeat split; auto. left. exact Hw. }
  pose proof (flood_step_keeps now e s) as Hstep.
  destruct e as [random | | | rid bid | r | k | c | b | h | p | kit | a | k | m];
    cbn [floodFired floodRestarts pendingBefore];
    try (apply Hquiet, Hstep).
  - cbn [Flood.step]. destruct (flood_start_keeps now random s) as (Hp & Hw & Ht). auto.
  - cbn [Flood.step]. destruct (flood_reset_keeps now s) as (Hp & Hw & Ht). auto.
  - destruct a; try (apply Hquiet, Hstep). cbn [Flood.step Flood.runAction].
    destruct (flood_startFloodPhase_keeps now s) as (Hp & Hw & Ht). auto.
  - cbn [Flood.step]. clear Hstep.
    destruct (Flood.timers s !! k) as [t |] eqn:Hk.
    + set (s0 := Flood.set_timers (delete k (Flood.timers s)) s).
      pose proof (flood_runCallback_keeps now (callback t) s0) as Hcb.
      destruct (callback t) as [N | | | r | r c | r b | r b | i j | i c];
        try (destruct Hcb as (Hp & Hw & Ht & _); split; [exact Ht |];
             split; [left; exact Hp | left; exact Hw]).
      * cbn [Flood.runCallback].
        change (Flood.currentPhase s0) with (Flood.currentPhase s).
        destruct (Nat.eqb_spec (Flood.currentPhase s) N) as [<- | Hne].
        -- destruct (flood_startPhase_keeps now (Flood.currentPhase s + 1) s0)
             as (Hp & Hw & Ht).
           split; [exact Ht |]. split; [| exact Hw].
           rewrite Hp. change (Flood.currentPhase s0) with (Flood.currentPhase s).
           destruct (Nat.ltb_spec (Flood.currentPhase s + 1) 4); [right | left]; lia.
        -- split; [reflexivity |]. split; left; reflexivity.
      * cbn [Flood.runCallback].
        destruct (flood_raiseWaterFrame_keeps now s0) as (Hp & Hw & Ht). auto.
      * cbn [Flood.runCallback].
        destruct (flood_recedeWaterFrame_keeps now s0) as (Hp & Hw & Ht). auto.
    + rewrite (delete_absent _ _ Hk). split; [reflexivity |]. split; left; reflexivity.
Qed.

(** ** The accuracy along a session *)

(** What an event of the earthquake session does to the accuracy and the
    mistake count. *)
Lemma earthquake_step_tally (now : Q) (e : Earthquake.Event) (s : Earthquake.Session) :
  let s' := Earthquake.step now e s in
  if earthquakeResets e
  then Earthquake.accuracy s' = 100 /\ Earthquake.mistakes s' = 0%nat
  else tallyMoves (Earthquake.accuracy s) (Earthquake.mistakes s)
         (Earthquake.accuracy s') (Earthquake.mistakes s').
Proof.
  cbv zeta.
  assert (Hquiet : forall s0 s', Earthquake.accuracy s0 = Earthquake.accuracy s ->
            Earthquake.mistakes s0 = Earthquake.mistakes s ->
            earthquakeKeeps s0 s' ->
            tallyMoves (Earthquake.accuracy s) (Earthquake.mistakes s)
              (Earthquake.accuracy s') (Earthquake.mistakes s')).
  { intros s0 s' Ha0 Hm0 (_ & Ha & Hm & _). left. rewrite Ha, Hm. split; assumption. }
  pose proof (earthquake_step_quiet now e s) as Hstep.
  destruct e as [| | | sid did | sid did | | st | | | p | | a | k];
    cbn [earthquakeResets];
    try (apply (Hquiet s _ eq_refl eq_refl), Hstep); cbn [Earthquake.step]; clear Hstep.
  - destruct (earthquake_start_keeps now s) as (_ & Ha & Hm & _). left. split; assumption.
  - destruct (earthquake_reset_keeps now s) as (_ & Ha & Hm & _). split; assumption.
  - right. unfold Earthquake.onIncorrectDrop. cbv zeta.
    match goal with |- context [if ?b then _ else _] => destruct b end;
      earthquake_simpl; unfold JS.max; split; lia.
  - destruct (Earthquake.timers s !! k) as [t |] eqn:Hk.
    + set (s0 := Earthquake.set_timers (delete k (Earthquake.timers s)) s).
      destruct (callback t) as [N | st | st |] eqn:Hcb.
      * cbn [Earthquake.runCallback].
        destruct (_ =? _)%nat; [| left; split; reflexivity].
        destruct (earthquake_startPhase_keeps now (N + 1) s0) as (_ & Ha & Hm & _).
        left. split; [exact Ha | exact Hm].
      * apply (Hquiet s0 _ eq_refl eq_refl), earthquake_runCallback_quiet. discriminate.
      * apply (Hquiet s0 _ eq_refl eq_refl), earthquake_runCallback_quiet. discriminate.
      * apply (Hquiet s0 _ eq_refl eq_refl), earthquake_runCallback_quiet. discriminate.
    + left. split; reflexivity.
Qed.

(** What an event of the flood session does to them. *)
Lemma flood_step_tally (now : Q) (e : Flood.Event) (s : Flood.Session) :
  let s' := Flood.step now e s in
  if floodResets e
  then Flood.accuracy s' = 100 /\ Flood.mistakes s' = 0%nat
  else floodTally s s'.
Proof.
  cbv zeta.
  pose proof (flood_step_keeps now e s) as Hstep.
  destruct e as [random | | | rid bid | r | k | c | b | h | p | kit | a | k | m];
    cbn [floodResets]; try (apply floodKeeps_tally, Hstep).
  - cbn [Flood.step]. apply flood_start_tally.
  - cbn [Flood.step]. apply flood_reset_tally.
  - destruct a; try (apply floodKeeps_tally, Hstep). cbn [Flood.step Flood.runAction].
    apply flood_startFloodPhase_tally.
  - cbn [Flood.step]. clear Hstep.
    destruct (Flood.timers s !! k) as [t |] eqn:Hk; [| split; reflexivity].
    set (s0 := Flood.set_timers (delete k (Flood.timers s)) s).
    assert (H0 : floodTally s s0) by (split; reflexivity).
    clearbody s0. eapply floodTally_trans; [exact H0 |].
    pose proof (flood_runCallback_keeps now (callback t) s0) as Hcb.
    destruct (callback t) as [N | | | r | r c | r b | r b | i j | i c];
      try (apply floodKeeps_tally, Hcb); cbn [Flood.runCallback].
    + destruct (_ =? _)%nat; [apply flood_startPhase_tally | split; reflexivity].
    + apply flood_raiseWaterFrame_tally.
    + apply flood_recedeWaterFrame_tally.
Qed.

(** The danger check of the flood session leaves the session as it was,
    whether it returns or raises. *)
Lemma flood_checkResidentsInDanger_tally (s : Flood.Session) :
  floodTally s (Flood.state (Flood.checkResidentsInDanger s)).
Proof. rewrite flood_checkResidentsInDanger_state. split; reflexivity. Qed.

(** In the run in which no resident can swim, the water reaches the first
    resident a little over two seconds after the press of "Start
    Evacuation". The danger check raises in that frame: no further frame is
    requested, the water stays where it is, far below its maximum, and
    accuracy, mistakes and score are what they were. *)
Lemma flood_danger_check_stops_the_water :
  let s := floodedRun 200 in
  Flood.accuracy s = 100
  /\ Flood.mistakes s = 0%nat
  /\ Flood.score s = 0
  /\ Flood.isFlooding s = true
  /\ floodDue (frameTime 201) Flood.raiseWater s = None
  /\ (Flood.waterLevel s < -2)%Q
  /\ Flood.waterLevel (floodedRun 300) = Flood.waterLevel s.
Proof. vm_compute. repeat split. Qed.

(** The same in the landslide session: the player takes cover with nobody
    evacuated. The safety check raises at the first resident: no mistake is
    counted, the accuracy is still 100 and the objective [avoidDangerZone]
    is not set. *)
Lemma landslide_safety_check_raises :
  let s := landslideRun Landslide.repository
             [ (0%Q, Landslide.Start); (200000%Q, Landslide.Press Landslide.takeCover) ]
             Landslide.new in
  Landslide.checkResidentSafety s = Landslide.raised s
  /\ Landslide.accuracy s = 100
  /\ Landslide.mistakes s = 0%nat
  /\ Landslide.avoidDangerZone (Landslide.objectives s) = false.
Proof. vm_compute. repeat split. Qed.

(** C2. In the three sessions the accuracy stays within 0 and 100 along
    every run, and each counted mistake takes exactly 10 points off it,
    down to 0. Event by event: a reset puts the accuracy back to 100 and the
    mistakes to 0; any other event of the earthquake session leaves both as
    they were or counts one mistake and takes 10 points off, not below 0;
    any other event of the flood and landslide sessions leaves both as they
    were. Handler by handler: [onIncorrectDrop] counts one mistake and takes
    10 points off, not below 0; the per-frame danger check of the flood
    session and the safety check of the landslide session raise at the
    first resident in danger, before the lines that change the accuracy, and
    leave it as it was. *)
Theorem accuracy_stays_in_range (host : Landslide.Support) :
  (forall events : list (Q * Earthquake.Event),
      0 <= Earthquake.accuracy (earthquakeRun events Earthquake.new) <= 100)
  /\ (forall events : list (Q * Flood.Event),
        0 <= Flood.accuracy (floodSteps events Flood.new) <= 100)
  /\ (forall events : list (Q * Landslide.Event),
        0 <= Landslide.accuracy (landslideRun host events Landslide.new) <= 100)
  /\ (forall (now : Q) (e : Earthquake.Event) (s : Earthquake.Session),
        let s' := Earthquake.step now e s in
        if earthquakeResets e
        then Earthquake.accuracy s' = 100 /\ Earthquake.mistakes s' = 0%nat
        else tallyMoves (Earthquake.accuracy s) (Earthquake.mistakes s)
               (Earthquake.accuracy s') (Earthquake.mistakes s'))
  /\ (forall (now : Q) (e : Flood.Event) (s : Flood.Session),
        let s' := Flood.step now e s in
        if floodResets e
        then Flood.accuracy s' = 100 /\ Flood.mistakes s' = 0%nat
        else Flood.accuracy s' = Flood.accuracy s /\ Flood.mistakes s' = Flood.mistakes s)
  /\ (forall (now : Q) (e : Landslide.Event) (s : Landslide.Session),
        let s' := Landslide.step host now e s in
        if landslideResets e
        then Landslide.accuracy s' = 100 /\ Landslide.mistakes s' = 0%nat
        else Landslide.accuracy s' = Landslide.accuracy s
             /\ Landslide.mistakes s' = Landslide.mistakes s)
  /\ (forall (studentId deskId : string) (s : Earthquake.Session),
        let s' := Earthquake.onIncorrectDrop studentId deskId s in
        Earthquake.accuracy s' = Z.max 0 (Earthquake.accuracy s - 10)
        /\ Earthquake.mistakes s' = S (Earthquake.mistakes s))
  /\ (forall s : Flood.Session,
        let s' := Flood.state (Flood.checkResidentsInDanger s) in
        Flood.accuracy s' = Flood.accuracy s /\ Flood.mistakes s' = Flood.mistakes s)
  /\ (forall s : Landslide.Session,
        let s' := Landslide.state (Landslide.checkResidentSafety s) in
        Landslide.accuracy s' = Landslide.accuracy s
        /\ Landslide.mistakes s' = Landslide.mistakes s).
Proof.
  assert (He : forall now e s,
             0 <= Earthquake.accuracy s <= 100 ->
             0 <= Earthquake.accuracy (Earthquake.step now e s) <= 100).
  { intros now e s Hs. pose proof (earthquake_step_tally now e s) as H. cbv zeta in H.
    destruct (earthquakeResets e).
    - destruct H as [-> _]. lia.
    - destruct H as [[-> _] | [-> _]]; lia. }
  assert (Hf : forall now e s,
             0 <= Flood.accuracy s <= 100 ->
             0 <= Flood.accuracy (Flood.step now e s) <= 100).
  { intros now e s Hs. pose proof (flood_step_tally now e s) as H. cbv zeta in H.
    destruct (floodResets e); destruct H as [-> _]; lia. }
  assert (Hl : forall now e s,
             0 <= Landslide.accuracy s <= 100 ->
             0 <= Landslide.accuracy (Landslide.step host now e s) <= 100).
  { intros now e s Hs. destruct (landslide_step_summary host now e s) as (_ & _ & H & _).
    cbv zeta in H. destruct (landslideResets e); destruct H as [-> _]; lia. }
  repeat apply conj.
  - intros events. unfold earthquakeRun.
    apply (foldl_invariant (fun s => 0 <= Earthquake.accuracy s <= 100)); [cbn; lia |].
    intros s [now e] Hs. apply He, Hs.
  - intros events. unfold floodSteps.
    apply (foldl_invariant (fun s => 0 <= Flood.accuracy s <= 100)); [cbn; lia |].
    intros s [now e] Hs. apply Hf, Hs.
  - intros events. unfold landslideRun.
    apply (foldl_invariant (fun s => 0 <= Landslide.accuracy s <= 100)); [cbn; lia |].
    intros s [now e] Hs. apply Hl, Hs.
  - intros now e s. apply earthquake_step_tally.
  - intros now e s. apply (flood_step_tally now e s).
  - intros now e s. destruct (landslide_step_summary host now e s) as (_ & _ & H & _).
    exact H.
  - intros studentId deskId s. cbv zeta. unfold Earthquake.onIncorrectDrop. cbv zeta.
    match goal with |- context [if ?b then _ else _] => destruct b end;
      earthquake_simpl; unfold JS.max; split; lia.
  - intros s. apply flood_checkResidentsInDanger_tally.
  - intros s. destruct (landslide_checkResidentSafety_keeps s) as (_ & H & _). exact H.
Qed.

(** ** Invariants of the sessions *)

(** X17. No event of a session cancels a pending timer: in the three modules,
    after every event (start, reset, cleanup, click, button, timer) the
    timers that were pending before it, the one that fires set aside, are
    still pending, in the same order and ahead of the new ones. *)
Theorem timers_never_cancelled (host : Landslide.Support) :
  (forall (now : Q) (e : Earthquake.Event) (s : Earthquake.Session),
      pendingBefore (earthquakeFired e) (Earthquake.timers s)
        `prefix_of` Earthquake.timers (Earthquake.step now e s))
  /\ (forall (now : Q) (e : Flood.Event) (s : Flood.Session),
        pendingBefore (floodFired e) (Flood.timers s)
          `prefix_of` Flood.timers (Flood.step now e s))
  /\ (forall (now : Q) (e : Landslide.Event) (s : Landslide.Session),
        pendingBefore (landslideFired e) (Landslide.timers s)
          `prefix_of` Landslide.timers (Landslide.step host now e s)).
Proof.
  split; [| split].
  - intros now e s. apply (earthquake_step_summary now e s).
  - intros now e s. apply (flood_step_summary now e s).
  - intros now e s. apply (landslide_step_summary host now e s).
Qed.

(** X18. In the three modules the phase index goes to 0 at a start or a
    reset and otherwise stays or goes up by one, and along every run of a
    new session it stays below the number of phases. *)
Theorem phase_index_steps (host : Landslide.Support) :
  (forall (now : Q) (e : Earthquake.Event) (s : Earthquake.Session),
      if earthquakeRestarts e then Earthquake.currentPhase (Earthquake.step now e s) = 0%nat
      else Earthquake.currentPhase (Earthquake.step now e s) = Earthquake.currentPhase s
           \/ Earthquake.currentPhase (Earthquake.step now e s) = S (Earthquake.currentPhase s))
  /\ (forall (now : Q) (e : Flood.Event) (s : Flood.Session),
        if floodRestarts e then Flood.currentPhase (Flood.step now e s) = 0%nat
        else Flood.currentPhase (Flood.step now e s) = Flood.currentPhase s
             \/ Flood.currentPhase (Flood.step now e s) = S (Flood.currentPhase s))
  /\ (forall (now : Q) (e : Landslide.Event) (s : Landslide.Session),
        if landslideRestarts e then Landslide.currentPhase (Landslide.step host now e s) = 0%nat
        else Landslide.currentPhase (Landslide.step host now e s) = Landslide.currentPhase s
             \/ Landslide.currentPhase (Landslide.step host now e s)
                = S (Landslide.currentPhase s))
  /\ (forall events : list (Q * Earthquake.Event),
        (Earthquake.currentPhase (earthquakeRun events Earthquake.new)
         < length Earthquake.phases)%nat)
  /\ (forall events : list (Q * Flood.Event),
        (Flood.currentPhase (floodSteps events Flood.new) < length Flood.phases)%nat)
  /\ (forall events : list (Q * Landslide.Event),
        (Landslide.currentPhase (landslideRun host events Landslide.new)
         < length Landslide.phases)%nat).
Proof.
  split; [| split; [| split; [| split; [| split]]]].
  - intros now e s. destruct (earthquake_step_summary now e s) as (_ & H & _).
    cbv zeta in H. destruct (earthquakeRestarts e); tauto.
  - intros now e s. destruct (flood_step_summary now e s) as (_ & H & _).
    cbv zeta in H. destruct (floodRestarts e); tauto.
  - intros now e s. destruct (landslide_step_summary host now e s) as (_ & H & _).
    cbv zeta in H. destruct (landslideRestarts e); tauto.
  - intros events. unfold earthquakeRun.
    apply (foldl_invariant (fun s => (Earthquake.currentPhase s < 4)%nat)); [cbn; lia |].
    intros s [now e] Hs. destruct (earthquake_step_summary now e s) as (_ & H & _).
    cbv zeta in H. destruct (earthquakeRestarts e); lia.
  - intros events. unfold floodSteps.
    apply (foldl_invariant (fun s => (Flood.currentPhase s < 4)%nat)); [cbn; lia |].
    intros s [now e] Hs. destruct (flood_step_summary now e s) as (_ & H & _).
    cbv zeta in H. destruct (floodRestarts e); lia.
  - intros events. unfold landslideRun.
    apply (foldl_invariant (fun s => (Landslide.currentPhase s < 4)%nat)); [cbn; lia |].
    intros s [now e] Hs. destruct (landslide_step_summary host now e s) as (_ & H & _).
    cbv zeta in H. destruct (landslideRestarts e); lia.
Qed.

(** X19. Along every run of a new earthquake or landslide session, resets
    included, the accuracy is [max(0, 100 - 10 * mistakes)]; it never
    leaves the range from 0 to 100. In the landslide session no mistake is
    ever counted: the safety check raises before it counts one. *)
Theorem accuracy_follows_mistakes (host : Landslide.Support) :
  (forall events : list (Q * Earthquake.Event),
      let s := earthquakeRun events Earthquake.new in
      accuracyFollowsMistakes (Earthquake.accuracy s) (Earthquake.mistakes s)
      /\ 0 <= Earthquake.accuracy s <= 100)
  /\ (forall events : list (Q * Landslide.Event),
        let s := landslideRun host events Landslide.new in
        accuracyFollowsMistakes (Landslide.accuracy s) (Landslide.mistakes s)
        /\ 0 <= Landslide.accuracy s <= 100
        /\ Landslide.mistakes s = 0%nat).
Proof.
  assert (Hrange : forall a m, accuracyFollowsMistakes a m -> 0 <= a <= 100)
    by (unfold accuracyFollowsMistakes; intros a m ->; lia).
  split; intros events; cbv zeta.
  - assert (H : accuracyFollowsMistakes
                  (Earthquake.accuracy (earthquakeRun events Earthquake.new))
                  (Earthquake.mistakes (earthquakeRun events Earthquake.new))).
    { unfold earthquakeRun.
      apply (foldl_invariant (fun s => accuracyFollowsMistakes (Earthquake.accuracy s)
                                         (Earthquake.mistakes s))); [reflexivity |].
      intros s [now e] Hs. apply (earthquake_step_summary now e s). exact Hs. }
    split; [exact H | exact (Hrange _ _ H)].
  - assert (H : Landslide.accuracy (landslideRun host events Landslide.new) = 100
                /\ Landslide.mistakes (landslideRun host events Landslide.new) = 0%nat).
    { unfold landslideRun.
      apply (foldl_invariant (fun s => Landslide.accuracy s = 100
                                       /\ Landslide.mistakes s = 0%nat));
        [split; reflexivity |].
      intros s [now e] [Ha Hm]. destruct (landslide_step_summary host now e s) as (_ & _ & H & _).
      cbv zeta in H. destruct (landslideResets e); [exact H |].
      destruct H as [Ha' Hm']. rewrite Ha', Hm'. split; assumption. }
    destruct H as [Ha Hm]. rewrite Ha, Hm.
    split; [reflexivity |]. split; [lia | reflexivity].
Qed.

(** X20. In the earthquake and landslide sessions the score never goes down
    along a run without explicit reset. *)
Theorem score_never_decreases (host : Landslide.Support) :
  (forall (events : list (Q * Earthquake.Event)) (s : Earthquake.Session),
      Forall (fun '(_, e) => earthquakeResets e = false) events ->
      Earthquake.score s <= Earthquake.score (earthquakeRun events s))
  /\ (forall (events : list (Q * Landslide.Event)) (s : Landslide.Session),
        Forall (fun '(_, e) => landslideResets e = false) events ->
        Landslide.score s <= Landslide.score (landslideRun host events s)).
Proof.
  split; intros events; induction events as [| [now e] events IH]; intros s Hall;
    try (cbn; lia); inversion Hall as [| ? ? He Hrest]; subst.
  - cbn [earthquakeRun foldl]. etransitivity; [| apply (IH _ Hrest)].
    apply (earthquake_step_summary now e s). exact He.
  - cbn [landslideRun foldl]. etransitivity; [| apply (IH _ Hrest)].
    apply (landslide_step_summary host now e s). exact He.
Qed.

Lemma score_never_decreases_witness :
  0 <= Earthquake.score (earthquakeRun clumsyEarthquake Earthquake.new)
  /\ 0 <= Landslide.score (landslideRun Landslide.repository diligentLandslide Landslide.new).
Proof.
  destruct (score_never_decreases Landslide.repository) as [He Hl]. split.
  - apply (He clumsyEarthquake Earthquake.new). repeat constructor.
  - apply (Hl diligentLandslide Landslide.new). repeat constructor.
Defined.

Lemma waterMoves_in_range (w w' : Q) : waterMoves w w' -> waterInRange w -> waterInRange w'.
Proof.
  unfold waterMoves, waterInRange, JS.gt, JS.lt, Flood.maxWaterLevel, Flood.floodSpeed.
  intros [-> | [[Hlt ->] | [[Hgt ->] | ->]]] [Hlo Hhi].
  - split; assumption.
  - apply negb_true_iff in Hlt.
    assert (Hw : (w < 8)%Q).
    { apply Qnot_le_lt. intros H. apply Qle_bool_iff in H. congruence. }
    split; lra.
  - apply negb_true_iff in Hgt.
    assert (Hw : (-5 # 1 < w)%Q).
    { apply Qnot_le_lt. intros H. apply Qle_bool_iff in H. congruence. }
    split; lra.
  - split; lra.
Qed.

(** X21. Along every run of a new flood session the water level stays
    between the river bed and the maximum, up to one frame's step: it is
    never below -5.01 nor above 8.02. *)
Theorem water_level_in_range (events : list (Q * Flood.Event)) :
  waterInRange (Flood.waterLevel (floodSteps events Flood.new)).
Proof.
  unfold floodSteps.
  apply (foldl_invariant (fun s => waterInRange (Flood.waterLevel s))).
  - unfold waterInRange, Flood.maxWaterLevel, Flood.floodSpeed. cbn [Flood.new Flood.waterLevel].
    split; lra.
  - intros s [now e] Hs. eapply waterMoves_in_range; [| exact Hs].
    apply (flood_step_summary now e s).
Qed.

(** ** The landslide objectives no run reaches *)

Lemma landslideOutOfReach_eq (host : Landslide.Support) (s s' : Landslide.Session) :
  Landslide.objectives s' = Landslide.objectives s ->
  landslideOutOfReach host s -> landslideOutOfReach host s'.
Proof. unfold landslideOutOfReach. intros ->. tauto. Qed.

Ltac landslide_reach :=
  match goal with
  | H : landslideOutOfReach _ ?s |- landslideOutOfReach _ ?s => exact H
  | H : landslideOutOfReach _ _ |- _ =>
      first [ refine (landslideOutOfReach_eq _ _ _ _ H); landslide_simpl; reflexivity
            | let H1 := fresh in
              let H2 := fresh in
              let Hf := fresh in
              destruct H as [H1 H2]; unfold landslideOutOfReach; landslide_simpl; split;
              [ exact H1 | intros Hf; first [congruence | apply (H2 Hf)] ] ]
  end.

Lemma landslide_startPhase_reach (host : Landslide.Support) (now : Q) (N : nat)
    (s : Landslide.Session) :
  landslideOutOfReach host s -> landslideOutOfReach host (Landslide.startPhase now N s).
Proof.
  apply landslideOutOfReach_eq. apply (landslide_startPhase_flags now N s).
Qed.

Lemma landslide_start_reach (host : Landslide.Support) (now : Q) (s : Landslide.Session) :
  landslideOutOfReach host s -> landslideOutOfReach host (Landslide.start now s).
Proof.
  intros H. unfold Landslide.start, Landslide.showWelcomeInstructions. cbv zeta.
  set (x := Landslide.createHillsideScene _).
  assert (H1 : landslideOutOfReach host x).
  { subst x. unfold Landslide.createHillsideScene, Landslide.createWarningSigns,
      Landslide.createSafeZones, Landslide.createResidents, Landslide.createHillsideHouses.
    cbv zeta. landslide_reach. }
  clearbody x. clear H.
  pose proof (landslide_startPhase_reach host now 0 x H1) as H2.
  set (y := Landslide.startPhase now 0 x) in *. clearbody y. clear H1.
  landslide_reach.
Qed.

Lemma landslide_checkResidentSafety_reach (host : Landslide.Support) (s : Landslide.Session) :
  landslideOutOfReach host s ->
  landslideOutOfReach host (Landslide.state (Landslide.checkResidentSafety s)).
Proof.
  intros H.
  destruct (landslide_checkResidentSafety_cases s) as [-> | ->]; cbn [Landslide.state].
  - exact H.
  - landslide_reach.
Qed.

Lemma landslide_activateWarningSystem_reach (host : Landslide.Support) (s : Landslide.Session) :
  landslideOutOfReach host s -> landslideOutOfReach host (Landslide.activateWarningSystem' host s).
Proof.
  intros H. unfold Landslide.activateWarningSystem', Landslide.feedback.
  destruct (negb _); [| exact H].
  cbv zeta. destruct (Landslide.showFeedback host) eqn:Hsf; landslide_reach.
Qed.

Lemma landslide_step_reach (host : Landslide.Support) (now : Q) (e : Landslide.Event)
    (s : Landslide.Session) :
  landslideOutOfReach host s -> landslideOutOfReach host (Landslide.step host now e s).
Proof.
  intros H. destruct e as [| w | | r | item zone | a | k | r p]; cbn [Landslide.step].
  - apply landslide_start_reach, H.
  - unfold Landslide.onWarningSignClick, Landslide.feedback.
    destruct (Landslide.warningSignStore s !! w) as [o |]; [| exact H].
    destruct (negb (Landslide.identified o)).
    + cbv zeta. destruct (Landslide.showFeedback host) eqn:Hsf; [| landslide_reach].
      landslide_simpl. destruct (5 <=? _)%nat; landslide_reach.
    + destruct (Landslide.showFeedback host) eqn:Hsf; landslide_reach.
  - apply landslide_activateWarningSystem_reach, H.
  - unfold Landslide.evacuateResident, Landslide.feedback.
    destruct (Landslide.residentStore s !! r) as [o |]; [| exact H].
    destruct (negb (Landslide.Resident.evacuated o)); [| exact H].
    cbv zeta.
    destruct (Landslide.findNearestSafeZone _ _);
      (destruct (Landslide.showFeedback host) eqn:Hsf; [| landslide_reach]);
      landslide_simpl; destruct (Landslide.totalResidents <=? _)%nat; landslide_reach.
  - unfold Landslide.onDragDropComplete, Landslide.feedback.
    destruct (_ || _); [| exact H].
    destruct (String.eqb _ _); [| exact H].
    cbv zeta. destruct (Landslide.showFeedback host) eqn:Hsf; landslide_reach.
  - destruct a; cbn [Landslide.runAction].
    + landslide_reach.
    + unfold Landslide.showWarningInterface. landslide_reach.
    + unfold Landslide.simulateLandslide.
      apply landslide_checkResidentSafety_reach. landslide_reach.
    + unfold Landslide.restart. cbv zeta.
      destruct (Landslide.clearScene host).
      * apply landslide_start_reach. clear H. split; [reflexivity | intros _; split; reflexivity].
      * clear H. split; [reflexivity | intros _; split; reflexivity].
    + destruct (Landslide.returnToMenu host); landslide_reach.
  - destruct (Landslide.timers s !! k) as [t |]; [| exact H].
    destruct (callback t) as [N |]; cbn [Landslide.runCallback].
    + destruct (_ =? _)%nat; [apply landslide_startPhase_reach |]; landslide_reach.
    + apply landslide_activateWarningSystem_reach. landslide_reach.
  - landslide_reach.
Qed.

(** X22. Along every run of a new landslide session the objective
    [reachSafeZone] is never completed, whatever the player does; and when
    the host has no [showFeedback] method, as in this repository, the
    objectives [identifyWarningSigns] and [evacuateResidents] are never
    completed either, since both are set after a call of it. *)
Theorem landslide_objectives_out_of_reach (host : Landslide.Support)
    (events : list (Q * Landslide.Event)) :
  let s := landslideRun host events Landslide.new in
  Landslide.reachSafeZone (Landslide.objectives s) = false
  /\ (Landslide.showFeedback host = false ->
      Landslide.identifyWarningSigns (Landslide.objectives s) = false
      /\ Landslide.evacuateResidents (Landslide.objectives s) = false).
Proof.
  cbv zeta. change (landslideOutOfReach host (landslideRun host events Landslide.new)).
  unfold landslideRun. apply (foldl_invariant (landslideOutOfReach host)).
  - split; [reflexivity | intros _; split; reflexivity].
  - intros s [now e] Hs. apply landslide_step_reach, Hs.
Qed.

Lemma landslide_objectives_out_of_reach_witness :
  let s := landslideRun Landslide.repository diligentLandslide Landslide.new in
  Landslide.warningSignsFound s = 5%nat
  /\ Landslide.evacuatedResidents s = Landslide.totalResidents
  /\ Landslide.identifyWarningSigns (Landslide.objectives s) = false
  /\ Landslide.evacuateResidents (Landslide.objectives s) = false.
Proof.
  cbv zeta. split; [vm_compute; reflexivity |]. split; [vm_compute; reflexivity |].
  apply (landslide_objectives_out_of_reach Landslide.repository diligentLandslide).
  reflexivity.
Defined.

(** ** The escape game *)

Lemma ge_true (a b : Q) : JS.ge a b = true <-> (b <= a)%Q.
Proof. unfold JS.ge. apply Qle_bool_iff. Qed.

Lemma ge_false (a b : Q) : JS.ge a b = false <-> (a < b)%Q.
Proof.
  unfold JS.ge. split.
  - intros H. apply Qnot_le_lt. intros Hle. apply Qle_bool_iff in Hle. congruence.
  - intros H. destruct (Qle_bool b a) eqn:E; [| reflexivity].
    apply Qle_bool_iff in E. lra.
Qed.

Lemma lt_true (a b : Q) : JS.lt a b = true <-> (a < b)%Q.
Proof. unfold JS.lt. rewrite negb_true_iff. apply ge_false. Qed.

Lemma lt_false (a b : Q) : JS.lt a b = false <-> (b <= a)%Q.
Proof. unfold JS.lt. rewrite negb_false_iff. apply ge_true. Qed.

Lemma gt_true (a b : Q) : JS.gt a b = true <-> (b < a)%Q.
Proof. unfold JS.gt. apply lt_true. Qed.

Lemma gt_false (a b : Q) : JS.gt a b = false <-> (a <= b)%Q.
Proof. unfold JS.gt. apply lt_false. Qed.

Lemma quarter_le (a n : Z) : (inject_Z a <= inject_Z n / 4)%Q <-> 4 * a <= n.
Proof. unfold Qle, Qdiv, Qmult, Qinv, inject_Z. simpl. lia. Qed.

Lemma quarter_lt (a n : Z) : (inject_Z n / 4 < inject_Z a)%Q <-> n < 4 * a.
Proof. unfold Qlt, Qdiv, Qmult, Qinv, inject_Z. simpl. lia. Qed.

Lemma flight_next (k : Z) (v h : Q) :
  v == inject_Z (k - 30) / 2 -> h == inject_Z (k * k - 59 * k + 2200) / 4 ->
  v + (1 # 2) == inject_Z (k + 1 - 30) / 2
  /\ h + (v + (1 # 2)) == inject_Z ((k + 1) * (k + 1) - 59 * (k + 1) + 2200) / 4.
Proof.
  intros -> ->.
  replace ((k + 1) * (k + 1) - 59 * (k + 1) + 2200)
    with (k * k - 59 * k + 2200 + 2 * (k - 30) + 2) by ring.
  replace (k + 1 - 30) with (k - 30 + 1) by ring.
  rewrite !inject_Z_plus, !inject_Z_mult. split; field.
Qed.

Ltac player_fields :=
  cbn [Canvas.x Canvas.y Canvas.vx Canvas.vy Canvas.onGround
       Canvas.set_x Canvas.set_y Canvas.set_vy Canvas.set_onGround andb] in *.

Lemma move_x (l r u : bool) (p : Canvas.Player) :
  (0 <= Canvas.x (Canvas.move l r u p) /\ Canvas.x (Canvas.move l r u p) <= 750)%Q.
Proof.
  unfold Canvas.move. destruct p as [px py pvx pvy og].
  destruct l, r; player_fields; destruct (u && og); player_fields;
    match goal with |- context [JS.ge ?a ?b] => destruct (JS.ge a b) end; player_fields;
    match goal with |- context [JS.lt ?a ?b] => destruct (JS.lt a b) eqn:E1 end; player_fields;
    match goal with |- context [JS.gt ?a ?b] => destruct (JS.gt a b) eqn:E2 end; player_fields;
    try apply lt_true in E1; try apply lt_false in E1;
    try apply gt_true in E2; try apply gt_false in E2;
    unfold Canvas.CANVAS_WIDTH, Canvas.PLAYER_WIDTH, Canvas.PLAYER_SPEED in *; split; lra.
Qed.

(** The vertical part of [move], which the keys to the sides do not
    touch. *)
Lemma move_fields (l r u : bool) (p : Canvas.Player) :
  let jump := u && Canvas.onGround p in
  let v := ((if jump then - Canvas.JUMP_SPEED else Canvas.vy p) + Canvas.GRAVITY)%Q in
  let h := (Canvas.y p + v)%Q in
  let lands := JS.ge h (Canvas.CANVAS_HEIGHT - Canvas.PLAYER_HEIGHT) in
  Canvas.vy (Canvas.move l r u p) = (if lands then 0%Q else v)
  /\ Canvas.y (Canvas.move l r u p)
     = (if lands then (Canvas.CANVAS_HEIGHT - Canvas.PLAYER_HEIGHT)%Q else h)
  /\ Canvas.onGround (Canvas.move l r u p)
     = (if lands then true else if jump then false else Canvas.onGround p).
Proof.
  unfold Canvas.move. destruct p as [px py pvx pvy og].
  destruct l, r; player_fields; destruct (u && og); player_fields;
    match goal with |- context [JS.ge ?a ?b] => destruct (JS.ge a b) end; player_fields;
    match goal with |- context [JS.lt ?a ?b] => destruct (JS.lt a b) end; player_fields;
    match goal with |- context [JS.gt ?a ?b] => destruct (JS.gt a b) end; player_fields;
    repeat split.
Qed.

Lemma move_vertical (l r u : bool) (p : Canvas.Player) :
  grounded p \/ inFlight p -> grounded (Canvas.move l r u p) \/ inFlight (Canvas.move l r u p).
Proof.
  destruct (move_fields l r u p) as (Ev & Ey & Eg). cbv zeta in Ev, Ey, Eg.
  unfold grounded, inFlight, flightAt. rewrite Ev, Ey, Eg. clear Ev Ey Eg.
  destruct p as [px py pvx pvy og]. player_fields.
  unfold Canvas.JUMP_SPEED, Canvas.GRAVITY, Canvas.CANVAS_HEIGHT, Canvas.PLAYER_HEIGHT.
  intros [(-> & Hy & Hv) | (-> & k & Hk & Hv & Hy)].
  - destruct u; player_fields.
    + (* a jump starts *)
      right.
      assert (Hge : JS.ge (py + (- (15) + (1 # 2))) (600 - 50) = false)
        by (apply ge_false; lra).
      rewrite Hge. split; [reflexivity |]. exists 1. split; [lia |].
      rewrite Hy. split; reflexivity.
    + left.
      assert (Hge : JS.ge (py + (pvy + (1 # 2))) (600 - 50) = true) by (apply ge_true; lra).
      rewrite Hge. repeat split; reflexivity.
  - (* in the air the jump keys are ignored *)
    rewrite andb_false_r.
    destruct (flight_next k pvy py Hv Hy) as [Hv' Hy'].
    destruct (Z.eq_dec k 58) as [-> | Hne].
    + left.
      assert (Hge : JS.ge (py + (pvy + (1 # 2))) (600 - 50) = true).
      { apply ge_true. rewrite Hy'. apply Qle_lteq. right. reflexivity. }
      rewrite Hge. repeat split; reflexivity.
    + right.
      assert (Hge : JS.ge (py + (pvy + (1 # 2))) (600 - 50) = false).
      { apply ge_false. rewrite Hy'. change (600 - 50)%Q with (inject_Z 550).
        apply quarter_lt. nia. }
      rewrite Hge. split; [reflexivity |]. exists (k + 1). split; [lia |].
      split; assumption.
Qed.

Lemma movePlayer_onCanvas (g : Canvas.Game) :
  playerOnCanvas (Canvas.player g) -> playerOnCanvas (Canvas.movePlayer g).
Proof.
  intros [_ H]. unfold Canvas.movePlayer. split; [apply move_x | apply move_vertical, H].
Qed.

Lemma fall_fold (p : Canvas.Player) (ds : list Canvas.Box) (L : Z) (S : Canvas.GameState)
    (K : list Canvas.Box) :
  let n := Z.of_nat (length (List.filter (hits p) (lowered <$> ds))) in
  foldl (Canvas.fall p) (L, S, K) ds
  = (L - n,
     if (0 <? n) && (L - n <=? 0) then Canvas.lose else S,
     K ++ List.filter (stays p) (lowered <$> ds)).
Proof.
  revert L S K. induction ds as [| obs ds IH]; intros L S K; cbv zeta.
  - cbn. rewrite Z.sub_0_r, app_nil_r. reflexivity.
  - cbn [foldl fmap list_fmap List.filter]. unfold Canvas.fall at 2.
    fold (lowered obs). unfold hits, stays, onCanvas.
    destruct (JS.gt (Canvas.box_y (lowered obs)) Canvas.CANVAS_HEIGHT); cbn [negb andb].
    + apply IH.
    + destruct (Canvas.overlaps p (lowered obs)); cbn [negb].
      * rewrite IH. cbv zeta. cbn [length].
        set (n := length _). clearbody n.
        assert (HS : (if (0 <? Z.of_nat n) && (L - 1 - Z.of_nat n <=? 0) then Canvas.lose
                      else if L - 1 <=? 0 then Canvas.lose else S)
                     = (if (0 <? Z.of_nat (Datatypes.S n))
                           && (L - Z.of_nat (Datatypes.S n) <=? 0)
                        then Canvas.lose else S)).
        { destruct n as [| n].
          - cbn [Z.of_nat]. replace (L - 1 - 0) with (L - 1) by lia.
            replace (L - Z.of_nat 1) with (L - 1) by lia. reflexivity.
          - replace (L - 1 - Z.of_nat (Datatypes.S n)) with (L - Z.of_nat (Datatypes.S (Datatypes.S n))) by lia.
              replace (0 <? Z.of_nat (Datatypes.S n)) with true by (symmetry; apply Z.ltb_lt; lia).
              replace (0 <? Z.of_nat (Datatypes.S (Datatypes.S n))) with true
                by (symmetry; apply Z.ltb_lt; lia).
              cbn [andb].
              destruct (L - Z.of_nat (Datatypes.S (Datatypes.S n)) <=? 0) eqn:E; [reflexivity |].
              apply Z.leb_gt in E.
              replace (L - 1 <=? 0) with false by (symmetry; apply Z.leb_gt; lia). reflexivity. }
        rewrite HS. replace (L - 1 - Z.of_nat n) with (L - Z.of_nat (Datatypes.S n)) by lia.
        reflexivity.
      * rewrite IH. cbv zeta. rewrite <- app_assoc. reflexivity.
Qed.

Ltac game_fields :=
  cbn [Canvas.gameState Canvas.startTime Canvas.lives Canvas.score Canvas.shakeOffsetX
       Canvas.shakeOffsetY Canvas.debris Canvas.keys Canvas.player Canvas.table Canvas.menu
       Canvas.info Canvas.screen Canvas.frameRequested
       Canvas.set_gameState Canvas.set_lives Canvas.set_score Canvas.set_shake
       Canvas.set_debris Canvas.set_keys Canvas.set_player Canvas.set_menu Canvas.set_info
       Canvas.set_screen Canvas.set_frameRequested] in *.

(** What one [update] does to each variable of the game. *)
Lemma update_fields (f : Canvas.Frame) (g : Canvas.Game) :
  let g' := Canvas.update f g in
  Canvas.player g' = Canvas.movePlayer g
  /\ Canvas.debris g' = List.filter (stays (Canvas.movePlayer g)) (inPlay f g)
  /\ Canvas.lives g' = Canvas.lives g - hitCount f g
  /\ Canvas.gameState g'
     = (if Canvas.TIME_LIMIT <=? Canvas.date f - Canvas.startTime g then Canvas.lose
        else if Canvas.overlaps (Canvas.movePlayer g) (Canvas.table g) then Canvas.win
        else if (0 <? hitCount f g) && (Canvas.lives g - hitCount f g <=? 0) then Canvas.lose
        else Canvas.gameState g)
  /\ Canvas.score g' = Canvas.score g + 1
  /\ Canvas.startTime g' = Canvas.startTime g
  /\ Canvas.table g' = Canvas.table g
  /\ Canvas.keys g' = Canvas.keys g
  /\ Canvas.menu g' = Canvas.menu g
  /\ Canvas.screen g' = Canvas.screen g
  /\ Canvas.frameRequested g' = Canvas.frameRequested g.
Proof.
  cbv zeta. unfold Canvas.update, hitCount, inPlay, spawns.
  set (p := Canvas.movePlayer g). clearbody p.
  set (t := Canvas.TIME_LIMIT <=? _). clearbody t.
  set (tl := JS.max _ _). clearbody tl.
  destruct (JS.lt _ _); game_fields; rewrite fall_fold; cbv zeta; game_fields;
    (destruct (Canvas.overlaps p (Canvas.table g)); game_fields);
    (destruct t; game_fields); rewrite ?app_nil_r; repeat split.
Qed.

Lemma descending_snoc (ds : list Canvas.Box) (obs : Canvas.Box) :
  descending ds -> Forall (fun a => (Canvas.box_y obs < Canvas.box_y a)%Q) ds ->
  descending (ds ++ [obs]).
Proof.
  induction ds as [| a l IH]; intros Hd Hall; cbn [app descending].
  - split; [constructor | exact I].
  - destruct Hd as [Ha Hl]. inversion Hall as [| ? ? Hlt Hrest]; subst. split.
    + apply Forall_app. split; [exact Ha | constructor; [exact Hlt | constructor]].
    + apply IH; assumption.
Qed.

Lemma descending_lowered (ds : list Canvas.Box) :
  Forall (fun obs => Canvas.speed obs = Canvas.DEBRIS_SPEED) ds ->
  descending ds -> descending (lowered <$> ds).
Proof.
  induction ds as [| a l IH]; intros Hs Hd; [exact I |].
  inversion Hs as [| ? ? Ha Hl]; subst. destruct Hd as [Hlt Hd].
  cbn [fmap list_fmap descending]. split; [| apply IH; assumption].
  apply Forall_fmap. apply Forall_forall. intros b Hb.
  pose proof (proj1 (Forall_forall _ _) Hlt b Hb) as Hba.
  pose proof (proj1 (Forall_forall _ _) Hl b Hb) as Hsb.
  cbn in Hba |- *. unfold lowered. destruct a, b. cbn in *. subst. lra.
Qed.

Lemma descending_filter (keep : Canvas.Box -> bool) (ds : list Canvas.Box) :
  descending ds -> descending (List.filter keep ds).
Proof.
  induction ds as [| a l IH]; intros Hd; [exact I |]. destruct Hd as [Hlt Hd].
  cbn [List.filter]. destruct (keep a); [| apply IH, Hd].
  split; [| apply IH, Hd].
  apply Forall_forall. intros b Hb. apply list_elem_of_In, List.filter_In in Hb.
  apply (proj1 (Forall_forall _ _) Hlt b). apply list_elem_of_In, Hb.
Qed.

(** Pieces at different heights among [n] possible ones: at most [n]. *)
Lemma descending_length (ds : list Canvas.Box) (n : Z) :
  descending ds -> Forall (aged 1 n) ds -> Z.of_nat (length ds) <= Z.max 0 n.
Proof.
  revert n. induction ds as [| a l IH]; intros n Hd Hall; [cbn; lia |].
  destruct Hd as [Hlt Hd]. inversion Hall as [| ? ? Ha Hl]; subst.
  destruct Ha as ((k & Hk & Hy) & _).
  assert (Hl' : Forall (aged 1 (n - 1)) l).
  { apply Forall_forall. intros b Hb.
    pose proof (proj1 (Forall_forall _ _) Hlt b Hb) as Hba. cbn in Hba.
    destruct (proj1 (Forall_forall _ _) Hl b Hb) as ((kb & Hkb & Hyb) & Hrest).
    split; [| exact Hrest]. exists kb. split; [| exact Hyb].
    rewrite Hy, Hyb in Hba. rewrite <- Zlt_Qlt in Hba. lia. }
  specialize (IH (n - 1) Hd Hl'). cbn [length]. lia.
Qed.

Lemma inPlay_shape (f : Canvas.Frame) (g : Canvas.Game) (p : Canvas.Player) :
  debrisShape (Canvas.debris g) ->
  debrisShape (List.filter (stays p) (inPlay f g))
  /\ Forall (fun obs => Canvas.overlaps p obs = false) (List.filter (stays p) (inPlay f g)).
Proof.
  intros [Hd Hall]. unfold inPlay.
  set (base := Canvas.debris g ++ _).
  assert (Hbase : descending base /\ Forall (aged 0 216) base).
  { assert (Hold : Forall (aged 0 216) (Canvas.debris g)).
    { eapply Forall_impl; [exact Hall |]. intros obs ((k & Hk & Hy) & Hrest).
      split; [| exact Hrest]. exists k. split; [lia | exact Hy]. }
    subst base. destruct (spawns f).
    - split.
      + apply descending_snoc; [exact Hd |].
        eapply Forall_impl; [exact Hall |]. intros obs ((k & Hk & Hy) & _).
        cbn [spawnedPiece Canvas.box_y]. rewrite Hy.
        change (-50)%Q with (inject_Z (-50)). rewrite <- Zlt_Qlt. lia.
      + apply Forall_app. split; [exact Hold |]. constructor; [| constructor].
        split; [| repeat split]. exists 0. split; [lia | reflexivity].
    - rewrite app_nil_r. split; assumption. }
  clearbody base. destruct Hbase as [Hd' Hall'].
  assert (Hlow : descending (lowered <$> base) /\ Forall (aged 1 217) (lowered <$> base)).
  { split.
    - apply descending_lowered; [| exact Hd'].
      eapply Forall_impl; [exact Hall' |]. intros obs (_ & _ & _ & Hs). exact Hs.
    - apply Forall_fmap. eapply Forall_impl; [exact Hall' |].
      intros obs ((k & Hk & Hy) & Hw & Hh & Hs). unfold lowered, aged.
      destruct obs as [bx by' bw bh bs]. cbn in *. subst.
      split; [| repeat split]. exists (k + 1). split; [lia |].
      rewrite Hy. unfold Canvas.DEBRIS_SPEED.
      replace (3 * (k + 1) - 50) with (3 * k - 50 + 3) by ring.
      rewrite inject_Z_plus. reflexivity. }
  set (ds := lowered <$> base) in *. clearbody ds. destruct Hlow as [Hd2 Hall2].
  split; [split |].
  - apply descending_filter, Hd2.
  - apply Forall_forall. intros obs Hobs. apply list_elem_of_In, List.filter_In in Hobs.
    destruct Hobs as [Hin Hst]. apply list_elem_of_In in Hin.
    destruct (proj1 (Forall_forall _ _) Hall2 obs Hin) as ((k & Hk & Hy) & Hrest).
    split; [| exact Hrest]. exists k. split; [| exact Hy].
    unfold stays, onCanvas in Hst. apply andb_true_iff in Hst. destruct Hst as [Hon _].
    apply negb_true_iff, gt_false in Hon. unfold Canvas.CANVAS_HEIGHT in Hon.
    rewrite Hy in Hon. change 600%Q with (inject_Z 600) in Hon. rewrite <- Zle_Qle in Hon. lia.
  - apply Forall_forall. intros obs Hobs. apply list_elem_of_In, List.filter_In in Hobs.
    destruct Hobs as [_ Hst]. unfold stays in Hst. apply andb_true_iff in Hst.
    destruct Hst as [_ Hno]. apply negb_true_iff in Hno. exact Hno.
Qed.

Lemma update_invariant (f : Canvas.Frame) (g : Canvas.Game) :
  playerOnCanvas (Canvas.player g) -> tablePlaced (Canvas.table g) ->
  Canvas.lives g <= Canvas.MAX_LIVES -> 1 <= Canvas.lives g ->
  Canvas.gameState g = Canvas.playing -> debrisShape (Canvas.debris g) ->
  0 <= Canvas.score g ->
  canvasInvariant (Canvas.update f g).
Proof.
  intros Hp Ht Hmax Hmin Hplay Hd Hs.
  destruct (update_fields f g) as (Ep & Ed & El & Eg & Es & _ & Et & _). cbv zeta in *.
  destruct (inPlay_shape f g (Canvas.movePlayer g) Hd) as [Hshape Hfree].
  unfold canvasInvariant. rewrite Ep, Ed, El, Eg, Es, Et.
  assert (Hn : 0 <= hitCount f g) by (unfold hitCount; lia).
  split; [apply movePlayer_onCanvas, Hp |]. split; [exact Ht |].
  split; [lia |]. split; [| split; [| split; [exact Hshape | split; [exact Hfree | lia]]]].
  - destruct (Canvas.TIME_LIMIT <=? _); [discriminate |].
    destruct (Canvas.overlaps _ (Canvas.table g)); [discriminate |].
    destruct (0 <? hitCount f g) eqn:E0; cbn [andb]; [| intros _; lia].
    destruct (_ <=? 0) eqn:E1; [discriminate |]. apply Z.leb_gt in E1. intros _. lia.
  - destruct (Canvas.TIME_LIMIT <=? _); [discriminate |].
    destruct (Canvas.overlaps _ (Canvas.table g)); [reflexivity |].
    destruct (_ && _); [discriminate |]. rewrite Hplay. discriminate.
Qed.

Lemma gameLoop_invariant (f : Canvas.Frame) (g : Canvas.Game) :
  canvasInvariant g -> canvasInvariant (Canvas.gameLoop f g).
Proof.
  intros H. unfold Canvas.gameLoop.
  destruct (Canvas.gameState g) eqn:Hg.
  - assert (H' : canvasInvariant (Canvas.update f g)).
    { destruct H as (Hp & Ht & Hmax & Hmin & Hwin & Hd & Hfree & Hs).
      apply update_invariant; try assumption; try lia. apply Hmin. exact Hg. }
    unfold canvasInvariant, Canvas.draw in *. game_fields. exact H'.
  - unfold canvasInvariant, Canvas.showResult in *. game_fields. exact H.
  - unfold canvasInvariant, Canvas.showResult in *. game_fields. exact H.
Qed.

Lemma initGame_invariant (now : Z) (f : Canvas.Frame) : canvasInvariant (Canvas.initGame now f).
Proof.
  unfold Canvas.initGame, Canvas.gameLoop. game_fields.
  match goal with
  | |- canvasInvariant (Canvas.set_frameRequested true (Canvas.draw (Canvas.update f ?g0))) =>
      assert (H : canvasInvariant (Canvas.update f g0))
  end.
  { apply update_invariant; game_fields; try reflexivity; try (unfold Canvas.MAX_LIVES; lia).
    - split; [cbn; split; lra |]. left. repeat split; reflexivity.
    - repeat split; reflexivity.
    - split; [exact I | constructor]. }
  unfold canvasInvariant, Canvas.draw in *. game_fields. exact H.
Qed.

Lemma step_invariant (e : Canvas.Event) (g : Canvas.Game) :
  canvasInvariant g -> canvasInvariant (Canvas.step e g).
Proof.
  intros H. destruct e as [key | key | f | now f]; cbn [Canvas.step].
  - exact H.
  - exact H.
  - destruct (Canvas.frameRequested g); [apply gameLoop_invariant, H | exact H].
  - destruct (Canvas.menu g); [apply initGame_invariant | exact H].
Qed.

Lemma canvasRun_invariant (now : Z) (f : Canvas.Frame) (events : list Canvas.Event) :
  canvasInvariant (canvasRun events (Canvas.initGame now f)).
Proof.
  unfold canvasRun. apply (foldl_invariant canvasInvariant).
  - apply initGame_invariant.
  - intros g e. apply step_invariant.
Qed.

(** X23. All through a game the player stays on the canvas, between the
    left edge and the right edge less its width and between the top of a
    jump, at height 332.5, and the floor at 550; it is marked as on the
    ground exactly when it stands on the floor, at rest, so that a jump can
    only start from the floor. *)
Theorem player_stays_on_canvas (now : Z) (f : Canvas.Frame) (events : list Canvas.Event) :
  let p := Canvas.player (canvasRun events (Canvas.initGame now f)) in
  (0 <= Canvas.x p /\ Canvas.x p <= Canvas.CANVAS_WIDTH - Canvas.PLAYER_WIDTH)%Q
  /\ ((665 # 2) <= Canvas.y p /\ Canvas.y p <= Canvas.CANVAS_HEIGHT - Canvas.PLAYER_HEIGHT)%Q
  /\ (Canvas.onGround p = true <-> Canvas.y p == Canvas.CANVAS_HEIGHT - Canvas.PLAYER_HEIGHT)
  /\ (Canvas.onGround p = true -> Canvas.vy p == 0).
Proof.
  cbv zeta. destruct (canvasRun_invariant now f events) as ((Hx & Hy) & _).
  set (p := Canvas.player _) in *. clearbody p.
  unfold Canvas.CANVAS_WIDTH, Canvas.PLAYER_WIDTH, Canvas.CANVAS_HEIGHT, Canvas.PLAYER_HEIGHT.
  split; [split; lra |].
  destruct Hy as [(Hg & Hh & Hv) | (Hg & k & Hk & Hv & Hh)].
  - rewrite Hg, Hh. repeat split; try lra; try reflexivity; intros _; exact Hv.
  - rewrite Hg.
    assert (Hlo : (665 # 2 <= inject_Z (k * k - 59 * k + 2200) / 4)%Q).
    { unfold Qle, Qdiv, Qmult, Qinv, inject_Z. simpl.
      destruct (Z_le_gt_dec k 29); nia. }
    assert (Hhi : (inject_Z (k * k - 59 * k + 2200) / 4 < inject_Z 550)%Q)
      by (apply quarter_lt; nia).
    change (inject_Z 550) with 550%Q in Hhi. rewrite <- Hh in Hlo, Hhi.
    repeat split; try lra; try discriminate; intros Heq; lra.
Qed.

(** X24. All through a game every piece of debris on the canvas is fifty
    wide and high, falls by three a frame and is at a height [3k - 50] with
    [k] from 1 to 216, that is between -47 and 598; none overlaps the
    player, by the test of the code with the right edge of the piece rounded
    to a double, and there are never more than 216 of them. *)
Theorem debris_stays_bounded (now : Z) (f : Canvas.Frame) (events : list Canvas.Event) :
  let g := canvasRun events (Canvas.initGame now f) in
  Forall (fun obs => aged 1 216 obs /\ Canvas.overlaps (Canvas.player g) obs = false)
    (Canvas.debris g)
  /\ (length (Canvas.debris g) <= 216)%nat.
Proof.
  cbv zeta. destruct (canvasRun_invariant now f events) as (_ & _ & _ & _ & _ & Hd & Hfree & _).
  set (g := canvasRun _ _) in *. clearbody g. destruct Hd as [Hdesc Hall]. split.
  - apply Forall_forall. intros obs Hobs. split.
    + apply (proj1 (Forall_forall _ _) Hall obs Hobs).
    + apply (proj1 (Forall_forall _ _) Hfree obs Hobs).
  - pose proof (descending_length _ 216 Hdesc Hall). lia.
Qed.

(** X25. All through a game the lives never exceed [MAX_LIVES]; while the
    game is on at least one life is left; and the game is only ever won
    with the player on the table, more than 600 to the right and lower
    than 500. *)
Theorem outcome_is_earned (now : Z) (f : Canvas.Frame) (events : list Canvas.Event) :
  let g := canvasRun events (Canvas.initGame now f) in
  Canvas.lives g <= Canvas.MAX_LIVES
  /\ (Canvas.gameState g = Canvas.playing -> 1 <= Canvas.lives g)
  /\ (Canvas.gameState g = Canvas.win ->
      Canvas.overlaps (Canvas.player g) (Canvas.table g) = true
      /\ (600 < Canvas.x (Canvas.player g))%Q /\ (500 < Canvas.y (Canvas.player g))%Q).
Proof.
  cbv zeta. destruct (canvasRun_invariant now f events) as (_ & Ht & Hmax & Hmin & Hwin & _).
  set (g := canvasRun _ _) in *. clearbody g.
  split; [exact Hmax |]. split; [exact Hmin |].
  intros Hg. specialize (Hwin Hg). split; [exact Hwin |].
  unfold Canvas.overlaps in Hwin. destruct Ht as (Hx & Hy & _).
  repeat (apply andb_true_iff in Hwin; destruct Hwin as [Hwin ?]).
  repeat match goal with
         | H : JS.lt _ _ = true |- _ => apply lt_true in H
         | H : JS.gt _ _ = true |- _ => apply gt_true in H
         end.
  unfold Canvas.PLAYER_WIDTH, Canvas.PLAYER_HEIGHT in *. split; lra.
Qed.

Lemma filter_disjoint_length {A} (p q : A -> bool) (l : list A) :
  (forall a, p a = true -> q a = true -> False) ->
  (length (List.filter p l) + length (List.filter q l) <= length l)%nat.
Proof.
  intros Hpq. induction l as [| a l IH]; [cbn; lia |].
  cbn [List.filter]. specialize (Hpq a).
  destruct (p a), (q a); cbn [length];
    first [lia | exfalso; apply Hpq; reflexivity].
Qed.

(** X26. How one [update] decides the state of the game: the time limit
    comes first, so a player who reaches the table in the frame in which
    the time runs out has lost; reaching the table comes next, so a player
    who reaches it in the frame in which the last life is lost has won;
    otherwise the game is lost when a hit of this frame leaves no life, and
    else goes on as before. *)
Theorem update_outcome (f : Canvas.Frame) (g : Canvas.Game) :
  let g' := Canvas.update f g in
  Canvas.gameState g'
  = (if Canvas.TIME_LIMIT <=? Canvas.date f - Canvas.startTime g then Canvas.lose
     else if Canvas.overlaps (Canvas.player g') (Canvas.table g') then Canvas.win
     else if (Canvas.lives g' <? Canvas.lives g) && (Canvas.lives g' <=? 0) then Canvas.lose
     else Canvas.gameState g).
Proof.
  cbv zeta. destruct (update_fields f g) as (Ep & _ & El & Eg & _ & _ & Et & _).
  cbv zeta in *. rewrite Ep, El, Eg, Et.
  replace (Canvas.lives g - hitCount f g <? Canvas.lives g) with (0 <? hitCount f g);
    [reflexivity |].
  destruct (0 <? hitCount f g) eqn:E; symmetry.
  - apply Z.ltb_lt in E. apply Z.ltb_lt. lia.
  - apply Z.ltb_ge in E. apply Z.ltb_ge. lia.
Qed.

(** The right edge of a piece of debris is the double nearest to the sum of
    its abscissa and its width. A piece spawned with the draw
    [480383960252853 / 2^52] is [2^-46] to the right of 80; its right edge
    is 130 and not more, and it does not overlap a player who stands at
    130. *)
Lemma right_edge_is_rounded :
  let f := {| Canvas.date := 0; Canvas.spawnRoll := 0; Canvas.spawnX := 480383960252853 # (2 ^ 52);
              Canvas.shakeX := 0; Canvas.shakeY := 0 |} in
  let obs := lowered (spawnedPiece f) in
  let p := {| Canvas.x := 130; Canvas.y := 550; Canvas.vx := 0; Canvas.vy := 0;
              Canvas.onGround := true |} in
  Canvas.box_x obs == 80 + 2 ^ (-46)
  /\ JS.double (Canvas.box_x obs + Canvas.width obs) == 130
  /\ Canvas.overlaps p (Canvas.set_box_y 520 obs) = false
  /\ Canvas.overlaps (Canvas.set_x 125 p) (Canvas.set_box_y 520 obs) = true.
Proof. vm_compute. repeat split. Qed.

(** X27. What one [update] does to lives and debris in a game under way,
    whatever frames and keys came before: every piece falls by its speed, a
    new one included; each piece still on the canvas that overlaps the
    player costs one life, whatever the lives left, and is removed with the
    pieces that fell below the canvas; the others stay, in their order. The
    debris grows by at most one piece a frame. The overlap is the test of
    the code, with the right edge of a piece rounded to a double. *)
Theorem update_lives_and_debris (now : Z) (f0 : Canvas.Frame) (events : list Canvas.Event)
    (f : Canvas.Frame) :
  let g := canvasRun events (Canvas.initGame now f0) in
  let g' := Canvas.update f g in
  Canvas.lives g'
  = Canvas.lives g
    - Z.of_nat (length (List.filter (hits (Canvas.player g')) (inPlay f g)))
  /\ Canvas.debris g' = List.filter (stays (Canvas.player g')) (inPlay f g)
  /\ (length (Canvas.debris g') + length (List.filter (hits (Canvas.player g')) (inPlay f g))
      <= length (Canvas.debris g) + 1)%nat.
Proof.
  cbv zeta. set (g := canvasRun events (Canvas.initGame now f0)). clearbody g.
  destruct (update_fields f g) as (Ep & Ed & El & _). cbv zeta in *.
  rewrite Ep, Ed, El. split; [reflexivity |]. split; [reflexivity |].
  etransitivity; [apply filter_disjoint_length |].
  - intros obs Hs Hh. unfold stays, hits in *.
    apply andb_true_iff in Hs, Hh. destruct Hs as [_ Hs], Hh as [_ Hh].
    rewrite Hh in Hs. discriminate.
  - unfold inPlay. rewrite length_fmap, length_app. destruct (spawns f); cbn [length]; lia.
Qed.

Lemma step_frozen (e : Canvas.Event) (g : Canvas.Game) :
  Canvas.gameState g <> Canvas.playing -> sameGame e = true ->
  Canvas.gameState (Canvas.step e g) = Canvas.gameState g
  /\ Canvas.player (Canvas.step e g) = Canvas.player g
  /\ Canvas.lives (Canvas.step e g) = Canvas.lives g
  /\ Canvas.score (Canvas.step e g) = Canvas.score g
  /\ Canvas.debris (Canvas.step e g) = Canvas.debris g.
Proof.
  intros Hg He. destruct e as [key | key | f | now f]; try discriminate He;
    cbn [Canvas.step]; try (repeat split; reflexivity).
  destruct (Canvas.frameRequested g); [| repeat split; reflexivity].
  unfold Canvas.gameLoop. destruct (Canvas.gameState g) eqn:E; [congruence | |];
    unfold Canvas.showResult; game_fields; rewrite ?E; repeat split; reflexivity.
Qed.

(** X28. A game that is over stays as it ended until the start button is
    clicked: whatever keys are pressed and frames run, outcome, player,
    lives, score and debris are what they were. *)
Theorem game_over_is_final (events : list Canvas.Event) (g : Canvas.Game) :
  Canvas.gameState g <> Canvas.playing ->
  Forall (fun e => sameGame e = true) events ->
  let g' := canvasRun events g in
  Canvas.gameState g' = Canvas.gameState g
  /\ Canvas.player g' = Canvas.player g
  /\ Canvas.lives g' = Canvas.lives g
  /\ Canvas.score g' = Canvas.score g
  /\ Canvas.debris g' = Canvas.debris g.
Proof.
  intros Hg Hall. cbv zeta. revert g Hg.
  induction Hall as [| e events He _ IH]; intros g Hg; [repeat split; reflexivity |].
  unfold canvasRun. cbn [foldl]. fold (canvasRun events (Canvas.step e g)).
  destruct (step_frozen e g Hg He) as (E1 & E2 & E3 & E4 & E5).
  destruct (IH (Canvas.step e g)) as (F1 & F2 & F3 & F4 & F5); [congruence |].
  rewrite F1, F2, F3, F4, F5. repeat split; assumption.
Qed.

Lemma game_over_is_final_witness :
  let g := Canvas.initGame 0 lateFrame in
  let g' := canvasRun [Canvas.KeyDown "ArrowRight"; Canvas.AnimationFrame calmFrame;
                       Canvas.AnimationFrame calmFrame] g in
  Canvas.gameState g = Canvas.lose
  /\ Canvas.gameState g' = Canvas.lose
  /\ Canvas.player g' = Canvas.player g
  /\ Canvas.score g' = 1.
Proof.
  cbv zeta. split; [reflexivity |].
  destruct (game_over_is_final
              [Canvas.KeyDown "ArrowRight"; Canvas.AnimationFrame calmFrame;
               Canvas.AnimationFrame calmFrame] (Canvas.initGame 0 lateFrame))
    as (E1 & E2 & _ & E4 & _).
  - discriminate.
  - repeat constructor.
  - rewrite E1, E2, E4. repeat split; reflexivity.
Defined.

Lemma gameLoop_menu (f : Canvas.Frame) (g : Canvas.Game) :
  Canvas.menu g = false -> menuInvariant (Canvas.gameLoop f g).
Proof.
  intros Hm. unfold Canvas.gameLoop, menuInvariant.
  destruct (Canvas.gameState g) eqn:E.
  - destruct (update_fields f g) as (_ & _ & _ & _ & _ & _ & _ & _ & Em & _).
    cbv zeta in Em. unfold Canvas.draw. game_fields. rewrite Em, Hm.
    split; [reflexivity | discriminate].
  - unfold Canvas.showResult. game_fields. rewrite E.
    split; [reflexivity |]. intros _. repeat split. discriminate.
  - unfold Canvas.showResult. game_fields. rewrite E.
    split; [reflexivity |]. intros _. repeat split. discriminate.
Qed.

Lemma step_menu (e : Canvas.Event) (g : Canvas.Game) :
  menuInvariant g -> menuInvariant (Canvas.step e g).
Proof.
  intros H. destruct e as [key | key | f | now f]; cbn [Canvas.step].
  - exact H.
  - exact H.
  - destruct (Canvas.frameRequested g) eqn:E; [| exact H].
    apply gameLoop_menu. destruct H as [H _]. rewrite H, E. reflexivity.
  - destruct (Canvas.menu g); [| exact H].
    unfold Canvas.initGame. apply gameLoop_menu. reflexivity.
Qed.

(** X29. All through the games played on a page the menu with the start
    button is offered exactly when no frame is pending, so that a single
    loop runs at a time; and when it is offered the game is over, the info
    line is empty and the screen shows the result of that game, [You
    Survived!] for a win and [Game Over: You Died] otherwise. *)
Theorem menu_offered_when_over (now : Z) (f : Canvas.Frame) (events : list Canvas.Event) :
  let g := canvasRun events (Canvas.initGame now f) in
  Canvas.menu g = negb (Canvas.frameRequested g)
  /\ (Canvas.menu g = true ->
      Canvas.gameState g <> Canvas.playing
      /\ Canvas.screen g = Canvas.result (resultText (Canvas.gameState g))
      /\ Canvas.info g = EmptyString).
Proof.
  cbv zeta. change (menuInvariant (canvasRun events (Canvas.initGame now f))).
  unfold canvasRun. apply (foldl_invariant menuInvariant).
  - unfold Canvas.initGame. apply gameLoop_menu. reflexivity.
  - intros g e. apply step_menu.
Qed.

Lemma menu_offered_when_over_witness :
  let g := canvasRun (walkToTable ++ [Canvas.AnimationFrame calmFrame])
             (Canvas.initGame 0 calmFrame) in
  Canvas.menu g = true /\ Canvas.screen g = Canvas.result "You Survived!".
Proof.
  cbv zeta.
  destruct (menu_offered_when_over 0 calmFrame (walkToTable ++ [Canvas.AnimationFrame calmFrame]))
    as [_ H].
  assert (Hm : Canvas.menu (canvasRun (walkToTable ++ [Canvas.AnimationFrame calmFrame])
                              (Canvas.initGame 0 calmFrame)) = true)
    by (vm_compute; reflexivity).
  split; [exact Hm |]. destruct (H Hm) as (_ & Hs & _). rewrite Hs.
  vm_compute. reflexivity.
Defined.

Lemma player_stays_on_canvas_witness :
  Canvas.vy (Canvas.player (canvasRun walkToTable (Canvas.initGame 0 calmFrame))) == 0.
Proof.
  apply (player_stays_on_canvas 0 calmFrame walkToTable). vm_compute. reflexivity.
Defined.

Lemma outcome_is_earned_witness :
  let g := canvasRun walkToTable (Canvas.initGame 0 calmFrame) in
  Canvas.gameState g = Canvas.win
  /\ (600 < Canvas.x (Canvas.player g))%Q /\ (500 < Canvas.y (Canvas.player g))%Q.
Proof.
  cbv zeta.
  assert (Hw : Canvas.gameState (canvasRun walkToTable (Canvas.initGame 0 calmFrame))
               = Canvas.win) by (vm_compute; reflexivity).
  split; [exact Hw |].
  apply (outcome_is_earned 0 calmFrame walkToTable). exact Hw.
Defined.
